(* ===== verification/_CoqProject ===== *)
-Q . S2P
Prelude.v
Config.v
SystemConfig.v
FileSystem.v
QueryCache.v
Directory.v
LdapBackend.v
Discovery.v
ADQueries.v
ADInit.v
IdentityCache.v
LdapIdentity.v
ADIdentity.v
Factory.v
Cachetool.v
CacheCommands.v
JailAddress.v
SystemTools.v
Mail.v
JailSetup.v
JailProgress.v
JailModels.v
JailConfigure.v
