(* ===== verification/Prelude.v ===== *)
(** * A verification development of the FreeNAS web GUI back end

    This library models, in Rocq, the directory-service layer of the
    FreeNAS web GUI (src/gui/common/freenasldap.py): the LDAP connection
    with its paged search and query cache, the LDAP and Active Directory
    backends, DNS discovery of domain controllers with failover, the
    two-tier identity cache that resolves directory entries to passwd and
    group records, and the [FreeNAS_Directory_*] factories; the cache
    tool (src/gui/tools/cachetool.py); the system helpers of
    src/gui/common/system.py (settings, version strings, mounts, mail);
    and the jail subsystem (src/gui/jails: addresses, plugin jails, the
    models, the automatic configuration and the progress views).  It
    proves the properties that make these parts correct, or shows where
    they are not.

    ** The program and how its parts interact

    - [FreeNAS_LDAP_Directory] (freenasldap.py 83-391) owns one LDAP
      session: [open] builds a URI from host/port/ssl, optionally starts
      TLS, binds (with credentials or anonymously) and marks itself open;
      [close] unbinds; [_search] runs a paged (page size > 0, cookie
      continuation) or a plain search, consulting a query cache keyed by
      sha256(filter ++ host ++ str port ++ basedn); [search] opens the
      connection around one call; [_save]/[_restore] push and pop a copy of
      the object's fields.
    - [FreeNAS_LDAP_Base] (394-648) specialises it to POSIX LDAP: it reads
      its configuration from the database or from keyword arguments and
      offers [get_user], [get_users], [get_group], [get_groups].
    - [FreeNAS_ActiveDirectory_Base] (660-1414) specialises it to Active
      Directory: SRV-record discovery of domain controllers and global
      catalogs, failover in [dc_connect], rootDSE queries, domain
      enumeration, AD user/group filters with the security-principal bit.
    - [FreeNAS_*_Users], [_Groups], [_User], [_Group] (1426-2304) resolve
      directory entries to local passwd/group records, through two tiers of
      on-disk caches with "fully loaded" sentinel files; the
      [FreeNAS_Directory_*] classes dispatch on the LDAP/AD flag bits.
    - system.py (303-494) reads the enabled directory service and the
      settings rows from the configuration database; the cache tool
      dispatches on it.
    - cachetool.py expires the cache tree ([__cache_expire], a bottom-up
      [os.walk]), prints the keys, items or counts of the four cache tiers
      ([keys], [rawdump], [count]), looks names up in them ([check]), and
      parses its command line ([main]).
    - system.py also reads the version file and the shell variables,
      lists and changes the mounts through mount(8) ([RE_MOUNT],
      [is_mounted], [mount], [umount]), finds the system dataset, computes
      the paths a recursive operation must cover around exclusions
      ([exclude_path]), and sends mail ([send_mail]: a once-per-interval
      guard per channel, the MIME headers, an SMTP session).
    - jails/utils.py chooses addresses for new jails (the addresses the
      warden's jails use, a probe for a free one that pings candidates,
      the jail network of the latest [JailsConfiguration] row), creates
      the default plugin jail through the warden
      ([new_default_plugin_jail]), and configures the jail root on the
      first ZFS or UFS volume ([jail_auto_configure]).
    - jails/models.py normalises the warden's rows ([Jails.__init__]),
      guards [Jails.delete] by the plugins using a jail, counts the jails
      cloned from a template ([JailTemplate.jt_instances]) before deleting
      it, and null-mounts storage into a jail ([NullMountPoint]) through
      the mount helpers of system.py; jails/views.py reports the progress
      of a jail or template creation from the warden's log, keeping module
      globals between requests.

    ** Files, and what each models

    - [Prelude] (this file): the state-and-exception monad in which Python
      methods are written ([st]; Python exceptions are [Raise] values),
      Python truthiness of optional strings, flag bits on [Z] with
      [Z.land], the hint database [fg] and shared list/option lemmas.
    - [Config]: the module-level constants, Python values and [**kwargs]
      dictionaries ([gmap string pyval]), [long()], [str.split], [_setssl],
      [_geturi], [adset], and the [FLAGS_CACHE_*] masks of freenascache.py
      (not in src/, modelled from the spec).
    - [QueryCache]: the query-cache key of [_search] and the cache as a
      [gmap] in the shared world.
    - [Directory]: [FreeNAS_LDAP_Directory]: the object's fields as the
      [Record] [Obj] (attributes a subclass adds live in its [fields] map),
      the shared world (live sessions by id, so that two objects holding
      one handle alias one session; request counters; bind log; query
      cache; on-disk caches and sentinel files) as the [Record] [World], the
      directory server, DNS and passwd database as the type class
      [DirectoryEnv], and [__init__], [open], [close], [_search] (paged
      loop with fuel), [search] and the open/close wrapper [auto_open]
      every query method shares, [_save], [_restore]; [on_other] runs a
      method of a second object over the same world.
    - [LdapBackend]: [FreeNAS_LDAP_Base]: both constructors (database row,
      keyword arguments), the [FLAGS_DBINIT] dispatch, and [get_user],
      [get_users], [get_group], [get_groups].
    - [Discovery]: [get_domain_controllers] and [get_global_catalogs]: SRV
      answers sorted by (priority, weight) with a stable insertion sort.
    - [ADQueries]: the queries of [FreeNAS_ActiveDirectory_Base]: rootDSE
      attributes, crossref lookups, [get_domains] through a global catalog
      (failover over discovered catalogs), user and group queries with the
      security-principal bit, the count accessors.
    - [ADInit]: the Active Directory constructor chain ([__set_defaults],
      [__get_config] over the configuration file of the type class [ADEnv],
      [__db_init__] and [__no_db_init__], [__init__], [__new__]) and
      [dc_connect], which constructs one object per discovered controller.
    - [IdentityCache]: the on-disk caches of freenascache.py as a store of
      [gmap]s keyed by cache directory ([cachedir], [cache_put],
      [cache_has], [cache_values]), the "fully loaded" sentinels ([touch],
      [__loaded]) and the [pwd]/[grp] lookups; and the frame predicates
      ([wkeeps]: the store is unchanged) with their lemmas for every method
      of the lower layers, collected in the hint database [wkeeps].
    - [LdapIdentity]: [FreeNAS_LDAP_Users], [_Groups], [_User], [_Group].
      The record [IdKind] gathers what the user and group classes differ
      in (flags, cache indices, key attribute, [getpwnam]/[getgrnam],
      backend query); [ldap_enumerate] is the shared [__get_users] /
      [__get_groups] body (sentinel check, raw-tier read, backend query,
      [resolve_rows] writing both tiers, sentinels), and [__get_user] /
      [__get_group] the single lookups.
    - [ADIdentity]: [FreeNAS_ActiveDirectory_Users], [_Groups], [_User],
      [_Group]: the per-domain read check [ad_precheck], the loop over
      [get_domains] with one [dc_connect] per domain ([ad_domains_loop]),
      the name qualification with the separator, and the single lookups.
    - [Factory]: [FreeNAS_Directory_Users], [_Groups], [_User], [_Group]:
      the dispatch on the LDAP/AD bits of the directory-service flags and
      the iteration of the chosen enumeration.
    - [SystemConfig]: [service_enabled] ([ORDER BY -id LIMIT 1] as stdpp's
      [merge_sort] on descending ids), [get_directoryservice], the five
      [*_enabled] predicates and the five [*_objects] readers, over the
      [Record] [Db] of the tables they read.
    - [FileSystem]: the directory tree as a [gmap] from paths (lists of
      components) to file/directory kinds, with [os.listdir],
      [os.path.isdir], [os.unlink], [os.rmdir] and a bottom-up [os.walk]
      (Lib/os.py is not in src/: modelled from its documentation), the
      well-formedness of a tree and the algebra of removals ([removes]).
    - [Cachetool]: [__cache_expire] and [cache_expire] over [FileSystem],
      and their specification [expired].
    - [CacheCommands]: the report commands [keys], [rawdump], [check],
      [count] in their global, Active Directory and NT4 variants (state:
      the shared world and the list of printed lines, [ToolSt]), the
      command table [cache_funcs] and [main].
    - [JailAddress] (Module [JailAddress], Section over the type classes
      [Sipcalc], the address objects of sipcalc.py, not in src/, and
      [JailEnv], the warden's jail list, [ping] and the platform):
      [get_jails_index], [ping_host] (a clock advancing one second per
      poll), [get_ipv4_exclude_dict]/[_ipv6] (a [gmap] from [str(ip)] to
      the address), [get_available_ipv4]/[_ipv6] ([probe] with fuel),
      the jail network getters, [JailsConfiguration.__init__] ([jc_init]),
      [guess_ipv4_address], [guess_ipv6_address] and [guess_addresses].
    - [SystemTools] (Section over [SysEnv]: the version file, the shell,
      [os.access] and the commands run): the version strings with their
      [_VERSION] cache (state [option string]), [get_freenas_var],
      [get_avatar_conf], [get_fstype], [RE_MOUNT] as a scanner
      ([re_mount]), [get_mounted_filesystems], [is_mounted], [mount],
      [umount], [get_system_dataset], [get_samba4_path] and
      [exclude_path] over the tree of [FileSystem].
    - [Mail]: [send_mail] in the state monad over [MailSt] (the channel
      files' dates, the SMTP steps, syslog, the [_VERSION] cache and the
      clock [datetime.now()] reads, which moves forward between calls),
      with [formatdate()] and the SMTP server's answers as [MailEnv].
    - [JailSetup]: [new_default_plugin_jail] with the warden seen through
      its calls ([WCall], the log [pj_calls] of the state [PJ], the answers
      of [WardenEnv]), the template creation with its marker file and
      [os.environ], and the frame predicate [only_calls] with its lemmas.
    - [JailProgress]: [jail_progress] and [jail_linuxprogress] of
      jails/views.py, their module globals as the state [Progress], Python
      floats as rationals [Q] ([float()] of a decimal numeral with sign
      and surrounding blanks; exponents, [inf] and [nan] are not read).
    - [JailModels]: [Jails] ([JailRow], [jail_init], the cached
      [jail_path] and [jail_meta_path], [jail_delete], [is_linux_jail]),
      [JailTemplate] ([jt_instances] over the zfs output and the glob of
      meta directories of [FsEnv] and [PipeEnv], [jt_delete]) and
      [NullMountPoint] ([destination_jail], [mounted], [nmp_mount],
      [nmp_umount], [nmp_delete]) on the state [NS]: the system's mount
      table [OS], which mount(8) and umount(8) ([os_exec], modelled from
      their documentation) change and print, seen by the helpers of
      [SystemTools] through the instance [os_env].
    - [JailConfigure]: [jail_path_configured] and [jail_auto_configure] on
      the state [CS] (ZFS datasets, directories, [JailsConfiguration]
      rows, services started, the warden's saved settings, the log).

    ** What the theorems show (by group)

    - Connection lifecycle ([Directory]): the session invariant ("an open
      object holds a live, bound session") holds in every state reachable
      by [open], [close], [_search], [search]; [open] is idempotent and
      binds anonymously without full credentials; [close] releases the
      session; the open/close wrapper never leaves open a connection it
      opened when the call returns ([search], the four LDAP queries, the
      Active Directory queries).  Findings: a StartTLS failure still binds
      in clear, [_save]/[_restore] resurrects a released handle, a failing
      paged request leaves the connection open.
    - Search ([Directory]): the paged loop returns the concatenation of the
      server's pages, one request per page, when the fuel covers the
      pages; the plain loop returns the entries up to the final result
      message; a cached query sends nothing (also in paged mode: a
      finding) and keys collide across servers (a finding).
    - Backends ([LdapBackend], [ADQueries]): each query's exact result on
      an open connection in terms of one [_search]; the security-principal
      filter keeps exactly the rows whose type has bit 0x1 clear;
      findings: [get_group_count] always returns 0, [get_domains] raises
      on an object without a host, the LDAP keyword constructor raises
      [UnboundLocalError] for a port without a host.
    - Discovery and failover ([Discovery], [ADInit]): the candidates are the
      SRV answers ordered by (priority, weight), stably; [dc_connect] is a linear scan that
      returns the first candidate that opens, or (None, None) after trying
      all; the constructor connects to a [host:port] argument verbatim (a
      finding).
    - Identity cache ([LdapIdentity], [ADIdentity], [Factory]): a
      successful enumeration from an empty cache with the read and write
      flags leaves a world on which a second enumeration returns the same
      records, as a set, and changes nothing (round trip); with the "fully loaded" sentinel present the
      enumeration, and the factory above it, answer from the cache; the
      uncached enumeration returns the OS records of the directory's names;
      the AD enumeration writes nothing under the global cache directory,
      through the constructor, [get_domains] and every [dc_connect] (a
      frame proved with the [ckeeps] lemmas); with no backend selected the
      factories return None.  Findings: the single lookups return None on a
      cache hit, store None for a name the directory does not know, and
      look digit strings up with [getpwuid] on a string; a None in the raw
      tier makes the enumeration raise [TypeError]; the AD group read check
      tests the user index; AD group names are qualified in the opposite
      order of user names.
    - Configuration ([Config]): [_setssl] maps every integer to "no SSL" (a
      finding), [_geturi] chooses [ldaps] exactly for SSL, the constructor
      defaults the port to 636 exactly in SSL mode.
    - Settings ([SystemConfig]): at most one of the five directory
      services is enabled, whatever the database holds; [service_enabled]
      reads the row with the largest id.
    - Cache tool ([Cachetool], [CacheCommands]): [cache_expire] refines the
      specification [expired]: on a well-formed tree within the recursion
      limit it succeeds and removes exactly the entries below the cache
      directory other than its first-level directories, and [main] selects
      that run for [cachetool expire]; [keys], [rawdump], [check] and
      [count] leave every cache and sentinel unchanged, through the Active
      Directory constructor (a frame lemma); [check] of the default branch prints what the
      cache holds for the name given.  Findings: [check] raises [KeyError]
      without an [args] keyword, the Active Directory [dg=] branch raises
      [NameError] on a misspelt variable where the NT4 branch runs, and a
      [u=]/[g=] name without a domain prefix is never reported.
    - Jail addresses ([JailAddress], [JailSetup]): the exclusion
      dictionaries hold exactly the listed jails' addresses, aliases and
      bridge aliases, each keyed by [str()] of its [sipcalc] value; the probe ends with the first free address after the
      busy ones when the fuel exceeds their number; every create call of
      [new_default_plugin_jail] asks for the address [guess_addresses]
      found, which is not the address of a listed jail.  Findings: the
      probe ignores the end of the range (its counter never advances),
      the bridge branch excludes the jail's address instead of the
      bridge's, no IPv6 address is ever guessed, and with 999 names taken
      the plugin jail is created under the name [None].
    - System helpers ([SystemTools], [Mail]): [RE_MOUNT] reads back a
      mount(8) line; [is_mounted] decides on the mount point, ignoring the
      device when a path is given, and raises [UnboundLocalError] on an
      empty table (a finding); [exclude_path] keeps an exclusion listed
      directly and lists a directory once per other exclusion (a
      finding); [send_mail] sends at most one message per channel and
      interval, whatever the other arguments: a later call is held back
      until the clock reaches the channel file's date plus the interval
      and let through from then on; every extra header is in the message
      with its value.
    - Jail models and configuration ([JailModels], [JailConfigure],
      [JailProgress]): [Jails.__init__] cuts each address at its first
      [/] into address and mask, maps the warden's switch values to
      booleans and keeps the other fields, and its mask split inverts the
      form's join; [Jails.delete] without force never removes
      a jail a plugin uses; [NullMountPoint.mount], composed with
      [mount] and [is_mounted] on the mount table, mounts and returns
      [True], and [umount] after it gives the table back;
      [jail_auto_configure] on a ZFS volume with a free name creates the
      dataset and leaves [jail_path_configured] true, choosing the first
      free name among [jails], [jails_2], ..., [jails_98] and [jails_99]
      untested.  Findings: the instance count of [JailTemplate] looks up
      the jail [ab] for a jail [a.b], so [delete] removes a template a
      dotted jail still uses; on a UFS volume [p_q] the suffix scan reads
      no number and always proposes [jails_2], failing when it exists; the
      progress views print the total minutes as the middle field of an ETA
      over an hour, raise [ZeroDivisionError] on a log reporting 0% (with
      the start time stored), and the Linux view
      resets its globals only in a race.

    ** Bounds and fuel

    The paged search loop of the source is [while True] and ends only when
    the server returns an empty cookie; it is modelled with a fuel argument
    ([env_page_bound]), and the completeness theorem states that any fuel
    at least the number of pages the server serves gives the full result.
    The plain search loop runs over the finite list of the server's
    response messages, so it is structural.  [dc_connect] and the Active
    Directory constructor call each other; Python ends that recursion with
    [RuntimeError] at its recursion limit, and the model bounds the
    nesting depth by an argument ([RuntimeError] when exhausted); the
    theorem [dc_connect_depth] shows the recursion stops by itself at depth
    one when the discovered controllers have names, so every bound gives
    the same result.  The cache tool's [os.walk] recurses once per
    directory level; the model's [limit] is that recursion depth
    ([RuntimeError] when exhausted), and the refinement theorem assumes
    [bounded limit]: every entry below the cache directory lies fewer than
    [limit] levels down, which Python's default limit of 1000 covers for
    any cache tree the program writes (two levels).

    The address probe of [get_available_ipv4] is a [while] loop whose
    counter never advances, so it ends only at a free address; [probe]
    takes fuel ([None] when it runs out), and [probe_finds] shows that
    fuel above the number of busy addresses before the first free one
    gives that address; [new_default_plugin_jail] passes the same fuel
    and is [None] exactly while the probe has not ended.  [ping_host]
    polls while the clock is within the timeout, and the clock advances
    one second per poll, so the polls are the list of seconds within
    the timeout.  The [while check_paths] loop of [exclude_path] takes
    fuel, and [ep_loop_returns] states what any run that ends returns;
    the witnesses use 100 turns, more than the entries of the tree they
    build.
    The ZFS loop of [jail_auto_configure] is the [for] over
    [xrange(2, 100)] itself (a list of 98 indices).

    ** Not modelled, and why

    The [fill] and [dump] commands of cachetool.py enumerate through
    freenasusers.py, which is not in src/ and which the spec does not
    describe; the NT4 classes (freenasnt4.py, also not in src/) appear
    only through the type class [NT4Env].  The warden (warden.py),
    sipcalc.py, the middleware's [notifier], [list_datasets] and
    [create_zfs_dataset], and the OS commands (ping, zfs, file, mount)
    are not in src/: they are type classes or states modelled from their
    documentation.  The MIME encoding of a message and the text of a
    Python traceback are kept as values.  Python floats are rationals in
    [JailProgress]; the other views of jails/views.py only render
    templates or call one warden method.  [print] is an output event,
    not formatted text.
    The [__len__] methods and the
    [pickle] encoding of the on-disk caches are not modelled: the cache
    stores the Python values themselves.  The Django models, forms, views,
    migrations and REST resources are CRUD scaffolding over a database and
    are listed as not modelled in the manifest; logging is dropped; the
    wire protocol, DNS, the OS databases and the configuration files are
    the external collaborators of [DirectoryEnv] and [ADEnv]; Python's
    garbage collection (which unbinds a dropped connection object) is not
    modelled, so the world may keep the session of an object the program
    has dropped. *)

From stdpp Require Export base gmap strings list sorting pretty.
From Stdlib Require Export ZArith String Ascii Lia.

Open Scope string_scope.

Declare Scope fg_scope.
Delimit Scope fg_scope with fg.

(** ** Python exceptions and results *)

(** The exceptions the modelled code lets escape to its caller. *)
Inductive exn :=
| AssertionError (msg : string)
| TypeError
| ValueError
| KeyError (key : string)
| IndexError
| AttributeError (attr : string)
| UnboundLocalError (var : string)
| RuntimeError
| LDAPError
| NameError (name : string)
| OSError
| IOError
| CalledProcessError (code : Z)
| MiddlewareError (msg : string)
| WardenError (msg : string)
| SMTPException (msg : string)
| ZeroDivisionError
| DoesNotExist
| MultipleObjectsReturned
| SystemExit (code : Z).

#[export] Instance exn_eq_dec : EqDecision exn.
Proof. solve_decision. Defined.

(** A method either returns a value or raises. *)
Inductive res (A : Type) := Ok (a : A) | Raise (e : exn).
Arguments Ok {A} a.
Arguments Raise {A} e.

#[export] Instance res_ret : MRet res := fun A a => Ok a.
#[export] Instance res_bind : MBind res :=
  fun A B (f : A -> res B) (r : res A) =>
    match r with Ok a => f a | Raise e => Raise e end.

(** A bind of [res] that returns: its first step returned. *)
Lemma res_bind_Ok {A B} (x : res A) (f : A -> res B) b :
  (x ≫= f) = Ok b -> exists a, x = Ok a /\ f a = Ok b.
Proof. destruct x as [a|e]; simpl; [eauto|discriminate]. Qed.

Lemma res_bind_ok {A B} (x : res A) (f : A -> res B) a : x = Ok a -> (x ≫= f) = f a.
Proof. by intros ->. Qed.

(** ** A state monad with exceptions

    [st S A] is a computation on a state [S] that returns an [A] or raises;
    the state reached when an exception is raised is kept, as in Python,
    where assignments made before a [raise] are not undone. *)
Definition st (S A : Type) : Type := S -> res A * S.

#[export] Instance st_ret {S} : MRet (st S) := fun A a s => (Ok a, s).
#[export] Instance st_bind {S} : MBind (st S) :=
  fun A B (f : A -> st S B) (m : st S A) s =>
    match m s with
    | (Ok a, s') => f a s'
    | (Raise e, s') => (Raise e, s')
    end.

Definition raise {S A} (e : exn) : st S A := fun s => (Raise e, s).
Definition get_st {S} : st S S := fun s => (Ok s, s).
Definition put_st {S} (s : S) : st S unit := fun _ => (Ok tt, s).
Definition modify_st {S} (f : S -> S) : st S unit := fun s => (Ok tt, f s).
(** A computation that does not touch the state: its result, raised or returned. *)
Definition lift_st {S A} (r : res A) : st S A := fun s => (r, s).

(** [for x in l: body] that threads state and stops at the first exception. *)
Fixpoint st_iter {S A} (body : A -> st S unit) (l : list A) : st S unit :=
  match l with
  | [] => mret tt
  | x :: l' => body x ;; st_iter body l'
  end.

Lemma st_bind_ok {S A B} (m : st S A) (f : A -> st S B) s a s' :
  m s = (Ok a, s') -> (m ≫= f) s = f a s'.
Proof. intros H. unfold mbind, st_bind. by rewrite H. Qed.

Lemma st_bind_raise {S A B} (m : st S A) (f : A -> st S B) s e s' :
  m s = (Raise e, s') -> (m ≫= f) s = (Raise e, s').
Proof. intros H. unfold mbind, st_bind. by rewrite H. Qed.

Lemma st_bind_run {S A B} (m : st S A) (f : A -> st S B) s :
  (m ≫= f) s = match m s with (Ok a, s') => f a s' | (Raise e, s') => (Raise e, s') end.
Proof. reflexivity. Qed.

Lemma st_ret_run {S A} (a : A) (s : S) : (mret a : st S A) s = (Ok a, s).
Proof. reflexivity. Qed.

(** ** Python truthiness *)

(** [if x:] for a value that is [None] or a string: [None] and [""] are false. *)
Definition truthy (o : option string) : bool :=
  match o with
  | Some s => negb (String.eqb s "")
  | None => false
  end.

Lemma truthy_Some s : s <> "" -> truthy (Some s) = true.
Proof. intros H. simpl. apply String.eqb_neq in H. by rewrite H. Qed.

Lemma truthy_true o : truthy o = true -> exists s, o = Some s /\ s <> "".
Proof.
  destruct o as [s|]; simpl; [|discriminate].
  intros H. exists s. split; [done|]. intros ->. discriminate.
Qed.

(** ["%s" % x] for an optional string: Python prints [None] as "None". *)
Definition py_str (o : option string) : string :=
  match o with Some s => s | None => "None" end.

(** [str(n)] for a Python integer. *)
Definition py_int_str (n : Z) : string := pretty n.

(** ** Flag words *)

(** [flags & mask] tested for truth. *)
Definition has_flag (flags mask : Z) : bool := negb (Z.land flags mask =? 0)%Z.

Lemma has_flag_lor_l f g m :
  has_flag f m = true -> has_flag (Z.lor f g) m = true.
Proof.
  unfold has_flag. rewrite !negb_true_iff, !Z.eqb_neq.
  intros Hf Hfg. apply Hf.
  rewrite Z.land_lor_distr_l in Hfg. by apply Z.lor_eq_0_iff in Hfg as [? _].
Qed.

(** [x & 0x1] tested for truth is the parity of [x]. *)
Lemma has_flag_1 x : has_flag x 1 = Z.odd x.
Proof.
  unfold has_flag. change (Z.land x 1) with (Z.land x (Z.ones 1)).
  rewrite Z.land_ones by lia. rewrite Zmod_odd. by destruct (Z.odd x).
Qed.

(** ** Shared list lemmas *)

(** The first element of a list that satisfies a test (Python's
    [for r in l: if p(r): x = r; break]). *)
Fixpoint first_such {A} (p : A -> bool) (l : list A) : option A :=
  match l with
  | [] => None
  | x :: l' => if p x then Some x else first_such p l'
  end.

Lemma first_such_spec {A} (p : A -> bool) l x :
  first_such p l = Some x -> x ∈ l /\ p x = true.
Proof.
  induction l as [|y l IH]; simpl; [discriminate|].
  destruct (p y) eqn:Hy.
  - intros [= ->]. split; [left|done].
  - intros H. destruct (IH H) as [Hin Hp]. split; [by right|done].
Qed.

Lemma first_such_None {A} (p : A -> bool) l :
  first_such p l = None -> Forall (fun x => p x = false) l.
Proof.
  induction l as [|y l IH]; simpl; [constructor|].
  destruct (p y) eqn:Hy; [discriminate|]. intros H. constructor; auto.
Qed.

(** ** Automation *)

Create HintDb fg.
Create Rewrite HintDb fg_rw.
#[export] Hint Resolve truthy_Some has_flag_lor_l : fg.
#[export] Hint Rewrite @st_ret_run has_flag_1 : fg_rw.

(** Unfold the monad's plumbing in a goal about a concrete run. *)
Ltac st_unfold :=
  unfold mbind, st_bind, mret, st_ret, raise, get_st, put_st, modify_st in *.

(** Case on every [if]/[match] in the goal, simplifying as it goes. *)
Ltac fg_cases :=
  repeat (simpl in *; match goal with
    | |- context [match ?x with _ => _ end] => destruct x eqn:?
    end); simpl in *.
