(* ===== verification/Config.v ===== *)
(** * Config: module constants, keyword arguments and the small helpers of
    freenasldap.py

    The constants of freenasldap.py (lines 48-73), the [FLAGS_CACHE_*]
    masks of freenascache.py (not in src/, modelled from the spec), Python
    values and [**kwargs] dictionaries, [long()], [str.split], and the
    helpers [_setssl], [_geturi] and [adset]. *)

From S2P Require Import Prelude.

Module Config.

(** ** Constants (freenasldap.py 48-73) *)

Definition FREENAS_LDAP_NOSSL : Z := 0.
Definition FREENAS_LDAP_USESSL : Z := 1.
Definition FREENAS_LDAP_USETLS : Z := 2.

(** [get_freenas_var(name, default)] with the variable unset in /etc/rc.freenas. *)
Definition FREENAS_LDAP_PORT : Z := 389.
Definition FREENAS_LDAP_SSL_PORT : Z := 636.
Definition FREENAS_AD_SEPARATOR : string := String "092" EmptyString.
Definition FREENAS_LDAP_PAGESIZE : Z := 1024.

Definition FLAGS_DBINIT : Z := 65536.
Definition FLAGS_AD_ENABLED : Z := 1.
Definition FLAGS_LDAP_ENABLED : Z := 2.

(** The cache flags of freenascache.py. *)
Definition FLAGS_CACHE_READ_USER : Z := 1.
Definition FLAGS_CACHE_WRITE_USER : Z := 2.
Definition FLAGS_CACHE_READ_GROUP : Z := 4.
Definition FLAGS_CACHE_WRITE_GROUP : Z := 8.

(** The ldap module's scope and result-type constants. *)
Definition SCOPE_BASE : Z := 0.
Definition SCOPE_SUBTREE : Z := 2.
Definition RES_SEARCH_ENTRY : Z := 100.
Definition RES_SEARCH_RESULT : Z := 101.

(** [string.join(parts, sep)] (cachetool.py 31, 447). *)
Fixpoint py_join (sep : string) (parts : list string) : string :=
  match parts with
  | [] => ""
  | [p] => p
  | p :: ps => p ++ sep ++ py_join sep ps
  end.

(** ** Python values and keyword arguments *)

Inductive pyval :=
| PNone
| PBool (b : bool)
| PInt (n : Z)
| PStr (s : string)
| PList (l : list string).

#[export] Instance pyval_eq_dec : EqDecision pyval.
Proof. solve_decision. Defined.

(** [bool(v)]. *)
Definition py_truthy (v : pyval) : bool :=
  match v with
  | PNone => false
  | PBool b => b
  | PInt n => negb (n =? 0)%Z
  | PStr s => negb (String.eqb s "")
  | PList l => negb (bool_decide (l = []))
  end.

(** A [**kwargs] dictionary. *)
Abbreviation kwargs := (gmap string pyval).

(** [kwargs.get(k, None)]. *)
Definition kw_get (kw : kwargs) (k : string) : pyval :=
  match kw !! k with Some v => v | None => PNone end.

(** [kwargs.has_key(k)]. *)
Definition kw_has (kw : kwargs) (k : string) : bool :=
  match kw !! k with Some _ => true | None => false end.

(** A string-valued attribute ([host], [binddn], ...) read from a value:
    [None] stays [None]; the callers pass strings there, a list is read as
    [None]. *)
Definition pv_str (v : pyval) : option string :=
  match v with
  | PNone | PList _ => None
  | PStr s => Some s
  | PInt n => Some (pretty n)
  | PBool b => Some (if b then "True" else "False")
  end.

(** ["%s" % v]. *)
Definition py_fmt (v : pyval) : string :=
  match v with
  | PNone => "None"
  | PBool b => if b then "True" else "False"
  | PInt n => pretty n
  | PStr s => s
  | PList l => "[" ++ py_join ", " (map (fun x => "'" ++ x ++ "'") l) ++ "]"
  end.

(** An optional string as a Python value. *)
Definition ostr (o : option string) : pyval :=
  match o with Some s => PStr s | None => PNone end.

(** [s.upper()] on ASCII. *)
Definition py_upper (s : string) : string :=
  string_of_list_ascii (map (fun c => let n := Ascii.nat_of_ascii c in
                                      if Nat.leb 97 n && Nat.leb n 122
                                      then Ascii.ascii_of_nat (n - 32) else c)
                            (list_ascii_of_string s)).

(** ** Whitespace, [strip], [split()] and [startswith] *)

(** The characters [str.isspace] accepts. *)
Definition is_space (c : ascii) : bool :=
  match Ascii.nat_of_ascii c with 9 | 10 | 11 | 12 | 13 | 32 => true | _ => false end.

Fixpoint py_lstrip (s : string) : string :=
  match s with
  | EmptyString => EmptyString
  | String c s' => if is_space c then py_lstrip s' else s
  end.

Definition str_rev (s : string) : string :=
  string_of_list_ascii (rev (list_ascii_of_string s)).

(** [s.rstrip()] and [s.strip()]. *)
Definition py_rstrip (s : string) : string := str_rev (py_lstrip (str_rev s)).
Definition py_strip (s : string) : string := py_rstrip (py_lstrip s).

(** [s.split(sep)] at every character [sep] accepts. *)
Fixpoint split_at (sep : ascii -> bool) (s : string) : list string :=
  match s with
  | EmptyString => [""]
  | String c s' =>
      match split_at sep s' with
      | [] => [""]
      | p :: ps => if sep c then "" :: p :: ps else String c p :: ps
      end
  end.

(** [s.split()]: the words between runs of whitespace. *)
Definition py_split_ws (s : string) : list string :=
  filter (fun w => w <> "") (split_at is_space s).

(** [s.startswith(p)]. *)
Definition py_startswith (s p : string) : bool := String.prefix p s.

(** A list-valued attribute ([attributes]). *)
Definition pv_list (v : pyval) : option (list string) :=
  match v with PList l => Some l | _ => None end.

(** An integer-valued attribute ([scope], [pagesize], [flags]): the callers
    pass integers; anything else is reported as [TypeError]. *)
Definition pv_int (v : pyval) : res Z :=
  match v with
  | PInt n => Ok n
  | PBool b => Ok (if b then 1 else 0)%Z
  | _ => Raise TypeError
  end.

(** ** [str.isdigit], [long()] and [str.split] *)

Definition is_digit (c : ascii) : bool :=
  let n := Ascii.nat_of_ascii c in Nat.leb 48 n && Nat.leb n 57.

(** [s.isdigit()]: non-empty and made of digits only. *)
Fixpoint all_digits (s : string) : bool :=
  match s with
  | EmptyString => true
  | String c s' => is_digit c && all_digits s'
  end.

Definition isdigit (s : string) : bool :=
  negb (String.eqb s "") && all_digits s.

Fixpoint digits_value (s : string) (acc : Z) : Z :=
  match s with
  | EmptyString => acc
  | String c s' => digits_value s' (10 * acc + Z.of_nat (Ascii.nat_of_ascii c - 48)%nat)
  end.

(** [long(v)]: an integer, a boolean, or a decimal string with an optional
    sign and surrounding whitespace; [long(None)] raises [TypeError], a
    malformed string [ValueError]. *)
Definition py_long (v : pyval) : res Z :=
  match v with
  | PInt n => Ok n
  | PBool b => Ok (if b then 1 else 0)%Z
  | PNone | PList _ => Raise TypeError
  | PStr s =>
      let t := py_strip s in
      match t with
      | String "-"%char s' => if isdigit s' then Ok (- digits_value s' 0)%Z else Raise ValueError
      | String "+"%char s' => if isdigit s' then Ok (digits_value s' 0) else Raise ValueError
      | _ => if isdigit t then Ok (digits_value t 0) else Raise ValueError
      end
  end.

(** [s.split(sep)] for a one-character separator: always at least one part. *)
Fixpoint py_split (sep : ascii) (s : string) : list string :=
  match s with
  | EmptyString => [""]
  | String c s' =>
      match py_split sep s' with
      | [] => [""]
      | p :: ps => if Ascii.eqb c sep then "" :: p :: ps else String c p :: ps
      end
  end.

(** [v.split(':')] for a string value. *)
Definition pv_split (v : pyval) : res (list string) :=
  match v with PStr s => Ok (py_split ":" s) | _ => Raise (AttributeError "split") end.

(** [parts[0]] of a split, which always exists. *)
Definition split_head (sep : ascii) (s : string) : string :=
  match py_split sep s with p :: _ => p | [] => "" end.

(** ** [_setssl] (freenasldap.py 156-171) *)

(** [tok] starts at [NOSSL]; on the integer branch the only assignment to
    [tok] is [NOSSL] again, so an integer is never mapped to its mode;
    [type(ssl)] of a boolean is [bool], whose [isdigit] does not exist. *)
Definition _setssl (ssl : pyval) : res Z :=
  let tok := FREENAS_LDAP_NOSSL in
  let int_branch (n : Z) :=
    if negb (bool_decide (n ∈ [FREENAS_LDAP_NOSSL; FREENAS_LDAP_USESSL; FREENAS_LDAP_USETLS]))
    then Ok FREENAS_LDAP_NOSSL else Ok tok in
  match ssl with
  | PInt n => int_branch n
  | PStr s =>
      if isdigit s then int_branch (digits_value s 0)
      else if String.eqb s "start_tls" then Ok FREENAS_LDAP_USETLS
      else if String.eqb s "on" then Ok FREENAS_LDAP_USESSL
      else Ok tok
  | PBool _ | PNone | PList _ => Raise (AttributeError "isdigit")
  end.

(** ** [_geturi] (freenasldap.py 173-188) *)

(** ["%d" % self.port] raises [TypeError] when the port is [None]. *)
Definition _geturi (host : option string) (ssl : Z) (port : option Z) : res (option string) :=
  match host with
  | None => Ok None
  | Some h =>
      let proto :=
        if bool_decide (ssl ∈ [FREENAS_LDAP_NOSSL; FREENAS_LDAP_USETLS]) then "ldap"
        else if (ssl =? FREENAS_LDAP_USESSL)%Z then "ldaps"
        else "ldap" in
      match port with
      | Some p => Ok (Some (proto ++ "://" ++ h ++ ":" ++ pretty p))
      | None => Raise TypeError
      end
  end.

(** ** [adset] (freenasldap.py 748-753) *)

Definition adset (val default : pyval) : pyval :=
  if py_truthy val then val else default.

(** ** Properties *)

Lemma py_split_cons sep s : exists p ps, py_split sep s = p :: ps.
Proof.
  induction s as [|c s (p & ps & IH)]; simpl; [by eexists _, _|].
  rewrite IH. destruct (Ascii.eqb c sep); eauto.
Qed.

Lemma py_join_cons2 sep x y ys : py_join sep (x :: y :: ys) = x ++ sep ++ py_join sep (y :: ys).
Proof. reflexivity. Qed.

Lemma py_join_cons_char sep c p ps :
  py_join sep (String c p :: ps) = String c (py_join sep (p :: ps)).
Proof. by destruct ps. Qed.

(** splitting a string on a one-character separator and joining the
    parts with that separator gives the string back, so a [key=value]
    argument split on "=" is recovered by joining its tail. *)
Theorem py_split_join sep s : py_join (String sep "") (py_split sep s) = s.
Proof.
  induction s as [|c s IH]; [done|]. simpl.
  destruct (py_split_cons sep s) as (p & ps & Hs). rewrite Hs in IH |- *.
  destruct (Ascii.eqb_spec c sep) as [->|Hne].
  - by rewrite py_join_cons2, IH.
  - by rewrite py_join_cons_char, IH.
Qed.

(** A part without the separator, then the separator: the part comes
    out first, the rest is split on its own. *)
Lemma py_split_app sep k v :
  py_split sep k = [k] -> py_split sep (k ++ String sep v) = k :: py_split sep v.
Proof.
  induction k as [|a k IH]; simpl.
  - intros _. rewrite Ascii.eqb_refl. destruct (py_split_cons sep v) as (p & ps & ->). done.
  - destruct (py_split_cons sep k) as (p & ps & Hk). rewrite Hk.
    destruct (Ascii.eqb a sep); [discriminate|]. intros [= -> ->].
    by rewrite IH.
Qed.

(** [_setssl] maps every integer, given as a number or as a string of
    digits, to [NOSSL]: the assignment [tok = ssl] is missing, so the
    modes 1 (SSL) and 2 (StartTLS) are silently dropped. *)
Theorem _setssl_integer_nossl v :
  (exists n, v = PInt n) \/ (exists s, v = PStr s /\ isdigit s = true) ->
  _setssl v = Ok FREENAS_LDAP_NOSSL.
Proof.
  intros [[n ->] | [s' [-> Hd]]]; unfold _setssl; [|rewrite Hd];
    by case_bool_decide.
Qed.


Lemma _setssl_integer_nossl_witness : _setssl (PInt FREENAS_LDAP_USESSL) = Ok FREENAS_LDAP_NOSSL.
Proof. apply _setssl_integer_nossl. left. exists FREENAS_LDAP_USESSL. reflexivity. Defined.

(** the URI scheme is [ldaps] exactly for the SSL mode; the URI is
    [scheme://host:port]. *)
Theorem _geturi_scheme h sslmode p :
  exists proto,
    _geturi (Some h) sslmode (Some p) = Ok (Some (proto ++ "://" ++ h ++ ":" ++ pretty p)) /\
    (proto = "ldaps" <-> sslmode = FREENAS_LDAP_USESSL).
Proof.
  unfold _geturi. eexists. split; [reflexivity|].
  unfold FREENAS_LDAP_USESSL, FREENAS_LDAP_NOSSL, FREENAS_LDAP_USETLS.
  case_bool_decide as Hin.
  - split; [discriminate|]. intros ->. set_solver.
  - destruct (Z.eqb_spec sslmode 1); [done|]. split; [discriminate|done].
Qed.

End Config.
