(* ===== verification/SystemConfig.v ===== *)
(** * SystemConfig: the directory-service settings of system.py

    [service_enabled], [get_directoryservice], the five [*_enabled]
    predicates and the five [*_objects] readers (src/gui/common/system.py
    303-494) over a snapshot of the configuration database.  The database
    file is opened, read and closed in each call and nothing is written, so
    each function is a function of the tables it reads.  A table is the
    list of its rows in storage order: the order [fetchone] sees without
    [ORDER BY].  [ORDER BY -id] is stdpp's stable [merge_sort] on
    descending [id]; the [id] column is the table's primary key, so the
    order of the result does not depend on the sort chosen. *)

From S2P Require Import Prelude Config.

Module SystemConfig.
Import Config.

(** ** The database *)

(** A row of [services_services]: [id], [srv_service], [srv_enable]. *)
Record ServiceRow := mkService { srv_row_id : Z; srv_service : string; srv_enable : Z }.

#[export] Instance ServiceRow_eq_dec : EqDecision ServiceRow.
Proof. solve_decision. Defined.

(** A row of a [services_*] settings table: the [id] and the other columns. *)
Record DbRow := mkRow { row_id : Z; row_cols : gmap string pyval }.

(** The tables the functions read; [system_settings] holds the column
    [stg_directoryservice] of each row, [None] for SQL [NULL]. *)
Record Db := mkDb {
  services_services : list ServiceRow;
  system_settings : list (option string);
  services_ldap : list DbRow;
  services_activedirectory : list DbRow;
  services_domaincontroller : list DbRow;
  services_nt4 : list DbRow;
  services_nis : list DbRow }.

(** [ORDER BY -id]. *)
Definition id_desc {A} (id : A -> Z) : relation A := fun a b => (id b <= id a)%Z.

#[export] Instance id_desc_dec {A} (id : A -> Z) : RelDecision (id_desc id).
Proof. intros a b. unfold id_desc. apply _. Defined.

Definition order_by_desc {A} (id : A -> Z) (l : list A) : list A := merge_sort (id_desc id) l.

(** ** [service_enabled] (303-319)

    [select srv_enable from services_services where srv_service = name
    order by -id limit 1]; enabled when a row came back and its value is
    not 0. *)
Definition service_enabled (db : Db) (name : string) : bool :=
  match order_by_desc srv_row_id
          (filter (fun r => srv_service r = name) (services_services db)) with
  | r :: _ => bool_decide (srv_enable r <> 0%Z)
  | [] => false
  end.

(** ** [get_directoryservice] (322-338)

    The first row of [system_settings]; [None] unless its value is true. *)
Definition get_directoryservice (db : Db) : option string :=
  match system_settings db with
  | v :: _ => if truthy v then v else None
  | [] => None
  end.

(** ** The [*_enabled] predicates (341-474)

    [service_enabled('directoryservice') and get_directoryservice() ==
    kind]; the five functions differ only in [kind]. *)
Definition directoryservice_is (db : Db) (kind : string) : bool :=
  service_enabled db "directoryservice" && bool_decide (get_directoryservice db = Some kind).

Definition ldap_enabled (db : Db) : bool := directoryservice_is db "ldap".
Definition activedirectory_enabled (db : Db) : bool := directoryservice_is db "activedirectory".
Definition domaincontroller_enabled (db : Db) : bool := directoryservice_is db "domaincontroller".
Definition nt4_enabled (db : Db) : bool := directoryservice_is db "nt4".
Definition nis_enabled (db : Db) : bool := directoryservice_is db "nis".

(** ** The [*_objects] readers (353-493)

    [SELECT * FROM table ORDER BY -id], each row copied to a dict. *)
Definition row_dict (r : DbRow) : gmap string pyval := <["id" := PInt (row_id r)]> (row_cols r).

Definition select_objects (t : list DbRow) : list (gmap string pyval) :=
  row_dict <$> order_by_desc row_id t.

Definition ldap_objects (db : Db) := select_objects (services_ldap db).
Definition activedirectory_objects (db : Db) := select_objects (services_activedirectory db).
Definition domaincontroller_objects (db : Db) := select_objects (services_domaincontroller db).
Definition nt4_objects (db : Db) := select_objects (services_nt4 db).
Definition nis_objects (db : Db) := select_objects (services_nis db).

(** ** Properties *)

Section Sorting.
Context {A : Type} (id : A -> Z).

#[local] Instance id_desc_trans : Transitive (id_desc id).
Proof. intros a b c. unfold id_desc. lia. Qed.

#[local] Instance id_desc_total : Total (id_desc id).
Proof. intros a b. unfold id_desc. lia. Qed.

(** The head of the sorted list has the largest [id]. *)
Lemma order_by_desc_head (l : list A) r rs :
  order_by_desc id l = r :: rs -> r ∈ l /\ forall x, x ∈ l -> (id x <= id r)%Z.
Proof.
  intros Hs. unfold order_by_desc in Hs.
  pose proof (merge_sort_Permutation (id_desc id) l) as Hp. rewrite Hs in Hp.
  pose proof (StronglySorted_merge_sort (id_desc id) l) as Hss. rewrite Hs in Hss.
  apply StronglySorted_inv in Hss as [_ Hall]. rewrite Forall_forall in Hall.
  split; [rewrite <- Hp; left|].
  intros x Hx. rewrite <- Hp in Hx. apply elem_of_cons in Hx as [->|Hx]; [lia|].
  by apply Hall.
Qed.

Lemma order_by_desc_nil (l : list A) : order_by_desc id l = [] -> l = [].
Proof.
  intros Hs. pose proof (merge_sort_Permutation (id_desc id) l) as Hp.
  unfold order_by_desc in Hs. rewrite Hs in Hp. by apply Permutation_nil_r.
Qed.

End Sorting.

(** Two rows of a list with distinct ids and equal ids are equal. *)
Lemma NoDup_id_inj {A} (id : A -> Z) (l : list A) x y :
  NoDup (id <$> l) -> x ∈ l -> y ∈ l -> id x = id y -> x = y.
Proof.
  induction l as [|z l IH]; [by intros _ ?%elem_of_nil|].
  rewrite fmap_cons, NoDup_cons. intros [Hz Hnd] Hx Hy Hxy.
  apply elem_of_cons in Hx as [->|Hx]; apply elem_of_cons in Hy as [->|Hy]; try done.
  - destruct Hz. rewrite Hxy. by apply list_elem_of_fmap_2.
  - destruct Hz. rewrite <- Hxy. by apply list_elem_of_fmap_2.
  - by apply IH.
Qed.

Lemma directoryservice_is_ds db kind :
  directoryservice_is db kind = true -> get_directoryservice db = Some kind.
Proof. unfold directoryservice_is. rewrite andb_true_iff, bool_decide_eq_true. tauto. Qed.

(** At most one directory service is enabled: the five [*_enabled]
    predicates read the one [stg_directoryservice] value, so no two of
    them hold together, whatever the database holds. *)
Theorem directory_services_exclusive db :
  List.length (filter (fun b : bool => b = true)
    [ldap_enabled db; activedirectory_enabled db; domaincontroller_enabled db;
     nt4_enabled db; nis_enabled db]) <= 1.
Proof.
  unfold ldap_enabled, activedirectory_enabled, domaincontroller_enabled, nt4_enabled,
    nis_enabled, directoryservice_is.
  destruct (service_enabled db "directoryservice"); simpl; [|lia].
  destruct (get_directoryservice db) as [s|]; repeat case_bool_decide; simplify_eq; simpl; lia.
Qed.

(** [service_enabled] reads the most recent row: when the rows of
    [services_services] have distinct ids (the primary key) and [r] is
    the row of the service with the largest id, the service is enabled
    exactly when [r]'s [srv_enable] is not 0; older rows do not count. *)
Theorem service_enabled_latest db name r :
  NoDup (srv_row_id <$> services_services db) ->
  r ∈ services_services db -> srv_service r = name ->
  (forall r', r' ∈ services_services db -> srv_service r' = name ->
              (srv_row_id r' <= srv_row_id r)%Z) ->
  service_enabled db name = bool_decide (srv_enable r <> 0%Z).
Proof.
  intros Hnd Hr Hn Hmax. unfold service_enabled.
  assert (Hrf : r ∈ filter (fun r => srv_service r = name) (services_services db))
    by (apply list_elem_of_filter; auto).
  destruct (order_by_desc _ _) as [|h hs] eqn:Hs.
  - apply order_by_desc_nil in Hs. rewrite Hs in Hrf. by apply elem_of_nil in Hrf.
  - apply order_by_desc_head in Hs as [Hh Hle].
    apply list_elem_of_filter in Hh as [Hhn Hh].
    specialize (Hle r Hrf). specialize (Hmax h Hh Hhn).
    by rewrite (NoDup_id_inj srv_row_id (services_services db) h r) by (done || lia).
Qed.

(** A service without a row is disabled. *)
Lemma service_enabled_no_row db name :
  Forall (fun r => srv_service r <> name) (services_services db) ->
  service_enabled db name = false.
Proof.
  intros Hall. unfold service_enabled.
  destruct (order_by_desc _ _) as [|h hs] eqn:Hs; [done|].
  apply order_by_desc_head in Hs as [Hh _].
  apply list_elem_of_filter in Hh as [Hhn Hh]. rewrite Forall_forall in Hall.
  by destruct (Hall h Hh).
Qed.

(** ** Examples *)

(** A database where the directory service was switched on and then off
    again, and Active Directory is the configured service. *)
Definition sample_db : Db := {|
  services_services := [mkService 1 "directoryservice" 1; mkService 2 "cifs" 1;
                        mkService 3 "directoryservice" 0];
  system_settings := [Some "activedirectory"];
  services_ldap := []; services_activedirectory := [mkRow 1 ∅; mkRow 4 ∅];
  services_domaincontroller := []; services_nt4 := []; services_nis := [] |}.

Lemma service_enabled_latest_witness :
  service_enabled sample_db "directoryservice" = false /\ activedirectory_enabled sample_db = false.
Proof.
  assert (H : service_enabled sample_db "directoryservice" = false).
  { rewrite (service_enabled_latest sample_db "directoryservice" (mkService 3 "directoryservice" 0)).
    - reflexivity.
    - apply (bool_decide_eq_true_1 _). vm_compute. reflexivity.
    - apply (bool_decide_eq_true_1 _). vm_compute. reflexivity.
    - reflexivity.
    - intros r' Hr' _. simpl in Hr'. repeat rewrite elem_of_cons in Hr'.
      destruct_or! Hr'; subst; simpl; try lia. by apply elem_of_nil in Hr'. }
  split; [exact H|]. unfold activedirectory_enabled, directoryservice_is. by rewrite H.
Defined.

End SystemConfig.
