(* ===== verification/FileSystem.v ===== *)
(** * FileSystem: the directory tree under the cache directory

    The part of the file system the cache tool works on (cachetool.py
    [__cache_expire]): a map from paths to the kind of the entry there.  A
    path is the list of its components, and [os.path.join(top, name)]
    appends one.  [os.listdir], [os.path.isdir], [os.unlink], [os.rmdir]
    and Python 2's [os.walk] (Lib/os.py, which is not in src/: modelled
    from its documented behaviour) are written over that map.  Symbolic
    links are not modelled: every entry is a file or a directory. *)

From S2P Require Import Prelude.

Module FileSystem.
#[local] Open Scope list_scope.

Create HintDb fs.
Create Rewrite HintDb fs_rw.

Abbreviation path := (list string).

Inductive kind := KFile | KDir.

#[export] Instance kind_eq_dec : EqDecision kind.
Proof. solve_decision. Defined.

Abbreviation FS := (gmap path kind).

(** [os.path.join(top, name)]. *)
Definition join (top : path) (name : string) : path := top ++ [name].

(** [k] with the prefix [p] removed, when [p] is a prefix of [k]. *)
Fixpoint strip_prefix (p k : path) : option path :=
  match p, k with
  | [], _ => Some k
  | x :: p', y :: k' => if String.eqb x y then strip_prefix p' k' else None
  | _ :: _, [] => None
  end.

(** The name of [k] in the directory [top], when [k] is an entry of it. *)
Definition child_name (top k : path) : option string :=
  match strip_prefix top k with Some [n] => Some n | _ => None end.

(** [k] lies strictly below [top]. *)
Definition is_below (top k : path) : bool :=
  match strip_prefix top k with Some (_ :: _) => true | _ => false end.

(** [os.path.isdir(p)]. *)
Definition isdir (fs : FS) (p : path) : bool := bool_decide (fs !! p = Some KDir).

(** [os.listdir(top)]: the names in a directory, in the map's order; an
    [OSError] for anything else. *)
Definition listdir (fs : FS) (top : path) : res (list string) :=
  if isdir fs top then Ok (omap (child_name top) (map_to_list fs).*1) else Raise OSError.

(** [os.unlink(p)]: a file is removed; a directory or a missing entry
    raises [OSError]. *)
Definition unlink (p : path) : st FS unit := fun fs =>
  if bool_decide (fs !! p = Some KFile) then (Ok tt, delete p fs) else (Raise OSError, fs).

(** [os.rmdir(p)]: an empty directory is removed; anything else raises
    [OSError]. *)
Definition rmdir (p : path) : st FS unit := fun fs =>
  match listdir fs p with
  | Ok [] => (Ok tt, delete p fs)
  | _ => (Raise OSError, fs)
  end.

(** [for root, dirs, files in os.walk(top, topdown=False): body], with
    the generator's laziness kept: a directory is listed (and its entries
    split by [isdir]) when the walk reaches it, its subdirectories are
    walked, and only then does [body] run on it, on the state the earlier
    runs of [body] left.  A directory that cannot be listed is skipped
    ([onerror] is [None]).  Each level of the recursion is one nested
    generator; [fuel] is the depth Python's recursion limit allows, and
    [RuntimeError] is raised beyond it. *)
Fixpoint walk_bu (fuel : nat) (top : path) (body : path -> list string -> list string -> st FS unit)
    : st FS unit :=
  match fuel with
  | O => raise RuntimeError
  | S f =>
      fs ← get_st;
      match listdir fs top with
      | Raise _ => mret tt
      | Ok names =>
          let dirs := filter (fun n => isdir fs (join top n) = true) names in
          let nondirs := filter (fun n => isdir fs (join top n) = false) names in
          st_iter (fun n => walk_bu f (join top n) body) dirs;;
          body top dirs nondirs
      end
  end.

(** ** Well-formed trees *)

(** Every entry's parent is a directory of the tree. *)
Definition wf (fs : FS) : Prop := forall p n v, fs !! (p ++ [n]) = Some v -> fs !! p = Some KDir.

(** Everything strictly below [top] removed. *)
Definition prune (top : path) (fs : FS) : FS := filter (fun kv => is_below top kv.1 = false) fs.

(** The entries strictly below [top] are at most [fuel] levels deep. *)
Definition bounded (fuel : nat) (top : path) (fs : FS) : Prop :=
  forall k v, fs !! k = Some v -> is_below top k = true -> List.length k <= List.length top + fuel.

(** ** Paths *)

Lemma strip_prefix_app p r : strip_prefix p (p ++ r) = Some r.
Proof. induction p as [|x p IH]; simpl; [done|]. by rewrite String.eqb_refl. Qed.

Lemma strip_prefix_Some p k r : strip_prefix p k = Some r -> k = p ++ r.
Proof.
  revert k. induction p as [|x p IH]; intros [|y k]; simpl; try congruence.
  destruct (String.eqb_spec x y) as [->|]; [|discriminate]. intros H. by rewrite (IH k H).
Qed.

Lemma is_below_spec top k : is_below top k = true <-> exists n r, k = top ++ n :: r.
Proof.
  unfold is_below. split.
  - destruct (strip_prefix top k) as [[|n r]|] eqn:H; try discriminate.
    intros _. exists n, r. by apply strip_prefix_Some.
  - intros (n & r & ->). by rewrite strip_prefix_app.
Qed.

Lemma child_name_join top n : child_name top (join top n) = Some n.
Proof. unfold child_name, join. by rewrite strip_prefix_app. Qed.

Lemma child_name_Some top k n : child_name top k = Some n -> k = join top n.
Proof.
  unfold child_name. destruct (strip_prefix top k) as [[|m []]|] eqn:H; try discriminate.
  intros [= ->]. by apply strip_prefix_Some.
Qed.

Lemma is_below_join top n : is_below top (join top n) = true.
Proof. apply is_below_spec. by exists n, []. Qed.

Lemma is_below_self top : is_below top top = false.
Proof. unfold is_below. rewrite <- (app_nil_r top) at 2. by rewrite strip_prefix_app. Qed.

(** Below a child is below the parent. *)
Lemma is_below_child top n k : is_below (join top n) k = true -> is_below top k = true.
Proof.
  rewrite !is_below_spec. intros (m & r & ->). exists n, (m :: r). unfold join.
  by rewrite <- app_assoc.
Qed.

(** A sibling is not below a child. *)
Lemma is_below_sibling top n m : is_below (join top n) (join top m) = false.
Proof.
  destruct (is_below _ _) eqn:H; [|done]. apply is_below_spec in H as (x & r & Heq).
  unfold join in Heq. rewrite <- app_assoc in Heq. apply app_inv_head in Heq. discriminate.
Qed.

Lemma join_inj top n m : join top n = join top m -> n = m.
Proof. unfold join. intros H. apply app_inv_head in H. congruence. Qed.

(** ** Removing entries *)

(** The tree with the entries that satisfy [C] removed. *)
Definition removes (C : path -> bool) (fs : FS) : FS := filter (fun kv => C kv.1 = false) fs.

Lemma removes_lookup C fs k : removes C fs !! k = if C k then None else fs !! k.
Proof.
  unfold removes. rewrite map_lookup_filter.
  destruct (fs !! k) as [v|]; simpl; [|by destruct (C k)].
  rewrite option_guard_decide. case_decide; destruct (C k); simpl in *; congruence.
Qed.

Lemma removes_removes C1 C2 fs : removes C1 (removes C2 fs) = removes (fun k => C1 k || C2 k) fs.
Proof.
  apply map_eq. intros k. rewrite !removes_lookup. by destruct (C1 k), (C2 k).
Qed.

(** Two conditions that agree on the entries of the tree remove the same. *)
Lemma removes_ext C1 C2 fs :
  (forall k v, fs !! k = Some v -> C1 k = C2 k) -> removes C1 fs = removes C2 fs.
Proof.
  intros H. apply map_eq. intros k. rewrite !removes_lookup.
  destruct (fs !! k) as [v|] eqn:Hk; [by rewrite (H k v Hk)|]. by destruct (C1 k), (C2 k).
Qed.

Lemma delete_removes fs p : delete p fs = removes (fun k => bool_decide (k = p)) fs.
Proof.
  apply map_eq. intros k. rewrite removes_lookup. case_bool_decide as Hk.
  - subst. apply lookup_delete_eq.
  - by rewrite lookup_delete_ne.
Qed.

Lemma prune_removes top fs : prune top fs = removes (is_below top) fs.
Proof. done. Qed.

#[export] Hint Rewrite removes_lookup removes_removes prune_removes : fs_rw.

(** ** Listing a directory *)

Lemma NoDup_omap_inj {A B} (f : A -> option B) (l : list A) :
  NoDup l -> (forall x y z, f x = Some z -> f y = Some z -> x = y) -> NoDup (omap f l).
Proof.
  intros Hnd Hinj. induction Hnd as [|x l Hx Hnd IH]; simpl; [constructor|].
  destruct (f x) as [z|] eqn:Hfx; [|done]. constructor; [|done].
  intros (y & Hy & Hfy)%list_elem_of_omap. destruct Hx. by rewrite (Hinj x y z Hfx Hfy).
Qed.

Lemma listdir_isdir fs top names : listdir fs top = Ok names -> fs !! top = Some KDir.
Proof. unfold listdir, isdir. case_bool_decide; congruence. Qed.

Lemma listdir_elem fs top names n :
  listdir fs top = Ok names -> n ∈ names <-> is_Some (fs !! join top n).
Proof.
  unfold listdir. destruct (isdir fs top); [intros [= <-]|discriminate].
  rewrite list_elem_of_omap. split.
  - intros (k & Hk & Hc). apply child_name_Some in Hc as ->.
    apply list_elem_of_fmap in Hk as ([k' v] & Heq & Hin). simpl in Heq. subst.
    apply elem_of_map_to_list in Hin. by exists v.
  - intros [v Hv]. exists (join top n). split; [|apply child_name_join].
    apply list_elem_of_fmap. exists (join top n, v). split; [done|]. by apply elem_of_map_to_list.
Qed.

Lemma listdir_NoDup fs top names : listdir fs top = Ok names -> NoDup names.
Proof.
  unfold listdir. destruct (isdir fs top); [intros [= <-]|discriminate].
  apply NoDup_omap_inj; [apply NoDup_fst_map_to_list|].
  intros x y z Hx%child_name_Some Hy%child_name_Some. by subst.
Qed.

(** An existing directory without entries lists as empty. *)
Lemma listdir_nil fs p :
  fs !! p = Some KDir -> (forall n, fs !! join p n = None) -> listdir fs p = Ok [].
Proof.
  intros Hd Hn. destruct (listdir fs p) as [[|n names]|] eqn:Hl; [done| |].
  - assert (Hin : n ∈ n :: names) by left. rewrite (listdir_elem _ _ _ _ Hl), Hn in Hin.
    by destruct Hin.
  - unfold listdir, isdir in Hl. rewrite bool_decide_eq_true_2 in Hl by done. discriminate.
Qed.

Lemma unlink_run fs p : fs !! p = Some KFile -> unlink p fs = (Ok tt, delete p fs).
Proof. intros H. unfold unlink. by rewrite bool_decide_eq_true_2. Qed.

Lemma rmdir_run fs p :
  fs !! p = Some KDir -> (forall n, fs !! join p n = None) -> rmdir p fs = (Ok tt, delete p fs).
Proof. intros Hd Hn. unfold rmdir. by rewrite listdir_nil. Qed.

(** ** Loops that remove disjoint parts of the tree

    [for x in l: step(x)] where each [step x] removes the entries [C x],
    as long as [P] holds of [x], and the removals for the other elements
    keep [P]. *)
Lemma st_iter_removes {A} (step : A -> st FS unit) (C : A -> path -> bool) (P : FS -> A -> Prop)
    (l : list A) fs :
  (forall fs x, x ∈ l -> P fs x -> step x fs = (Ok tt, removes (C x) fs)) ->
  (forall fs x y, x ∈ l -> y ∈ l -> y <> x -> P fs x -> P (removes (C y) fs) x) ->
  NoDup l -> Forall (P fs) l ->
  st_iter step l fs = (Ok tt, removes (fun k => existsb (fun x => C x k) l) fs).
Proof.
  revert fs. induction l as [|x l IH]; intros fs Hstep Hfr Hnd Hall; cbn [st_iter].
  - f_equal. apply map_eq. intros k. by rewrite removes_lookup.
  - apply NoDup_cons in Hnd as [Hx Hnd]. apply Forall_cons in Hall as [HPx Hall].
    rewrite (st_bind_ok _ _ _ tt (removes (C x) fs)) by (apply Hstep; [left|done]).
    rewrite IH.
    + f_equal. rewrite removes_removes. apply removes_ext. intros k v _. simpl. apply orb_comm.
    + intros fs' y Hy. apply Hstep. by right.
    + intros fs' y z Hy Hz. apply Hfr; by right.
    + done.
    + rewrite Forall_forall in Hall |- *. intros y Hy. apply Hfr; [by right|left|..|by apply Hall].
      intros ->. contradiction.
Qed.

(** The condition "is one of the entries [key <$> l]". *)
Lemma existsb_eq_key (key : string -> path) l k :
  existsb (fun x => bool_decide (k = key x)) l = bool_decide (k ∈ key <$> l).
Proof.
  apply Bool.eq_iff_eq_true. rewrite existsb_exists, bool_decide_eq_true, list_elem_of_fmap. split.
  - intros (x & Hx & Hk). apply bool_decide_eq_true in Hk. exists x. split; [done|].
    by apply list_elem_of_In.
  - intros (x & -> & Hx). exists x. split; [by apply list_elem_of_In|]. by apply bool_decide_eq_true.
Qed.

(** ** Well-formed trees *)

Lemma is_below_app top p n : is_below top p = true -> is_below top (p ++ [n]) = true.
Proof. rewrite !is_below_spec. intros (m & r & ->). exists m, (r ++ [n]). by rewrite <- app_assoc. Qed.

(** Removing a set of entries closed under taking entries of them keeps
    the tree well formed. *)
Lemma wf_removes C fs :
  wf fs -> (forall p n v, fs !! (p ++ [n]) = Some v -> C p = true -> C (p ++ [n]) = true) ->
  wf (removes C fs).
Proof.
  intros Hwf Hcl p n v. rewrite !removes_lookup.
  destruct (C (p ++ [n])) eqn:Hb; [discriminate|]. intros Hv.
  destruct (C p) eqn:Hp; [|by eapply Hwf]. by rewrite (Hcl p n v Hv Hp) in Hb.
Qed.

Lemma wf_removes_below top fs : wf fs -> wf (removes (is_below top) fs).
Proof. intros Hwf. apply wf_removes; [done|]. intros p n v _. apply is_below_app. Qed.

Lemma wf_delete_leaf fs p : wf fs -> (forall n, fs !! join p n = None) -> wf (delete p fs).
Proof.
  intros Hwf Hn q m v Hq. destruct (decide (q = p)) as [->|Hne].
  - rewrite lookup_delete_ne in Hq; [discriminate (eq_trans (eq_sym Hq) (Hn m))|].
    intros Heq. apply (f_equal List.length) in Heq. rewrite length_app in Heq. simpl in Heq. lia.
  - rewrite lookup_delete_ne by done. apply lookup_delete_Some in Hq as [_ Hq]. by eapply Hwf.
Qed.

(** Every proper prefix of an entry is a directory. *)
Lemma wf_ancestor fs p r v : wf fs -> fs !! (p ++ r) = Some v -> r <> [] -> fs !! p = Some KDir.
Proof.
  intros Hwf. revert v. induction r as [|x r IH] using rev_ind; intros v Hv Hr; [done|].
  rewrite app_assoc in Hv. apply Hwf in Hv.
  destruct r as [|y r']; [by rewrite app_nil_r in Hv|]. by eapply IH.
Qed.

(** A file has no entries. *)
Lemma wf_file_leaf fs p n : wf fs -> fs !! p = Some KFile -> fs !! join p n = None.
Proof.
  intros Hwf Hp. destruct (fs !! join p n) as [v|] eqn:Hv; [|done].
  apply Hwf in Hv. congruence.
Qed.

Lemma bounded_child f top n fs : bounded (S f) top fs -> bounded f (join top n) fs.
Proof.
  intros Hb k v Hk Hbl. pose proof (Hb k v Hk (is_below_child _ _ _ Hbl)).
  unfold join. rewrite length_app. simpl. lia.
Qed.

Lemma bounded_removes f top C fs : bounded f top fs -> bounded f top (removes C fs).
Proof. intros Hb k v. rewrite removes_lookup. destruct (C k); [discriminate|]. apply Hb. Qed.

(** ** Checking a concrete tree *)

Definition wfb (fs : FS) : bool :=
  forallb (fun kv : path * kind => match kv.1 with
                                   | [] => true
                                   | _ => bool_decide (fs !! removelast kv.1 = Some KDir)
                                   end) (map_to_list fs).

Lemma wfb_wf fs : wfb fs = true -> wf fs.
Proof.
  unfold wfb. rewrite forallb_forall. intros H p n v Hv.
  assert (Hin : In (p ++ [n], v) (map_to_list fs)) by (apply list_elem_of_In, elem_of_map_to_list; done).
  specialize (H _ Hin). simpl in H. rewrite removelast_last in H.
  destruct (p ++ [n]) eqn:E; [by destruct p|]. by apply bool_decide_eq_true in H.
Qed.

Definition boundedb (f : nat) (top : path) (fs : FS) : bool :=
  forallb (fun kv : path * kind => negb (is_below top kv.1) ||
                                   Nat.leb (List.length kv.1) (List.length top + f)) (map_to_list fs).

Lemma boundedb_bounded f top fs : boundedb f top fs = true -> bounded f top fs.
Proof.
  unfold boundedb. rewrite forallb_forall. intros H k v Hk Hb.
  assert (Hin : In (k, v) (map_to_list fs)) by (apply list_elem_of_In, elem_of_map_to_list; done).
  specialize (H _ Hin). simpl in H. rewrite Hb in H. simpl in H. by apply Nat.leb_le.
Qed.

#[export] Hint Resolve is_below_join is_below_self is_below_sibling child_name_join : fs.
#[export] Hint Rewrite is_below_join is_below_self is_below_sibling child_name_join : fs_rw.

End FileSystem.
