(* ===== verification/QueryCache.v ===== *)
(** * QueryCache: the query cache of [FreeNAS_LDAP_Directory._search]

    The cache key of freenasldap.py 282-285 and the cache itself
    ([FreeNAS_LDAP_QueryCache] of freenascache.py, not in src/: a
    persistent key/value store, modelled from the spec as a [gmap] that
    lives in the shared world, since every instance reads the same store). *)

From S2P Require Import Prelude Config.

Module QueryCache.

(** The string hashed into the key:
    [filter + self.host + str(self.port) + (basedn if basedn else '')].
    [filter + host] raises [TypeError] when either is [None]; the port is
    printed by [str], which prints [None] as "None". *)
Definition key_input (filter host : option string) (port : option Z)
    (basedn : option string) : res string :=
  match filter, host with
  | Some f, Some h =>
      Ok (f ++ h ++ (match port with Some p => py_int_str p | None => "None" end)
            ++ (if truthy basedn then py_str basedn else ""))
  | _, _ => Raise TypeError
  end.

(** The key: the hex digest of sha256 over the input; the hash function is
    a parameter, every theorem below holds for any function. *)
Definition cache_key (sha256_hex : string -> string)
    (filter host : option string) (port : option Z) (basedn : option string) : res string :=
  match key_input filter host port basedn with
  | Ok s => Ok (sha256_hex s)
  | Raise e => Raise e
  end.

(** [self._cache.has_key(key)] / [self._cache[key]]. *)
Definition qc_get {V} (c : gmap string V) (key : string) : option V := c !! key.

(** [self._cache[key] = result]. *)
Definition qc_put {V} (c : gmap string V) (key : string) (v : V) : gmap string V :=
  <[key := v]> c.

(** ** Properties *)

(** the cache key does not separate its parts, so two different
    servers ("ldap1" on port 389 and "ldap13" on port 89) share the key of
    the same query, whatever the hash: a cached result of one is served
    for the other. *)
Theorem cache_key_collision (sha256_hex : string -> string) :
  (Some "ldap1", Some 389%Z) <> (Some "ldap13", Some 89%Z) /\
  cache_key sha256_hex (Some "(uid=*)") (Some "ldap1") (Some 389%Z) (Some "dc=x") =
  cache_key sha256_hex (Some "(uid=*)") (Some "ldap13") (Some 89%Z) (Some "dc=x").
Proof. split; [discriminate|reflexivity]. Qed.

(** writing a result under a key and reading the key back gives the
    result; other keys are unaffected. *)
Theorem qc_put_get {V} (c : gmap string V) k k' v :
  qc_get (qc_put c k v) k' = if String.eqb k k' then Some v else qc_get c k'.
Proof.
  unfold qc_get, qc_put. destruct (String.eqb_spec k k') as [->|Hne].
  - by rewrite lookup_insert_eq.
  - by rewrite lookup_insert_ne.
Qed.

End QueryCache.
