(* ===== verification/Directory.v ===== *)
(** * Directory: [FreeNAS_LDAP_Directory] (freenasldap.py 83-391)

    One LDAP connection object.  Its [__dict__] is the record [Obj] (the
    typed connection fields, plus [fields] for the attributes subclasses
    add); its [_settings] stack of saved copies sits beside it in [Dir].
    The state every object shares is the [World]: the server-side sessions
    (a handle is a session id, so two objects holding the same handle alias
    one session), the count of search requests sent, the log of binds, the
    query cache and, for the identity-cache component, the on-disk caches
    and sentinel files.  The directory server, DNS and the OS databases are
    the type class [DirectoryEnv].  Methods are computations of
    [st (Dir * World)]. *)

From S2P Require Import Prelude Config QueryCache.

Module Directory.
Import Config QueryCache.

(** Lemmas that a method leaves the object's [fields] alone. *)
Create HintDb keeps.

(** ** Data *)

(** A search result row [(dn, {attr: [values]})]. *)
Record Entry := mkEntry { e_dn : option string; e_attrs : gmap string (list string) }.

#[export] Instance Entry_eq_dec : EqDecision Entry.
Proof. solve_decision. Defined.

(** [if r[0]:] -- rows without a DN (referrals) are skipped by consumers. *)
Definition has_dn (e : Entry) : bool := truthy (e_dn e).

(** [for r in results: if r[0]: x = r; break]. *)
Definition first_with_dn (results : option (list Entry)) : option Entry :=
  match results with Some rs => first_such has_dn rs | None => None end.

(** [[r for r in results if r[0]]]. *)
Definition all_with_dn (results : option (list Entry)) : list Entry :=
  match results with Some rs => List.filter has_dn rs | None => [] end.

(** One answer of [result(id, 0)]: a message type and its rows, or an
    [LDAPError]. *)
Inductive Resp := RMsg (rtype : Z) (data : list Entry) | RErr.

(** [pwd.struct_passwd] and [grp.struct_group]. *)
Record Passwd := mkPasswd
  { pw_name : string; pw_uid : Z; pw_gid : Z; pw_gecos : string; pw_dir : string }.
Record Group := mkGroup { gr_name : string; gr_gid : Z; gr_mem : list string }.

#[export] Instance Passwd_eq_dec : EqDecision Passwd.
Proof. solve_decision. Defined.
#[export] Instance Group_eq_dec : EqDecision Group.
Proof. solve_decision. Defined.

(** A DNS SRV answer. *)
Record SrvRecord := mkSrv
  { srv_priority : Z; srv_weight : Z; srv_port : Z; srv_target : string }.

(** A value of an on-disk identity cache. *)
Inductive CacheVal := CPasswd (p : Passwd) | CGroup (g : Group) | CEntry (e : Entry) | CNone.

#[export] Instance CacheVal_eq_dec : EqDecision CacheVal.
Proof. solve_decision. Defined.

(** A server-side session: the endpoint it was initialised for, whether
    the transport works ([false] for an [ldaps] endpoint whose TLS
    handshake fails), whether TLS protects it, whether it is bound. *)
Record Session := mkSession
  { s_host : string; s_port : Z; s_usable : bool; s_tls : bool; s_bound : bool }.

(** What the server sees of a bind: endpoint, credentials (or anonymous),
    whether they travelled encrypted, and the outcome. *)
Record BindEvent := mkBind
  { b_host : string; b_port : Z; b_creds : option (string * string);
    b_encrypted : bool; b_ok : bool }.

Record World := mkWorld
  { w_sessions : gmap nat Session;
    w_next : nat;
    w_searches : nat;
    w_binds : list BindEvent;
    w_qcache : gmap string (list Entry);
    w_caches : gmap string (gmap string CacheVal);
    w_files : gset string }.

(** The external collaborators.  [env_page_bound] bounds the number of
    pages one paged search of the server returns; it is the fuel of the
    paged loop. *)
Class DirectoryEnv := {
  env_tls : string -> Z -> bool;
  env_bind : string -> Z -> option (string * string) -> bool;
  env_search : string -> Z -> string -> Z -> string -> option (list Resp);
  env_page : string -> Z -> string -> Z -> string -> Z -> string ->
             option (list Entry * option string);
  env_page_bound : nat;
  env_srv : string -> option (list SrvRecord);
  env_getpwnam : string -> option Passwd;
  env_getpwuid : Z -> option Passwd;
  env_getgrnam : string -> option Group;
  env_getgrgid : Z -> option Group;
  env_sha256 : string -> string
}.

(** The object's [__dict__]. *)
Record Obj := mkObj
  { host : option string; port : option Z; binddn : option string;
    bindpw : option string; basedn : option string; ssl : Z; scope : Z;
    filterstr : option string; attributes : option (list string);
    pagesize : Z; flags : Z; _handle : option nat; _isopen : bool;
    fields : gmap string pyval }.

(** The object and its [_settings] stack (top first). *)
Record Dir := mkDir { obj : Obj; _settings : list Obj }.

Abbreviation Meth := (st (Dir * World)).

(** ** Field updates *)

Definition set_conn (h : option nat) (b : bool) (o : Obj) : Obj :=
  mkObj (host o) (port o) (binddn o) (bindpw o) (basedn o) (ssl o) (scope o)
    (filterstr o) (attributes o) (pagesize o) (flags o) h b (fields o).

Definition set_endpoint (h : option string) (p : option Z) (o : Obj) : Obj :=
  mkObj h p (binddn o) (bindpw o) (basedn o) (ssl o) (scope o)
    (filterstr o) (attributes o) (pagesize o) (flags o) (_handle o) (_isopen o) (fields o).

Definition set_query (b : option string) (a : option (list string)) (ps : Z) (o : Obj) : Obj :=
  mkObj (host o) (port o) (binddn o) (bindpw o) b (ssl o) (scope o)
    (filterstr o) a ps (flags o) (_handle o) (_isopen o) (fields o).

Definition set_field (k : string) (v : pyval) (o : Obj) : Obj :=
  mkObj (host o) (port o) (binddn o) (bindpw o) (basedn o) (ssl o) (scope o)
    (filterstr o) (attributes o) (pagesize o) (flags o) (_handle o) (_isopen o)
    (<[k := v]> (fields o)).

(** [self.<attr>] for an attribute a subclass constructor set. *)
Definition get_field (o : Obj) (k : string) : res pyval :=
  match fields o !! k with Some v => Ok v | None => Raise (AttributeError k) end.

Definition set_sessions (m : gmap nat Session) (w : World) : World :=
  mkWorld m (w_next w) (w_searches w) (w_binds w) (w_qcache w) (w_caches w) (w_files w).

Definition add_session (s : Session) (w : World) : World :=
  mkWorld (<[w_next w := s]> (w_sessions w)) (S (w_next w)) (w_searches w)
    (w_binds w) (w_qcache w) (w_caches w) (w_files w).

Definition count_search (w : World) : World :=
  mkWorld (w_sessions w) (w_next w) (S (w_searches w)) (w_binds w)
    (w_qcache w) (w_caches w) (w_files w).

Definition log_bind (b : BindEvent) (w : World) : World :=
  mkWorld (w_sessions w) (w_next w) (w_searches w) ((w_binds w ++ [b])%list)
    (w_qcache w) (w_caches w) (w_files w).

Definition set_qcache (c : gmap string (list Entry)) (w : World) : World :=
  mkWorld (w_sessions w) (w_next w) (w_searches w) (w_binds w) c (w_caches w) (w_files w).

(** ** Monad plumbing for methods *)

Definition self : Meth Obj := fun s => (Ok (obj s.1), s).
Definition update_self (f : Obj -> Obj) : Meth unit :=
  fun s => (Ok tt, (mkDir (f (obj s.1)) (_settings s.1), s.2)).
Definition world : Meth World := fun s => (Ok s.2, s).
(** Replace the object and its settings stack. *)
Definition put_dir (d : Dir) : Meth unit := fun s => (Ok tt, (d, s.2)).
Definition update_world (f : World -> World) : Meth unit := fun s => (Ok tt, (s.1, f s.2)).
Definition lift {A} (r : res A) : Meth A :=
  match r with Ok a => mret a | Raise e => raise e end.

(** [other.m()] from inside a method: [m] runs on the object [d] over the
    shared world; the caller's own object is untouched. *)
Definition on_other {A} (d : Dir) (m : Meth A) : Meth (A * Dir) :=
  fun s => match m (d, s.2) with
           | (Ok a, (d', w')) => (Ok (a, d'), (s.1, w'))
           | (Raise e, (_, w')) => (Raise e, (s.1, w'))
           end.

(** A static method: a computation on the world alone, run from a method. *)
Definition on_world {A} (m : st World A) : Meth A :=
  fun s => match m s.2 with (r, w') => (r, (s.1, w')) end.

(** A method of the object [d] run from a static method. *)
Definition run_on {A} (d : Dir) (m : Meth A) : st World (A * Dir) :=
  fun w => match m (d, w) with
           | (Ok a, (d', w')) => (Ok (a, d'), w')
           | (Raise e, (_, w')) => (Raise e, w')
           end.

Section Methods.
Context {DE : DirectoryEnv}.

(** ** [__init__] (84-133) *)

(** [kwargs.has_key(k) and kwargs[k] is not None]. *)
Definition given (kw : kwargs) (k : string) : bool :=
  kw_has kw k && bool_decide (kw_get kw k <> PNone).

Definition __init__ (kw : kwargs) : res Obj :=
  port0 ← (if given kw "port" then p ← py_long (kw_get kw "port"); mret (Some p)
           else mret None);
  '(ssl0, port1) ← (if given kw "ssl" then
                      t ← _setssl (kw_get kw "ssl");
                      mret (t, if bool_decide (t = FREENAS_LDAP_USESSL /\ port0 = None)
                               then Some FREENAS_LDAP_SSL_PORT else port0)
                    else mret (FREENAS_LDAP_NOSSL, port0));
  let port2 := match port1 with None => Some FREENAS_LDAP_PORT | Some p => Some p end in
  scope0 ← (if given kw "scope" then pv_int (kw_get kw "scope") else mret SCOPE_SUBTREE);
  pagesize0 ← (if given kw "pagesize" then pv_int (kw_get kw "pagesize") else mret 0%Z);
  flags0 ← (if given kw "flags" then pv_int (kw_get kw "flags") else mret 0%Z);
  mret (mkObj (pv_str (kw_get kw "host")) port2 (pv_str (kw_get kw "binddn"))
          (pv_str (kw_get kw "bindpw")) (pv_str (kw_get kw "basedn")) ssl0 scope0
          (pv_str (kw_get kw "filter")) (pv_list (kw_get kw "attributes"))
          pagesize0 flags0 None false ∅).

(** A fresh object in its initial state. *)
Definition new_dir (o : Obj) : Dir := mkDir o [].

(** ** Session primitives of python-ldap *)

(** [ldap.initialize(uri)]: a new, unbound session for the endpoint; for
    [ldaps] the TLS handshake decides whether the transport works. *)
Definition initialize (h : string) (p : Z) (sslmode : Z) : Meth nat :=
  w ← world;
  let tls := bool_decide (sslmode = FREENAS_LDAP_USESSL) && env_tls h p in
  let usable := negb (bool_decide (sslmode = FREENAS_LDAP_USESSL)) || env_tls h p in
  update_world (add_session (mkSession h p usable tls false));;
  mret (w_next w).

(** [start_tls_s()]: on success the session is encrypted; a failure raises
    an [LDAPError], which [open] swallows. *)
Definition start_tls_s (id : nat) : Meth unit :=
  w ← world;
  match w_sessions w !! id with
  | Some s =>
      if s_usable s && env_tls (s_host s) (s_port s) then
        update_world (set_sessions (<[id := mkSession (s_host s) (s_port s) true true (s_bound s)]>
                                      (w_sessions w)))
      else mret tt
  | None => mret tt
  end.

(** [simple_bind_s(dn, pw)] or [simple_bind_s()] (anonymous): logged as the
    server sees it; on success the session is bound.  Returns whether the
    result is truthy. *)
Definition simple_bind_s (id : nat) (creds : option (string * string)) : Meth bool :=
  w ← world;
  match w_sessions w !! id with
  | Some s =>
      let ok := s_usable s && env_bind (s_host s) (s_port s) creds in
      update_world (log_bind (mkBind (s_host s) (s_port s) creds (s_tls s) ok));;
      (if ok then
         update_world (set_sessions (<[id := mkSession (s_host s) (s_port s) (s_usable s)
                                                 (s_tls s) true]> (w_sessions w)))
       else mret tt);;
      mret ok
  | None => mret false
  end.

(** [handle.unbind()]: the session is released. *)
Definition unbind_session (id : nat) : Meth unit :=
  w ← world; update_world (set_sessions (delete id (w_sessions w))).

(** ** [open] (190-253) *)

(** The credentials [open] binds with: [binddn] and [bindpw] when both are
    truthy, otherwise an anonymous bind. *)
Definition bind_creds (o : Obj) : option (string * string) :=
  if truthy (binddn o) && truthy (bindpw o)
  then Some (py_str (binddn o), py_str (bindpw o)) else None.

Definition open : Meth bool :=
  o ← self;
  if _isopen o then mret true else
  (if truthy (host o) then
     lift (_geturi (host o) (ssl o) (port o));;
     id ← initialize (py_str (host o)) (default 0%Z (port o)) (ssl o);
     update_self (set_conn (Some id) false)
   else mret tt);;
  o ← self;
  match _handle o with
  | None => mret false
  | Some id =>
      (if bool_decide (ssl o = FREENAS_LDAP_USETLS) then start_tls_s id else mret tt);;
      rb ← simple_bind_s id (bind_creds o);
      (if (rb : bool) then update_self (set_conn (Some id) true) else mret tt);;
      o ← self;
      mret (_isopen o)
  end.

(** ** [unbind] and [close] (255-265) *)

Definition unbind : Meth unit :=
  o ← self;
  match _handle o with Some id => unbind_session id | None => mret tt end.

Definition close : Meth unit :=
  o ← self;
  if _isopen o then unbind;; update_self (set_conn None false) else mret tt.

(** ** [_search] (267-380) *)

(** The paged loop (303-345): one request per page, the rows of each page
    appended in order, continuing while the server returns a non-empty
    cookie.  A failing request raises out of [_search]: this loop has no
    [try]. *)
Fixpoint paged_loop (fuel : nat) (h : string) (p : Z) (base : string) (sc : Z)
    (f : string) (size : Z) (cookie : string) (acc : list Entry) : Meth (list Entry) :=
  match fuel with
  | O => mret acc
  | S fuel' =>
      update_world count_search;;
      match env_page h p base sc f size cookie with
      | None => raise LDAPError
      | Some (rdata, ctrl) =>
          let acc' := (acc ++ rdata)%list in
          match ctrl with
          | Some c => if String.eqb c "" then mret acc'
                      else paged_loop fuel' h p base sc f size c acc'
          | None => mret acc'
          end
      end
  end.

(** The plain loop (361-370): [result(id, 0)] until the final result
    message; an [LDAPError] ends the loop (swallowed), without its rows. *)
Fixpoint collect (rs : list Resp) : list (list Entry) :=
  match rs with
  | [] => []
  | RErr :: _ => []
  | RMsg t d :: rs' => d :: (if bool_decide (t = RES_SEARCH_RESULT) then [] else collect rs')
  end.

Definition _search (base : option string) (sc : Z) (filter : option string)
    : Meth (option (list Entry)) :=
  o ← self;
  if negb (_isopen o) then mret None else
  key ← lift (cache_key env_sha256 filter (host o) (port o) base);
  w ← world;
  match (if bool_decide (filter <> None) then qc_get (w_qcache w) key else None) with
  | Some r => mret (Some r)
  | None =>
      b ← lift (match base with Some b => Ok b | None => Raise TypeError end);
      f ← lift (match filter with Some f => Ok f | None => Raise TypeError end);
      id ← lift (match _handle o with Some id => Ok id | None => Raise (AttributeError "search_ext") end);
      s ← lift (match w_sessions w !! id with Some s => Ok s | None => Raise LDAPError end);
      if bool_decide (0 < pagesize o)%Z then
        r ← paged_loop env_page_bound (s_host s) (s_port s) b sc f (pagesize o) "" [];
        mret (Some r)
      else
        update_world count_search;;
        rs ← lift (match env_search (s_host s) (s_port s) b sc f with
                   | Some rs => Ok rs | None => Raise LDAPError end);
        let result := List.concat (collect rs) in
        w ← world;
        update_world (set_qcache (qc_put (w_qcache w) key result));;
        mret (Some result)
  end.

(** ** The open/close discipline: [search] (382-391)

    [isopen = self._isopen; self.open(); ...; if not isopen: self.close()]:
    the shape of [search] and of every query method of the two backends. *)
Definition auto_open {A} (body : Meth A) : Meth A :=
  o ← self;
  let was_open := _isopen o in
  open;;
  r ← body;
  (if negb was_open then close else mret tt);;
  mret r.

Definition search : Meth (option (list Entry)) :=
  auto_open (o ← self; _search (basedn o) (scope o) (filterstr o)).

(** ** [_save] and [_restore] (135-143) *)

Definition _save : Meth unit :=
  fun s => (Ok tt, (mkDir (obj s.1) (obj s.1 :: _settings s.1), s.2)).

(** [self.__dict__.update(_s)]: every saved attribute is written back;
    attributes created after the save survive (left-biased union). *)
Definition restore_obj (saved cur : Obj) : Obj :=
  mkObj (host saved) (port saved) (binddn saved) (bindpw saved) (basedn saved)
    (ssl saved) (scope saved) (filterstr saved) (attributes saved) (pagesize saved)
    (flags saved) (_handle saved) (_isopen saved) (fields saved ∪ fields cur).

Definition _restore : Meth unit :=
  fun s => match _settings s.1 with
           | [] => (Ok tt, s)
           | sv :: rest => (Ok tt, (mkDir (restore_obj sv (obj s.1)) rest, s.2))
           end.

End Methods.

(** ** A concrete server, for the witnesses

    [demo_env]: a server "ldap1" on which every bind succeeds and TLS is
    not available, whose plain search answers two rows and a final
    message, and whose paged search serves five rows in pages of two
    (cookies "p2", "p3", then the empty cookie), except for the filter
    "(broken)", whose paged requests fail.  The hash is the identity,
    which every theorem allows. *)
Definition demo_row (n : string) : Entry := mkEntry (Some ("uid=" ++ n)) (<["uid" := [n]]> ∅).

Definition demo_env : DirectoryEnv := {|
  env_tls := fun _ _ => false;
  env_bind := fun h _ _ => String.eqb h "ldap1";
  env_search := fun _ _ _ _ _ =>
    Some [RMsg RES_SEARCH_ENTRY [demo_row "a"]; RMsg RES_SEARCH_ENTRY [demo_row "b"];
          RMsg RES_SEARCH_RESULT []];
  env_page := fun _ _ _ _ f _ c =>
    if String.eqb f "(broken)" then None
    else if String.eqb c "" then Some ([demo_row "a"; demo_row "b"], Some "p2")
    else if String.eqb c "p2" then Some ([demo_row "c"; demo_row "d"], Some "p3")
    else if String.eqb c "p3" then Some ([demo_row "e"], Some "")
    else None;
  env_page_bound := 10;
  env_srv := fun _ => None;
  env_getpwnam := fun _ => None;
  env_getpwuid := fun _ => None;
  env_getgrnam := fun _ => None;
  env_getgrgid := fun _ => None;
  env_sha256 := fun s => s |}.

Definition demo_world : World := mkWorld ∅ 0 0 [] ∅ ∅ ∅.

(** An object for "ldap1":389 with filter [f] and page size [ps], open on
    session [0] of [demo_open_world] when [opened]. *)
Definition demo_obj (f : string) (ps : Z) (opened : bool) : Obj :=
  mkObj (Some "ldap1") (Some 389%Z) None None (Some "dc=x") FREENAS_LDAP_NOSSL
    SCOPE_SUBTREE (Some f) None ps 0 (if opened then Some 0 else None) opened ∅.

Definition demo_open_world : World :=
  mkWorld {[0 := mkSession "ldap1" 389 true false true]} 1 0 [] ∅ ∅ ∅.

(** ** Properties *)

Ltac meth_simpl :=
  unfold mbind, st_bind, mret, st_ret, raise, self, update_self, world, update_world, lift in *;
  simpl in *; cbn [fst snd] in *.
Ltac meth_cases :=
  repeat (case_match; unfold mret, st_ret, mbind, st_bind, raise in *; simpl in *; simplify_eq).

Section Properties.
Context {DE : DirectoryEnv}.

(** The part of the state a search leaves alone: the object, the sessions
    and the session counter. *)
Definition frame (s s' : Dir * World) : Prop :=
  s'.1 = s.1 /\ w_sessions s'.2 = w_sessions s.2 /\ w_next s'.2 = w_next s.2.

(** A method that leaves the part [f] of the object as it is (the
    attributes a subclass added, [fields], or the endpoint). *)
Definition keeps {X} (f : Obj -> X) {A} (m : Meth A) : Prop :=
  forall s r s', m s = (r, s') -> f (obj s'.1) = f (obj s.1).

(** The connection invariant: an open object holds a live, bound session. *)
Definition conn_inv (s : Dir * World) : Prop :=
  _isopen (obj s.1) = true ->
  exists id ss, _handle (obj s.1) = Some id /\ w_sessions s.2 !! id = Some ss /\ s_bound ss = true.

(** A paged search of [h]:[p] that starts at cookie [c] is answered by the
    list of pages [pages]: every request succeeds, each intermediate page
    carries a non-empty cookie and the last one none or an empty one. *)
Inductive serves (h : string) (p : Z) (b : string) (sc : Z) (f : string) (size : Z)
  : string -> list (list Entry) -> Prop :=
| serves_last c rows ctrl :
    env_page h p b sc f size c = Some (rows, ctrl) ->
    ctrl = None \/ ctrl = Some "" ->
    serves h p b sc f size c [rows]
| serves_next c rows c' pages :
    env_page h p b sc f size c = Some (rows, Some c') -> c' <> "" ->
    serves h p b sc f size c' pages ->
    serves h p b sc f size c (rows :: pages).

(** The connection's methods as a transition system: any call of [open],
    [close], [_search] or [search] from any state. *)
Inductive conn_step : Dir * World -> Dir * World -> Prop :=
| step_open s r s' : open s = (r, s') -> conn_step s s'
| step_close s r s' : close s = (r, s') -> conn_step s s'
| step_search_raw b sc f s r s' : _search b sc f s = (r, s') -> conn_step s s'
| step_search s r s' : search s = (r, s') -> conn_step s s'.

Lemma frame_trans s1 s2 s3 : frame s1 s2 -> frame s2 s3 -> frame s1 s3.
Proof. unfold frame. intros (?&?&?) (?&?&?). split_and!; congruence. Qed.

Lemma paged_loop_frame fuel h p b sc f size c acc s r s' :
  paged_loop fuel h p b sc f size c acc s = (r, s') -> frame s s'.
Proof.
  revert c acc s. induction fuel as [|fuel IH]; intros c acc [d w]; simpl.
  - intros [= <- <-]. done.
  - meth_simpl. meth_cases; try (intros; simplify_eq; done).
    all: intros Hl; apply IH in Hl; eapply frame_trans; [|exact Hl]; done.
Qed.

Lemma _search_frame b sc f s r s' : _search b sc f s = (r, s') -> frame s s'.
Proof.
  destruct s as [d w]. unfold _search. meth_simpl. meth_cases; intros; simplify_eq; try done.
  all: match goal with H : paged_loop _ _ _ _ _ _ _ _ _ _ = _ |- _ =>
         exact (paged_loop_frame _ _ _ _ _ _ _ _ _ _ _ _ H) end.
Qed.

Lemma frame_conn_inv s s' : frame s s' -> conn_inv s -> conn_inv s'.
Proof. unfold frame, conn_inv. intros (-> & -> & _). done. Qed.

Lemma open_inv s r s' : conn_inv s -> open s = (r, s') -> conn_inv s'.
Proof.
  destruct s as [d w]. intros Hinv. unfold open, initialize, start_tls_s, simple_bind_s.
  meth_simpl. destruct (_isopen (obj d)) eqn:Ho; [intros [= <- <-]; done|].
  meth_cases; intros; simplify_eq; unfold conn_inv; simpl; try (intros; congruence).
  all: intros; do 2 eexists; split_and!; [done|by rewrite lookup_insert_eq|done].
Qed.

Lemma close_inv s r s' : close s = (r, s') -> conn_inv s'.
Proof.
  destruct s as [d w]. unfold close, unbind, unbind_session. meth_simpl.
  meth_cases; intros; simplify_eq; unfold conn_inv; simpl; congruence.
Qed.

(** The open/close wrapper preserves the invariant when its body does. *)
Lemma auto_open_inv {A} (body : Meth A) s r s' :
  (forall s r s', conn_inv s -> body s = (r, s') -> conn_inv s') ->
  conn_inv s -> auto_open body s = (r, s') -> conn_inv s'.
Proof.
  intros Hb Hinv. unfold auto_open. rewrite st_bind_run. cbn [self].
  rewrite st_bind_run. destruct (open s) as [[b1|e1] s1] eqn:Ho; [|intros [= _ <-]; eauto using open_inv].
  pose proof (open_inv _ _ _ Hinv Ho) as Hinv1. rewrite st_bind_run.
  destruct (body s1) as [[x|e2] s2] eqn:Hs; [|intros [= _ <-]; eauto].
  pose proof (Hb _ _ _ Hinv1 Hs) as Hinv2. rewrite st_bind_run.
  destruct (negb _); [|intros [= _ <-]; done].
  destruct (close s2) as [[] s3] eqn:Hc; intros [= _ <-]; eauto using close_inv.
Qed.

Lemma search_inv s r s' : conn_inv s -> search s = (r, s') -> conn_inv s'.
Proof.
  apply auto_open_inv. intros [d w] r0 s0 Hinv. unfold mbind, st_bind. cbn [self fst snd].
  intros Hs. eapply frame_conn_inv; [eapply _search_frame, Hs|done].
Qed.

Section Keeps.
Context {X : Type} (f : Obj -> X).
Hypothesis Hf : forall h b o, f (set_conn h b o) = f o.

Lemma keeps_bind {A B} (m : Meth A) (k : A -> Meth B) :
  keeps f m -> (forall a, keeps f (k a)) -> keeps f (m ≫= k).
Proof.
  intros Hm Hk s r s'. rewrite st_bind_run. destruct (m s) as [[a|e] s1] eqn:E.
  - intros H. rewrite (Hk _ _ _ _ H). exact (Hm _ _ _ E).
  - intros [= _ <-]. exact (Hm _ _ _ E).
Qed.

Lemma keeps_ret {A} (a : A) : keeps f (mret a).
Proof. by intros s r s' [= _ <-]. Qed.

Lemma keeps_raise {A} e : keeps f (raise e : Meth A).
Proof. by intros s r s' [= _ <-]. Qed.

Lemma keeps_self : keeps f self.
Proof. by intros s r s' [= _ <-]. Qed.

Lemma keeps_lift {A} (r : res A) : keeps f (lift r).
Proof. destruct r; [apply keeps_ret|apply keeps_raise]. Qed.

Lemma keeps_if {A} (b : bool) (m1 m2 : Meth A) : keeps f m1 -> keeps f m2 -> keeps f (if b then m1 else m2).
Proof. by destruct b. Qed.

Lemma _search_keeps b sc flt : keeps f (_search b sc flt).
Proof. intros s r s' H. by destruct (_search_frame _ _ _ _ _ _ H) as [-> _]. Qed.

Lemma keeps_update_self g : (forall o, f (g o) = f o) -> keeps f (update_self g).
Proof. intros Hg s r s' [= _ <-]. apply Hg. Qed.

Lemma keeps_set_conn h b : keeps f (update_self (set_conn h b)).
Proof. apply keeps_update_self. intros o. apply Hf. Qed.

Lemma open_keeps : keeps f open.
Proof.
  intros [d w] r s'. unfold open, initialize, start_tls_s, simple_bind_s.
  meth_simpl. destruct (_isopen (obj d)); [intros [= <- <-]; done|].
  meth_cases; intros; simplify_eq; simpl; rewrite ?Hf; reflexivity.
Qed.

Lemma close_keeps : keeps f close.
Proof.
  intros [d w] r s'. unfold close, unbind, unbind_session. meth_simpl.
  meth_cases; intros; simplify_eq; simpl; rewrite ?Hf; reflexivity.
Qed.

#[local] Hint Resolve keeps_bind keeps_ret keeps_raise keeps_self keeps_lift keeps_if
  keeps_set_conn open_keeps close_keeps _search_keeps : keeps.

Lemma auto_open_keeps {A} (body : Meth A) : keeps f body -> keeps f (auto_open body).
Proof. intros. unfold auto_open. auto 10 with keeps. Qed.

End Keeps.


Lemma conn_step_inv s s' : conn_step s s' -> conn_inv s -> conn_inv s'.
Proof.
  destruct 1; intros Hinv.
  - eapply open_inv; eauto.
  - eapply close_inv; eauto.
  - eapply frame_conn_inv; [eapply _search_frame; eauto | done].
  - eapply search_inv; eauto.
Qed.

(** C1: every state reachable by the connection's methods from a state that
    satisfies the invariant satisfies it: an open connection object always
    holds a live session on which a bind succeeded. *)
Theorem conn_reachable_inv s s' : rtc conn_step s s' -> conn_inv s -> conn_inv s'.
Proof. induction 1; eauto using conn_step_inv. Qed.

(** [close] returns normally and leaves the object closed. *)
Lemma close_closes d w : fst (close (d, w)) = Ok tt /\ _isopen (obj (fst (snd (close (d, w))))) = false.
Proof.
  unfold close, unbind, unbind_session. meth_simpl. cbn.
  destruct (_isopen (obj d)) eqn:E; [|done]. change ((d, w).1) with d.
  by destruct (_handle (obj d)).
Qed.

(** On an open connection the open/close wrapper is transparent. *)
Lemma auto_open_when_open {A} (body : Meth A) d w :
  _isopen (obj d) = true -> auto_open body (d, w) = body (d, w).
Proof.
  intros Ho. unfold auto_open, open. meth_simpl. cbn.
  destruct (_isopen (obj d)); [|discriminate]. cbn.
  by destruct (body (d, w)) as [[r|e] s'].
Qed.

(** A wrapped call that starts closed and returns normally ends closed,
    whatever the body does. *)
Lemma auto_open_closes {A} (body : Meth A) d w r d' w' :
  _isopen (obj d) = false -> auto_open body (d, w) = (Ok r, (d', w')) -> _isopen (obj d') = false.
Proof.
  intros Ho. unfold auto_open. rewrite st_bind_run. cbn [self fst snd]. rewrite Ho. cbn [negb].
  rewrite st_bind_run. destruct (open (d, w)) as [[b1|e1] s1]; [|inversion 1].
  rewrite st_bind_run. destruct (body s1) as [[x|e2] [d2 w2]]; [|inversion 1].
  rewrite st_bind_run. destruct (close_closes d2 w2) as [Hc Hi].
  destruct (close (d2, w2)) as [c [d3 w3]]. simpl in Hc, Hi. subst c.
  rewrite st_ret_run. by intros [= <- <- <-].
Qed.

(** Without a host there is nothing to connect to: [open] of a closed
    object without a handle changes nothing and reports failure. *)
Lemma open_no_host d w :
  _isopen (obj d) = false -> host (obj d) = None -> _handle (obj d) = None ->
  open (d, w) = (Ok false, (d, w)).
Proof. intros Ho Hh Hd. unfold open. meth_simpl. rewrite Ho, Hh. simpl. change ((d, w).1) with d. by rewrite Hd. Qed.

Lemma _search_not_open b sc f d w :
  _isopen (obj d) = false -> _search b sc f (d, w) = (Ok None, (d, w)).
Proof. intros Ho. unfold _search. meth_simpl. by rewrite Ho. Qed.

Lemma close_not_open d w : _isopen (obj d) = false -> close (d, w) = (Ok tt, (d, w)).
Proof. intros Ho. unfold close. meth_simpl. by rewrite Ho. Qed.

(** On an object without a host the wrapper runs its body once, with no
    connection, and closes nothing. *)
Lemma auto_open_no_host {A} (body : Meth A) d w :
  _isopen (obj d) = false -> host (obj d) = None -> _handle (obj d) = None ->
  auto_open body (d, w) =
    match body (d, w) with
    | (Ok r, s') => (close;; mret r) s'
    | (Raise e, s') => (Raise e, s')
    end.
Proof.
  intros Ho Hh Hd. unfold auto_open. rewrite st_bind_run. cbn [self fst snd].
  rewrite st_bind_run, (open_no_host d w Ho Hh Hd), st_bind_run, Ho. reflexivity.
Qed.

(** [open] on an open connection returns [True] and changes nothing: no
    new session, no bind. *)
Theorem open_idempotent d w : _isopen (obj d) = true -> open (d, w) = (Ok true, (d, w)).
Proof. intros Ho. unfold open. meth_simpl. by rewrite Ho. Qed.

(** [close] on a closed connection does nothing; on an open one it
    releases the session it held and leaves the object closed without a
    handle. *)
Theorem close_spec d w :
  close (d, w) =
    if _isopen (obj d) then
      (Ok tt, (mkDir (set_conn None false (obj d)) (_settings d),
               match _handle (obj d) with
               | Some id => set_sessions (delete id (w_sessions w)) w
               | None => w end))
    else (Ok tt, (d, w)).
Proof.
  unfold close, unbind, unbind_session. meth_simpl. cbn.
  destruct (_isopen (obj d)); [|done]. change ((d, w).1) with d.
  by destruct (_handle (obj d)).
Qed.

Lemma paged_loop_complete fuel h p b sc f size c pages acc d w :
  serves h p b sc f size c pages -> List.length pages <= fuel ->
  paged_loop fuel h p b sc f size c acc (d, w) =
    (Ok ((acc ++ List.concat pages)%list), (d, Nat.iter (List.length pages) count_search w)).
Proof.
  intros Hs. revert fuel acc w.
  induction Hs as [c rows ctrl Hp Hc|c rows c' pages Hp Hc Hs IH];
    intros [|fuel] acc w Hlen; simpl in *; try lia; meth_simpl; rewrite Hp.
  - destruct Hc as [-> | ->]; simpl; by rewrite app_nil_r.
  - destruct (String.eqb_spec c' "") as [?|_]; [done|].
    rewrite IH by lia. by rewrite app_assoc, <- Nat.iter_succ_r, Nat.iter_succ.
Qed.

(** C2: pagination completeness.  A paged [_search] on an open connection,
    not answered from the cache, returns the rows of every page the server
    serves, in order, and sends exactly one request per page, provided the
    number of pages is within the loop's bound. *)
Theorem _search_paged_complete d w b sc f key id ss pages :
  _isopen (obj d) = true -> _handle (obj d) = Some id -> w_sessions w !! id = Some ss ->
  (0 < pagesize (obj d))%Z ->
  cache_key env_sha256 (Some f) (host (obj d)) (port (obj d)) (Some b) = Ok key ->
  w_qcache w !! key = None ->
  serves (s_host ss) (s_port ss) b sc f (pagesize (obj d)) "" pages ->
  List.length pages <= env_page_bound ->
  _search (Some b) sc (Some f) (d, w) =
    (Ok (Some (List.concat pages)), (d, Nat.iter (List.length pages) count_search w)).
Proof.
  intros Ho Hh Hs Hp Hk Hq Hserv Hlen. unfold _search. meth_simpl.
  rewrite Ho, Hk. simpl. unfold qc_get. rewrite Hq, Hh. simpl. rewrite Hs. simpl.
  rewrite bool_decide_true by done.
  rewrite (paged_loop_complete _ _ _ _ _ _ _ _ _ _ _ _ Hserv Hlen). done.
Qed.

(** a plain search ([pagesize <= 0]) not answered from the cache sends
    one request, returns the rows of the server's messages up to and
    including the final result message, and stores them in the cache under
    the query's key. *)
Theorem _search_plain d w b sc f key id ss rs :
  _isopen (obj d) = true -> _handle (obj d) = Some id -> w_sessions w !! id = Some ss ->
  (pagesize (obj d) <= 0)%Z ->
  cache_key env_sha256 (Some f) (host (obj d)) (port (obj d)) (Some b) = Ok key ->
  w_qcache w !! key = None ->
  env_search (s_host ss) (s_port ss) b sc f = Some rs ->
  _search (Some b) sc (Some f) (d, w) =
    (Ok (Some (List.concat (collect rs))),
     (d, set_qcache (<[key := List.concat (collect rs)]> (w_qcache w)) (count_search w))).
Proof.
  intros Ho Hh Hs Hp Hk Hq Hr. unfold _search. meth_simpl.
  rewrite Ho, Hk. simpl. unfold qc_get. rewrite Hq, Hh. simpl. rewrite Hs. simpl.
  rewrite bool_decide_false by lia. simpl. rewrite Hr. done.
Qed.

(** a query whose key is in the cache is answered from it, with no
    request and no change of state -- whatever the page size, although the
    spec says paged searches bypass the cache. *)
Theorem _search_cache_hit d w b sc f key r :
  _isopen (obj d) = true ->
  cache_key env_sha256 (Some f) (host (obj d)) (port (obj d)) b = Ok key ->
  w_qcache w !! key = Some r ->
  _search b sc (Some f) (d, w) = (Ok (Some r), (d, w)).
Proof.
  intros Ho Hk Hq. unfold _search. meth_simpl. rewrite Ho, Hk. simpl.
  unfold qc_get. by rewrite Hq.
Qed.

Lemma bind_creds_set_conn h b o : bind_creds (set_conn h b o) = bind_creds o.
Proof. reflexivity. Qed.

Lemma set_conn_set_conn h b h' b' o : set_conn h b (set_conn h' b' o) = set_conn h b o.
Proof. reflexivity. Qed.

Lemma open_closed_run d w h p :
  _isopen (obj d) = false -> host (obj d) = Some h -> h <> "" -> port (obj d) = Some p ->
  let tls0 := bool_decide (ssl (obj d) = FREENAS_LDAP_USESSL) && env_tls h p in
  let usable := negb (bool_decide (ssl (obj d) = FREENAS_LDAP_USESSL)) || env_tls h p in
  let tls := tls0 || bool_decide (ssl (obj d) = FREENAS_LDAP_USETLS) && usable && env_tls h p in
  let ok := usable && env_bind h p (bind_creds (obj d)) in
  open (d, w) =
    (Ok ok,
     (mkDir (set_conn (Some (w_next w)) ok (obj d)) (_settings d),
      mkWorld (<[w_next w := mkSession h p usable tls ok]> (w_sessions w)) (S (w_next w))
        (w_searches w) (w_binds w ++ [mkBind h p (bind_creds (obj d)) tls ok])%list
        (w_qcache w) (w_caches w) (w_files w))).
Proof.
  intros Ho Hh Hne Hp. unfold open, initialize, start_tls_s, simple_bind_s.
  meth_simpl. rewrite Ho, Hh, Hp, (truthy_Some h Hne). simpl. rewrite !bind_creds_set_conn.
  destruct (env_tls h p) eqn:Ht, (bool_decide (ssl (obj d) = FREENAS_LDAP_USESSL)) eqn:Hs,
    (bool_decide (ssl (obj d) = FREENAS_LDAP_USETLS)) eqn:Hu,
    (env_bind h p (bind_creds (obj d))) eqn:Hb;
    simpl; rewrite ?lookup_insert_eq; simpl; rewrite ?Ht; simpl;
    rewrite ?lookup_insert_eq, ?insert_insert_eq; simpl; rewrite ?Hb; simpl;
    rewrite ?insert_insert_eq, ?set_conn_set_conn; reflexivity.
Qed.

(** bind fallback.  [open] on a closed connection without both a bind
    DN and a password sends exactly one bind, an anonymous one, and the
    connection is open exactly when that bind succeeds. *)
Theorem open_anonymous_bind d w h p :
  _isopen (obj d) = false -> host (obj d) = Some h -> h <> "" -> port (obj d) = Some p ->
  ssl (obj d) <> FREENAS_LDAP_USESSL ->
  truthy (binddn (obj d)) && truthy (bindpw (obj d)) = false ->
  exists enc w',
    open (d, w) = (Ok (env_bind h p None),
                   (mkDir (set_conn (Some (w_next w)) (env_bind h p None) (obj d)) (_settings d), w')) /\
    w_binds w' = (w_binds w ++ [mkBind h p None enc (env_bind h p None)])%list.
Proof.
  intros Ho Hh Hne Hp Hssl Hc. rewrite (open_closed_run d w h p Ho Hh Hne Hp).
  unfold bind_creds. rewrite Hc, (bool_decide_false _ Hssl). simpl. eauto.
Qed.

(** C34: when StartTLS is requested and fails, [open] swallows the error and
    binds anyway: the bind DN and password travel unencrypted, and the
    connection is reported open if the server accepts them. *)
Theorem open_starttls_failure_cleartext d w h p dn pw :
  _isopen (obj d) = false -> host (obj d) = Some h -> h <> "" -> port (obj d) = Some p ->
  ssl (obj d) = FREENAS_LDAP_USETLS ->
  binddn (obj d) = Some dn -> dn <> "" -> bindpw (obj d) = Some pw -> pw <> "" ->
  env_tls h p = false ->
  exists w',
    open (d, w) = (Ok (env_bind h p (Some (dn, pw))),
                   (mkDir (set_conn (Some (w_next w)) (env_bind h p (Some (dn, pw))) (obj d))
                      (_settings d), w')) /\
    w_binds w' = (w_binds w ++ [mkBind h p (Some (dn, pw)) false (env_bind h p (Some (dn, pw)))])%list.
Proof.
  intros Ho Hh Hne Hp Hssl Hdn Hdn' Hpw Hpw' Ht.
  rewrite (open_closed_run d w h p Ho Hh Hne Hp). unfold bind_creds.
  rewrite Hssl, Hdn, Hpw, (truthy_Some _ Hdn'), (truthy_Some _ Hpw'), Ht. simpl. eauto.
Qed.

(** C6: [search] on a closed connection that returns normally leaves the
    connection closed: the auto-open never outlives the call. *)
Theorem search_closes_what_it_opens d w r d' w' :
  _isopen (obj d) = false -> search (d, w) = (Ok r, (d', w')) -> _isopen (obj d') = false.
Proof. apply auto_open_closes. Qed.

Lemma restore_obj_same o : restore_obj o o = o.
Proof. destruct o; unfold restore_obj; simpl. by rewrite map_union_idemp. Qed.

(** [_restore] right after [_save] gives back the object exactly. *)
Theorem restore_after_save d w : (_save ;; _restore) (d, w) = (Ok tt, (d, w)).
Proof.
  rewrite st_bind_run. unfold _save, _restore. simpl. rewrite restore_obj_same.
  by destruct d.
Qed.

(** C35: [_save]; [close]; [open]; [_restore] -- the sequence the Active
    Directory enumeration performs around its per-domain reconnections --
    leaves an object that claims to be open on the handle it held before,
    whose session [close] has released: the connection invariant fails. *)
Theorem restore_resurrects_released_handle d w id ss h p :
  _isopen (obj d) = true -> _handle (obj d) = Some id -> w_sessions w !! id = Some ss ->
  (id < w_next w)%nat -> host (obj d) = Some h -> h <> "" -> port (obj d) = Some p ->
  exists d' w',
    (_save ;; close ;; open ;; _restore) (d, w) = (Ok tt, (d', w')) /\
    _isopen (obj d') = true /\ _handle (obj d') = Some id /\ w_sessions w' !! id = None /\
    ~ conn_inv (d', w').
Proof.
  intros Ho Hh Hs Hlt Hhost Hne Hp.
  rewrite st_bind_run. cbn [_save fst snd]. rewrite st_bind_run, close_spec. cbn [obj].
  rewrite Ho, Hh. cbn [_settings].
  rewrite st_bind_run, (open_closed_run _ _ h p); [|done|done|done|done].
  eexists _, _. split; [reflexivity|]. cbn. rewrite Ho, Hh.
  rewrite lookup_insert_ne by lia. rewrite lookup_delete_eq.
  split_and!; try done.
  unfold conn_inv. cbn. rewrite Ho, Hh. intros Hinv.
  destruct (Hinv eq_refl) as (id' & ss' & [= <-] & Hl & _).
  rewrite lookup_insert_ne, lookup_delete_eq in Hl by lia. discriminate.
Qed.

(** the constructor's port default: without a [port] argument the
    connection uses 636 when it ended up in SSL mode and 389 otherwise. *)
Theorem __init___default_port kw o :
  given kw "port" = false -> __init__ kw = Ok o ->
  port o = Some (if bool_decide (ssl o = FREENAS_LDAP_USESSL)
                 then FREENAS_LDAP_SSL_PORT else FREENAS_LDAP_PORT).
Proof.
  intros Hp Hi. unfold __init__, mbind, res_bind, mret, res_ret in Hi. rewrite Hp in Hi.
  simpl in Hi.
  destruct (given kw "ssl");
    [destruct (_setssl (kw_get kw "ssl")) as [t|e]; [|discriminate]|]; simpl in Hi.
  all: repeat (match type of Hi with context [match ?x with _ => _ end] => destruct x eqn:? end;
               simpl in Hi; simplify_eq).
  all: simpl; repeat case_bool_decide; naive_solver.
Qed.

End Properties.

#[export] Hint Resolve keeps_bind keeps_ret keeps_raise keeps_self keeps_lift keeps_if
  keeps_update_self keeps_set_conn open_keeps close_keeps _search_keeps auto_open_keeps : keeps.
#[export] Hint Extern 1 (forall _ _ _, _ = _) => intros; reflexivity : keeps.
#[export] Hint Extern 1 (forall _, _ = _) => intros; reflexivity : keeps.

(** ** Witnesses *)

#[local] Existing Instance demo_env.

Definition demo_rows : list Entry := map demo_row ["a"; "b"; "c"; "d"; "e"].

Lemma conn_reachable_inv_witness :
  conn_inv (snd (open (new_dir (demo_obj "(uid=*)" 0 false), demo_world))).
Proof.
  apply (conn_reachable_inv (new_dir (demo_obj "(uid=*)" 0 false), demo_world)).
  - apply rtc_once. eapply step_open. reflexivity.
  - simpl. discriminate.
Defined.

Lemma open_idempotent_witness :
  open (new_dir (demo_obj "(uid=*)" 0 true), demo_open_world) =
    (Ok true, (new_dir (demo_obj "(uid=*)" 0 true), demo_open_world)).
Proof. apply open_idempotent. reflexivity. Defined.

Lemma _search_paged_complete_witness :
  _search (Some "dc=x") SCOPE_SUBTREE (Some "(uid=*)")
    (new_dir (demo_obj "(uid=*)" 2 true), demo_open_world) =
  (Ok (Some demo_rows),
   (new_dir (demo_obj "(uid=*)" 2 true), Nat.iter 3 count_search demo_open_world)).
Proof.
  apply (_search_paged_complete _ _ _ _ _ "(uid=*)ldap1389dc=x" 0
           (mkSession "ldap1" 389 true false true)
           [[demo_row "a"; demo_row "b"]; [demo_row "c"; demo_row "d"]; [demo_row "e"]]).
  all: try reflexivity; try (simpl; lia).
  eapply serves_next; [reflexivity|discriminate|].
  eapply serves_next; [reflexivity|discriminate|].
  eapply serves_last; [reflexivity|right; reflexivity].
Defined.

Definition demo_resps : list Resp :=
  [RMsg RES_SEARCH_ENTRY [demo_row "a"]; RMsg RES_SEARCH_ENTRY [demo_row "b"];
   RMsg RES_SEARCH_RESULT []].

Lemma _search_plain_witness :
  _search (Some "dc=x") SCOPE_SUBTREE (Some "(uid=*)")
    (new_dir (demo_obj "(uid=*)" 0 true), demo_open_world) =
  (Ok (Some (List.concat (collect demo_resps))),
   (new_dir (demo_obj "(uid=*)" 0 true),
    set_qcache (<["(uid=*)ldap1389dc=x" := List.concat (collect demo_resps)]>
                  (w_qcache demo_open_world))
      (count_search demo_open_world))).
Proof.
  apply (_search_plain _ _ _ _ _ _ 0 (mkSession "ldap1" 389 true false true) demo_resps).
  all: try reflexivity; simpl; lia.
Defined.

Lemma _search_cache_hit_witness :
  _search (Some "dc=x") SCOPE_SUBTREE (Some "(uid=*)")
    (new_dir (demo_obj "(uid=*)" 2 true),
     set_qcache {["(uid=*)ldap1389dc=x" := [demo_row "z"]]} demo_open_world) =
  (Ok (Some [demo_row "z"]),
   (new_dir (demo_obj "(uid=*)" 2 true),
    set_qcache {["(uid=*)ldap1389dc=x" := [demo_row "z"]]} demo_open_world)).
Proof. apply (_search_cache_hit _ _ _ _ _ "(uid=*)ldap1389dc=x"); reflexivity. Defined.

Lemma open_anonymous_bind_witness :
  exists enc w',
    open (new_dir (demo_obj "(uid=*)" 0 false), demo_world) =
      (Ok (env_bind "ldap1" 389 None),
       (mkDir (set_conn (Some (w_next demo_world)) (env_bind "ldap1" 389 None)
                 (obj (new_dir (demo_obj "(uid=*)" 0 false))))
              (_settings (new_dir (demo_obj "(uid=*)" 0 false))), w')) /\
    w_binds w' = (w_binds demo_world ++ [mkBind "ldap1" 389 None enc (env_bind "ldap1" 389 None)])%list.
Proof.
  apply (open_anonymous_bind (new_dir (demo_obj "(uid=*)" 0 false)) demo_world "ldap1" 389).
  all: try reflexivity; discriminate.
Defined.

Definition demo_tls_obj : Obj :=
  mkObj (Some "ldap1") (Some 389%Z) (Some "cn=admin") (Some "secret") (Some "dc=x")
    FREENAS_LDAP_USETLS SCOPE_SUBTREE (Some "(uid=*)") None 0 0 None false ∅.

Lemma open_starttls_failure_cleartext_witness :
  exists w',
    open (new_dir demo_tls_obj, demo_world) =
      (Ok (env_bind "ldap1" 389 (Some ("cn=admin", "secret"))),
       (mkDir (set_conn (Some (w_next demo_world)) (env_bind "ldap1" 389 (Some ("cn=admin", "secret")))
                 (obj (new_dir demo_tls_obj)))
              (_settings (new_dir demo_tls_obj)), w')) /\
    w_binds w' = (w_binds demo_world ++ [mkBind "ldap1" 389 (Some ("cn=admin", "secret")) false
                                           (env_bind "ldap1" 389 (Some ("cn=admin", "secret")))])%list.
Proof.
  apply (open_starttls_failure_cleartext (new_dir demo_tls_obj) demo_world "ldap1" 389
           "cn=admin" "secret").
  all: try reflexivity; discriminate.
Defined.

Lemma search_closes_what_it_opens_witness :
  _isopen (obj (fst (snd (search (new_dir (demo_obj "(uid=*)" 2 false), demo_world))))) = false.
Proof.
  destruct (search (new_dir (demo_obj "(uid=*)" 2 false), demo_world)) as [r [d' w']] eqn:E.
  destruct r as [x|e]; [|discriminate].
  exact (search_closes_what_it_opens (new_dir (demo_obj "(uid=*)" 2 false)) demo_world _ _ _ eq_refl E).
Defined.

Lemma restore_resurrects_released_handle_witness :
  exists d' w',
    (_save ;; close ;; open ;; _restore) (new_dir (demo_obj "(uid=*)" 0 true), demo_open_world)
      = (Ok tt, (d', w')) /\
    _isopen (obj d') = true /\ _handle (obj d') = Some 0 /\ w_sessions w' !! 0 = None /\
    ~ conn_inv (d', w').
Proof.
  apply (restore_resurrects_released_handle _ _ 0 (mkSession "ldap1" 389 true false true)
           "ldap1" 389).
  all: try reflexivity; try discriminate. simpl. lia.
Defined.

Lemma __init___default_port_witness :
  port (mkObj None (Some 636%Z) None None None FREENAS_LDAP_USESSL SCOPE_SUBTREE None None 0 0
          None false ∅) = Some FREENAS_LDAP_SSL_PORT.
Proof.
  exact (__init___default_port {["ssl" := PStr "on"]} _ eq_refl eq_refl).
Defined.

(** a failing paged request raises out of [search] after [open]
    succeeded, so the connection [search] opened is left open. *)
Theorem search_raise_leaves_open :
  exists d' w',
    search (new_dir (demo_obj "(broken)" 2 false), demo_world) = (Raise LDAPError, (d', w')) /\
    _isopen (obj d') = true.
Proof.
  exists (search (new_dir (demo_obj "(broken)" 2 false), demo_world)).2.1,
         (search (new_dir (demo_obj "(broken)" 2 false), demo_world)).2.2.
  split; vm_compute; reflexivity.
Qed.

End Directory.
