(* ===== verification/LdapBackend.v ===== *)
(** * LdapBackend: [FreeNAS_LDAP_Base] and [FreeNAS_LDAP] (freenasldap.py 394-657)

    The POSIX LDAP specialisation of the connection: its two constructors
    (from the configuration database, or from keyword arguments), the
    attributes it adds to the object ([usersuffix], [groupsuffix], ...,
    kept in the object's [fields]), and the four query methods, each of
    which opens the connection around one [_search] and closes it again if
    it was closed. *)

From S2P Require Import Prelude Config QueryCache Directory.

Module LdapBackend.
Import Config QueryCache Directory.

(** ** Filters and base DNs (513-648) *)

Definition USERS_FILTER : string := "(&(|(objectclass=person)(objectclass=account))(uid=*))".
Definition GROUPS_FILTER : string := "(&(objectclass=posixgroup)(gidnumber=*))".

(** The filter of [get_user]: by uid number for an integer or a string of
    digits, by [uid] or [cn] otherwise; the name is inserted verbatim. *)
Definition user_filter (user : pyval) : res string :=
  match user with
  | PInt n => Ok ("(&(|(objectclass=person)(objectclass=account))(uidnumber=" ++ pretty n ++ "))")
  | PStr s =>
      if isdigit s
      then Ok ("(&(|(objectclass=person)(objectclass=account))(uidnumber=" ++ s ++ "))")
      else Ok ("(&(|(objectclass=person)(objectclass=account))(|(uid=" ++ s ++ ")(cn=" ++ s ++ ")))")
  | _ => Raise (AttributeError "isdigit")
  end.

Definition group_filter (group : pyval) : res string :=
  match group with
  | PInt n => Ok ("(&(objectclass=posixgroup)(gidnumber=" ++ pretty n ++ "))")
  | PStr s =>
      if isdigit s then Ok ("(&(objectclass=posixgroup)(gidnumber=" ++ s ++ "))")
      else Ok ("(&(objectclass=posixgroup)(cn=" ++ s ++ "))")
  | _ => Raise (AttributeError "isdigit")
  end.

(** [basedn] of [get_users]/[get_groups]: ["%s,%s" % (suffix, self.basedn)]
    when the suffix is set, else ["%s" % self.basedn]. *)
Definition suffixed_base (suffix : pyval) (basedn : option string) : string :=
  if py_truthy suffix then py_fmt suffix ++ "," ++ py_str basedn else py_str basedn.

(** [basedn] of [get_user]: the suffixed base only when both are set, the
    base alone when only it is set, and the default [""] otherwise. *)
Definition user_base (suffix : pyval) (basedn : option string) : string :=
  if py_truthy suffix && truthy basedn then py_fmt suffix ++ "," ++ py_str basedn
  else if truthy basedn then py_str basedn
  else "".

(** ** Constructors (395-511) *)

(** A row of [ldap_objects()] (a [services_ldap] row as a dict). *)
Definition row_get (row : kwargs) (k : string) : res pyval :=
  match row !! k with Some v => Ok v | None => Raise (KeyError k) end.

(** The attributes the LDAP constructors add, in the order they set them. *)
Definition ldap_attr_names : list string :=
  ["rootbasedn"; "rootbindpw"; "usersuffix"; "groupsuffix"; "machinesuffix";
   "passwordsuffix"; "pwencryption"; "anonbind"].

Definition set_fields (kvs : list (string * pyval)) (o : Obj) : Obj :=
  foldl (fun o kv => set_field kv.1 kv.2 o) o kvs.

(** The keyword arguments both constructors pass to
    [FreeNAS_LDAP_Directory.__init__]. *)
Definition dir_args (binddn bindpw basedn ssl host port : pyval) (kw : kwargs) : kwargs :=
  let args : kwargs := <["binddn" := binddn]> (<["bindpw" := bindpw]>
                         (<["basedn" := basedn]> (<["ssl" := ssl]> ∅))) in
  let args := if py_truthy host
              then <["host" := host]> (if py_truthy port then <["port" := port]> args else args)
              else args in
  if kw_has kw "flags" then <["flags" := kw_get kw "flags"]> args else args.

(** [__db_init__] (395-444), from the rows of [services_ldap]. *)
Definition __db_init__ (rows : list kwargs) (kw : kwargs) : res Obj :=
  row ← (match rows with r :: _ => Ok r | [] => Raise IndexError end);
  tmphost ← row_get row "ldap_hostname";
  '(host0, port0) ← (if py_truthy tmphost then
                        parts ← pv_split tmphost;
                        match parts with
                        | h :: p :: _ => if String.eqb p "" then mret (PStr h, PNone)
                                         else (n ← py_long (PStr p); mret (PStr h, PInt n))
                        | h :: _ => mret (PStr h, PNone)
                        | [] => mret (PNone, PNone)
                        end
                      else mret (PNone, PNone));
  anonbind ← row_get row "ldap_anonbind";
  '(binddn0, bindpw0) ← (if py_truthy anonbind then mret (PNone, PNone)
                          else (dn ← row_get row "ldap_rootbasedn";
                                pw ← row_get row "ldap_rootbindpw"; mret (dn, pw)));
  basedn0 ← row_get row "ldap_basedn";
  let ssl0 := if kw_has row "ldap_ssl" && py_truthy (kw_get row "ldap_ssl")
              then kw_get row "ldap_ssl" else PInt FREENAS_LDAP_NOSSL in
  o ← __init__ (dir_args binddn0 bindpw0 basedn0 ssl0 host0 port0 kw);
  vals ← mapM (fun k => row_get row ("ldap_" ++ k)) ldap_attr_names;
  mret (set_fields (zip ldap_attr_names vals) o).

(** [__no_db_init__] (446-498), from keyword arguments.  [port] is a local
    that only the [if tmphost:] branch assigns; reading it otherwise raises
    [UnboundLocalError]. *)
Definition __no_db_init__ (kw : kwargs) : res Obj :=
  let tmphost := kw_get kw "host" in
  '(host0, port0) ← (if py_truthy tmphost then
                        parts ← pv_split tmphost;
                        let h := match parts with h :: _ => h | [] => "" end in
                        p0 ← (if kw_has kw "port" then (n ← py_long (kw_get kw "port"); mret (PInt n))
                              else mret PNone);
                        p1 ← (if bool_decide (p0 = PNone) then
                                match parts with
                                | _ :: t :: _ => n ← py_long (PStr t); mret (PInt n)
                                | _ => mret PNone
                                end
                              else mret p0);
                        mret (PStr h, Some p1)
                      else mret (PNone, None));
  port1 ← (if kw_has kw "port" && py_truthy (kw_get kw "port") then
             match port0 with
             | None => Raise (UnboundLocalError "port")
             | Some p => if py_truthy p then mret (Some p)
                         else (n ← py_long (kw_get kw "port"); mret (Some (PInt n)))
             end
           else mret port0);
  let anonbind := kw_get kw "anonbind" in
  let '(binddn0, bindpw0) := if py_truthy anonbind then (PNone, PNone)
                             else (kw_get kw "binddn", kw_get kw "bindpw") in
  let ssl0 := if kw_has kw "ssl" && py_truthy (kw_get kw "ssl")
              then kw_get kw "ssl" else PInt FREENAS_LDAP_NOSSL in
  o ← __init__ (dir_args binddn0 bindpw0 (kw_get kw "basedn") ssl0 host0
                  (default PNone port1) kw);
  mret (set_fields (map (fun k => (k, kw_get kw k)) ldap_attr_names) o).

(** [FreeNAS_LDAP_Base.__init__] (500-511): [__db_init__] when the flags
    carry [FLAGS_DBINIT], then the counters. *)
Definition ldap_init (rows : list kwargs) (kw : kwargs) : res Obj :=
  dbinit ← (if kw_has kw "flags" then (f ← pv_int (kw_get kw "flags");
                                       mret (has_flag f FLAGS_DBINIT))
            else mret false);
  o ← (if (dbinit : bool) then __db_init__ rows kw else __no_db_init__ kw);
  mret (set_field "gcount" (PInt 0) (set_field "ucount" (PInt 0) o)).

Section Methods.
Context {DE : DirectoryEnv}.

(** ** Queries (513-648) *)

Definition get_user (user : pyval) : Meth (option Entry) :=
  if bool_decide (user = PNone) then raise (AssertionError "user is None") else
  auto_open (
    filter ← lift (user_filter user);
    o ← self;
    us ← lift (get_field o "usersuffix");
    results ← _search (Some (user_base us (basedn o))) SCOPE_SUBTREE (Some filter);
    mret (first_with_dn results)).

Definition get_users : Meth (list Entry) :=
  auto_open (
    o ← self;
    us ← lift (get_field o "usersuffix");
    results ← _search (Some (suffixed_base us (basedn o))) SCOPE_SUBTREE (Some USERS_FILTER);
    mret (all_with_dn results)).

Definition get_group (group : pyval) : Meth (option Entry) :=
  if bool_decide (group = PNone) then raise (AssertionError "group is None") else
  auto_open (
    filter ← lift (group_filter group);
    o ← self;
    gs ← lift (get_field o "groupsuffix");
    results ← _search (Some (suffixed_base gs (basedn o))) SCOPE_SUBTREE (Some filter);
    mret (first_with_dn results)).

Definition get_groups : Meth (list Entry) :=
  auto_open (
    o ← self;
    gs ← lift (get_field o "groupsuffix");
    results ← _search (Some (suffixed_base gs (basedn o))) SCOPE_SUBTREE (Some GROUPS_FILTER);
    mret (all_with_dn results)).

End Methods.

(** ** Properties *)

Section Properties.
Context {DE : DirectoryEnv}.

(** every query method of the LDAP backend, called on a closed
    connection, leaves it closed when it returns normally: [get_user],
    [get_users], [get_group] and [get_groups] close what they open. *)
Theorem ldap_queries_close d w :
  _isopen (obj d) = false ->
  (forall u r d' w', get_user u (d, w) = (Ok r, (d', w')) -> _isopen (obj d') = false) /\
  (forall r d' w', get_users (d, w) = (Ok r, (d', w')) -> _isopen (obj d') = false) /\
  (forall g r d' w', get_group g (d, w) = (Ok r, (d', w')) -> _isopen (obj d') = false) /\
  (forall r d' w', get_groups (d, w) = (Ok r, (d', w')) -> _isopen (obj d') = false).
Proof.
  intros Ho. split; [|split; [|split]].
  - intros u r d' w'. unfold get_user. case_bool_decide. { intros Hr. discriminate Hr. }
    eapply auto_open_closes; exact Ho.
  - intros r d' w'. unfold get_users, get_groups. eapply auto_open_closes; exact Ho.
  - intros u r d' w'. unfold get_group. case_bool_decide. { intros Hr. discriminate Hr. }
    eapply auto_open_closes; exact Ho.
  - intros r d' w'. unfold get_users, get_groups. eapply auto_open_closes; exact Ho.
Qed.

(** [get_users] on an open connection runs one [_search] under the
    users' base DN ([usersuffix,basedn] when a suffix is set) with the
    POSIX account filter and returns exactly the rows that carry a DN, in
    the order of the result. *)
Theorem get_users_spec d w us r s' :
  _isopen (obj d) = true -> get_field (obj d) "usersuffix" = Ok us ->
  _search (Some (suffixed_base us (basedn (obj d)))) SCOPE_SUBTREE (Some USERS_FILTER) (d, w)
    = (Ok r, s') ->
  get_users (d, w) = (Ok (all_with_dn r), s').
Proof.
  intros Ho Hu Hs. unfold get_users. rewrite (auto_open_when_open _ _ _ Ho).
  rewrite st_bind_run. cbn [self fst snd]. rewrite st_bind_run, Hu. simpl.
  rewrite st_bind_run, Hs. reflexivity.
Qed.

(** [get_user] on an open connection runs one [_search] with the filter
    built from the name or uid, and returns the first row with a DN. *)
Theorem get_user_spec d w user flt us r s' :
  user <> PNone -> _isopen (obj d) = true ->
  user_filter user = Ok flt -> get_field (obj d) "usersuffix" = Ok us ->
  _search (Some (user_base us (basedn (obj d)))) SCOPE_SUBTREE (Some flt) (d, w) = (Ok r, s') ->
  get_user user (d, w) = (Ok (first_with_dn r), s').
Proof.
  intros Hn Ho Hf Hu Hs. unfold get_user. rewrite bool_decide_false by done.
  rewrite (auto_open_when_open _ _ _ Ho), st_bind_run, Hf. simpl.
  rewrite st_bind_run. cbn [self fst snd]. rewrite st_bind_run, Hu. simpl.
  rewrite st_bind_run, Hs. reflexivity.
Qed.

(** [get_user(None)] and [get_group(None)] raise [AssertionError]
    before touching the connection or the world. *)
Theorem get_user_group_None s :
  get_user PNone s = (Raise (AssertionError "user is None"), s) /\
  get_group PNone s = (Raise (AssertionError "group is None"), s).
Proof. split; reflexivity. Qed.

End Properties.

(** [__no_db_init__] with a [port] argument but no host raises
    [UnboundLocalError]: [port] is assigned only under [if tmphost:]. *)
Theorem __no_db_init___port_without_host kw :
  py_truthy (kw_get kw "host") = false -> kw_has kw "port" = true ->
  py_truthy (kw_get kw "port") = true ->
  __no_db_init__ kw = Raise (UnboundLocalError "port").
Proof.
  intros Hh Hp Hv. unfold __no_db_init__, mbind, res_bind, mret, res_ret.
  rewrite Hh, Hp, Hv. reflexivity.
Qed.

(** ** Witnesses *)

#[local] Existing Instance demo_env.

Definition demo_ldap_obj (opened : bool) : Obj :=
  set_field "usersuffix" (PStr "ou=users") (demo_obj USERS_FILTER 0 opened).

Lemma ldap_queries_close_witness :
  _isopen (obj (new_dir (demo_ldap_obj false))) = false /\
  (forall r d' w', get_users (new_dir (demo_ldap_obj false), demo_world) = (Ok r, (d', w')) ->
     _isopen (obj d') = false).
Proof.
  split; [reflexivity|].
  exact (proj1 (proj2 (ldap_queries_close (new_dir (demo_ldap_obj false)) demo_world eq_refl))).
Defined.

Definition demo_user_filter : string :=
  "(&(|(objectclass=person)(objectclass=account))(|(uid=alice)(cn=alice)))".

Lemma get_users_spec_witness :
  get_users (new_dir (demo_ldap_obj true), demo_open_world) =
  (Ok (all_with_dn (Some [demo_row "a"; demo_row "b"])),
   snd (_search (Some "ou=users,dc=x") SCOPE_SUBTREE (Some USERS_FILTER)
          (new_dir (demo_ldap_obj true), demo_open_world))).
Proof.
  apply (get_users_spec _ _ (PStr "ou=users")); [reflexivity|reflexivity|].
  vm_compute. reflexivity.
Defined.

Lemma get_user_spec_witness :
  get_user (PStr "alice") (new_dir (demo_ldap_obj true), demo_open_world) =
  (Ok (first_with_dn (Some [demo_row "a"; demo_row "b"])),
   snd (_search (Some "ou=users,dc=x") SCOPE_SUBTREE (Some demo_user_filter)
          (new_dir (demo_ldap_obj true), demo_open_world))).
Proof.
  apply (get_user_spec _ _ _ demo_user_filter (PStr "ou=users")); [discriminate|reflexivity|reflexivity|reflexivity|].
  vm_compute. reflexivity.
Defined.

Lemma __no_db_init___port_without_host_witness :
  __no_db_init__ {["port" := PInt 389]} = Raise (UnboundLocalError "port").
Proof. apply __no_db_init___port_without_host; reflexivity. Defined.

End LdapBackend.
