(* ===== verification/Discovery.v ===== *)
(** * Discovery: DNS SRV discovery of domain controllers and global catalogs

    [FreeNAS_ActiveDirectory_Base.get_domain_controllers] and
    [get_global_catalogs] (freenasldap.py 662-708): one SRV query for
    [_ldap._tcp.<domain>] or [_gc._tcp.<domain>], its answers sorted by
    [(int(a.priority), int(a.weight))], and an empty list for a false
    domain or any failure of the query.  The resolver is [env_srv] of
    [DirectoryEnv].  Python's [sorted] is stable; it is modelled by an
    insertion sort, and the theorems characterise the result completely:
    ordered, a permutation of the answers, and answers of equal key in the
    resolver's order. *)

From S2P Require Import Prelude Config Directory.

Module Discovery.
Import Config Directory.

(** ** The sort key and its order *)

(** The key [(int(a.priority), int(a.weight))]. *)
Definition srv_key (a : SrvRecord) : Z * Z := (srv_priority a, srv_weight a).

(** Python's tuple comparison [k1 < k2]. *)
Definition key_ltb (k1 k2 : Z * Z) : bool :=
  (k1.1 <? k2.1)%Z || ((k1.1 =? k2.1)%Z && (k1.2 <? k2.2)%Z).

(** [a] may come before [b]: the key of [b] is not smaller. *)
Definition srv_le (a b : SrvRecord) : Prop := key_ltb (srv_key b) (srv_key a) = false.

(** ** [sorted(answers, key=...)] *)

(** Insert [x] in front of the first element whose key is not smaller, so
    that [x] precedes the elements that share its key. *)
Fixpoint srv_insert (x : SrvRecord) (l : list SrvRecord) : list SrvRecord :=
  match l with
  | [] => [x]
  | y :: l' => if key_ltb (srv_key y) (srv_key x) then y :: srv_insert x l' else x :: l
  end.

Definition sort_srv (l : list SrvRecord) : list SrvRecord := foldr srv_insert [] l.

(** ** The lookups (662-708) *)

Section Lookup.
Context {DE : DirectoryEnv}.

(** The shared body of both lookups: [if not domain: return []]; the
    query of ["<service>%s" % domain]; [except:] turns any failure into
    [[]]. *)
Definition srv_lookup (service : string) (domain : pyval) : list SrvRecord :=
  if negb (py_truthy domain) then [] else
  match env_srv (service ++ py_fmt domain) with
  | Some answers => sort_srv answers
  | None => []
  end.

Definition get_domain_controllers (domain : pyval) : list SrvRecord :=
  srv_lookup "_ldap._tcp." domain.

Definition get_global_catalogs (domain : pyval) : list SrvRecord :=
  srv_lookup "_gc._tcp." domain.

End Lookup.

(** ** Properties of the order *)

Lemma key_ltb_irrefl k : key_ltb k k = false.
Proof. unfold key_ltb. destruct k as [p w]; simpl. by rewrite !Z.ltb_irrefl, andb_false_r. Qed.

Lemma key_ltb_asym k1 k2 : key_ltb k1 k2 = true -> key_ltb k2 k1 = false.
Proof.
  unfold key_ltb. destruct k1 as [p1 w1], k2 as [p2 w2]; simpl.
  rewrite !orb_true_iff, !andb_true_iff, !Z.ltb_lt, !Z.eqb_eq.
  intros H. apply not_true_is_false.
  rewrite !orb_true_iff, !andb_true_iff, !Z.ltb_lt, !Z.eqb_eq. lia.
Qed.

Lemma key_ltb_ne k1 k2 : key_ltb k1 k2 = true -> k1 <> k2.
Proof. intros H ->. by rewrite key_ltb_irrefl in H. Qed.

Lemma key_ltb_false k1 k2 :
  key_ltb k1 k2 = false <-> (k2.1 < k1.1 \/ k2.1 = k1.1 /\ k2.2 <= k1.2)%Z.
Proof.
  unfold key_ltb. rewrite <- not_true_iff_false, orb_true_iff, andb_true_iff, Z.ltb_lt, Z.eqb_eq, Z.ltb_lt.
  lia.
Qed.

Lemma srv_le_refl a : srv_le a a.
Proof. apply key_ltb_irrefl. Qed.

#[export] Instance srv_le_trans : Transitive srv_le.
Proof. intros a b c. unfold srv_le. rewrite !key_ltb_false. lia. Qed.

(** ** Properties of the sort *)

Lemma srv_insert_perm x l : srv_insert x l ≡ₚ x :: l.
Proof.
  induction l as [|y l IH]; simpl; [done|].
  destruct (key_ltb _ _); [|done]. by rewrite IH, Permutation_swap.
Qed.

Lemma srv_insert_hd a x l : HdRel srv_le a l -> srv_le a x -> HdRel srv_le a (srv_insert x l).
Proof.
  destruct l as [|y l]; simpl; [by constructor|].
  inversion 1; subst. destruct (key_ltb _ _); by constructor.
Qed.

Lemma srv_insert_sorted x l : Sorted srv_le l -> Sorted srv_le (srv_insert x l).
Proof.
  induction 1 as [|y l Hs IH Hd]; simpl; [by repeat constructor|].
  destruct (key_ltb (srv_key y) (srv_key x)) eqn:E.
  - constructor; [done|]. apply srv_insert_hd; [done|]. by apply key_ltb_asym.
  - by repeat constructor.
Qed.

Lemma srv_insert_stable x l k :
  filter (fun y => srv_key y = k) (srv_insert x l) = filter (fun y => srv_key y = k) (x :: l).
Proof.
  induction l as [|y l IH]; simpl; [done|].
  destruct (key_ltb (srv_key y) (srv_key x)) eqn:E; [|done].
  pose proof (key_ltb_ne _ _ E) as Hne.
  rewrite filter_cons, IH, !filter_cons.
  destruct (decide (srv_key x = k)), (decide (srv_key y = k)); congruence.
Qed.

Lemma sort_srv_perm l : sort_srv l ≡ₚ l.
Proof. induction l as [|x l IH]; simpl; [done|]. by rewrite srv_insert_perm, IH. Qed.

Lemma sort_srv_sorted l : Sorted srv_le (sort_srv l).
Proof. induction l; simpl; [constructor|]. by apply srv_insert_sorted. Qed.

Lemma sort_srv_stable l k :
  filter (fun y => srv_key y = k) (sort_srv l) = filter (fun y => srv_key y = k) l.
Proof.
  induction l as [|x l IH]; simpl; [done|].
  by rewrite srv_insert_stable, !filter_cons, IH.
Qed.

Abbreviation key_filter k := (filter (fun y => srv_key y = k)).

Section LookupProperties.
Context {DE : DirectoryEnv}.

(** C10: [get_domain_controllers] of a domain whose SRV query answers
    returns those answers ordered by [(priority, weight)], all of them
    and nothing else, with the answers of equal key in the resolver's
    order (Python's [sorted] is stable). *)
Theorem get_domain_controllers_sorted domain answers :
  py_truthy domain = true -> env_srv ("_ldap._tcp." ++ py_fmt domain) = Some answers ->
  let dcs := get_domain_controllers domain in
  Sorted srv_le dcs /\ dcs ≡ₚ answers /\ (forall k, key_filter k dcs = key_filter k answers).
Proof.
  intros Hd Hq. unfold get_domain_controllers, srv_lookup. rewrite Hd, Hq. simpl.
  split; [apply sort_srv_sorted|split; [apply sort_srv_perm|apply sort_srv_stable]].
Qed.

(** discovery never raises: a false domain gives no candidates and no
    query, and a failed SRV query gives no candidates, for controllers and
    global catalogs alike. *)
Theorem srv_lookup_failure domain :
  (py_truthy domain = false -> get_domain_controllers domain = [] /\ get_global_catalogs domain = []) /\
  (env_srv ("_ldap._tcp." ++ py_fmt domain) = None -> get_domain_controllers domain = []) /\
  (env_srv ("_gc._tcp." ++ py_fmt domain) = None -> get_global_catalogs domain = []).
Proof.
  unfold get_domain_controllers, get_global_catalogs, srv_lookup.
  split; [intros ->; done|split; intros ->; by destruct (py_truthy domain)].
Qed.

End LookupProperties.

(** ** Witnesses *)

Definition srv_a : SrvRecord := mkSrv 10 50 389 "dc-a.example.com".
Definition srv_b : SrvRecord := mkSrv 0 100 389 "dc-b.example.com".
Definition srv_c : SrvRecord := mkSrv 10 20 389 "dc-c.example.com".
Definition srv_d : SrvRecord := mkSrv 10 20 3268 "dc-d.example.com".

(** A resolver that knows the controllers of [example.com]. *)
Definition srv_env : DirectoryEnv := {|
  env_tls := @env_tls demo_env;
  env_bind := @env_bind demo_env;
  env_search := @env_search demo_env;
  env_page := @env_page demo_env;
  env_page_bound := @env_page_bound demo_env;
  env_srv := fun q => if String.eqb q "_ldap._tcp.example.com"
                      then Some [srv_a; srv_b; srv_c; srv_d] else None;
  env_getpwnam := @env_getpwnam demo_env;
  env_getpwuid := @env_getpwuid demo_env;
  env_getgrnam := @env_getgrnam demo_env;
  env_getgrgid := @env_getgrgid demo_env;
  env_sha256 := @env_sha256 demo_env |}.

Lemma get_domain_controllers_sorted_witness :
  @get_domain_controllers srv_env (PStr "example.com") = [srv_b; srv_c; srv_d; srv_a] /\
  (let dcs := @get_domain_controllers srv_env (PStr "example.com") in
   Sorted srv_le dcs /\ dcs ≡ₚ [srv_a; srv_b; srv_c; srv_d] /\
   (forall k, key_filter k dcs = key_filter k [srv_a; srv_b; srv_c; srv_d])).
Proof.
  split; [reflexivity|].
  apply (@get_domain_controllers_sorted srv_env); reflexivity.
Defined.

End Discovery.
