(* ===== verification/ADQueries.v ===== *)
(** * ADQueries: the queries of [FreeNAS_ActiveDirectory_Base]
    (freenasldap.py 970-1414)

    The rootDSE queries ([get_rootDSE], [get_rootDN], [get_baseDN],
    [get_config]), the crossref queries ([get_netbios_name],
    [get_partitions], [get_root_domain], [get_domain]), the forest-wide
    enumeration [get_domains] through a global catalog, the user and group
    queries with the security-principal bit filter, and the count
    accessors.  Every query has the open/close shape [auto_open] of the
    connection; the attributes the Active Directory constructor adds
    ([domain], [netbiosname], [gchost], [ucount], ...) live in the
    object's [fields]. *)

From S2P Require Import Prelude Config QueryCache Directory Discovery.

Module ADQueries.
Import Config QueryCache Directory Discovery.

(** ** Reading a result row *)

(** [results[0][1][k][0]]: [None] has no items ([TypeError]), an empty
    result or attribute list has no first element ([IndexError]), a
    missing attribute is a [KeyError]. *)
Definition attr0 (results : option (list Entry)) (k : string) : res string :=
  match results with
  | None => Raise TypeError
  | Some [] => Raise IndexError
  | Some (e :: _) =>
      match e_attrs e !! k with
      | None => Raise (KeyError k)
      | Some [] => Raise IndexError
      | Some (v :: _) => Ok v
      end
  end.

(** The same under [try: ... except: results = None]. *)
Definition first_attr (results : option (list Entry)) (k : string) : option string :=
  match attr0 results k with Ok v => Some v | Raise _ => None end.

(** The keys [get_partitions] and [get_domains] accept, in their order. *)
Definition partition_keys : list string :=
  ["netbiosname"; "name"; "cn"; "dn"; "distinguishedname"; "ncname"].

(** The first of [partition_keys] that the keyword arguments carry. *)
Definition partition_key (kw : kwargs) : option string :=
  first_such (kw_has kw) partition_keys.

(** [r = {}; for k in row.keys(): r[k] = row[k][0]]. *)
Definition first_values (a : gmap string (list string)) : res (gmap string string) :=
  if bool_decide (map_Forall (fun _ (v : list string) => v <> []) a)
  then Ok (omap head a) else Raise IndexError.

(** [int(r[1][attr][0])]. *)
Definition principal_type (r : Entry) (attr : string) : res Z :=
  match e_attrs r !! attr with
  | None => Raise (KeyError attr)
  | Some [] => Raise IndexError
  | Some (v :: _) => py_long (PStr v)
  end.

(** The loops of [get_users] (1286-1292) and [get_groups] (1367-1373):
    the rows that pass the loop's test are read for their type, which
    raises when it cannot be read, and kept when bit 0 of the type is
    clear. *)
Fixpoint security_filter (guard : Entry -> bool) (attr : string) (rs : list Entry) : res (list Entry) :=
  match rs with
  | [] => Ok []
  | r :: rs' =>
      if guard r
      then t ← principal_type r attr;
           rest ← security_filter guard attr rs';
           Ok (if has_flag t 1 then rest else r :: rest)
      else security_filter guard attr rs'
  end.

(** [if r[0] and r[1] and r[1].has_key('sAMAccountType')]. *)
Definition user_row (r : Entry) : bool :=
  has_dn r && negb (bool_decide (e_attrs r = ∅)) && bool_decide (is_Some (e_attrs r !! "sAMAccountType")).

Definition security_users : list Entry -> res (list Entry) := security_filter user_row "sAMAccountType".

(** [if r[0]]: the group loop reads [groupType] of every row with a DN. *)
Definition security_groups : list Entry -> res (list Entry) := security_filter has_dn "groupType".

(** The rows the filter keeps: a readable type with bit 0 clear. *)
Definition is_security (attr : string) (r : Entry) : bool :=
  match principal_type r attr with Ok t => negb (Z.odd t) | Raise _ => false end.

Definition AD_USER_FILTER (user : string) : string :=
  "(&(|(objectclass=user)(objectclass=person))(sAMAccountName=" ++ user ++ "))".
Definition AD_GROUP_FILTER (group : string) : string :=
  "(&(objectclass=group)(sAMAccountName=" ++ group ++ "))".

Section Methods.
Context {DE : DirectoryEnv}.

(** ** rootDSE (970-1034) *)

Definition get_rootDSE : Meth (option (list Entry)) :=
  auto_open (_search (Some "") SCOPE_BASE (Some "(objectclass=*)")).

(** [get_rootDN], [get_baseDN] and [get_config]: one attribute of the
    rootDSE, [None] when it cannot be read. *)
Definition rootDSE_attr (k : string) : Meth (option string) :=
  auto_open (results ← get_rootDSE; mret (first_attr results k)).

Definition get_rootDN : Meth (option string) := rootDSE_attr "rootDomainNamingContext".
Definition get_baseDN : Meth (option string) := rootDSE_attr "defaultNamingContext".
Definition get_config : Meth (option string) := rootDSE_attr "configurationNamingContext".

(** ** Crossref queries (1036-1129) *)

Definition get_netbios_name : Meth (option string) :=
  auto_open (
    basedn ← get_baseDN;
    config ← get_config;
    let filter := "(&(objectcategory=crossref)(nCName=" ++ py_str basedn ++ "))" in
    results ← _search config SCOPE_SUBTREE (Some filter);
    mret (first_attr results "nETBIOSName")).

Definition get_partitions (kw : kwargs) : Meth (list Entry) :=
  auto_open (
    config ← get_config;
    let basedn := "CN=Partitions," ++ py_str config in
    let filter := match partition_key kw with
                  | Some k => "(" ++ k ++ "=" ++ py_fmt (kw_get kw k) ++ ")"
                  | None => "(cn=*)"
                  end in
    results ← _search (Some basedn) SCOPE_SUBTREE (Some filter);
    mret (all_with_dn results)).

(** [rootDSE[0][1]['rootDomainNamingContext'][0]] is read outside any
    [try]: a rootDSE that cannot be read raises. *)
Definition get_root_domain : Meth (option string) :=
  auto_open (
    rootDSE ← get_rootDSE;
    rdnc ← lift (attr0 rootDSE "rootDomainNamingContext");
    results ← get_partitions {["ncname" := PStr rdnc]};
    mret (first_attr (Some results) "dnsRoot")).

Definition get_domain (kw : kwargs) : Meth (option string) :=
  auto_open (
    results ← get_partitions kw;
    mret (first_attr (Some results) "dnsRoot")).

(** ** Forest enumeration through a global catalog (1131-1218) *)

(** The loop over discovered global catalogs: a connection to each in
    turn, kept when it opens, closed and dropped otherwise. *)
Fixpoint try_gcs (gc_args : kwargs) (gcs : list SrvRecord) : Meth (option Dir) :=
  match gcs with
  | [] => mret None
  | g :: gcs' =>
      o ← lift (__init__ (<["host" := PStr (srv_target g)]> (<["port" := PInt (srv_port g)]> gc_args)));
      '(_, d) ← on_other (new_dir o) open;
      if _isopen (obj d) then mret (Some d)
      else on_other d close;; try_gcs gc_args gcs'
  end.

(** The crossref lookup of each domain DN; with keyword arguments the
    filter comes from the first key and the loop stops after one domain. *)
Fixpoint crossref_loop (basedn : string) (kw : kwargs) (domains : list (option string))
    : Meth (list (gmap string string)) :=
  match domains with
  | [] => mret []
  | d :: ds =>
      let haskey := bool_decide (kw <> ∅) in
      let filter := match (if haskey then partition_key kw else None) with
                    | Some k => "(&(objectcategory=crossref)(" ++ k ++ "=" ++ py_fmt (kw_get kw k) ++ "))"
                    | None => "(&(objectcategory=crossref)(nCName=" ++ py_str d ++ "))"
                    end in
      results ← _search (Some basedn) SCOPE_SUBTREE (Some filter);
      r ← (match results with
           | Some (e :: _) => if has_dn e then x ← lift (first_values (e_attrs e)); mret [x] else mret []
           | _ => mret []
           end);
      rest ← (if haskey then mret [] else crossref_loop basedn kw ds);
      mret (r ++ rest)%list
  end.

Definition get_domains (kw : kwargs) : Meth (list (gmap string string)) :=
  auto_open (
    o ← self;
    let gc_args : kwargs := <["binddn" := ostr (binddn o)]> {["bindpw" := ostr (bindpw o)]} in
    root ← get_root_domain;
    gchost ← lift (get_field o "gchost");
    gc ← (if negb (py_truthy gchost) then try_gcs gc_args (get_global_catalogs (ostr root))
          else gcport ← lift (get_field o "gcport");
               p ← lift (py_long gcport);
               o' ← lift (__init__ (<["host" := gchost]> (<["port" := PInt p]> gc_args)));
               '(_, d) ← on_other (new_dir o') open;
               mret (Some d));
    domains ← (match gc with
               | Some d =>
                   if _isopen (obj d) then
                     '(results, d') ← on_other d (_search (Some "") SCOPE_SUBTREE (Some "(objectclass=domain)"));
                     on_other d' close;;
                     mret (map e_dn (default [] results))
                   else mret []
               | None => mret []
               end);
    rootDSE ← get_rootDSE;
    basedn ← lift (attr0 rootDSE "configurationNamingContext");
    o ← self;
    trusted ← lift (get_field o "trusted");
    nb ← lift (get_field o "netbiosname");
    let kw := if negb (py_truthy trusted) && py_truthy nb then <["netbiosname" := nb]> kw else kw in
    crossref_loop basedn kw domains).

(** ** Users and groups (1220-1380) *)

(** [get_userDN] and [get_groupDN]: [None] without full credentials and a
    base DN, else the [distinguishedName] of the first row. *)
Definition get_principalDN (what : string) (filter : string -> string) (x : pyval)
    : Meth (option string) :=
  if bool_decide (x = PNone) then raise (AssertionError (what ++ " is None")) else
  o ← self;
  if negb (truthy (binddn o)) || negb (truthy (bindpw o)) || negb (truthy (basedn o)) then mret None else
  auto_open (
    o ← self;
    results ← _search (basedn o) SCOPE_SUBTREE (Some (filter (py_fmt x)));
    mret (first_attr results "distinguishedName")).

Definition get_userDN : pyval -> Meth (option string) := get_principalDN "user" AD_USER_FILTER.
Definition get_groupDN : pyval -> Meth (option string) := get_principalDN "group" AD_GROUP_FILTER.

(** [get_user] and [get_group]: the first row with a DN. *)
Definition get_principal (what : string) (filter : string -> string) (x : pyval)
    : Meth (option Entry) :=
  if bool_decide (x = PNone) then raise (AssertionError (what ++ " is None")) else
  auto_open (
    o ← self;
    results ← _search (basedn o) SCOPE_SUBTREE (Some (filter (py_fmt x)));
    mret (first_with_dn results)).

Definition get_user : pyval -> Meth (option Entry) := get_principal "user" AD_USER_FILTER.
Definition get_group : pyval -> Meth (option Entry) := get_principal "group" AD_GROUP_FILTER.

(** [if self.attributes and attr not in self.attributes:
    self.attributes.append(attr)]. *)
Definition request_attr (attr : string) : Meth unit :=
  o ← self;
  match attributes o with
  | Some (a :: l) =>
      if bool_decide (attr ∈ a :: l) then mret tt
      else update_self (set_query (basedn o) (Some ((a :: l) ++ [attr])%list) (pagesize o))
  | _ => mret tt
  end.

(** [get_users]: the security principals among the user rows; their
    number is stored in [ucount] after the connection is closed. *)
Definition get_users : Meth (list Entry) :=
  users ← auto_open (
    request_attr "sAMAccountType";;
    o ← self;
    results ← _search (basedn o) SCOPE_SUBTREE (Some (AD_USER_FILTER "*"));
    lift (security_users (default [] results)));
  update_self (set_field "ucount" (PInt (Z.of_nat (List.length users))));;
  mret users.

(** [get_groups]: the security groups; their number is stored in
    [ucount], not [gcount] (line 1378). *)
Definition get_groups : Meth (list Entry) :=
  groups ← auto_open (
    request_attr "groupType";;
    o ← self;
    results ← _search (basedn o) SCOPE_SUBTREE (Some (AD_GROUP_FILTER "*"));
    lift (security_groups (default [] results)));
  update_self (set_field "ucount" (PInt (Z.of_nat (List.length groups))));;
  mret groups.

(** ** Counts (1382-1414) *)

(** [get_user_count] and [get_group_count]: the stored count when it is
    positive; otherwise one enumeration with a page size of 32768, the old
    page size restored, and the stored count read again. *)
Definition get_count (cnt : string) (enum : Meth unit) : Meth pyval :=
  o ← self;
  c ← lift (get_field o cnt);
  n ← lift (pv_int c);
  if (0 <? n)%Z then mret c else
  let ps := pagesize o in
  o ← self;
  update_self (set_query (basedn o) (attributes o) 32768);;
  enum;;
  o ← self;
  update_self (set_query (basedn o) (attributes o) ps);;
  o ← self;
  lift (get_field o cnt).

Definition get_user_count : Meth pyval := get_count "ucount" (get_users;; mret tt).
Definition get_group_count : Meth pyval := get_count "gcount" (get_groups;; mret tt).

End Methods.

(** ** Properties *)

(** When every row the loop reads has a readable type, the filter returns
    exactly the rows that pass the test and are security principals, in
    order. *)
Lemma security_filter_ok guard attr rs :
  Forall (fun r => guard r = true -> exists t, principal_type r attr = Ok t) rs ->
  security_filter guard attr rs = Ok (List.filter (fun r => guard r && is_security attr r) rs).
Proof.
  induction 1 as [|r rs Hr Hrs IH]; [done|]. simpl.
  destruct (guard r) eqn:Hg; simpl; [|done].
  destruct (Hr eq_refl) as [t Ht]. unfold mbind, res_bind. rewrite Ht, IH.
  unfold is_security. rewrite Ht, has_flag_1. by destruct (Z.odd t).
Qed.

Section Properties.
Context {DE : DirectoryEnv}.

Lemma request_attr_none attr d w :
  attributes (obj d) = None -> request_attr attr (d, w) = (Ok tt, (d, w)).
Proof. intros Ha. unfold request_attr. meth_simpl. by rewrite Ha. Qed.

Lemma request_attr_keeps {X} (f : Obj -> X) attr :
  (forall b a ps o, f (set_query b a ps o) = f o) -> keeps f (request_attr attr).
Proof.
  intros Hf [d w] r s'. unfold request_attr. meth_simpl.
  repeat case_match; intros; simplify_eq; simpl; rewrite ?Hf; done.
Qed.

#[local] Hint Resolve request_attr_keeps : keeps.

(** A wrapped query followed by storing a count leaves a closed
    connection closed. *)
Lemma closes_then_count {A} (m : Meth A) k (f : A -> pyval) d w r d' w' :
  (forall r d' w', m (d, w) = (Ok r, (d', w')) -> _isopen (obj d') = false) ->
  (x ← m; update_self (set_field k (f x));; mret x) (d, w) = (Ok r, (d', w')) ->
  _isopen (obj d') = false.
Proof.
  intros Hm. rewrite st_bind_run. destruct (m (d, w)) as [[x|e] [d1 w1]] eqn:E; [|inversion 1].
  intros [= _ <- _]. exact (Hm x d1 w1 eq_refl).
Qed.

(** [get_groups] writes [ucount] and leaves every other attribute. *)
Lemma get_groups_fields s r s' k :
  k <> "ucount" -> get_groups s = (r, s') -> fields (obj s'.1) !! k = fields (obj s.1) !! k.
Proof.
  intros Hk. unfold get_groups. rewrite st_bind_run.
  assert (Hb : keeps fields (auto_open (request_attr "groupType";; o ← self;
             results ← _search (basedn o) SCOPE_SUBTREE (Some (AD_GROUP_FILTER "*"));
             lift (security_groups (default [] results))))) by auto 10 with keeps.
  destruct (auto_open _ s) as [[x|e] s1] eqn:E; pose proof (Hb _ _ _ E) as Hf.
  - intros [= _ <-]. simpl. rewrite lookup_insert_ne by congruence. by rewrite Hf.
  - intros [= _ <-]. by rewrite Hf.
Qed.

(** The rootDSE of an object without a host cannot be read. *)
Lemma get_root_domain_dead d w :
  _isopen (obj d) = false -> host (obj d) = None -> _handle (obj d) = None ->
  get_root_domain (d, w) = (Raise TypeError, (d, w)).
Proof.
  intros Ho Hh Hd. unfold get_root_domain. rewrite auto_open_no_host by done.
  rewrite st_bind_run. unfold get_rootDSE. rewrite auto_open_no_host, _search_not_open by done.
  rewrite st_bind_run, close_not_open by done. reflexivity.
Qed.

(** every Active Directory query called on a closed connection leaves
    it closed when it returns normally: the rootDSE attributes
    ([get_rootDN], [get_baseDN], [get_config]), [get_netbios_name],
    [get_partitions], [get_domains], [get_user], [get_users] and
    [get_groups]. *)
Theorem ad_queries_close d w :
  _isopen (obj d) = false ->
  (forall k r d' w', rootDSE_attr k (d, w) = (Ok r, (d', w')) -> _isopen (obj d') = false) /\
  (forall r d' w', get_netbios_name (d, w) = (Ok r, (d', w')) -> _isopen (obj d') = false) /\
  (forall kw r d' w', get_partitions kw (d, w) = (Ok r, (d', w')) -> _isopen (obj d') = false) /\
  (forall kw r d' w', get_domains kw (d, w) = (Ok r, (d', w')) -> _isopen (obj d') = false) /\
  (forall x r d' w', get_user x (d, w) = (Ok r, (d', w')) -> _isopen (obj d') = false) /\
  (forall r d' w', get_users (d, w) = (Ok r, (d', w')) -> _isopen (obj d') = false) /\
  (forall r d' w', get_groups (d, w) = (Ok r, (d', w')) -> _isopen (obj d') = false).
Proof.
  intros Ho. split_and!; intros *.
  1-4: unfold rootDSE_attr, get_netbios_name, get_partitions, get_domains; eapply auto_open_closes; exact Ho.
  - unfold get_user, get_principal, raise. case_bool_decide; [intros Hr; discriminate Hr|].
    eapply auto_open_closes; exact Ho.
  - unfold get_users. apply closes_then_count. intros *. eapply auto_open_closes; exact Ho.
  - unfold get_groups. apply closes_then_count. intros *. eapply auto_open_closes; exact Ho.
Qed.

(** C8: security-principal filtering.  [get_users] on an open connection
    (with no attribute list requested) returns exactly the rows of its
    search that have a DN, attributes and a [sAMAccountType] whose bit
    0x1 is clear, in the order of the result, when every such type is a
    number; it stores their number in [ucount]. *)
Theorem ad_get_users_spec d w rs d' w' :
  _isopen (obj d) = true -> attributes (obj d) = None ->
  _search (basedn (obj d)) SCOPE_SUBTREE (Some (AD_USER_FILTER "*")) (d, w) = (Ok (Some rs), (d', w')) ->
  Forall (fun r => user_row r = true -> exists t, principal_type r "sAMAccountType" = Ok t) rs ->
  let users := List.filter (fun r => user_row r && is_security "sAMAccountType" r) rs in
  get_users (d, w) =
    (Ok users, (mkDir (set_field "ucount" (PInt (Z.of_nat (List.length users))) (obj d')) (_settings d'), w')).
Proof.
  intros Ho Ha Hs Hf users. unfold get_users. rewrite st_bind_run, auto_open_when_open by done.
  rewrite st_bind_run, request_attr_none by done. rewrite st_bind_run. cbn [self fst snd].
  rewrite st_bind_run, Hs. unfold security_users. simpl. rewrite security_filter_ok by done.
  reflexivity.
Qed.

(** [get_group_count] with no stored count returns 0 whatever the
    directory holds: [get_groups] stores its count in [ucount], so the
    [gcount] read afterwards is still 0. *)
Theorem get_group_count_stale d w r s' :
  get_field (obj d) "gcount" = Ok (PInt 0) -> get_group_count (d, w) = (Ok r, s') -> r = PInt 0.
Proof.
  intros Hg. unfold get_group_count, get_count. rewrite st_bind_run. cbn [self fst snd].
  rewrite Hg. meth_simpl.
  match goal with |- context [get_groups ?s] => destruct (get_groups s) as [[x|e] [d2 w2]] eqn:E end;
    [|intros [=]].
  pose proof (get_groups_fields _ _ _ "gcount" ltac:(done) E) as Hk. simpl in Hk |- *.
  unfold get_field, set_query in Hg |- *. simpl. rewrite Hk.
  destruct (fields (obj d) !! "gcount"); [|discriminate]. injection Hg as ->. by intros [= <- _].
Qed.

(** on an object without a host -- what the constructor builds when no
    domain controller answers -- [get_domains] raises [TypeError]:
    [get_root_domain] indexes the rootDSE outside its [try]. *)
Theorem get_domains_no_host d w kw :
  _isopen (obj d) = false -> host (obj d) = None -> _handle (obj d) = None ->
  get_domains kw (d, w) = (Raise TypeError, (d, w)).
Proof.
  intros Ho Hh Hd. unfold get_domains. rewrite auto_open_no_host by done.
  rewrite st_bind_run. cbn [self fst snd]. rewrite st_bind_run, get_root_domain_dead by done.
  reflexivity.
Qed.

End Properties.

(** ** A demonstration forest

    [example.com] with three domain controllers (only [dc3] accepts
    binds), one global catalog, a rootDSE, a crossref entry, two users and
    a contact, a referral, a security group and a distribution group. *)

Definition ad_entry (dn : option string) (attrs : list (string * list string)) : Entry :=
  mkEntry dn (list_to_map attrs).

Definition rootdse_row : Entry :=
  ad_entry (Some "") [("defaultNamingContext", ["dc=example,dc=com"]);
                      ("configurationNamingContext", ["cn=configuration,dc=example,dc=com"]);
                      ("rootDomainNamingContext", ["dc=example,dc=com"])].
Definition u_alice : Entry :=
  ad_entry (Some "cn=alice,dc=example,dc=com") [("sAMAccountName", ["alice"]); ("sAMAccountType", ["805306368"])].
Definition u_contact : Entry :=
  ad_entry (Some "cn=carol,dc=example,dc=com") [("sAMAccountName", ["carol"]); ("sAMAccountType", ["805306369"])].
Definition u_ref : Entry := mkEntry None ∅.
Definition u_bob : Entry :=
  ad_entry (Some "cn=bob,dc=example,dc=com") [("sAMAccountName", ["bob"]); ("sAMAccountType", ["805306368"])].
Definition g_admins : Entry :=
  ad_entry (Some "cn=admins,dc=example,dc=com") [("sAMAccountName", ["admins"]); ("groupType", ["-2147483646"])].
Definition g_list : Entry :=
  ad_entry (Some "cn=list,dc=example,dc=com") [("sAMAccountName", ["list"]); ("groupType", ["-2147483643"])].
Definition crossref_row : Entry :=
  ad_entry (Some "cn=EXAMPLE,cn=partitions,cn=configuration,dc=example,dc=com")
    [("nETBIOSName", ["EXAMPLE"]); ("dnsRoot", ["example.com"]); ("nCName", ["dc=example,dc=com"])].
Definition domain_row : Entry := ad_entry (Some "dc=example,dc=com") [].

Definition ad_rows (f : string) : list Entry :=
  if String.eqb f "(objectclass=*)" then [rootdse_row]
  else if String.eqb f (AD_USER_FILTER "*") then [u_alice; u_contact; u_ref; u_bob]
  else if String.eqb f (AD_GROUP_FILTER "*") then [g_admins; g_list]
  else if String.eqb f "(objectclass=domain)" then [domain_row]
  else if String.prefix "(&(objectcategory=crossref)" f then [crossref_row]
  else if String.prefix "(ncname=" f then [crossref_row]
  else [].

Definition dc1 : SrvRecord := mkSrv 0 0 389 "dc1.example.com".
Definition dc2 : SrvRecord := mkSrv 10 0 389 "dc2.example.com".
Definition dc3 : SrvRecord := mkSrv 20 0 389 "dc3.example.com".
Definition gc1 : SrvRecord := mkSrv 0 0 3268 "gc1.example.com".

Definition ad_env : DirectoryEnv := {|
  env_tls := fun _ _ => false;
  env_bind := fun h _ _ => String.eqb h "dc3.example.com" || String.eqb h "gc1.example.com";
  env_search := fun _ _ _ _ f =>
    Some (map (fun e => RMsg RES_SEARCH_ENTRY [e]) (ad_rows f) ++ [RMsg RES_SEARCH_RESULT []])%list;
  env_page := fun _ _ _ _ f _ _ => Some (ad_rows f, None);
  env_page_bound := 4;
  env_srv := fun q => if String.eqb q "_ldap._tcp.example.com" then Some [dc3; dc1; dc2]
                      else if String.eqb q "_ldap._tcp.broken.example.com" then Some [dc2; dc1]
                      else if String.eqb q "_gc._tcp.example.com" then Some [gc1] else None;
  env_getpwnam := fun _ => None;
  env_getpwuid := fun _ => None;
  env_getgrnam := fun _ => None;
  env_getgrgid := fun _ => None;
  env_sha256 := fun s => s |}.

Definition ad_fields : gmap string pyval :=
  list_to_map [("ucount", PInt 0); ("gcount", PInt 0); ("trusted", PBool false);
               ("netbiosname", PStr "EXAMPLE"); ("gchost", PNone); ("gcport", PInt 3268);
               ("domain", PStr "example.com")].

(** The object bound to [dc3], open on session 0 of [ad_open_world] when
    [opened]. *)
Definition ad_obj (h : option string) (opened : bool) : Obj :=
  mkObj h (Some 389%Z) (Some "admin@EXAMPLE.COM") (Some "secret") (Some "dc=example,dc=com")
    FREENAS_LDAP_NOSSL SCOPE_SUBTREE None None 0 0 (if opened then Some 0 else None) opened ad_fields.

Definition ad_dir (opened : bool) : Dir := new_dir (ad_obj (Some "dc3.example.com") opened).

Definition ad_open_world : World :=
  mkWorld {[0 := mkSession "dc3.example.com" 389 true false true]} 1 0 [] ∅ ∅ ∅.

#[local] Existing Instance ad_env.

Lemma ad_queries_close_witness :
  _isopen (obj (ad_dir false)) = false /\
  fst (get_users (ad_dir false, demo_world)) = Ok [u_alice; u_bob] /\
  (forall r d' w', get_users (ad_dir false, demo_world) = (Ok r, (d', w')) -> _isopen (obj d') = false).
Proof.
  split; [reflexivity|split; [vm_compute; reflexivity|]].
  exact (proj1 (proj2 (proj2 (proj2 (proj2 (proj2 (ad_queries_close (ad_dir false) demo_world eq_refl))))))).
Defined.

Lemma ad_get_users_spec_witness :
  let s := _search (Some "dc=example,dc=com") SCOPE_SUBTREE (Some (AD_USER_FILTER "*"))
             (ad_dir true, ad_open_world) in
  let users := List.filter (fun r => user_row r && is_security "sAMAccountType" r)
                 [u_alice; u_contact; u_ref; u_bob] in
  users = [u_alice; u_bob] /\
  get_users (ad_dir true, ad_open_world) =
    (Ok users, (mkDir (set_field "ucount" (PInt (Z.of_nat (List.length users))) (obj s.2.1))
                  (_settings s.2.1), s.2.2)).
Proof.
  intros s users. split; [vm_compute; reflexivity|].
  apply ad_get_users_spec; [reflexivity|reflexivity|vm_compute; reflexivity|].
  repeat constructor; try (intros; eexists; vm_compute; reflexivity); intros H; discriminate H.
Defined.

Lemma get_group_count_stale_witness :
  fst (get_groups (ad_dir false, demo_world)) = Ok [g_admins] /\
  (forall r s', get_group_count (ad_dir false, demo_world) = (Ok r, s') -> r = PInt 0).
Proof.
  split; [vm_compute; reflexivity|].
  intros r s'. apply get_group_count_stale. vm_compute. reflexivity.
Defined.

Lemma get_domains_no_host_witness :
  get_domains ∅ (new_dir (ad_obj None false), demo_world) =
    (Raise TypeError, (new_dir (ad_obj None false), demo_world)).
Proof. apply get_domains_no_host; reflexivity. Defined.

End ADQueries.
