(* ===== verification/ADInit.v ===== *)
(** * ADInit: construction of [FreeNAS_ActiveDirectory_Base] and
    [dc_connect] (freenasldap.py 710-968)

    The constructor runs [__set_defaults], [__get_config] (the optional
    configuration file), then [__db_init__] (the [activedirectory_objects()]
    row) or [__no_db_init__] (keyword arguments), each of which settles the
    domain controller to talk to -- configured, given, or found by
    [dc_connect] -- calls [FreeNAS_LDAP_Directory.__init__] and reads the
    base DN and NetBIOS name from the directory.  [dc_connect] in turn
    constructs one [FreeNAS_ActiveDirectory_Base] per discovered controller
    and keeps the first that opens: the two are mutually recursive, and the
    recursion is bounded by a depth argument that stands for Python's
    recursion limit ([RuntimeError] when it is exhausted). *)

From S2P Require Import Prelude Config QueryCache Directory Discovery ADQueries.

Module ADInit.
Import Config Directory Discovery ADQueries.

(** The configuration read outside the object: the shell variables of
    [FREENAS_AD_CONFIG_FILE] as [get_freenas_var_by_file] returns them
    ([None] when [os.access] finds no file), and the rows of
    [activedirectory_objects()]. *)
Class ADEnv := {
  ad_config_file : option (string -> string);
  ad_objects : list kwargs
}.

(** ** Object plumbing *)

(** [self.<k>] and [self.<k> = v] for the attributes this class adds. *)
Definition attr (k : string) : Meth pyval := o ← self; lift (get_field o k).
Definition set_attr (k : string) (v : pyval) : Meth unit := update_self (set_field k v).

Definition set_creds (dn pw : option string) (o : Obj) : Obj :=
  mkObj (host o) (port o) dn pw (basedn o) (ssl o) (scope o) (filterstr o) (attributes o)
    (pagesize o) (flags o) (_handle o) (_isopen o) (fields o).

Definition set_basedn (b : option string) (o : Obj) : Obj :=
  set_query b (attributes o) (pagesize o) o.

Definition with_fields (f : gmap string pyval) (o : Obj) : Obj :=
  mkObj (host o) (port o) (binddn o) (bindpw o) (basedn o) (ssl o) (scope o) (filterstr o)
    (attributes o) (pagesize o) (flags o) (_handle o) (_isopen o) f.

(** An object before [FreeNAS_LDAP_Directory.__init__] has run: none of
    its connection attributes is read before that call sets it. *)
Definition empty_obj : Obj :=
  mkObj None None None None None FREENAS_LDAP_NOSSL SCOPE_SUBTREE None None 0 0 None false ∅.


(** [name.split(':')]: the host part and the port part, if any. *)
Definition split_name (name : pyval) : res (pyval * option pyval) :=
  parts ← pv_split name;
  match parts with
  | h :: p :: _ => mret (PStr h, Some (PStr p))
  | h :: _ => mret (PStr h, None)
  | [] => mret (PNone, None)
  end.

(** [s.upper()] of a value. *)
Definition pv_upper (v : pyval) : res string :=
  match v with PStr s => Ok (py_upper s) | _ => Raise (AttributeError "upper") end.

(** [a + b] of two values that should be strings. *)
Definition pv_concat (a b : pyval) : res pyval :=
  match a, b with PStr x, PStr y => Ok (PStr (x ++ y)) | _, _ => Raise TypeError end.

(** [row[k]] of a database row. *)
Definition row_get (row : kwargs) (k : string) : res pyval :=
  match row !! k with Some v => Ok v | None => Raise (KeyError k) end.

(** The signature of [dc_connect(domain, binddn, bindpw)]. *)
Abbreviation DcConnect := (pyval -> pyval -> pyval -> st World (pyval * pyval)).

Section Methods.
Context {DE : DirectoryEnv} {AE : ADEnv}.

(** ** [__set_defaults] (765-784) *)

Definition ad_attr_names : list string :=
  ["adminname"; "domain"; "dcname"; "dchost"; "dcport"; "gcname"; "gchost"; "gcport";
   "netbiosname"; "unix"; "default"; "trusted"].

Definition defaults_of (o : Obj) : Obj :=
  set_creds None None (set_basedn None (foldl (fun o k => set_field k PNone o) o ad_attr_names)).

Definition __set_defaults : Meth unit := update_self defaults_of.

(** ** [__get_config] (786-845) *)

Definition ad_config_vars : list string :=
  ["adminname"; "domainname"; "basedn"; "binddn"; "dcname"; "dchost"; "dcport";
   "gcname"; "gchost"; "gcport"].

(** The [dcname]/[gcname] pair: the name's parts, then the separate
    host and port variables, then the default port. *)
Definition config_endpoint (name host port : pyval) (default_port : Z) : res (pyval * pyval) :=
  '(h0, p0) ← (if py_truthy name then split_name name else mret (PNone, None));
  mret (adset h0 host, adset (adset (default PNone p0) port) (PInt default_port)).

Definition __get_config : Meth bool :=
  match ad_config_file with
  | None => mret false
  | Some get =>
      let cfg k := PStr (get ("ad_" ++ k)) in
      let res := existsb (fun k => py_truthy (cfg k)) ad_config_vars in
      set_attr "adminname" (adset (cfg "adminname") PNone);;
      update_self (set_basedn (pv_str (adset (cfg "basedn") PNone)));;
      set_attr "domain" (adset (cfg "domainname") PNone);;
      let dcname := adset (cfg "dcname") PNone in
      set_attr "dchost" PNone;; set_attr "dcport" PNone;;
      set_attr "dcname" dcname;;
      '(dch, dcp) ← lift (config_endpoint dcname (cfg "dchost") (cfg "dcport") 389);
      set_attr "dchost" dch;; set_attr "dcport" dcp;;
      let gcname := adset (cfg "gcname") PNone in
      set_attr "gchost" PNone;; set_attr "gcport" PNone;;
      set_attr "gcname" gcname;;
      '(gch, gcp) ← lift (config_endpoint gcname (cfg "gchost") (cfg "gcport") 3268);
      set_attr "gchost" gch;; set_attr "gcport" gcp;;
      mret res
  end.

(** ** The common tail of both initialisations (868-886, 935-950)

    The controller: the configured or given [dchost] and [dcport], else
    the one [dc_connect] finds; then [FreeNAS_LDAP_Directory.__init__],
    which keeps the attributes set so far, and the base DN and NetBIOS
    name from the directory when they are not already known. *)
Definition super_init (args : kwargs) : Meth unit :=
  o ← self;
  o' ← lift (__init__ args);
  put_dir (mkDir (with_fields (fields o) o') []).

(** [self.basedn = self.adset(self.basedn, self.get_baseDN())] and the
    same for [netbiosname]. *)
Definition read_names : Meth unit :=
  o ← self;
  b ← get_baseDN;
  update_self (set_basedn (pv_str (adset (ostr (basedn o)) (ostr b))));;
  nb0 ← attr "netbiosname";
  nb ← get_netbios_name;
  set_attr "netbiosname" (adset nb0 (ostr nb)).

Definition connect_and_finish (dcc : DcConnect) (kw : kwargs) : Meth unit :=
  o ← self;
  dchost ← attr "dchost";
  '(h, p) ← (if negb (py_truthy dchost)
             then domain ← attr "domain"; on_world (dcc domain (ostr (binddn o)) (ostr (bindpw o)))
             else dcport ← attr "dcport"; mret (dchost, dcport));
  let args : kwargs := <["host" := h]> (<["port" := p]>
                        (<["binddn" := ostr (binddn o)]> {["bindpw" := ostr (bindpw o)]})) in
  let args := if kw_has kw "flags" then <["flags" := kw_get kw "flags"]> args else args in
  super_init args;;
  read_names.

(** ** [__db_init__] (848-888) *)

(** [True if self.x else False], then [adset] with the row's flag. *)
Definition db_flag (row : kwargs) (k col : string) : Meth unit :=
  cur ← attr k;
  v ← lift (row_get row col);
  n ← lift (py_long v);
  set_attr k (adset (PBool (py_truthy cur)) (PBool (negb (n =? 0)%Z))).

(** Lines 851-866: the settings read from the database row. *)
Definition db_settings : Meth unit :=
  ad ← lift (match ad_objects with r :: _ => Ok r | [] => Raise IndexError end);
  d0 ← attr "domain"; v ← lift (row_get ad "ad_domainname"); set_attr "domain" (adset d0 v);;
  n0 ← attr "netbiosname"; v ← lift (row_get ad "ad_workgroup"); set_attr "netbiosname" (adset n0 v);;
  o ← self;
  bindname ← lift (row_get ad "ad_bindname");
  bn_at ← lift (pv_concat bindname (PStr "@"));
  domain ← attr "domain";
  up ← lift (pv_upper domain);
  dn ← lift (pv_concat bn_at (PStr up));
  update_self (set_creds (pv_str (adset (ostr (binddn o)) dn)) (bindpw o));;
  o ← self;
  pw ← lift (row_get ad "ad_bindpw");
  update_self (set_creds (binddn o) (pv_str (adset (ostr (bindpw o)) pw)));;
  db_flag ad "trusted" "ad_allow_trusted_doms";;
  db_flag ad "default" "ad_use_default_domain";;
  db_flag ad "unix" "ad_unix_extensions".

Definition __db_init__ (dcc : DcConnect) (kw : kwargs) : Meth unit :=
  db_settings;; connect_and_finish dcc kw.

(** ** [__no_db_init__] (890-952) *)

(** The [tmphost]/[port] block (903-913): its locals are overwritten
    before use, so only its exceptions ([long()] of a bad port) remain. *)
Definition parse_host_port (kw : kwargs) : Meth unit :=
  let tmphost := kw_get kw "host" in
  port ← (if py_truthy tmphost then
            parts ← lift (pv_split tmphost);
            p0 ← (if kw_has kw "port" then n ← lift (py_long (kw_get kw "port")); mret (PInt n)
                  else mret PNone);
            if bool_decide (p0 = PNone) then
              match parts with
              | _ :: t :: _ => n ← lift (py_long (PStr t)); mret (PInt n)
              | _ => mret PNone
              end
            else mret p0
          else mret PNone);
  if kw_has kw "port" && py_truthy (kw_get kw "port") && negb (py_truthy port)
  then lift (py_long (kw_get kw "port"));; mret tt
  else mret tt.

(** Lines 893-933: the settings taken from the keyword arguments and the
    configured [dcname]. *)
Definition no_db_settings (kw : kwargs) : Meth unit :=
  d0 ← attr "domain"; set_attr "domain" (adset d0 (kw_get kw "domain"));;
  n0 ← attr "netbiosname"; set_attr "netbiosname" (adset n0 (kw_get kw "netbiosname"));;
  set_attr "trusted" (PBool false);; set_attr "default" (PBool false);;
  set_attr "unix" (PBool false);;
  h0 ← attr "dchost"; set_attr "dchost" (adset h0 (kw_get kw "host"));;
  p0 ← attr "dcport"; set_attr "dcport" (adset p0 (kw_get kw "port"));;
  parse_host_port kw;;
  o ← self;
  update_self (set_creds (pv_str (adset (ostr (binddn o)) (kw_get kw "binddn"))) (bindpw o));;
  o ← self;
  update_self (set_creds (binddn o) (pv_str (adset (ostr (bindpw o)) (kw_get kw "bindpw"))));;
  dcname ← attr "dcname";
  (if py_truthy dcname then
     '(h, p) ← lift (split_name dcname);
     set_attr "dchost" h;;
     match p with Some p => set_attr "dcport" p | None => mret tt end
   else mret tt).

Definition __no_db_init__ (dcc : DcConnect) (kw : kwargs) : Meth unit :=
  no_db_settings kw;; connect_and_finish dcc kw.

(** ** [__init__] (954-968) and [__new__] (755-763) *)

Definition ad_init (dcc : DcConnect) (kw : kwargs) : Meth unit :=
  __set_defaults;;
  __get_config;;
  dbinit ← lift (if kw_has kw "flags"
                 then f ← pv_int (kw_get kw "flags"); mret (has_flag f FLAGS_DBINIT)
                 else mret false);
  (if (dbinit : bool) then __db_init__ dcc kw else __no_db_init__ dcc kw);;
  update_self (set_field "gcount" (PInt 0) ∘ set_field "ucount" (PInt 0)).

(** [FreeNAS_ActiveDirectory_Base] called with [kw]: [None] without arguments. *)
Definition ad_construct (dcc : DcConnect) (kw : kwargs) : st World (option Dir) :=
  if bool_decide (kw = ∅) then mret None else
  r ← run_on (new_dir empty_obj) (ad_init dcc kw);
  mret (Some r.2).

(** ** [dc_connect] (710-746) *)

(** One pass of the loop: construct the candidate, open it, and keep its
    endpoint if it opened; close it otherwise. *)
Definition dc_trial (dcc : DcConnect) (args : kwargs) (dc : SrvRecord)
    : st World (option (pyval * pyval)) :=
  ad ← ad_construct dcc (<["host" := PStr (srv_target dc)]> (<["port" := PInt (srv_port dc)]> args));
  match ad with
  | None => raise (AttributeError "open")
  | Some d =>
      '(ret, d') ← run_on d open;
      if (ret : bool) then mret (Some (ostr (host (obj d')), match port (obj d') with
                                                             | Some p => PInt p | None => PNone end))
      else run_on d' close;; mret None
  end.

Fixpoint dc_try (dcc : DcConnect) (args : kwargs) (dcs : list SrvRecord) : st World (pyval * pyval) :=
  match dcs with
  | [] => mret (PNone, PNone)
  | dc :: dcs' =>
      r ← dc_trial dcc args dc;
      match r with Some hp => mret hp | None => dc_try dcc args dcs' end
  end.

Fixpoint dc_connect (depth : nat) (domain binddn bindpw : pyval) : st World (pyval * pyval) :=
  match depth with
  | O => raise RuntimeError
  | S n =>
      dc_try (dc_connect n) (<["domain" := domain]> (<["binddn" := binddn]> {["bindpw" := bindpw]}))
        (get_domain_controllers domain)
  end.

(** [FreeNAS_ActiveDirectory_Base(...)] from outside, with the recursion
    of [dc_connect] bounded by [depth]. *)
Definition FreeNAS_ActiveDirectory_Base (depth : nat) (kw : kwargs) : st World (option Dir) :=
  ad_construct (dc_connect depth) kw.

End Methods.

(** ** Properties *)

Section Properties.
Context {DE : DirectoryEnv} {AE : ADEnv}.

(** The candidates [dcs] are tried in turn, each opening fails, and the
    world goes from [w] to [w']. *)
Inductive trials_fail (dcc : DcConnect) (args : kwargs) : list SrvRecord -> World -> World -> Prop :=
| fail_nil w : trials_fail dcc args [] w w
| fail_cons dc dcs w w1 w2 :
    dc_trial dcc args dc w = (Ok None, w1) -> trials_fail dcc args dcs w1 w2 ->
    trials_fail dcc args (dc :: dcs) w w2.

(** The keyword arguments [dc_connect] builds before the loop. *)
Definition dc_args (domain binddn bindpw : pyval) : kwargs :=
  <["domain" := domain]> (<["binddn" := binddn]> {["bindpw" := bindpw]}).

Lemma dc_connect_S n domain dn pw :
  dc_connect (S n) domain dn pw = dc_try (dc_connect n) (dc_args domain dn pw) (get_domain_controllers domain).
Proof. reflexivity. Qed.

Lemma dc_try_fail_prefix dcc args l1 l2 w w1 :
  trials_fail dcc args l1 w w1 -> dc_try dcc args (l1 ++ l2) w = dc_try dcc args l2 w1.
Proof. induction 1 as [|dc dcs w0 w2 w3 Hdc _ IH]; [done|]. simpl. by rewrite st_bind_run, Hdc. Qed.

Lemma dc_try_ext dcc dcc' args dcs w :
  (forall dc w, dc ∈ dcs -> dc_trial dcc args dc w = dc_trial dcc' args dc w) ->
  dc_try dcc args dcs w = dc_try dcc' args dcs w.
Proof.
  revert w. induction dcs as [|dc dcs IH]; intros w H; simpl; [done|].
  rewrite !st_bind_run, H by by left.
  destruct (dc_trial dcc' args dc w) as [[[hp|]|e] w1]; [done| |done].
  apply IH. intros. apply H. by right.
Qed.

Lemma parse_host_port_state kw s r s' : parse_host_port kw s = (r, s') -> s' = s.
Proof. destruct s as [d w]. unfold parse_host_port. meth_simpl. meth_cases; intros; simplify_eq; done. Qed.

(** Without a configuration file and without [flags], the constructor
    runs [__no_db_init__] on the defaults. *)
Lemma ad_init_no_config dcc kw d w :
  ad_config_file = None -> kw_has kw "flags" = false ->
  ad_init dcc kw (d, w) =
    (__no_db_init__ dcc kw;; update_self (set_field "gcount" (PInt 0) ∘ set_field "ucount" (PInt 0)))
      (mkDir (defaults_of (obj d)) (_settings d), w).
Proof. intros Hc Hf. unfold ad_init, __set_defaults, __get_config. rewrite Hc, Hf. reflexivity. Qed.

Lemma defaults_endpoint o :
  fields (defaults_of o) !! "dcname" = Some PNone /\ fields (defaults_of o) !! "dchost" = Some PNone /\
  fields (defaults_of o) !! "dcport" = Some PNone.
Proof. unfold defaults_of. simpl. split_and!; rewrite !lookup_insert_ne by done; apply lookup_insert_eq. Qed.

(** The keyword settings put the [host] and [port] arguments, as given,
    into [dchost] and [dcport] when nothing was configured. *)
Lemma no_db_settings_endpoint kw s s' :
  fields (obj s.1) !! "dcname" = Some PNone -> fields (obj s.1) !! "dchost" = Some PNone ->
  fields (obj s.1) !! "dcport" = Some PNone ->
  no_db_settings kw s = (Ok tt, s') ->
  fields (obj s'.1) !! "dchost" = Some (kw_get kw "host") /\
  fields (obj s'.1) !! "dcport" = Some (kw_get kw "port").
Proof.
  destruct s as [d w]. simpl. intros Hn Hh Hp.
  unfold no_db_settings, attr, set_attr, get_field. meth_simpl.
  destruct (fields (obj d) !! "domain"); [|intros [=]]. simpl.
  rewrite lookup_insert_ne by done.
  destruct (fields (obj d) !! "netbiosname"); [|intros [=]]. simpl.
  rewrite !lookup_insert_ne by done. rewrite Hh. simpl.
  rewrite !lookup_insert_ne by done. rewrite Hp. simpl.
  match goal with |- context [parse_host_port kw ?s] =>
    destruct (parse_host_port kw s) as [[[]|e] s1] eqn:E; [|intros [=]] end.
  apply parse_host_port_state in E. subst s1. simpl.
  rewrite !lookup_insert_ne by done. rewrite Hn. simpl.
  intros [= <-]. simpl. rewrite lookup_insert_ne, !lookup_insert_eq by done. done.
Qed.

(** A controller already named is used as is: [dc_connect] is not called. *)
Lemma connect_and_finish_dcc dcc dcc' kw s h :
  fields (obj s.1) !! "dchost" = Some h -> py_truthy h = true ->
  connect_and_finish dcc kw s = connect_and_finish dcc' kw s.
Proof.
  destruct s as [d w]. simpl. intros Hh Ht. unfold connect_and_finish, attr, get_field. meth_simpl.
  rewrite Hh. simpl. by rewrite Ht.
Qed.

(** A constructor given a host never calls [dc_connect]. *)
Lemma ad_construct_dcc dcc dcc' kw w :
  ad_config_file = None -> kw_has kw "flags" = false -> py_truthy (kw_get kw "host") = true ->
  ad_construct dcc kw w = ad_construct dcc' kw w.
Proof.
  intros Hc Hf Hh. unfold ad_construct. case_bool_decide; [done|]. rewrite !st_bind_run.
  unfold run_on. rewrite !ad_init_no_config by done. unfold __no_db_init__. rewrite !st_bind_run.
  destruct (defaults_endpoint empty_obj) as (Hn & Hd & Hp).
  destruct (no_db_settings kw _) as [[[]|e] s1] eqn:E; [|done].
  destruct (no_db_settings_endpoint kw (mkDir (defaults_of empty_obj) [], w) s1 Hn Hd Hp E) as [Hd1 _].
  by rewrite (connect_and_finish_dcc dcc dcc' kw s1 _ Hd1 Hh).
Qed.

(** Reading the base DN and the NetBIOS name keeps the endpoint. *)
Lemma read_names_endpoint : keeps (fun o => (host o, port o)) read_names.
Proof.
  unfold read_names, get_netbios_name, get_baseDN, get_config, rootDSE_attr, get_rootDSE, attr,
    set_attr, set_basedn. cbv zeta.
  auto 20 with keeps.
Qed.

(** The connection [__init__] makes from the arguments of the tail. *)
Lemma super_init_args_endpoint h a b :
  exists o, __init__ (<["host" := PStr h]> (<["port" := PNone]> (<["binddn" := a]> {["bindpw" := b]})))
            = Ok o /\ host o = Some h /\ port o = Some FREENAS_LDAP_PORT.
Proof. eexists. split; [reflexivity|done]. Qed.

(** The tail with a named controller and no port connects to that name,
    whatever it contains, on the default port. *)
Lemma connect_and_finish_endpoint dcc kw s s' h :
  fields (obj s.1) !! "dchost" = Some (PStr h) -> h <> "" -> fields (obj s.1) !! "dcport" = Some PNone ->
  kw_has kw "flags" = false ->
  connect_and_finish dcc kw s = (Ok tt, s') -> host (obj s'.1) = Some h /\ port (obj s'.1) = Some 389%Z.
Proof.
  destruct s as [d w]. simpl. intros Hh Hne Hp Hf.
  destruct (super_init_args_endpoint h (ostr (binddn (obj d))) (ostr (bindpw (obj d)))) as (o & Hi & Hoh & Hop).
  unfold connect_and_finish, attr, get_field. meth_simpl. rewrite Hh. simpl.
  apply String.eqb_neq in Hne. rewrite Hne. simpl. rewrite Hp. simpl. rewrite Hf.
  unfold super_init. meth_simpl. rewrite Hi. simpl.
  intros Hr. apply read_names_endpoint in Hr. simpl in Hr. injection Hr as -> ->. done.
Qed.

(** C7: domain-controller failover.  When the discovered controllers are
    [l1 ++ dc :: l2], every candidate of [l1] fails to open in turn and
    [dc] opens, [dc_connect] returns [dc]'s endpoint in the world right
    after [dc]'s trial: the scan is linear, in priority order, and stops
    at the first success without touching [l2]. *)
Theorem dc_connect_failover n domain dn pw l1 dc l2 w w1 hp w' :
  get_domain_controllers domain = (l1 ++ dc :: l2)%list ->
  trials_fail (dc_connect n) (dc_args domain dn pw) l1 w w1 ->
  dc_trial (dc_connect n) (dc_args domain dn pw) dc w1 = (Ok (Some hp), w') ->
  dc_connect (S n) domain dn pw w = (Ok hp, w').
Proof.
  intros Hd Hf Hdc. rewrite dc_connect_S, Hd, (dc_try_fail_prefix _ _ _ _ _ _ Hf). simpl.
  by rewrite st_bind_run, Hdc.
Qed.

(** when every discovered controller fails to open, [dc_connect]
    returns [(None, None)] after trying each of them once. *)
Theorem dc_connect_exhausted n domain dn pw w w' :
  trials_fail (dc_connect n) (dc_args domain dn pw) (get_domain_controllers domain) w w' ->
  dc_connect (S n) domain dn pw w = (Ok (PNone, PNone), w').
Proof.
  intros Hf. rewrite dc_connect_S, <- (app_nil_r (get_domain_controllers domain)).
  by rewrite (dc_try_fail_prefix _ _ _ _ _ _ Hf).
Qed.

(** C37: the recursion between the constructor and [dc_connect] stops at
    depth one: without a configuration file, when every discovered
    controller has a name, each candidate's constructor is given its
    host and never calls [dc_connect] again, so every recursion bound
    gives the result of the bound 1. *)
Theorem dc_connect_depth n domain dn pw w :
  ad_config_file = None -> Forall (fun dc => srv_target dc <> "") (get_domain_controllers domain) ->
  dc_connect (S n) domain dn pw w = dc_connect 1 domain dn pw w.
Proof.
  intros Hc Hd. rewrite !dc_connect_S. apply dc_try_ext. intros dc w0 Hin.
  rewrite Forall_forall in Hd. specialize (Hd dc Hin).
  unfold dc_trial. rewrite !st_bind_run, (ad_construct_dcc (dc_connect n) (dc_connect 0)); [done|done|..].
  - by unfold kw_has; rewrite !lookup_insert_ne by done.
  - unfold kw_get. rewrite lookup_insert_eq. simpl. by apply negb_true_iff, String.eqb_neq.
Qed.

(** [__no_db_init__] does not split a [host:port] argument: the
    parsed host and port of lines 903-913 are overwritten, and the
    connection is made to the [host] argument verbatim (for
    ["dc1:3268"], the URI [ldap://dc1:3268:389]) on the default port. *)
Theorem ad_host_not_split dcc kw hp w d' w' :
  ad_config_file = None -> kw_has kw "flags" = false -> kw_get kw "host" = PStr hp -> hp <> "" ->
  kw_get kw "port" = PNone ->
  ad_construct dcc kw w = (Ok (Some d'), w') -> host (obj d') = Some hp /\ port (obj d') = Some 389%Z.
Proof.
  intros Hc Hf Hh Hne Hp. unfold ad_construct. case_bool_decide as Hk.
  { subst kw. discriminate Hh. }
  rewrite !st_bind_run. unfold run_on. rewrite ad_init_no_config by done. unfold __no_db_init__.
  rewrite !st_bind_run. destruct (defaults_endpoint empty_obj) as (Hn & Hd & Hp0).
  destruct (no_db_settings kw _) as [[[]|e] s1] eqn:E; [|destruct s1; intros [=]].
  destruct (no_db_settings_endpoint kw (mkDir (defaults_of empty_obj) [], w) s1 Hn Hd Hp0 E) as [Hd1 Hp1].
  rewrite Hh in Hd1. rewrite Hp in Hp1.
  destruct (connect_and_finish dcc kw s1) as [[[]|e] [d2 w2]] eqn:E2; [|intros [=]].
  destruct (connect_and_finish_endpoint _ _ _ _ _ Hd1 Hne Hp1 Hf E2) as [H1 H2].
  simpl. intros [= <- _]. done.
Qed.

End Properties.

(** ** Witnesses: the forest of [ADQueries], without a configuration file *)

#[local] Existing Instance ad_env.

Definition ad_noconfig : ADEnv := {| ad_config_file := None; ad_objects := [] |}.
#[local] Existing Instance ad_noconfig.

Definition admin_args (domain : string) : kwargs :=
  dc_args (PStr domain) (PStr "admin@EXAMPLE.COM") (PStr "secret").

(** The worlds after the failed trials of [dc1] and [dc2]. *)
Definition w_dc1 (domain : string) : World :=
  snd (dc_trial (dc_connect 1) (admin_args domain) dc1 demo_world).
Definition w_dc2 (domain : string) : World :=
  snd (dc_trial (dc_connect 1) (admin_args domain) dc2 (w_dc1 domain)).

Lemma dc_connect_failover_witness :
  get_domain_controllers (PStr "example.com") = [dc1; dc2; dc3] /\
  dc_connect 2 (PStr "example.com") (PStr "admin@EXAMPLE.COM") (PStr "secret") demo_world =
    (Ok (PStr "dc3.example.com", PInt 389),
     snd (dc_trial (dc_connect 1) (admin_args "example.com") dc3 (w_dc2 "example.com"))).
Proof.
  split; [vm_compute; reflexivity|].
  apply (dc_connect_failover 1 _ _ _ [dc1; dc2] dc3 [] demo_world (w_dc2 "example.com")).
  - vm_compute. reflexivity.
  - apply (fail_cons _ _ dc1 [dc2] demo_world (w_dc1 "example.com")); [vm_compute; reflexivity|].
    apply (fail_cons _ _ dc2 [] (w_dc1 "example.com") (w_dc2 "example.com")); [vm_compute; reflexivity|].
    apply fail_nil.
  - vm_compute. reflexivity.
Defined.

Lemma dc_connect_exhausted_witness :
  dc_connect 2 (PStr "broken.example.com") (PStr "admin@EXAMPLE.COM") (PStr "secret") demo_world =
    (Ok (PNone, PNone), w_dc2 "broken.example.com").
Proof.
  apply dc_connect_exhausted.
  change (get_domain_controllers (PStr "broken.example.com")) with [dc1; dc2].
  apply (fail_cons _ _ dc1 [dc2] demo_world (w_dc1 "broken.example.com")); [vm_compute; reflexivity|].
  apply (fail_cons _ _ dc2 [] (w_dc1 "broken.example.com") (w_dc2 "broken.example.com"));
    [vm_compute; reflexivity|].
  apply fail_nil.
Defined.

Lemma dc_connect_depth_witness :
  dc_connect 7 (PStr "example.com") (PStr "admin@EXAMPLE.COM") (PStr "secret") demo_world =
  dc_connect 1 (PStr "example.com") (PStr "admin@EXAMPLE.COM") (PStr "secret") demo_world.
Proof.
  apply dc_connect_depth; [reflexivity|].
  change (get_domain_controllers (PStr "example.com")) with [dc1; dc2; dc3].
  repeat constructor; discriminate.
Defined.

Definition hostport_kw : kwargs := {["host" := PStr "dc3.example.com:3268"]}.

Definition hostport_run : res (option Dir) * World := ad_construct (dc_connect 1) hostport_kw demo_world.

Definition hostport_dir : Dir :=
  match fst hostport_run with Ok (Some d) => d | _ => new_dir empty_obj end.

Lemma ad_host_not_split_witness :
  hostport_run = (Ok (Some hostport_dir), snd hostport_run) /\
  host (obj hostport_dir) = Some "dc3.example.com:3268" /\ port (obj hostport_dir) = Some 389%Z.
Proof.
  split; [vm_compute; reflexivity|].
  apply (ad_host_not_split (dc_connect 1) hostport_kw _ demo_world _ (snd hostport_run));
    [reflexivity|reflexivity|reflexivity|discriminate|reflexivity|vm_compute; reflexivity].
Defined.

End ADInit.
