(* ===== verification/IdentityCache.v ===== *)
(** * IdentityCache: the two cache tiers of the identity classes

    The resolved tier ([FreeNAS_UserCache], [FreeNAS_GroupCache]) and the
    raw-directory tier ([FreeNAS_Directory_UserCache],
    [FreeNAS_Directory_GroupCache]) live in freenascache.py, which is not
    in src/: they are modelled from the spec as persistent key/value stores
    of the shared world, one per cache directory ([w_caches]), iterated in
    key order; the "fully loaded" sentinels are files of the world
    ([w_files]) named [<cachedir>/.ul], [.dul], [.gl], [.dgl].  The
    helpers of freenasldap.py that the identity classes share are here
    too: the [__loaded] methods, the first value of an attribute, and the
    lookups in the OS databases under their [try: ... except: None]. *)

From S2P Require Import Prelude Config Directory.

Module IdentityCache.
Import Config Directory.

(** ** The cache stores (freenascache.py) *)

Inductive cache_class := UserCache | GroupCache | DirUserCache | DirGroupCache.

#[export] Instance cache_class_eq_dec : EqDecision cache_class.
Proof. solve_decision. Defined.

(** The [cachedir] of a store: one directory per class, and one further
    subdirectory for a [dir=] argument (a NetBIOS domain). *)
Definition cache_base (c : cache_class) : string :=
  match c with
  | UserCache => "/var/tmp/.cache/.users"
  | GroupCache => "/var/tmp/.cache/.groups"
  | DirUserCache => "/var/tmp/.cache/.dir_users"
  | DirGroupCache => "/var/tmp/.cache/.dir_groups"
  end.

Definition cachedir (c : cache_class) (dir : option string) : string :=
  cache_base c ++ match dir with Some n => "/" ++ n | None => "" end.

(** The contents of the store in [cd]; a store never written is empty. *)
Definition cache_of (w : World) (cd : string) : gmap string CacheVal :=
  default ∅ (w_caches w !! cd).

(** [cache[k] = v]. *)
Definition cache_put (cd k : string) (v : CacheVal) (w : World) : World :=
  mkWorld (w_sessions w) (w_next w) (w_searches w) (w_binds w) (w_qcache w)
    (<[cd := <[k := v]> (cache_of w cd)]> (w_caches w)) (w_files w).

(** [cache.has_key(k)]. *)
Definition cache_has (w : World) (cd k : string) : bool :=
  bool_decide (is_Some (cache_of w cd !! k)).

(** [for v in cache]: the stored values, in key order. *)
Definition cache_values (w : World) (cd : string) : list CacheVal :=
  (map_to_list (cache_of w cd)).*2.

Definition cv_passwd (v : CacheVal) : option Passwd := match v with CPasswd p => Some p | _ => None end.
Definition cv_group (v : CacheVal) : option Group := match v with CGroup g => Some g | _ => None end.
Definition cv_entry (v : CacheVal) : option Entry := match v with CEntry e => Some e | _ => None end.

(** The records of a resolved tier and the rows of a raw tier. *)
Definition cache_passwds (w : World) (cd : string) : list Passwd := omap cv_passwd (cache_values w cd).
Definition cache_groups (w : World) (cd : string) : list Group := omap cv_group (cache_values w cd).
Definition cache_entries (w : World) (cd : string) : list Entry := omap cv_entry (cache_values w cd).

(** [os.path.join(cachedir, name)]. *)
Definition sentinel (cd name : string) : string := cd ++ "/" ++ name.

(** [open(file, 'w+')]: the sentinel exists afterwards. *)
Definition touch (path : string) (w : World) : World :=
  mkWorld (w_sessions w) (w_next w) (w_searches w) (w_binds w) (w_qcache w) (w_caches w)
    ({[path]} ∪ w_files w).

(** ** [__loaded] (1442-1471 and its three copies)

    [paths[index]] among the tier sentinels of the object; an unknown
    index finds no file.  With [write], the file is created and [True]
    returned (a failing [open] is not modelled); without, whether it
    exists. *)
Definition __loaded (paths : list (string * string)) (index : string) (write : bool) : Meth bool :=
  match (list_to_map paths : gmap string string) !! index with
  | None => mret false
  | Some file =>
      if write then update_world (touch file);; mret true
      else w ← world; mret (bool_decide (file ∈ w_files w))
  end.

(** ** Reading rows and resolving names *)

(** [r[1][k][0]] of one row, outside any [try]. *)
Definition row_attr0 (e : Entry) (k : string) : res string :=
  match e_attrs e !! k with
  | None => Raise (KeyError k)
  | Some [] => Raise IndexError
  | Some (v :: _) => Ok v
  end.

Section Lookups.
Context {DE : DirectoryEnv}.

(** [try: pw = pwd.getpwnam(name) except: ...]. *)
Definition getpwnam (name : string) : option Passwd := env_getpwnam name.
Definition getgrnam (name : string) : option Group := env_getgrnam name.

(** [pwd.getpwuid(x)] and [grp.getgrgid(x)] under [try]: only an integer
    is a uid; a string raises [TypeError], which the [except] turns into
    [None]. *)
Definition getpwuid (x : pyval) : option Passwd :=
  match x with PInt n => env_getpwuid n | _ => None end.
Definition getgrgid (x : pyval) : option Group :=
  match x with PInt n => env_getgrgid n | _ => None end.

End Lookups.

(** ** Properties of the stores *)

Lemma cache_of_put_eq w cd k v : cache_of (cache_put cd k v w) cd = <[k := v]> (cache_of w cd).
Proof. unfold cache_of, cache_put. simpl. by rewrite lookup_insert_eq. Qed.

Lemma cache_of_put_ne w cd cd' k v : cd <> cd' -> cache_of (cache_put cd k v w) cd' = cache_of w cd'.
Proof. intros Hne. unfold cache_of, cache_put. simpl. by rewrite lookup_insert_ne. Qed.

Lemma cache_values_elem w cd v : v ∈ cache_values w cd <-> exists k, cache_of w cd !! k = Some v.
Proof.
  unfold cache_values. rewrite list_elem_of_fmap. split.
  - intros ([k v'] & -> & Hin). apply elem_of_map_to_list in Hin. by exists k.
  - intros [k Hk]. exists (k, v). split; [done|]. by apply elem_of_map_to_list.
Qed.

Lemma cache_passwds_elem w cd p : p ∈ cache_passwds w cd <-> exists k, cache_of w cd !! k = Some (CPasswd p).
Proof.
  unfold cache_passwds. rewrite list_elem_of_omap. split.
  - intros (v & Hv & Hp). apply cache_values_elem in Hv as [k Hk].
    destruct v; simpl in Hp; simplify_eq. by exists k.
  - intros [k Hk]. exists (CPasswd p). split; [|done]. apply cache_values_elem. by exists k.
Qed.

(** ** The connection leaves the stores alone

    [wkeeps m]: a run of [m] changes neither a cache store nor a sentinel
    file.  Opening, closing and searching only touch the sessions, the
    counters and the query cache. *)
Definition store (w : World) : gmap string (gmap string CacheVal) * gset string :=
  (w_caches w, w_files w).

Definition wkeeps {A} (m : Meth A) : Prop :=
  forall s r s', m s = (r, s') -> store s'.2 = store s.2.

Create HintDb wkeeps.

Section WKeeps.
Context {DE : DirectoryEnv}.

Lemma wkeeps_bind {A B} (m : Meth A) (k : A -> Meth B) :
  wkeeps m -> (forall a, wkeeps (k a)) -> wkeeps (m ≫= k).
Proof.
  intros Hm Hk s r s'. rewrite st_bind_run. destruct (m s) as [[a|e] s1] eqn:E.
  - intros H. rewrite (Hk _ _ _ _ H). exact (Hm _ _ _ E).
  - intros [= _ <-]. exact (Hm _ _ _ E).
Qed.

Lemma wkeeps_ret {A} (a : A) : wkeeps (mret a : Meth A).
Proof. by intros s r s' [= _ <-]. Qed.

Lemma wkeeps_raise {A} e : wkeeps (raise e : Meth A).
Proof. by intros s r s' [= _ <-]. Qed.

Lemma wkeeps_self : wkeeps self.
Proof. by intros s r s' [= _ <-]. Qed.

Lemma wkeeps_world : wkeeps world.
Proof. by intros s r s' [= _ <-]. Qed.

Lemma wkeeps_lift {A} (r : res A) : wkeeps (lift r).
Proof. destruct r; [apply wkeeps_ret|apply wkeeps_raise]. Qed.

Lemma wkeeps_if {A} (b : bool) (m1 m2 : Meth A) : wkeeps m1 -> wkeeps m2 -> wkeeps (if b then m1 else m2).
Proof. by destruct b. Qed.

Lemma wkeeps_update_self g : wkeeps (update_self g).
Proof. by intros s r s' [= _ <-]. Qed.

Lemma wkeeps_update_world g : (forall w, store (g w) = store w) -> wkeeps (update_world g).
Proof. intros Hg s r s' [= _ <-]. apply Hg. Qed.

Lemma wkeeps_match_option {A B} (o : option A) (m1 : A -> Meth B) m2 :
  (forall a, wkeeps (m1 a)) -> wkeeps m2 -> wkeeps (match o with Some a => m1 a | None => m2 end).
Proof. destruct o; auto. Qed.

Lemma store_sessions m w : store (set_sessions m w) = store w.
Proof. done. Qed.
Lemma store_add_session ss w : store (add_session ss w) = store w.
Proof. done. Qed.
Lemma store_count_search w : store (count_search w) = store w.
Proof. done. Qed.
Lemma store_log_bind b w : store (log_bind b w) = store w.
Proof. done. Qed.
Lemma store_qcache c w : store (set_qcache c w) = store w.
Proof. done. Qed.

#[local] Hint Resolve wkeeps_bind wkeeps_ret wkeeps_raise wkeeps_self wkeeps_world wkeeps_lift
  wkeeps_if wkeeps_update_self wkeeps_update_world wkeeps_match_option
  store_sessions store_add_session store_count_search store_log_bind store_qcache : wkeeps.

Lemma open_wkeeps : wkeeps open.
Proof.
  unfold open, initialize, start_tls_s, simple_bind_s.
  repeat (apply wkeeps_bind || apply wkeeps_if || apply wkeeps_match_option || intros);
  auto with wkeeps.
Qed.

Lemma close_wkeeps : wkeeps close.
Proof. unfold close, unbind, unbind_session. auto 10 with wkeeps. Qed.

Lemma paged_loop_wkeeps fuel h p b sc f size c acc : wkeeps (paged_loop fuel h p b sc f size c acc).
Proof.
  revert c acc. induction fuel as [|fuel IH]; intros c acc; simpl; [auto with wkeeps|].
  apply wkeeps_bind; [auto with wkeeps|intros _]. repeat case_match; auto with wkeeps.
Qed.

#[local] Hint Resolve paged_loop_wkeeps : wkeeps.

Lemma _search_wkeeps b sc f : wkeeps (_search b sc f).
Proof.
  unfold _search.
  repeat (apply wkeeps_bind || apply wkeeps_if || apply wkeeps_match_option || intros);
  auto with wkeeps.
Qed.

Lemma auto_open_wkeeps {A} (body : Meth A) : wkeeps body -> wkeeps (auto_open body).
Proof. intros. unfold auto_open. auto 10 using open_wkeeps, close_wkeeps with wkeeps. Qed.

(** The same frame for a computation on the world alone (a static method,
    or a method run on another object). *)
Definition gkeeps {A} (m : st World A) : Prop :=
  forall w r w', m w = (r, w') -> store w' = store w.

Lemma gkeeps_bind {A B} (m : st World A) (k : A -> st World B) :
  gkeeps m -> (forall a, gkeeps (k a)) -> gkeeps (m ≫= k).
Proof.
  intros Hm Hk w r w'. rewrite st_bind_run. destruct (m w) as [[a|e] w1] eqn:E.
  - intros H. rewrite (Hk _ _ _ _ H). exact (Hm _ _ _ E).
  - intros [= _ <-]. exact (Hm _ _ _ E).
Qed.

Lemma gkeeps_ret {A} (a : A) : gkeeps (mret a : st World A).
Proof. by intros w r w' [= _ <-]. Qed.

Lemma gkeeps_raise {A} e : gkeeps (raise e : st World A).
Proof. by intros w r w' [= _ <-]. Qed.

Lemma gkeeps_if {A} (b : bool) (m1 m2 : st World A) : gkeeps m1 -> gkeeps m2 -> gkeeps (if b then m1 else m2).
Proof. by destruct b. Qed.

Lemma on_world_wkeeps {A} (m : st World A) : gkeeps m -> wkeeps (on_world m).
Proof. intros Hm [d w] r [d' w']. unfold on_world. simpl. destruct (m w) eqn:E. intros [= _ <- <-]. exact (Hm _ _ _ E). Qed.

Lemma run_on_gkeeps {A} d (m : Meth A) : wkeeps m -> gkeeps (run_on d m).
Proof.
  intros Hm w r w'. unfold run_on. destruct (m (d, w)) as [[a|e] [d' w1]] eqn:E;
    intros [= _ <-]; exact (Hm _ _ _ E).
Qed.

Lemma put_dir_wkeeps d : wkeeps (put_dir d).
Proof. by intros s r s' [= _ <-]. Qed.

Lemma on_other_wkeeps {A} d (m : Meth A) : wkeeps m -> wkeeps (on_other d m).
Proof.
  intros Hm [d0 w] r [d' w']. unfold on_other. simpl.
  destruct (m (d, w)) as [[a|e] [d1 w1]] eqn:E; intros [= _ <- <-]; exact (Hm _ _ _ E).
Qed.

Lemma _save_wkeeps : wkeeps _save.
Proof. by intros s r s' [= _ <-]. Qed.

Lemma _restore_wkeeps : wkeeps _restore.
Proof. intros [d w] r s'. unfold _restore. simpl. destruct (_settings d); intros H; by inversion H. Qed.

End WKeeps.

#[export] Hint Resolve wkeeps_bind wkeeps_ret wkeeps_raise wkeeps_self wkeeps_world wkeeps_lift
  wkeeps_if wkeeps_update_self wkeeps_update_world wkeeps_match_option
  store_sessions store_add_session store_count_search store_log_bind store_qcache
  open_wkeeps close_wkeeps paged_loop_wkeeps _search_wkeeps auto_open_wkeeps
  gkeeps_bind gkeeps_ret gkeeps_raise gkeeps_if on_world_wkeeps run_on_gkeeps put_dir_wkeeps on_other_wkeeps _save_wkeeps _restore_wkeeps : wkeeps.

(** Decompose a method into the steps the hints know. *)
Ltac wkeeps_steps :=
  repeat (intros; cbv zeta; first
    [ simple apply wkeeps_bind | simple apply gkeeps_bind
    | simple apply wkeeps_if | simple apply gkeeps_if
    | simple apply auto_open_wkeeps | simple apply on_world_wkeeps | simple apply run_on_gkeeps
    | simple apply on_other_wkeeps
    | match goal with
      | |- wkeeps (match ?x with _ => _ end) => destruct x
      | |- gkeeps (match ?x with _ => _ end) => destruct x
      end ]);
  auto with wkeeps.

End IdentityCache.
