(* ===== verification/LdapIdentity.v ===== *)
(** * LdapIdentity: enumeration and lookup of identities over LDAP

    [FreeNAS_LDAP_Users] and [FreeNAS_LDAP_Groups] (freenasldap.py
    1426-1525, 1691-1791) are one algorithm written twice: an [IdKind]
    record holds what differs (the flags, the two stores, the sentinel
    names, the attribute, the OS lookup, the preparation of the query and
    the backend query), and [ldap_enumerate] is the shared [__get_users] /
    [__get_groups].  [resolve_rows] is its loop over the raw rows.  The
    single lookups [FreeNAS_LDAP_User] and [FreeNAS_LDAP_Group]
    (2128-2201, 1952-2023) differ in what their [try] covers, and are
    written out one by one. *)

From S2P Require Import Prelude Config Directory LdapBackend IdentityCache.

Module LdapIdentity.
Import Config Directory LdapBackend IdentityCache.

(** ** What differs between the user and the group classes *)

Record IdKind (R : Type) := mkIdKind {
  ik_read : Z;                   (** [FLAGS_CACHE_READ_USER] / [_GROUP] *)
  ik_write : Z;                  (** [FLAGS_CACHE_WRITE_USER] / [_GROUP] *)
  ik_rcache : cache_class;       (** the resolved tier *)
  ik_dcache : cache_class;       (** the raw-directory tier *)
  ik_ridx : string; ik_didx : string;    (** ['u'], ['du'] / ['g'], ['dg'] *)
  ik_rfile : string; ik_dfile : string;  (** [.ul], [.dul] / [.gl], [.dgl] *)
  ik_attr : string;              (** ['uid'] / ['cn'] *)
  ik_wrap : R -> CacheVal;
  ik_unwrap : CacheVal -> option R;
  ik_byname : string -> option R;        (** [pwd.getpwnam] / [grp.getgrnam] *)
  ik_prepare : Obj -> Obj;       (** the attributes (and page size) set first *)
  ik_fetch : Meth (list Entry)   (** [self.get_users()] / [self.get_groups()] *)
}.
Arguments ik_read {R}. Arguments ik_write {R}. Arguments ik_rcache {R}.
Arguments ik_dcache {R}. Arguments ik_ridx {R}. Arguments ik_didx {R}.
Arguments ik_rfile {R}. Arguments ik_dfile {R}. Arguments ik_attr {R}.
Arguments ik_wrap {R}. Arguments ik_unwrap {R}. Arguments ik_byname {R}.
Arguments ik_prepare {R}. Arguments ik_fetch {R}.

(** The [paths] dictionary of [__loaded]: the two sentinels of the tiers of
    [dir] (no subdirectory for LDAP, the NetBIOS name for AD). *)
Definition tier_paths {R} (ik : IdKind R) (dir : option string) : list (string * string) :=
  [(ik_ridx ik, sentinel (cachedir (ik_rcache ik) dir) (ik_rfile ik));
   (ik_didx ik, sentinel (cachedir (ik_dcache ik) dir) (ik_dfile ik))].

(** ** The loop over the raw rows (1500-1518, 1765-1784)

    For each row [u]: with [write], [dcache[str(u[0])] = u]; then the name
    [str(u[1][attr][0])] (a missing attribute raises), qualified by [qual]
    (the identity for LDAP); a name the OS lookup does not know is skipped
    ([continue]); a known one is kept and, with [write], stored in the
    resolved tier under the name.  A row read back from the raw tier may be
    the [None] a single lookup stored there: [u[0]] then raises
    [TypeError]. *)
Fixpoint resolve_rows {R} (ik : IdKind R) (write : bool) (rcd dcd : string)
    (qual : string -> string) (rows : list CacheVal) : Meth (list R) :=
  match rows with
  | [] => mret []
  | u :: rest =>
      e ← lift (match u with CEntry e => Ok e | _ => Raise TypeError end);
      (if write then update_world (cache_put dcd (py_fmt (ostr (e_dn e))) u) else mret tt);;
      n ← lift (row_attr0 e (ik_attr ik));
      let name := qual n in
      match ik_byname ik name with
      | None => resolve_rows ik write rcd dcd qual rest
      | Some r =>
          (if write then update_world (cache_put rcd name (ik_wrap ik r)) else mret tt);;
          rs ← resolve_rows ik write rcd dcd qual rest;
          mret (r :: rs)
      end
  end.

(** ** [__get_users] / [__get_groups] (1482-1525, 1746-1791)

    With the read flag and the resolved tier's sentinel, the resolved store
    is the answer ([self.__users = self.__ucache]; its iteration yields the
    stored records).  Otherwise the query is prepared, the raw rows come
    from the raw tier when its sentinel is there and from the backend query
    otherwise, they are resolved, and with the write flag both sentinels
    are written. *)
Definition ldap_enumerate {R} (ik : IdKind R) : Meth (list R) :=
  o ← self;
  let rd := has_flag (flags o) (ik_read ik) in
  let wr := has_flag (flags o) (ik_write ik) in
  let rcd := cachedir (ik_rcache ik) None in
  let dcd := cachedir (ik_dcache ik) None in
  let paths := tier_paths ik None in
  hit ← (if rd then __loaded paths (ik_ridx ik) false else mret false);
  if (hit : bool) then w ← world; mret (omap (ik_unwrap ik) (cache_values w rcd)) else
  update_self (ik_prepare ik);;
  dhit ← (if rd then __loaded paths (ik_didx ik) false else mret false);
  rows ← (if (dhit : bool) then w ← world; mret (cache_values w dcd)
          else es ← ik_fetch ik; mret (map CEntry es));
  rs ← resolve_rows ik wr rcd dcd id rows;
  (if wr then __loaded paths (ik_ridx ik) true;; __loaded paths (ik_didx ik) true;; mret tt
   else mret tt);;
  mret rs.

Section Kinds.
Context {DE : DirectoryEnv}.

(** [self.attributes = ['uid']; self.pagesize = FREENAS_LDAP_PAGESIZE]. *)
Definition users_prepare (o : Obj) : Obj :=
  set_query (basedn o) (Some ["uid"]) FREENAS_LDAP_PAGESIZE o.

(** [self.attributes = ['cn']]: the group class leaves the page size. *)
Definition groups_prepare (o : Obj) : Obj :=
  set_query (basedn o) (Some ["cn"]) (pagesize o) o.

Definition users_kind : IdKind Passwd := {|
  ik_read := FLAGS_CACHE_READ_USER; ik_write := FLAGS_CACHE_WRITE_USER;
  ik_rcache := UserCache; ik_dcache := DirUserCache;
  ik_ridx := "u"; ik_didx := "du"; ik_rfile := ".ul"; ik_dfile := ".dul";
  ik_attr := "uid"; ik_wrap := CPasswd; ik_unwrap := cv_passwd;
  ik_byname := getpwnam; ik_prepare := users_prepare; ik_fetch := get_users |}.

Definition groups_kind : IdKind Group := {|
  ik_read := FLAGS_CACHE_READ_GROUP; ik_write := FLAGS_CACHE_WRITE_GROUP;
  ik_rcache := GroupCache; ik_dcache := DirGroupCache;
  ik_ridx := "g"; ik_didx := "dg"; ik_rfile := ".gl"; ik_dfile := ".dgl";
  ik_attr := "cn"; ik_wrap := CGroup; ik_unwrap := cv_group;
  ik_byname := getgrnam; ik_prepare := groups_prepare; ik_fetch := get_groups |}.

Definition __get_users : Meth (list Passwd) := ldap_enumerate users_kind.
Definition __get_groups : Meth (list Group) := ldap_enumerate groups_kind.

(** The constructors (1427-1440, 1692-1705): [FreeNAS_LDAP.__init__], then
    the enumeration; the object and the records it iterates over. *)
Definition FreeNAS_LDAP_Users (rows : list kwargs) (kw : kwargs) : st World (list Passwd * Dir) :=
  fun w => match ldap_init rows kw with
           | Ok o => run_on (new_dir o) __get_users w
           | Raise e => (Raise e, w)
           end.

Definition FreeNAS_LDAP_Groups (rows : list kwargs) (kw : kwargs) : st World (list Group * Dir) :=
  fun w => match ldap_init rows kw with
           | Ok o => run_on (new_dir o) __get_groups w
           | Raise e => (Raise e, w)
           end.

End Kinds.

(** ** The single lookups (1952-2023, 2128-2201) *)

(** [x.encode('utf-8')] of a truthy argument: only a string has it. *)
Definition encode (v : pyval) : res pyval :=
  if py_truthy v then match v with PStr s => Ok (PStr s) | _ => Raise (AttributeError "encode") end
  else Ok v.

(** [self.__key]: ["uid=%s,%s,%s" % (user, self.usersuffix, self.basedn)]
    when both are truthy, ["uid=%s,%s" % (user, self.basedn)] with the base
    alone, and left unset otherwise. *)
Definition lookup_key (prefix : string) (name suffix : pyval) (bdn : option string) : option string :=
  if py_truthy suffix && truthy bdn
  then Some (prefix ++ "=" ++ py_fmt name ++ "," ++ py_fmt suffix ++ "," ++ py_str bdn)
  else if truthy bdn then Some (prefix ++ "=" ++ py_fmt name ++ "," ++ py_str bdn)
  else None.

(** The part of the constructor after [super().__init__]: with a cache
    flag, [self.__key] (named [keyattr], the mangled attribute). *)
Definition key_init (rd wr : Z) (keyattr prefix sufattr : string) (name : pyval) : Meth unit :=
  o ← self;
  if has_flag (flags o) rd || has_flag (flags o) wr then
    sfx ← lift (get_field o sufattr);
    match lookup_key prefix name sfx (basedn o) with
    | Some k => update_self (set_field keyattr (PStr k))
    | None => mret tt
    end
  else mret tt.

(** The raw entry: [dcache[self.__key]] with the read flag when the key is
    stored ([self.__key] is read only then, and raises when it was never
    set); otherwise the backend lookup, [None] when it finds nothing. *)
Definition raw_lookup (rd : bool) (keyattr dcd : string) (fetch : Meth (option Entry)) : Meth CacheVal :=
  o ← self; w ← world;
  cached ← (if rd then k ← lift (get_field o keyattr); mret (cache_of w dcd !! py_fmt k)
            else mret None);
  match cached with
  | Some v => mret v
  | None => r ← fetch; mret (match r with Some e => CEntry e | None => CNone end)
  end.

(** [if (flags & WRITE) and found: cache[name] = found;
    dcache[self.__key] = raw]: the second write reads [self.__key], which
    raises when it was never set, after the first write. *)
Definition store_found {R} (wr : bool) (keyattr rcd dcd name : string) (wrap : R -> CacheVal)
    (found : option R) (raw : CacheVal) : Meth unit :=
  match found with
  | Some r =>
      if wr then
        update_world (cache_put rcd name (wrap r));;
        o ← self; k ← lift (get_field o keyattr);
        update_world (cache_put dcd (py_fmt k) raw)
      else mret tt
  | None => mret tt
  end.

Section Single.
Context {DE : DirectoryEnv}.

Definition user_keyattr : string := "_FreeNAS_LDAP_User__key".
Definition group_keyattr : string := "_FreeNAS_LDAP_Group__key".

(** [__get_user] (2151-2201); the result is the value [self._pw] has
    afterwards.  A hit in the resolved tier [return]s the cached record
    from the method, whose value the constructor drops: [_pw] stays
    [None].  An entry's [uid] is read outside the [try]; without an entry a
    digit string goes to [pwd.getpwuid], which raises [TypeError] on a
    string. *)
Definition __get_user (user : string) : Meth (option Passwd) :=
  update_self (fun o => set_query (basedn o) (Some ["uid"]) (pagesize o) o);;
  o ← self; w ← world;
  let rd := has_flag (flags o) FLAGS_CACHE_READ_USER in
  let wr := has_flag (flags o) FLAGS_CACHE_WRITE_USER in
  let ucd := cachedir UserCache None in
  let ducd := cachedir DirUserCache None in
  if rd && cache_has w ucd user then mret None else
  raw ← raw_lookup rd user_keyattr ducd (get_user (PStr user));
  pw ← (match raw with
        | CNone => mret (if isdigit user then getpwuid (PStr user) else getpwnam user)
        | CEntry e =>
            update_self (set_field "_FreeNAS_LDAP_User__CN" (ostr (e_dn e)));;
            uid ← lift (row_attr0 e "uid");
            mret (getpwnam uid)
        | _ => raise TypeError
        end);
  store_found wr user_keyattr ucd ducd user CPasswd pw raw;;
  mret pw.

(** [__get_group] (1977-2023): the same, with the whole [grp.getgrnam]
    call, the attribute read included, under the [try]. *)
Definition __get_group (group : string) : Meth (option Group) :=
  update_self (fun o => set_query (basedn o) (Some ["cn"]) (pagesize o) o);;
  o ← self; w ← world;
  let rd := has_flag (flags o) FLAGS_CACHE_READ_GROUP in
  let wr := has_flag (flags o) FLAGS_CACHE_WRITE_GROUP in
  let gcd := cachedir GroupCache None in
  let dgcd := cachedir DirGroupCache None in
  if rd && cache_has w gcd group then mret None else
  raw ← raw_lookup rd group_keyattr dgcd (get_group (PStr group));
  let gr := match raw with
            | CNone => if isdigit group then getgrgid (PStr group) else getgrnam group
            | CEntry e => match row_attr0 e "cn" with Ok n => getgrnam n | Raise _ => None end
            | _ => None
            end in
  store_found wr group_keyattr gcd dgcd group CGroup gr raw;;
  mret gr.

(** The constructors: [encode] before [FreeNAS_LDAP.__init__], then the
    key, then the lookup when the argument is truthy.  The result pairs
    [_pw] (or [_gr]) with the object. *)
Definition FreeNAS_LDAP_User (rows : list kwargs) (user : pyval) (kw : kwargs)
    : st World (option Passwd * Dir) :=
  fun w => match encode user, ldap_init rows kw with
           | Raise e, _ | _, Raise e => (Raise e, w)
           | Ok u, Ok o =>
               run_on (new_dir o)
                 (key_init FLAGS_CACHE_READ_USER FLAGS_CACHE_WRITE_USER user_keyattr "uid" "usersuffix" u;;
                  match u with PStr s => if py_truthy u then __get_user s else mret None
                          | _ => mret None end) w
           end.

Definition FreeNAS_LDAP_Group (rows : list kwargs) (group : pyval) (kw : kwargs)
    : st World (option Group * Dir) :=
  fun w => match encode group, ldap_init rows kw with
           | Raise e, _ | _, Raise e => (Raise e, w)
           | Ok g, Ok o =>
               run_on (new_dir o)
                 (key_init FLAGS_CACHE_READ_GROUP FLAGS_CACHE_WRITE_GROUP group_keyattr "cn" "groupsuffix" g;;
                  match g with PStr s => if py_truthy g then __get_group s else mret None
                          | _ => mret None end) w
           end.

End Single.

(** ** Properties of the enumeration

    [in_store m r]: the store [m] yields [r] when iterated.  [consistent m]:
    every record of a resolved tier is what the OS database answers for its
    key, the invariant the writers of the tier keep. *)

Section Enumerate.
Context {DE : DirectoryEnv} {R : Type} (ik : IdKind R).

Definition in_store (m : gmap string CacheVal) (r : R) : Prop :=
  exists k v, m !! k = Some v /\ ik_unwrap ik v = Some r.
Definition consistent (m : gmap string CacheVal) : Prop :=
  forall k v, m !! k = Some v -> exists r, ik_byname ik k = Some r /\ v = ik_wrap ik r.
Lemma in_store_values w cd p : p ∈ omap (ik_unwrap ik) (cache_values w cd) <-> in_store (cache_of w cd) p.
Proof.
  rewrite list_elem_of_omap. setoid_rewrite cache_values_elem. unfold in_store. naive_solver.
Qed.

Hypothesis Hunwrap : forall v r, ik_unwrap ik v = Some r <-> v = ik_wrap ik r.

Lemma consistent_insert m k r :
  consistent m -> ik_byname ik k = Some r -> consistent (<[k := ik_wrap ik r]> m).
Proof.
  intros Hm Hk k' v. destruct (decide (k = k')) as [<-|Hne].
  - rewrite lookup_insert_eq. intros [= <-]. eauto.
  - rewrite lookup_insert_ne by done. apply Hm.
Qed.

Lemma in_store_insert m k r p :
  consistent m -> ik_byname ik k = Some r ->
  in_store (<[k := ik_wrap ik r]> m) p <-> p = r \/ in_store m p.
Proof.
  intros Hm Hk. split.
  - intros (k' & v & Hv & Hp). destruct (decide (k = k')) as [<-|Hne].
    + rewrite lookup_insert_eq in Hv. simplify_eq.
      assert (ik_unwrap ik (ik_wrap ik r) = Some r) by by apply Hunwrap. left; congruence.
    + rewrite lookup_insert_ne in Hv by done. right. by exists k', v.
  - intros [->|(k' & v & Hv & Hp)].
    + exists k, (ik_wrap ik r). rewrite lookup_insert_eq. split; [done|]. by apply Hunwrap.
    + destruct (decide (k = k')) as [<-|Hne].
      * destruct (Hm _ _ Hv) as (r' & Hr' & ->). rewrite Hk in Hr'. simplify_eq.
        exists k, (ik_wrap ik r'). rewrite lookup_insert_eq. done.
      * exists k', v. by rewrite lookup_insert_ne.
Qed.

Lemma resolve_rows_write q rcd dcd rows d w rs d' w' :
  rcd <> dcd -> consistent (cache_of w rcd) ->
  resolve_rows ik true rcd dcd q rows (d, w) = (Ok rs, (d', w')) ->
  d' = d /\ w_files w' = w_files w /\ consistent (cache_of w' rcd) /\
  forall p, in_store (cache_of w' rcd) p <-> in_store (cache_of w rcd) p \/ p ∈ rs.
Proof.
  intros Hcd. revert w rs. induction rows as [|u rows IH]; intros w rs Hc; simpl.
  - intros [= <- <- <-]. split_and!; try done. intros p. rewrite elem_of_nil. tauto.
  - destruct u as [| |e|]; [intros [=]|intros [=]| |intros [=]].
    unfold mbind, st_bind, lift, mret, st_ret, update_world; simpl.
    destruct (row_attr0 e (ik_attr ik)) as [n|]; simpl; [|intros [=]].
    set (w1 := cache_put dcd _ _ w).
    assert (Hc1 : cache_of w1 rcd = cache_of w rcd) by (apply cache_of_put_ne; congruence).
    destruct (ik_byname ik (q n)) as [r|] eqn:Hb.
    + cbn [fst snd]. set (w2 := cache_put rcd (q n) (ik_wrap ik r) w1).
      destruct (resolve_rows ik true rcd dcd q rows (d, w2)) as [[rs'|] [d2 w3]] eqn:E; [|intros [=]].
      intros [= <- <- <-].
      assert (Hc2 : consistent (cache_of w2 rcd)).
      { unfold w2. rewrite cache_of_put_eq, Hc1. by apply consistent_insert. }
      destruct (IH _ _ Hc2 E) as (-> & Hf & Hc3 & Hin). split_and!; try done.
      intros p. rewrite Hin, elem_of_cons. unfold w2. rewrite cache_of_put_eq, Hc1, in_store_insert by done. tauto.
    + cbn [fst snd]. intros E. rewrite <- Hc1 in Hc. destruct (IH _ _ Hc E) as (-> & Hf & Hc3 & Hin).
      split_and!; try done. intros p. rewrite Hin, Hc1. tauto.
Qed.


Lemma loaded_guard_r (rd : bool) dir s :
  (if rd then __loaded (tier_paths ik dir) (ik_ridx ik) false else mret false) s =
  (Ok (rd && bool_decide (sentinel (cachedir (ik_rcache ik) dir) (ik_rfile ik) ∈ w_files s.2)), s).
Proof.
  destruct rd; [|done]. destruct s. unfold __loaded, tier_paths, list_to_map.
  cbn [fold_right fst snd]. by rewrite lookup_insert_eq.
Qed.

Lemma loaded_guard_d (rd : bool) dir s : ik_ridx ik <> ik_didx ik ->
  (if rd then __loaded (tier_paths ik dir) (ik_didx ik) false else mret false) s =
  (Ok (rd && bool_decide (sentinel (cachedir (ik_dcache ik) dir) (ik_dfile ik) ∈ w_files s.2)), s).
Proof.
  intros Hne. destruct rd; [|done]. destruct s. unfold __loaded, tier_paths, list_to_map.
  cbn [fold_right fst snd]. by rewrite lookup_insert_ne, lookup_insert_eq.
Qed.

Lemma loaded_touch dir d w :
  ik_ridx ik <> ik_didx ik ->
  (__loaded (tier_paths ik dir) (ik_ridx ik) true;; __loaded (tier_paths ik dir) (ik_didx ik) true;; mret tt) (d, w) =
  (Ok tt, (d, touch (sentinel (cachedir (ik_dcache ik) dir) (ik_dfile ik))
                (touch (sentinel (cachedir (ik_rcache ik) dir) (ik_rfile ik)) w))).
Proof.
  intros Hne. unfold __loaded, tier_paths, list_to_map. cbn [fold_right fst snd].
  rewrite lookup_insert_ne, !lookup_insert_eq by done. done.
Qed.

Lemma cache_of_store w w' cd : store w' = store w -> cache_of w' cd = cache_of w cd.
Proof. unfold store, cache_of. intros [= -> _]. done. Qed.

Lemma cache_of_touch f w cd : cache_of (touch f w) cd = cache_of w cd.
Proof. done. Qed.

Lemma enumerate_tail_write dir q rows d w rs d' w' :
  cachedir (ik_rcache ik) dir <> cachedir (ik_dcache ik) dir -> ik_ridx ik <> ik_didx ik ->
  consistent (cache_of w (cachedir (ik_rcache ik) dir)) ->
  (rs ← resolve_rows ik true (cachedir (ik_rcache ik) dir) (cachedir (ik_dcache ik) dir) q rows;
   (__loaded (tier_paths ik dir) (ik_ridx ik) true;; __loaded (tier_paths ik dir) (ik_didx ik) true;; mret tt);;
   mret rs) (d, w) = (Ok rs, (d', w')) ->
  sentinel (cachedir (ik_rcache ik) dir) (ik_rfile ik) ∈ w_files w' /\
  consistent (cache_of w' (cachedir (ik_rcache ik) dir)) /\
  forall p, in_store (cache_of w' (cachedir (ik_rcache ik) dir)) p <->
            in_store (cache_of w (cachedir (ik_rcache ik) dir)) p \/ p ∈ rs.
Proof.
  intros Hcd Hidx Hc. rewrite st_bind_run.
  destruct (resolve_rows _ _ _ _ _ _ _) as [[rs1|e] [d1 w1]] eqn:E; [|intros [=]].
  destruct (resolve_rows_write _ _ _ _ _ _ _ _ _ Hcd Hc E) as (-> & Hf & Hc1 & Hin).
  rewrite st_bind_run, loaded_touch by done. cbn. intros [= <- <- <-].
  rewrite !cache_of_touch. split_and!; [|done|done]. unfold touch; simpl. set_solver.
Qed.

Lemma ldap_enumerate_write d w rs d' w' :
  wkeeps (ik_fetch ik) ->
  cachedir (ik_rcache ik) None <> cachedir (ik_dcache ik) None -> ik_ridx ik <> ik_didx ik ->
  has_flag (flags (obj d)) (ik_write ik) = true ->
  consistent (cache_of w (cachedir (ik_rcache ik) None)) ->
  ldap_enumerate ik (d, w) = (Ok rs, (d', w')) ->
  sentinel (cachedir (ik_rcache ik) None) (ik_rfile ik) ∈ w_files w' /\
  consistent (cache_of w' (cachedir (ik_rcache ik) None)) /\
  forall p, in_store (cache_of w' (cachedir (ik_rcache ik) None)) p <->
            in_store (cache_of w (cachedir (ik_rcache ik) None)) p \/ p ∈ rs.
Proof.
  intros Hf Hcd Hidx Hw Hc. unfold ldap_enumerate. rewrite st_bind_run. cbn [self fst snd].
  rewrite st_bind_run, loaded_guard_r. cbn [fst snd].
  destruct (has_flag (flags (obj d)) (ik_read ik) &&
            bool_decide (sentinel (cachedir (ik_rcache ik) None) (ik_rfile ik) ∈ w_files w)) eqn:Hhit.
  - cbn. intros [= <- <- <-]. apply andb_true_iff in Hhit as [_ Hs%bool_decide_eq_true_1].
    split_and!; [done|done|]. intros p. rewrite in_store_values. tauto.
  - rewrite st_bind_run. cbn [update_self fst snd obj _settings].
    rewrite st_bind_run, loaded_guard_d by done. cbn [fst snd obj]. rewrite Hw.
    set (d1 := mkDir _ _). rewrite st_bind_run.
    destruct (has_flag (flags (obj d)) (ik_read ik) &&
              bool_decide (sentinel (cachedir (ik_dcache ik) None) (ik_dfile ik) ∈ w_files w)).
    + cbn. apply enumerate_tail_write; done.
    + rewrite st_bind_run. destruct (ik_fetch ik (d1, w)) as [[es|e] [d2 w2]] eqn:E; [|cbn; intros [=]].
      cbn. pose proof (Hf _ _ _ E) as Hs. simpl in Hs.
      rewrite <- (cache_of_store w w2 _ Hs) in Hc |- *.
      apply enumerate_tail_write; done.
Qed.
Lemma ldap_enumerate_hit d w :
  has_flag (flags (obj d)) (ik_read ik) = true ->
  sentinel (cachedir (ik_rcache ik) None) (ik_rfile ik) ∈ w_files w ->
  ldap_enumerate ik (d, w) = (Ok (omap (ik_unwrap ik) (cache_values w (cachedir (ik_rcache ik) None))), (d, w)).
Proof.
  intros Hr Hs. unfold ldap_enumerate. rewrite st_bind_run. cbn [self fst snd].
  rewrite st_bind_run, loaded_guard_r, Hr. cbn [fst snd].
  by rewrite bool_decide_eq_true_2.
Qed.

(** One row resolved on its own: its name's record, if any. *)
Definition resolve1 (e : Entry) : option R :=
  match row_attr0 e (ik_attr ik) with Ok n => ik_byname ik n | Raise _ => None end.

Lemma resolve_rows_read rcd dcd es s :
  Forall (fun e => exists n, row_attr0 e (ik_attr ik) = Ok n) es ->
  resolve_rows ik false rcd dcd id (map CEntry es) s = (Ok (omap resolve1 es), s).
Proof.
  induction 1 as [|e es [n Hn] _ IH]; [done|]. destruct s as [d w].
  cbn [resolve_rows map]. meth_simpl. rewrite Hn. simpl.
  unfold resolve1 at 1. rewrite Hn. destruct (ik_byname ik n); simpl; rewrite IH; done.
Qed.

Lemma resolve_rows_entries write rcd dcd q rows s rs s' :
  resolve_rows ik write rcd dcd q rows s = (Ok rs, s') -> CNone ∉ rows.
Proof.
  revert s rs. induction rows as [|u rows IH]; intros [d w] rs; [intros _; apply not_elem_of_nil|].
  rewrite not_elem_of_cons. destruct u as [| |e|]; [intros [=]|intros [=]| |intros [=]].
  cbn [resolve_rows]. meth_simpl. intros H. split; [done|]. revert H.
  destruct write; destruct (row_attr0 e (ik_attr ik)) as [n|]; cbn; try (intros [=]; fail);
    destruct (ik_byname ik (q n)); cbn; repeat case_match; intros; simplify_eq; eauto.
Qed.

(** Without the cache flags, the enumeration is the backend query
    followed by the OS lookup of each row's name.  When the query raises,
    the enumeration raises the same exception in the state the query left.
    When the query answers rows that all carry the attribute, the result is
    the records of the rows whose name resolves, in row order.  The state
    is again the one the query left: no store or sentinel is written. *)
Theorem ldap_enumerate_uncached d w r s' :
  has_flag (flags (obj d)) (ik_read ik) = false ->
  has_flag (flags (obj d)) (ik_write ik) = false ->
  ik_fetch ik (mkDir (ik_prepare ik (obj d)) (_settings d), w) = (r, s') ->
  (forall e, r = Raise e -> ldap_enumerate ik (d, w) = (Raise e, s')) /\
  (forall es, r = Ok es -> Forall (fun e => exists n, row_attr0 e (ik_attr ik) = Ok n) es ->
   ldap_enumerate ik (d, w) = (Ok (omap resolve1 es), s')).
Proof.
  intros Hr Hw Hf. unfold ldap_enumerate. rewrite st_bind_run. cbn [self fst snd].
  rewrite st_bind_run, loaded_guard_r, Hr. cbn [andb fst snd].
  rewrite st_bind_run. cbn [update_self fst snd obj _settings].
  rewrite st_bind_run, st_ret_run, st_bind_run, st_bind_run, Hf, Hw.
  split; intros ? ->; [done|]. intros Hes. destruct s' as [d' w'].
  rewrite st_ret_run, st_bind_run, resolve_rows_read by done. done.
Qed.

(** A [None] in the raw tier breaks the bulk enumeration.  With the
    read flag, no sentinel for the resolved tier and the raw tier's
    sentinel present, the rows are read back from the raw tier.  When one
    of them is the [None] that a single lookup stores, the enumeration
    raises instead of answering. *)
Theorem ldap_enumerate_raw_none d w :
  ik_ridx ik <> ik_didx ik ->
  has_flag (flags (obj d)) (ik_read ik) = true ->
  sentinel (cachedir (ik_rcache ik) None) (ik_rfile ik) ∉ w_files w ->
  sentinel (cachedir (ik_dcache ik) None) (ik_dfile ik) ∈ w_files w ->
  CNone ∈ cache_values w (cachedir (ik_dcache ik) None) ->
  exists e s', ldap_enumerate ik (d, w) = (Raise e, s').
Proof.
  intros Hidx Hr Hu Hd Hn. unfold ldap_enumerate. rewrite st_bind_run. cbn [self fst snd].
  rewrite st_bind_run, loaded_guard_r, (bool_decide_eq_false_2 _ Hu), andb_false_r. cbn [fst snd].
  rewrite st_bind_run. cbn [update_self fst snd obj _settings].
  rewrite st_bind_run, loaded_guard_d, Hr, bool_decide_eq_true_2 by done. cbn [andb fst snd].
  rewrite st_bind_run, st_bind_run. cbn [world fst snd]. rewrite st_ret_run, st_bind_run.
  destruct (resolve_rows _ _ _ _ _ _ _) as [[rs|e] s1] eqn:E.
  - by apply resolve_rows_entries in E.
  - by exists e, s1.
Qed.

End Enumerate.

Lemma consistent_empty {R} (ik : IdKind R) : consistent ik ∅.
Proof. intros k v. by rewrite lookup_empty. Qed.

Lemma in_store_empty {R} (ik : IdKind R) p : ~ in_store ik ∅ p.
Proof. intros (k & v & Hk & _). by rewrite lookup_empty in Hk. Qed.

(** A fresh object's enumeration with both flags, from an empty resolved
    tier, then a second one on the world it left. *)
Lemma run_on_enumerate_roundtrip {DE : DirectoryEnv} {R} (ik : IdKind R) o w rs d1 w1 :
  (forall v r, ik_unwrap ik v = Some r <-> v = ik_wrap ik r) -> wkeeps (ik_fetch ik) ->
  cachedir (ik_rcache ik) None <> cachedir (ik_dcache ik) None -> ik_ridx ik <> ik_didx ik ->
  has_flag (flags o) (ik_read ik) = true -> has_flag (flags o) (ik_write ik) = true ->
  cache_of w (cachedir (ik_rcache ik) None) = ∅ ->
  run_on (new_dir o) (ldap_enumerate ik) w = (Ok (rs, d1), w1) ->
  exists rs', run_on (new_dir o) (ldap_enumerate ik) w1 = (Ok (rs', new_dir o), w1) /\
              forall p, p ∈ rs' <-> p ∈ rs.
Proof.
  intros Hu Hf Hcd Hidx Hr Hw He. unfold run_on.
  destruct (ldap_enumerate ik (new_dir o, w)) as [[rs0|e] [d' w']] eqn:E; intros H; simplify_eq.
  assert (Hc : consistent ik (cache_of w (cachedir (ik_rcache ik) None)))
    by (rewrite He; apply consistent_empty).
  destruct (ldap_enumerate_write ik Hu (new_dir o) _ _ _ _ Hf Hcd Hidx Hw Hc E) as (Hs & _ & Hin).
  rewrite ldap_enumerate_hit by done. eexists; split; [reflexivity|].
  intros p. rewrite in_store_values, Hin, He. pose proof (in_store_empty ik p). tauto.
Qed.

Section Instances.
Context {DE : DirectoryEnv}.

Lemma get_users_wkeeps : wkeeps get_users.
Proof. unfold get_users. auto 10 with wkeeps. Qed.

Lemma get_groups_wkeeps : wkeeps get_groups.
Proof. unfold get_groups. auto 10 with wkeeps. Qed.

Lemma cv_passwd_wrap v p : cv_passwd v = Some p <-> v = CPasswd p.
Proof. destruct v; naive_solver. Qed.

Lemma cv_group_wrap v g : cv_group v = Some g <-> v = CGroup g.
Proof. destruct v; naive_solver. Qed.

Lemma users_tiers_distinct : cachedir UserCache None <> cachedir DirUserCache None.
Proof. by vm_compute. Qed.

Lemma groups_tiers_distinct : cachedir GroupCache None <> cachedir DirGroupCache None.
Proof. by vm_compute. Qed.

(** The constructors under the read flag and the sentinel: the records of
    the resolved tier, the world unchanged. *)
Lemma ldap_constructors_hit rows kw o w :
  ldap_init rows kw = Ok o ->
  (has_flag (flags o) FLAGS_CACHE_READ_USER = true ->
   sentinel (cachedir UserCache None) ".ul" ∈ w_files w ->
   FreeNAS_LDAP_Users rows kw w = (Ok (cache_passwds w (cachedir UserCache None), new_dir o), w)) /\
  (has_flag (flags o) FLAGS_CACHE_READ_GROUP = true ->
   sentinel (cachedir GroupCache None) ".gl" ∈ w_files w ->
   FreeNAS_LDAP_Groups rows kw w = (Ok (cache_groups w (cachedir GroupCache None), new_dir o), w)).
Proof.
  intros Hi. unfold FreeNAS_LDAP_Users, FreeNAS_LDAP_Groups, run_on, __get_users, __get_groups.
  rewrite Hi. split; intros Hr Hs; by rewrite ldap_enumerate_hit.
Qed.

(** C3: Round trip through the identity cache.  Start from an empty
    resolved tier, with flags carrying both the read and the write flag.
    When a first [FreeNAS_LDAP_Users] succeeds, a second one on the world
    it left returns the same world: no search at all.  Its records are
    those of the first enumeration, as a set. *)
Theorem FreeNAS_LDAP_Users_roundtrip rows kw o w us d1 w1 :
  ldap_init rows kw = Ok o ->
  has_flag (flags o) FLAGS_CACHE_READ_USER = true ->
  has_flag (flags o) FLAGS_CACHE_WRITE_USER = true ->
  cache_of w (cachedir UserCache None) = ∅ ->
  FreeNAS_LDAP_Users rows kw w = (Ok (us, d1), w1) ->
  exists us', FreeNAS_LDAP_Users rows kw w1 = (Ok (us', new_dir o), w1) /\
              forall p, p ∈ us' <-> p ∈ us.
Proof.
  intros Hi Hr Hw He. unfold FreeNAS_LDAP_Users, __get_users. rewrite Hi.
  apply (run_on_enumerate_roundtrip users_kind);
    first [exact cv_passwd_wrap | exact get_users_wkeeps | exact users_tiers_distinct | done].
Qed.

End Instances.

(** ** Properties of the single lookups *)

Section SingleProps.
Context {DE : DirectoryEnv}.

Lemma encode_str s : s <> "" -> encode (PStr s) = Ok (PStr s).
Proof. intros Hs. unfold encode. simpl. by rewrite (proj2 (String.eqb_neq s "") Hs). Qed.

Lemma key_init_run rd wr ka pre sa name d w :
  is_Some (fields (obj d) !! sa) ->
  exists d', key_init rd wr ka pre sa name (d, w) = (Ok tt, (d', w)) /\ flags (obj d') = flags (obj d).
Proof.
  intros [v Hv]. unfold key_init. meth_simpl.
  destruct (_ || _); [|eauto]. unfold get_field. rewrite Hv. simpl.
  destruct (lookup_key _ _ _ _); simpl; eauto.
Qed.

Lemma __get_user_hit s d w :
  has_flag (flags (obj d)) FLAGS_CACHE_READ_USER = true ->
  cache_has w (cachedir UserCache None) s = true ->
  exists d', __get_user s (d, w) = (Ok None, (d', w)).
Proof. intros Hr Hc. unfold __get_user. meth_simpl. rewrite Hr, Hc. eauto. Qed.

Lemma __get_group_hit s d w :
  has_flag (flags (obj d)) FLAGS_CACHE_READ_GROUP = true ->
  cache_has w (cachedir GroupCache None) s = true ->
  exists d', __get_group s (d, w) = (Ok None, (d', w)).
Proof. intros Hr Hc. unfold __get_group. meth_simpl. rewrite Hr, Hc. eauto. Qed.

(** A single lookup whose name is in the resolved tier, under the read
    flag: [_pw] (or [_gr]) stays [None], the world is unchanged. *)
Lemma ldap_single_hit rows kw o s w :
  ldap_init rows kw = Ok o -> s <> "" ->
  (is_Some (fields o !! "usersuffix") ->
   has_flag (flags o) FLAGS_CACHE_READ_USER = true ->
   cache_has w (cachedir UserCache None) s = true ->
   exists d, FreeNAS_LDAP_User rows (PStr s) kw w = (Ok (None, d), w)) /\
  (is_Some (fields o !! "groupsuffix") ->
   has_flag (flags o) FLAGS_CACHE_READ_GROUP = true ->
   cache_has w (cachedir GroupCache None) s = true ->
   exists d, FreeNAS_LDAP_Group rows (PStr s) kw w = (Ok (None, d), w)).
Proof.
  intros Hi Hs. unfold FreeNAS_LDAP_User, FreeNAS_LDAP_Group, run_on.
  rewrite encode_str, Hi by done. simpl (py_truthy _). rewrite (proj2 (String.eqb_neq s "") Hs).
  split; intros Hf Hr Hc; rewrite st_bind_run.
  - destruct (key_init_run FLAGS_CACHE_READ_USER FLAGS_CACHE_WRITE_USER user_keyattr "uid" "usersuffix"
      (PStr s) (new_dir o) w Hf) as (d1 & -> & Hfl); cbn.
    destruct (__get_user_hit s d1 w) as [d2 ->]; [by rewrite Hfl|done|]. by exists d2.
  - destruct (key_init_run FLAGS_CACHE_READ_GROUP FLAGS_CACHE_WRITE_GROUP group_keyattr "cn" "groupsuffix"
      (PStr s) (new_dir o) w Hf) as (d1 & -> & Hfl); cbn.
    destruct (__get_group_hit s d1 w) as [d2 ->]; [by rewrite Hfl|done|]. by exists d2.
Qed.

Lemma get_user_keeps_fields u : keeps fields (get_user u).
Proof. unfold get_user. apply keeps_if; [auto with keeps|]. apply auto_open_keeps; [intros; reflexivity|]. auto 10 with keeps. Qed.

Lemma raw_lookup_fetch keyattr dcd fetch d w :
  raw_lookup false keyattr dcd fetch (d, w) =
  (let '(r, s') := fetch (d, w) in
   match r with Ok x => (Ok (match x with Some e => CEntry e | None => CNone end), s') | Raise e => (Raise e, s') end).
Proof. unfold raw_lookup. meth_simpl. by destruct (fetch (d, w)) as [[[e|]|e] s2]. Qed.

(** A numeric name is never resolved by its id.  Without the read
    flag, take a digit string that the directory does not know.  The
    lookup falls to [pwd.getpwuid(user)] with the string itself, which
    raises [TypeError] under the [try].  [_pw] is [None], whatever the OS
    database holds for that uid.  A truthy integer argument never gets
    there: [encode] already raises [AttributeError]. *)
Theorem __get_user_numeric s d w :
  isdigit s = true ->
  has_flag (flags (obj d)) FLAGS_CACHE_READ_USER = false ->
  fst (get_user (PStr s) (mkDir (set_query (basedn (obj d)) (Some ["uid"]) (pagesize (obj d)) (obj d)) (_settings d), w)) = Ok None ->
  fst (__get_user s (d, w)) = Ok None.
Proof.
  intros Hd Hr Hg. unfold __get_user. rewrite st_bind_run. cbn [update_self fst snd obj _settings].
  rewrite !st_bind_run. cbn [self world fst snd obj flags set_query]. rewrite Hr.
  rewrite st_bind_run. cbn [world fst snd andb].
  rewrite st_bind_run, raw_lookup_fetch.
  destruct (get_user _ _) as [r s1]. simpl in Hg. subst r. cbn.
  rewrite Hd. destruct s1. done.
Qed.

(** A single lookup writes [None] into the raw tier.  Take the write
    flag without the read flag, and a name the directory does not know
    but the OS database does.  [__get_user] answers the local record.  It
    stores the record in the resolved tier under the name, and [None] in
    the raw tier under [self.__key]: a row that a later enumeration
    reading the raw tier back cannot resolve (it raises on it). *)
Theorem __get_user_stores_none s d w pw key d1 w1 :
  has_flag (flags (obj d)) FLAGS_CACHE_READ_USER = false ->
  has_flag (flags (obj d)) FLAGS_CACHE_WRITE_USER = true ->
  isdigit s = false -> getpwnam s = Some pw ->
  fields (obj d) !! user_keyattr = Some (PStr key) ->
  get_user (PStr s) (mkDir (set_query (basedn (obj d)) (Some ["uid"]) (pagesize (obj d)) (obj d)) (_settings d), w) =
    (Ok None, (d1, w1)) ->
  __get_user s (d, w) =
    (Ok (Some pw), (d1, cache_put (cachedir DirUserCache None) key CNone
                          (cache_put (cachedir UserCache None) s (CPasswd pw) w1))).
Proof.
  intros Hr Hw Hd Hpw Hk Hg. pose proof (get_user_keeps_fields _ _ _ _ Hg) as Hf. simpl in Hf.
  unfold __get_user. rewrite st_bind_run. cbn [update_self fst snd obj _settings].
  rewrite !st_bind_run. cbn [self world fst snd obj flags set_query]. rewrite Hr.
  rewrite st_bind_run. cbn [world fst snd andb].
  rewrite st_bind_run, raw_lookup_fetch, Hg. cbn. rewrite Hd, Hpw, Hw. cbn.
  unfold store_found. meth_simpl. unfold get_field. rewrite Hf, Hk. done.
Qed.
End SingleProps.

(** ** Witnesses

    [id_env]: the server of [demo_env] (five rows [a] .. [e] in pages),
    whose plain search finds the row of [a] for [a]'s filter and nothing
    otherwise; the OS knows [a], [c] and [root] (uid 0), and a group [a]. *)

Definition pw_a : Passwd := mkPasswd "a" 1001 100 "A" "/home/a".
Definition pw_c : Passwd := mkPasswd "c" 1003 100 "C" "/home/c".
Definition pw_root : Passwd := mkPasswd "root" 0 0 "Charlie &" "/root".
Definition gr_a : Group := mkGroup "a" 1001 ["a"].

Definition a_filter : string :=
  "(&(|(objectclass=person)(objectclass=account))(|(uid=a)(cn=a)))".

Definition id_env : DirectoryEnv := {|
  env_tls := @env_tls demo_env; env_bind := @env_bind demo_env;
  env_search := fun _ _ _ _ f =>
    Some (if String.eqb f a_filter then [RMsg RES_SEARCH_ENTRY [demo_row "a"]; RMsg RES_SEARCH_RESULT []]
          else [RMsg RES_SEARCH_RESULT []]);
  env_page := @env_page demo_env; env_page_bound := @env_page_bound demo_env;
  env_srv := @env_srv demo_env;
  env_getpwnam := fun n => if String.eqb n "a" then Some pw_a else if String.eqb n "c" then Some pw_c
                           else if String.eqb n "root" then Some pw_root else None;
  env_getpwuid := fun n => if (n =? 0)%Z then Some pw_root else None;
  env_getgrnam := fun n => if String.eqb n "a" then Some gr_a else None;
  env_getgrgid := fun _ => None;
  env_sha256 := @env_sha256 demo_env |}.

#[local] Existing Instance id_env.

Definition id_kw (f : Z) : kwargs :=
  <["host" := PStr "ldap1"]> (<["basedn" := PStr "dc=x"]> (<["usersuffix" := PStr "ou=users"]>
    (<["groupsuffix" := PStr "ou=groups"]> (<["flags" := PInt f]> ∅)))).

Definition ok_or {A} (x : A) (r : res A) : A := match r with Ok a => a | Raise _ => x end.

Definition id_obj (f : Z) : Obj := ok_or (demo_obj "" 0 false) (ldap_init [] (id_kw f)).

(** A world where both resolved tiers are marked loaded and hold [a]. *)
Definition sc_world : World :=
  touch (sentinel (cachedir GroupCache None) ".gl")
    (touch (sentinel (cachedir UserCache None) ".ul")
       (cache_put (cachedir GroupCache None) "a" (CGroup gr_a)
          (cache_put (cachedir UserCache None) "a" (CPasswd pw_a) demo_world))).

Definition rt_run : res (list Passwd * Dir) * World := FreeNAS_LDAP_Users [] (id_kw 3) demo_world.
Definition rt_users : list Passwd := (ok_or ([], new_dir (id_obj 3)) rt_run.1).1.

Lemma FreeNAS_LDAP_Users_roundtrip_witness :
  rt_users = [pw_a; pw_c] /\
  exists us', FreeNAS_LDAP_Users [] (id_kw 3) rt_run.2 = (Ok (us', new_dir (id_obj 3)), rt_run.2) /\
              forall p, p ∈ us' <-> p ∈ rt_users.
Proof.
  split; [vm_compute; reflexivity|].
  apply (FreeNAS_LDAP_Users_roundtrip [] (id_kw 3) (id_obj 3) demo_world rt_users
           (ok_or ([], new_dir (id_obj 3)) rt_run.1).2 rt_run.2); vm_compute; reflexivity.
Defined.

(** The object after [__get_user]'s first step. *)
Definition uid_prepared (d : Dir) : Dir :=
  mkDir (set_query (basedn (obj d)) (Some ["uid"]) (pagesize (obj d)) (obj d)) (_settings d).

Definition un_run := get_users (mkDir (users_prepare (id_obj 0)) [], demo_world).

Lemma ldap_enumerate_uncached_witness :
  ldap_enumerate users_kind (new_dir (id_obj 0), demo_world) = (Ok [pw_a; pw_c], un_run.2).
Proof.
  destruct (ldap_enumerate_uncached users_kind (new_dir (id_obj 0)) demo_world un_run.1 un_run.2)
    as [_ Hok]; [vm_compute; reflexivity..|].
  apply (Hok (map demo_row ["a"; "b"; "c"; "d"; "e"])); [vm_compute; reflexivity|].
  repeat constructor; eexists; vm_compute; reflexivity.
Defined.

Definition root_dir : Dir :=
  new_dir (set_field user_keyattr (PStr "uid=root,ou=users,dc=x") (id_obj 2)).
Definition root_fetch := get_user (PStr "root") (uid_prepared root_dir, demo_world).

Lemma __get_user_stores_none_witness :
  __get_user "root" (root_dir, demo_world) =
    (Ok (Some pw_root), (root_fetch.2.1,
       cache_put (cachedir DirUserCache None) "uid=root,ou=users,dc=x" CNone
         (cache_put (cachedir UserCache None) "root" (CPasswd pw_root) root_fetch.2.2))).
Proof.
  apply (__get_user_stores_none "root" root_dir demo_world pw_root "uid=root,ou=users,dc=x"
           root_fetch.2.1 root_fetch.2.2); vm_compute; reflexivity.
Defined.

(** The raw tier after that lookup, once an earlier enumeration marked it
    loaded. *)
Definition poisoned_world : World :=
  touch (sentinel (cachedir DirUserCache None) ".dul")
    (cache_put (cachedir DirUserCache None) "uid=root,ou=users,dc=x" CNone
       (cache_put (cachedir UserCache None) "root" (CPasswd pw_root) root_fetch.2.2)).

Lemma ldap_enumerate_raw_none_witness :
  exists e s', ldap_enumerate users_kind (new_dir (id_obj 1), poisoned_world) = (Raise e, s').
Proof.
  apply ldap_enumerate_raw_none; [discriminate|vm_compute; reflexivity| | |].
  - apply (bool_decide_eq_false_1 _). vm_compute. reflexivity.
  - apply (bool_decide_eq_true_1 _). vm_compute. reflexivity.
  - apply cache_values_elem. exists "uid=root,ou=users,dc=x". vm_compute. reflexivity.
Defined.

Lemma __get_user_numeric_witness :
  env_getpwuid 0 = Some pw_root /\ fst (__get_user "0" (new_dir (id_obj 0), demo_world)) = Ok None.
Proof.
  split; [reflexivity|]. apply __get_user_numeric; vm_compute; reflexivity.
Defined.

End LdapIdentity.
