(* ===== verification/ADIdentity.v ===== *)
(** * ADIdentity: enumeration and lookup of identities over Active Directory

    [FreeNAS_ActiveDirectory_Users] and [FreeNAS_ActiveDirectory_Groups]
    (freenasldap.py 1527-1670, 1793-1931) keep one pair of cache tiers per
    NetBIOS domain.  The constructor builds the AD object ([ad_init] of
    ADInit), lists the domains with [get_domains], and enumerates.  When
    the read flag finds every domain marked loaded, the resolved tiers are
    the answer.  Otherwise, for each domain in turn, the object is pointed
    at a controller of that domain ([dc_connect]), reopened, and the rows
    of the domain are resolved as in the LDAP classes, all between [_save]
    and [_restore].  The single lookups [FreeNAS_ActiveDirectory_User] and
    [FreeNAS_ActiveDirectory_Group] (2204-2281, 2026-2103) take a
    [DOMAIN\name] argument. *)

From S2P Require Import Prelude Config Directory Discovery ADQueries ADInit IdentityCache LdapIdentity.

Module ADIdentity.
Import Config Directory Discovery ADQueries ADInit IdentityCache LdapIdentity.

(** ** Domains and names *)

(** A domain as [get_domains] lists it: the first value of each
    attribute of its crossref row. *)
Abbreviation Domain := (gmap string string).

(** [d[k]]. *)
Definition dom_get (d : Domain) (k : string) : res string :=
  match d !! k with Some v => Ok v | None => Raise (KeyError k) end.

(** The separator [FREENAS_AD_SEPARATOR] as a character. *)
Definition ad_sep : ascii := "092"%char.

(** ["%s%s%s" % (n, FREENAS_AD_SEPARATOR, name)]. *)
Definition qualify (n name : string) : string := n ++ FREENAS_AD_SEPARATOR ++ name.

(** The name the user loop looks up: plain when [self.default or
    self.unix], qualified otherwise (1640-1643). *)
Definition user_name (plain : bool) (n s : string) : string := if plain then s else qualify n s.

(** The name the group loop looks up: qualified when [self.default or
    self.unix], plain otherwise (1899-1901). *)
Definition group_name (plain : bool) (n s : string) : string := if plain then qualify n s else s.

(** [self.port = p] for the port [dc_connect] returns. *)
Definition pv_port (p : pyval) : option Z := match p with PInt z => Some z | _ => None end.

(** ** The identity classes *)

Section Kinds.
Context {DE : DirectoryEnv}.

Definition ad_users_kind : IdKind Passwd := {|
  ik_read := FLAGS_CACHE_READ_USER; ik_write := FLAGS_CACHE_WRITE_USER;
  ik_rcache := UserCache; ik_dcache := DirUserCache;
  ik_ridx := "u"; ik_didx := "du"; ik_rfile := ".ul"; ik_dfile := ".dul";
  ik_attr := "sAMAccountName"; ik_wrap := CPasswd; ik_unwrap := cv_passwd;
  ik_byname := getpwnam; ik_prepare := id; ik_fetch := ADQueries.get_users |}.

Definition ad_groups_kind : IdKind Group := {|
  ik_read := FLAGS_CACHE_READ_GROUP; ik_write := FLAGS_CACHE_WRITE_GROUP;
  ik_rcache := GroupCache; ik_dcache := DirGroupCache;
  ik_ridx := "g"; ik_didx := "dg"; ik_rfile := ".gl"; ik_dfile := ".dgl";
  ik_attr := "sAMAccountName"; ik_wrap := CGroup; ik_unwrap := cv_group;
  ik_byname := getgrnam; ik_prepare := id; ik_fetch := ADQueries.get_groups |}.

(** [self.default or self.unix]. *)
Definition plain_names : Meth bool :=
  o ← self;
  df ← lift (get_field o "default");
  ux ← lift (get_field o "unix");
  mret (py_truthy df || py_truthy ux).

(** The group loop over the rows of domain [n] (1898-1916): the name
    [g[1]['sAMAccountName'][0]] first, then, with [write], the raw row
    under the upper-cased name; a resolved group is stored under the same
    upper-cased name. *)
Fixpoint ad_group_rows (write plain : bool) (n : string) (rows : list CacheVal) : Meth (list Group) :=
  match rows with
  | [] => mret []
  | g :: rest =>
      e ← lift (match g with CEntry e => Ok e | _ => Raise TypeError end);
      s ← lift (row_attr0 e "sAMAccountName");
      let name := group_name plain n s in
      (if write then update_world (cache_put (cachedir DirGroupCache (Some n)) (py_upper name) g)
       else mret tt);;
      match getgrnam name with
      | None => ad_group_rows write plain n rest
      | Some gr =>
          (if write then update_world (cache_put (cachedir GroupCache (Some n)) (py_upper name) (CGroup gr))
           else mret tt);;
          rs ← ad_group_rows write plain n rest;
          mret (gr :: rs)
      end
  end.

(** The per-domain loops of the two classes.  [self.default or self.unix]
    is read once per domain; [__set_defaults] has set both attributes. *)
Definition ad_user_resolve (write : bool) (n : string) (rows : list CacheVal) : Meth (list Passwd) :=
  plain ← plain_names;
  resolve_rows ad_users_kind write (cachedir UserCache (Some n)) (cachedir DirUserCache (Some n))
    (user_name plain n) rows.

Definition ad_group_resolve (write : bool) (n : string) (rows : list CacheVal) : Meth (list Group) :=
  plain ← plain_names;
  ad_group_rows write plain n rows.

End Kinds.

Section Enumerate.
Context {DE : DirectoryEnv} {R : Type} (ik : IdKind R).

(** The loop over the rows of domain [n], given [write]: the user loop is
    the LDAP one with the names qualified, the group loop is its own. *)
Variable resolve : bool -> string -> list CacheVal -> Meth (list R).

(** The read check before the enumeration (1599-1613, 1865-1879): for each
    domain whose sentinel ['u'] exists, its records are taken from the
    resolved tier, and counted.  Both classes test the index ['u']. *)
Fixpoint ad_precheck (domains : list Domain) (acc : gmap string (list R)) (count : nat)
    : Meth (gmap string (list R) * nat) :=
  match domains with
  | [] => mret (acc, count)
  | d :: ds =>
      n ← lift (dom_get d "nETBIOSName");
      l ← __loaded (tier_paths ik (Some n)) "u" false;
      if (l : bool) then
        w ← world;
        ad_precheck ds (<[n := omap (ik_unwrap ik) (cache_values w (cachedir (ik_rcache ik) (Some n)))]> acc)
          (S count)
      else ad_precheck ds acc count
  end.

(** The loop over the domains (1615-1667, 1881-1926). *)
Fixpoint ad_domains_loop (dcc : DcConnect) (domains : list Domain) (acc : gmap string (list R))
    : Meth (gmap string (list R)) :=
  match domains with
  | [] => mret acc
  | d :: ds =>
      n ← lift (dom_get d "nETBIOSName");
      root ← lift (dom_get d "dnsRoot");
      o ← self;
      '(h, p) ← on_world (dcc (PStr root) (ostr (binddn o)) (ostr (bindpw o)));
      update_self (set_endpoint (pv_str h) (pv_port p));;
      nc ← lift (dom_get d "nCName");
      update_self (set_query (Some nc) (Some ["sAMAccountName"]) FREENAS_LDAP_PAGESIZE);;
      close;; open;;
      o ← self;
      let rd := has_flag (flags o) (ik_read ik) in
      let wr := has_flag (flags o) (ik_write ik) in
      dhit ← (if rd then __loaded (tier_paths ik (Some n)) (ik_didx ik) false else mret false);
      rows ← (if (dhit : bool) then w ← world; mret (cache_values w (cachedir (ik_dcache ik) (Some n)))
              else es ← ik_fetch ik; mret (map CEntry es));
      rs ← resolve wr n rows;
      (if wr then __loaded (tier_paths ik (Some n)) (ik_ridx ik) true;;
                  __loaded (tier_paths ik (Some n)) (ik_didx ik) true;; mret tt
       else mret tt);;
      ad_domains_loop dcc ds (<[n := rs]> acc)
  end.

(** [__get_users] / [__get_groups]: the records per NetBIOS name. *)
Definition ad_enumerate (dcc : DcConnect) (domains : list Domain) : Meth (gmap string (list R)) :=
  o ← self;
  '(acc, hit) ← (if has_flag (flags o) (ik_read ik)
                 then '(acc, c) ← ad_precheck domains ∅ 0; mret (acc, Nat.eqb c (List.length domains))
                 else mret (∅, false));
  if (hit : bool) then mret acc else
  _save;;
  recs ← ad_domains_loop dcc domains acc;
  _restore;;
  mret recs.

(** [__iter__] (1591-1594, 1857-1860): the records of each domain in the
    order of the domains. *)
Fixpoint ad_iter (domains : list Domain) (recs : gmap string (list R)) : res (list R) :=
  match domains with
  | [] => Ok []
  | d :: ds =>
      n ← dom_get d "nETBIOSName";
      l ← (match recs !! n with Some l => Ok l | None => Raise (KeyError n) end);
      rest ← ad_iter ds recs;
      Ok (l ++ rest)%list
  end.

End Enumerate.

(** ** The constructors *)

Section Classes.
Context {DE : DirectoryEnv} {AE : ADEnv}.

(** [get_domains(netbiosname=kwargs['netbiosname'])] when that argument
    is given and truthy, [get_domains()] otherwise. *)
Definition domains_kw (kw : kwargs) : kwargs :=
  if kw_has kw "netbiosname" && py_truthy (kw_get kw "netbiosname")
  then {["netbiosname" := kw_get kw "netbiosname"]} else ∅.

(** [FreeNAS_ActiveDirectory_Base.__new__] (no object without keyword
    arguments [new_kw]), then [__init__] with [init_kw] followed by the
    subclass's own part [body]; the recursion of [dc_connect] is bounded
    by [depth]. *)
Definition ad_object {A} (depth : nat) (new_kw init_kw : kwargs) (body : Meth A)
    : st World (option (A * Dir)) :=
  if bool_decide (new_kw = ∅) then mret None else
  r ← run_on (new_dir empty_obj) (ad_init (dc_connect depth) init_kw;; body);
  mret (Some r).

(** The constructor [FreeNAS_ActiveDirectory_Users] (1528-1551): the domains
    and the records per domain.  The per-domain stores the constructor
    creates (1544-1549) are the world's; reading a domain's NetBIOS name
    there raises the [KeyError] the enumeration raises. *)
Definition FreeNAS_ActiveDirectory_Users (depth : nat) (kw : kwargs)
    : st World (option ((list Domain * gmap string (list Passwd)) * Dir)) :=
  ad_object depth kw kw (
    domains ← get_domains (domains_kw kw);
    recs ← ad_enumerate ad_users_kind ad_user_resolve (dc_connect depth) domains;
    mret (domains, recs)).

Definition FreeNAS_ActiveDirectory_Groups (depth : nat) (kw : kwargs)
    : st World (option ((list Domain * gmap string (list Group)) * Dir)) :=
  ad_object depth kw kw (
    domains ← get_domains (domains_kw kw);
    recs ← ad_enumerate ad_groups_kind ad_group_resolve (dc_connect depth) domains;
    mret (domains, recs)).

(** ** The single lookups *)

(** [__new__] (2205-2216, 2027-2038): the domain and the name when the
    argument has both parts, [None] otherwise. *)
Definition ad_parts (x : pyval) : res (option (string * string)) :=
  if py_truthy x then
    match x with
    | PStr s =>
        match py_split ad_sep s with
        | n :: u :: _ => Ok (if String.eqb u "" then None else Some (n, u))
        | _ => Ok None
        end
    | _ => Raise (AttributeError "encode")
    end
  else Ok None.

(** [self.__key]: [DOMAIN\name] upper-cased. *)
Definition ad_key (n u : string) : string := py_upper (qualify n u).

(** [__get_user] (2242-2279); the result is the value [self._pw] has
    afterwards.  The resolved tier consulted is the global one, keyed by
    the bare name; the raw tier is the domain's, keyed by [ad_key]. *)
Definition ad_get_user (n u : string) : Meth (option Passwd) :=
  o ← self; w ← world;
  let rd := has_flag (flags o) FLAGS_CACHE_READ_USER in
  let wr := has_flag (flags o) FLAGS_CACHE_WRITE_USER in
  let ucd := cachedir UserCache None in
  let ducd := cachedir DirUserCache (Some n) in
  if rd && cache_has w ucd u then mret None else
  b ← get_baseDN;
  update_self (fun o => set_query b (Some ["sAMAccountName"]) (pagesize o) o);;
  w ← world;
  raw ← (match (if rd then cache_of w ducd !! ad_key n u else None) with
         | Some v => mret v
         | None => r ← ADQueries.get_user (PStr u);
                   mret (match r with Some e => CEntry e | None => CNone end)
         end);
  plain ← plain_names;
  s ← lift (match raw with CEntry e => row_attr0 e "sAMAccountName" | CNone => Ok u | _ => Raise TypeError end);
  let pw := getpwnam (user_name plain n s) in
  (match pw with
   | Some p => if wr then update_world (cache_put ucd u (CPasswd p));;
                          update_world (cache_put ducd (ad_key n u) raw)
               else mret tt
   | None => mret tt
   end);;
  mret pw.

(** [__get_group] (2064-2101): the same shape; the name is qualified
    exactly as for users, unlike the group enumeration. *)
Definition ad_get_group (n g : string) : Meth (option Group) :=
  o ← self; w ← world;
  let rd := has_flag (flags o) FLAGS_CACHE_READ_GROUP in
  let wr := has_flag (flags o) FLAGS_CACHE_WRITE_GROUP in
  let gcd := cachedir GroupCache None in
  let dgcd := cachedir DirGroupCache (Some n) in
  if rd && cache_has w gcd g then mret None else
  b ← get_baseDN;
  update_self (fun o => set_query b (Some ["sAMAccountName"]) (pagesize o) o);;
  w ← world;
  raw ← (match (if rd then cache_of w dgcd !! ad_key n g else None) with
         | Some v => mret v
         | None => r ← ADQueries.get_group (PStr g);
                   mret (match r with Some e => CEntry e | None => CNone end)
         end);
  plain ← plain_names;
  s ← lift (match raw with CEntry e => row_attr0 e "sAMAccountName" | CNone => Ok g | _ => Raise TypeError end);
  let gr := getgrnam (user_name plain n s) in
  (match gr with
   | Some x => if wr then update_world (cache_put gcd g (CGroup x));;
                          update_world (cache_put dgcd (ad_key n g) raw)
               else mret tt
   | None => mret tt
   end);;
  mret gr.

(** The constructors: no object unless the argument names a domain and a
    name and keyword arguments are given; [__init__] passes the domain as
    [netbiosname]. *)
Definition FreeNAS_ActiveDirectory_User (depth : nat) (user : pyval) (kw : kwargs)
    : st World (option (option Passwd * Dir)) :=
  fun w => match ad_parts user with
           | Raise e => (Raise e, w)
           | Ok None => (Ok None, w)
           | Ok (Some (n, u)) => ad_object depth kw (<["netbiosname" := PStr n]> kw) (ad_get_user n u) w
           end.

Definition FreeNAS_ActiveDirectory_Group (depth : nat) (group : pyval) (kw : kwargs)
    : st World (option (option Group * Dir)) :=
  fun w => match ad_parts group with
           | Raise e => (Raise e, w)
           | Ok None => (Ok None, w)
           | Ok (Some (n, g)) => ad_object depth kw (<["netbiosname" := PStr n]> kw) (ad_get_group n g) w
           end.

End Classes.

(** ** Properties of the read check *)

Section Precheck.
Context {DE : DirectoryEnv} {R : Type} (ik : IdKind R).

Lemma loaded_u_hit dir s :
  ik_ridx ik = "u" ->
  __loaded (tier_paths ik dir) "u" false s =
  (Ok (bool_decide (sentinel (cachedir (ik_rcache ik) dir) (ik_rfile ik) ∈ w_files s.2)), s).
Proof.
  intros Hu. destruct s. unfold __loaded, tier_paths, list_to_map. cbn [fold_right fst snd].
  by rewrite Hu, lookup_insert_eq.
Qed.

Lemma loaded_u_miss dir s :
  ik_ridx ik <> "u" -> ik_didx ik <> "u" -> __loaded (tier_paths ik dir) "u" false s = (Ok false, s).
Proof.
  intros Hr Hd. destruct s. unfold __loaded, tier_paths, list_to_map. cbn [fold_right fst snd].
  by rewrite !lookup_insert_ne, lookup_empty.
Qed.

(** Every domain has a NetBIOS name, and [P] holds of it. *)
Definition named (P : string -> Prop) (domains : list Domain) : Prop :=
  Forall (fun dm => exists n, dm !! "nETBIOSName" = Some n /\ P n) domains.

Lemma ad_precheck_all domains acc c d w :
  ik_ridx ik = "u" ->
  named (fun n => sentinel (cachedir (ik_rcache ik) (Some n)) (ik_rfile ik) ∈ w_files w) domains ->
  exists acc', ad_precheck ik domains acc c (d, w) = (Ok (acc', c + List.length domains)%nat, (d, w)).
Proof.
  intros Hu Hall. revert acc c. induction Hall as [|dm ds (n & Hn & Hs) _ IH]; intros acc c.
  - exists acc. cbn. by rewrite Nat.add_0_r.
  - cbn [ad_precheck]. unfold dom_get. rewrite Hn. rewrite st_bind_run. cbn [lift mret st_ret fst snd].
    rewrite st_bind_run, loaded_u_hit, bool_decide_eq_true_2 by done. cbn.
    rewrite st_bind_run. cbn [world fst snd]. edestruct IH as [acc' ->]. exists acc'. cbn. by rewrite Nat.add_succ_r.
Qed.

Lemma ad_precheck_none domains acc c d w :
  ik_ridx ik <> "u" -> ik_didx ik <> "u" -> named (fun _ => True) domains ->
  ad_precheck ik domains acc c (d, w) = (Ok (acc, c), (d, w)).
Proof.
  intros Hr Hd Hall. induction Hall as [|dm ds (n & Hn & _) _ IH]; [done|].
  cbn [ad_precheck]. unfold dom_get. rewrite Hn. rewrite st_bind_run. cbn [lift mret st_ret fst snd].
  by rewrite st_bind_run, loaded_u_miss.
Qed.

End Precheck.

Section ShortCircuit.
Context {DE : DirectoryEnv}.

(** C9: The read check of the AD classes.  Give every domain its NetBIOS
    name, its [.ul] and [.gl] sentinels, and the read flags.  The user
    enumeration then answers from the per-domain resolved tiers with the
    state unchanged: no [dc_connect], no search.  The group enumeration
    still runs the full per-domain loop between [_save] and [_restore].
    Its check asks [__loaded] for the index ['u'], which the group
    sentinels do not have. *)
Theorem ad_cache_short_circuit resolve_u resolve_g dcc domains d w :
  named (fun n => sentinel (cachedir UserCache (Some n)) ".ul" ∈ w_files w /\
                  sentinel (cachedir GroupCache (Some n)) ".gl" ∈ w_files w) domains ->
  has_flag (flags (obj d)) FLAGS_CACHE_READ_USER = true ->
  has_flag (flags (obj d)) FLAGS_CACHE_READ_GROUP = true ->
  (exists recs, ad_enumerate ad_users_kind resolve_u dcc domains (d, w) = (Ok recs, (d, w))) /\
  (domains <> [] ->
   ad_enumerate ad_groups_kind resolve_g dcc domains (d, w) =
   (_save;; recs ← ad_domains_loop ad_groups_kind resolve_g dcc domains ∅; _restore;; mret recs) (d, w)).
Proof.
  intros Hall Hru Hrg. split.
  - destruct (ad_precheck_all ad_users_kind domains ∅ 0 d w) as [acc Hp]; [done| |].
    { eapply Forall_impl; [exact Hall|]. intros dm (n & Hn & Hs & _). eauto. }
    exists acc. unfold ad_enumerate. rewrite st_bind_run. cbn [self fst snd].
    change (ik_read ad_users_kind) with FLAGS_CACHE_READ_USER. rewrite Hru.
    rewrite st_bind_run, st_bind_run, Hp. cbn. by rewrite Nat.eqb_refl.
  - intros Hne. unfold ad_enumerate. rewrite st_bind_run. cbn [self fst snd].
    change (ik_read ad_groups_kind) with FLAGS_CACHE_READ_GROUP. rewrite Hrg.
    assert (Hn : named (fun _ => True) domains).
    { eapply Forall_impl; [exact Hall|]. intros dm (n & Hn & _). eauto. }
    rewrite st_bind_run, st_bind_run, ad_precheck_none by (done || discriminate).
    cbn. destruct domains; [done|]. done.
Qed.

End ShortCircuit.

(** ** What the enumeration leaves alone

    [ckeeps cd m]: a run of [m] leaves the store in [cd] as it is.  The
    connection, the discovery of controllers and the AD constructor keep
    every store ([wkeeps], [gkeeps]); the enumeration writes only the
    tiers of the domains it enumerates. *)

Definition ckeeps {A} (cd : string) (m : Meth A) : Prop :=
  forall s r s', m s = (r, s') -> cache_of s'.2 cd = cache_of s.2 cd.

Create HintDb ckeeps.

Section Frames.
Context {DE : DirectoryEnv} {AE : ADEnv}.

Lemma ad_init_wkeeps dcc kw : (forall a b c, gkeeps (dcc a b c)) -> wkeeps (ad_init dcc kw).
Proof.
  intros Hd. unfold ad_init, __db_init__, __no_db_init__, connect_and_finish, read_names, no_db_settings,
    parse_host_port, db_settings, db_flag, __set_defaults, __get_config, super_init, get_netbios_name,
    get_baseDN, get_config, rootDSE_attr, get_rootDSE, attr, set_attr.
  wkeeps_steps.
Qed.
Lemma ad_construct_gkeeps dcc kw : (forall a b c, gkeeps (dcc a b c)) -> gkeeps (ad_construct dcc kw).
Proof. intros Hd. unfold ad_construct. pose proof (ad_init_wkeeps dcc kw Hd). wkeeps_steps. Qed.
Lemma dc_try_gkeeps dcc args dcs : (forall a b c, gkeeps (dcc a b c)) -> gkeeps (dc_try dcc args dcs).
Proof.
  intros Hd. induction dcs as [|dc dcs IH]; simpl; [auto with wkeeps|].
  apply gkeeps_bind; [|intros [hp|]; auto with wkeeps].
  unfold dc_trial. pose proof (ad_construct_gkeeps dcc (<["host" := PStr (srv_target dc)]> (<["port" := PInt (srv_port dc)]> args)) Hd).
  wkeeps_steps.
Qed.
Lemma dc_connect_gkeeps depth a b c : gkeeps (dc_connect depth a b c).
Proof.
  revert a b c. induction depth as [|n IH]; intros a b c; simpl; [auto with wkeeps|].
  by apply dc_try_gkeeps.
Qed.
Lemma try_gcs_wkeeps args gcs : wkeeps (try_gcs args gcs).
Proof. induction gcs; simpl; wkeeps_steps. Qed.
Lemma crossref_loop_wkeeps b kw ds : wkeeps (crossref_loop b kw ds).
Proof. induction ds; simpl; wkeeps_steps. Qed.
Lemma get_domains_wkeeps kw : wkeeps (get_domains kw).
Proof.
  unfold get_domains, get_root_domain, get_partitions, get_config, rootDSE_attr, get_rootDSE. pose proof try_gcs_wkeeps. pose proof crossref_loop_wkeeps.
  wkeeps_steps.
Qed.

Lemma wkeeps_ckeeps {A} cd (m : Meth A) : wkeeps m -> ckeeps cd m.
Proof. intros Hm s r s' H. apply cache_of_store. exact (Hm _ _ _ H). Qed.

Lemma ckeeps_bind {A B} cd (m : Meth A) (k : A -> Meth B) :
  ckeeps cd m -> (forall a, ckeeps cd (k a)) -> ckeeps cd (m ≫= k).
Proof.
  intros Hm Hk s r s'. rewrite st_bind_run. destruct (m s) as [[a|e] s1] eqn:E.
  - intros H. rewrite (Hk _ _ _ _ H). exact (Hm _ _ _ E).
  - intros [= _ <-]. exact (Hm _ _ _ E).
Qed.

Lemma ckeeps_if {A} cd (b : bool) (m1 m2 : Meth A) : ckeeps cd m1 -> ckeeps cd m2 -> ckeeps cd (if b then m1 else m2).
Proof. by destruct b. Qed.

Lemma ckeeps_put cd cd' k v : cd' <> cd -> ckeeps cd (update_world (cache_put cd' k v)).
Proof. intros Hne s r s' [= _ <-]. by apply cache_of_put_ne. Qed.

Lemma ckeeps_touch cd f : ckeeps cd (update_world (touch f)).
Proof. by intros s r s' [= _ <-]. Qed.

Lemma __loaded_ckeeps cd paths idx write : ckeeps cd (__loaded paths idx write).
Proof.
  unfold __loaded. destruct (_ !! _); [|apply wkeeps_ckeeps; auto with wkeeps].
  destruct write; [|apply wkeeps_ckeeps; auto with wkeeps].
  apply ckeeps_bind; [apply ckeeps_touch|intros; apply wkeeps_ckeeps; auto with wkeeps].
Qed.

End Frames.

Lemma domain_tier_not_global c c' n : cachedir c (Some n) <> cachedir c' None.
Proof. destruct c, c'; vm_compute; congruence. Qed.

#[export] Hint Resolve ckeeps_bind ckeeps_if ckeeps_touch __loaded_ckeeps : ckeeps.

(** Decompose a method into store-keeping steps and steps that leave [cd]. *)
Ltac ckeeps_steps :=
  repeat (intros; cbv zeta; first
    [ simple apply ckeeps_bind | simple apply ckeeps_if
    | simple apply __loaded_ckeeps
    | simple apply ckeeps_put; first [assumption | apply domain_tier_not_global]
    | match goal with |- ckeeps _ (match ?x with _ => _ end) => destruct x end
    | solve [simple apply wkeeps_ckeeps; wkeeps_steps] ]);
  auto with ckeeps.

Section EnumFrames.
Context {DE : DirectoryEnv} {AE : ADEnv}.

Lemma resolve_rows_ckeeps {R} (ik : IdKind R) cd write rcd dcd q rows :
  rcd <> cd -> dcd <> cd -> ckeeps cd (resolve_rows ik write rcd dcd q rows).
Proof.
  intros Hr Hd. induction rows as [|u rows IH]; simpl; [apply wkeeps_ckeeps; auto with wkeeps|].
  ckeeps_steps.
Qed.

Lemma ad_group_rows_ckeeps cd write plain n rows :
  cachedir GroupCache (Some n) <> cd -> cachedir DirGroupCache (Some n) <> cd ->
  ckeeps cd (ad_group_rows write plain n rows).
Proof.
  intros Hr Hd. induction rows as [|u rows IH]; simpl; [apply wkeeps_ckeeps; auto with wkeeps|].
  ckeeps_steps.
Qed.

Lemma ad_precheck_wkeeps {R} (ik : IdKind R) domains acc c : wkeeps (ad_precheck ik domains acc c).
Proof. revert acc c. induction domains; intros; simpl; unfold __loaded; wkeeps_steps. Qed.

Lemma ad_domains_loop_ckeeps {R} (ik : IdKind R) resolve dcc domains acc cd :
  (forall wr n rows, ckeeps cd (resolve wr n rows)) -> (forall a b c, gkeeps (dcc a b c)) ->
  wkeeps (ik_fetch ik) -> ckeeps cd (ad_domains_loop ik resolve dcc domains acc).
Proof.
  intros Hres Hd Hf. revert acc. induction domains as [|dm ds IH]; intros acc; simpl;
    [apply wkeeps_ckeeps; auto with wkeeps|].
  ckeeps_steps.
Qed.

Lemma ad_enumerate_ckeeps {R} (ik : IdKind R) resolve dcc domains cd :
  (forall wr n rows, ckeeps cd (resolve wr n rows)) -> (forall a b c, gkeeps (dcc a b c)) ->
  wkeeps (ik_fetch ik) -> ckeeps cd (ad_enumerate ik resolve dcc domains).
Proof.
  intros Hres Hd Hf. unfold ad_enumerate.
  pose proof (ad_precheck_wkeeps ik domains ∅ 0). pose proof (ad_domains_loop_ckeeps ik resolve dcc domains).
  ckeeps_steps.
Qed.

End EnumFrames.

Section GlobalTier.
Context {DE : DirectoryEnv} {AE : ADEnv}.

Lemma run_on_ckeeps {A} cd d (m : Meth A) w r w' :
  ckeeps cd m -> run_on d m w = (r, w') -> cache_of w' cd = cache_of w cd.
Proof.
  intros Hm. unfold run_on. destruct (m (d, w)) as [[a|e] [d1 w1]] eqn:E;
    intros [= _ <-]; exact (Hm _ _ _ E).
Qed.

Lemma ad_user_resolve_ckeeps c wr n rows : ckeeps (cachedir c None) (ad_user_resolve wr n rows).
Proof.
  unfold ad_user_resolve, plain_names.
  apply ckeeps_bind; [apply wkeeps_ckeeps; wkeeps_steps|intros plain].
  apply resolve_rows_ckeeps; apply domain_tier_not_global.
Qed.

Lemma ad_get_users_wkeeps : wkeeps ADQueries.get_users.
Proof. unfold ADQueries.get_users, request_attr. wkeeps_steps. Qed.

Lemma ad_users_enumerate_ckeeps c depth domains :
  ckeeps (cachedir c None) (ad_enumerate ad_users_kind ad_user_resolve (dc_connect depth) domains).
Proof.
  apply ad_enumerate_ckeeps; [apply ad_user_resolve_ckeeps|apply dc_connect_gkeeps|exact ad_get_users_wkeeps].
Qed.

(** C36: The AD enumeration never fills the global tiers.
    [FreeNAS_ActiveDirectory_Users] stores users only in the tiers of
    each domain, [cachedir _ (Some n)].  The single lookup
    [FreeNAS_ActiveDirectory_User] consults the global resolved tier
    [cachedir UserCache None] by bare name.  Whatever the run does (the
    constructor, [get_domains], each [dc_connect], the searches, errors
    included), every global tier is the same afterwards. *)
Theorem ad_users_skip_global_tier depth kw c w r w' :
  FreeNAS_ActiveDirectory_Users depth kw w = (r, w') ->
  cache_of w' (cachedir c None) = cache_of w (cachedir c None).
Proof.
  unfold FreeNAS_ActiveDirectory_Users, ad_object.
  destruct (bool_decide (kw = ∅)); [by intros [= _ <-]|].
  rewrite st_bind_run. destruct (run_on _ _ w) as [x w1] eqn:E.
  assert (Hw1 : cache_of w1 (cachedir c None) = cache_of w (cachedir c None)).
  { eapply run_on_ckeeps; [|exact E].
    pose proof (ad_init_wkeeps (dc_connect depth) kw (dc_connect_gkeeps depth)).
    pose proof (get_domains_wkeeps (domains_kw kw)). pose proof (ad_users_enumerate_ckeeps c depth).
    ckeeps_steps. }
  destruct x; intros [= _ <-]; done.
Qed.

End GlobalTier.

(** ** Witnesses

    [adid_env]: the forest of [ad_env] (controllers [dc1] .. [dc3] of
    example.com, of which only [dc3] binds, a global catalog, the domain
    EXAMPLE), where the OS knows the AD user [EXAMPLE\alice]. *)

Definition pw_alice : Passwd := mkPasswd "EXAMPLE\alice" 10001 10000 "alice" "/home/alice".

Definition adid_env : DirectoryEnv := {|
  env_tls := @env_tls ad_env; env_bind := @env_bind ad_env; env_search := @env_search ad_env;
  env_page := @env_page ad_env; env_page_bound := @env_page_bound ad_env; env_srv := @env_srv ad_env;
  env_getpwnam := fun n => if String.eqb n "EXAMPLE\alice" then Some pw_alice else None;
  env_getpwuid := fun _ => None; env_getgrnam := fun _ => None; env_getgrgid := fun _ => None;
  env_sha256 := @env_sha256 ad_env |}.

#[local] Existing Instance adid_env.
#[local] Existing Instance ad_noconfig.

Definition ad_kw (f : Z) : kwargs :=
  <["domain" := PStr "example.com"]> (<["binddn" := PStr "admin@EXAMPLE.COM"]>
    (<["bindpw" := PStr "secret"]> {["flags" := PInt f]})).

(** Both flags: the enumeration fills the tiers of EXAMPLE. *)
Definition ad_run := FreeNAS_ActiveDirectory_Users 2 (ad_kw 3) demo_world.

Lemma ad_users_skip_global_tier_witness :
  cache_of (snd ad_run) (cachedir UserCache (Some "EXAMPLE")) !! "EXAMPLE\alice" = Some (CPasswd pw_alice) /\
  cache_of (snd ad_run) (cachedir UserCache None) = cache_of demo_world (cachedir UserCache None).
Proof.
  split; [vm_compute; reflexivity|].
  apply (ad_users_skip_global_tier 2 (ad_kw 3) UserCache demo_world (fst ad_run) (snd ad_run)).
  vm_compute. reflexivity.
Defined.

Definition example_domain : Domain :=
  list_to_map [("nETBIOSName", "EXAMPLE"); ("dnsRoot", "example.com"); ("nCName", "dc=example,dc=com")].

(** A world where both tiers of EXAMPLE are marked loaded. *)
Definition loaded_world : World :=
  touch (sentinel (cachedir GroupCache (Some "EXAMPLE")) ".gl")
    (touch (sentinel (cachedir UserCache (Some "EXAMPLE")) ".ul") (snd ad_run)).

(** An object with the flags [f]. *)
Definition set_flags_obj (f : Z) (o : Obj) : Obj :=
  mkObj (host o) (port o) (binddn o) (bindpw o) (basedn o) (ssl o) (scope o)
    (filterstr o) (attributes o) (pagesize o) f (_handle o) (_isopen o) (fields o).

Definition reader : Dir := new_dir (ad_obj (Some "dc3.example.com") false).
Definition reader5 : Dir := new_dir (set_flags_obj 5 (obj reader)).

Lemma ad_cache_short_circuit_witness :
  (exists recs, ad_enumerate ad_users_kind ad_user_resolve (dc_connect 2) [example_domain] (reader5, loaded_world)
                = (Ok recs, (reader5, loaded_world))) /\
  ([example_domain] <> [] ->
   ad_enumerate ad_groups_kind ad_group_resolve (dc_connect 2) [example_domain] (reader5, loaded_world) =
   (_save;; recs ← ad_domains_loop ad_groups_kind ad_group_resolve (dc_connect 2) [example_domain] ∅;
    _restore;; mret recs) (reader5, loaded_world)).
Proof.
  apply ad_cache_short_circuit; [|vm_compute; reflexivity|vm_compute; reflexivity].
  repeat constructor. exists "EXAMPLE". split; [vm_compute; reflexivity|].
  split; apply (bool_decide_eq_true_1 _); vm_compute; reflexivity.
Defined.

End ADIdentity.
