(* ===== verification/Factory.v ===== *)
(** * Factory: [FreeNAS_Directory_Users], [_Groups], [_User], [_Group]

    The four factories of freenasldap.py (1672-1688, 1933-1949, 2105-2125,
    2283-2303) read [dflags] from the keyword arguments and build the LDAP
    class when [FLAGS_LDAP_ENABLED] is set, else the AD class when
    [FLAGS_AD_ENABLED] is set, else nothing.  The single-identity
    factories also drop an object whose [_pw] (or [_gr]) is [None]. *)

From S2P Require Import Prelude Config Directory LdapBackend ADInit IdentityCache LdapIdentity ADIdentity.

Module Factory.
Import Config Directory LdapBackend ADInit IdentityCache LdapIdentity ADIdentity.

(** [dflags = kwargs['dflags']] when given, [0] otherwise; [dflags & flag]
    needs an integer. *)
Definition dflags (kw : kwargs) : res Z :=
  if kw_has kw "dflags" then pv_int (kw_get kw "dflags") else Ok 0%Z.

(** The backend the flags select, LDAP first. *)
Inductive backend := LDAPBackend | ADBackend | NoBackend.

Definition select (f : Z) : backend :=
  if has_flag f FLAGS_LDAP_ENABLED then LDAPBackend
  else if has_flag f FLAGS_AD_ENABLED then ADBackend
  else NoBackend.

(** What an enumeration object iterates over: the LDAP list, or the AD
    records per domain with the domains in order. *)
Inductive enumeration (R : Type) :=
| LdapEnum (rs : list R) (d : Dir)
| ADEnum (domains : list Domain) (recs : gmap string (list R)) (d : Dir).
Arguments LdapEnum {R}. Arguments ADEnum {R}.

(** [for x in obj]. *)
Definition enum_iter {R} (e : enumeration R) : res (list R) :=
  match e with
  | LdapEnum rs _ => Ok rs
  | ADEnum ds recs _ => ad_iter ds recs
  end.

(** The enumeration factories: [None] when no backend is enabled. *)
Definition directory_enum {R} (kw : kwargs) (ldap : st World (list R * Dir))
    (ad : st World (option ((list Domain * gmap string (list R)) * Dir)))
    : st World (option (enumeration R)) :=
  fun w => match dflags kw with
           | Raise e => (Raise e, w)
           | Ok f =>
               match select f with
               | LDAPBackend => (r ← ldap; mret (Some (LdapEnum r.1 r.2))) w
               | ADBackend =>
                   (r ← ad; mret (match r with
                                  | Some ((ds, recs), d) => Some (ADEnum ds recs d)
                                  | None => None
                                  end)) w
               | NoBackend => (Ok None, w)
               end
           end.

(** The single-identity factories: the record of the object, [None] when
    there is no object or its record is [None]. *)
Definition directory_one {R} (kw : kwargs) (ldap : st World (option R * Dir))
    (ad : st World (option (option R * Dir))) : st World (option R) :=
  fun w => match dflags kw with
           | Raise e => (Raise e, w)
           | Ok f =>
               match select f with
               | LDAPBackend => (r ← ldap; mret r.1) w
               | ADBackend => (r ← ad; mret (match r with Some (x, _) => x | None => None end)) w
               | NoBackend => (Ok None, w)
               end
           end.

Section Factories.
Context {DE : DirectoryEnv} {AE : ADEnv}.

(** The LDAP classes read their row of [services_ldap] ([rows]) when the
    flags ask for it; [depth] bounds the recursion of [dc_connect]. *)
Definition FreeNAS_Directory_Users (rows : list kwargs) (depth : nat) (kw : kwargs)
    : st World (option (enumeration Passwd)) :=
  directory_enum kw (FreeNAS_LDAP_Users rows kw) (FreeNAS_ActiveDirectory_Users depth kw).

Definition FreeNAS_Directory_Groups (rows : list kwargs) (depth : nat) (kw : kwargs)
    : st World (option (enumeration Group)) :=
  directory_enum kw (FreeNAS_LDAP_Groups rows kw) (FreeNAS_ActiveDirectory_Groups depth kw).

Definition FreeNAS_Directory_User (rows : list kwargs) (depth : nat) (user : pyval) (kw : kwargs)
    : st World (option Passwd) :=
  directory_one kw (FreeNAS_LDAP_User rows user kw) (FreeNAS_ActiveDirectory_User depth user kw).

Definition FreeNAS_Directory_Group (rows : list kwargs) (depth : nat) (group : pyval) (kw : kwargs)
    : st World (option Group) :=
  directory_one kw (FreeNAS_LDAP_Group rows group kw) (FreeNAS_ActiveDirectory_Group depth group kw).

End Factories.

(** ** Properties *)

Section Properties.
Context {DE : DirectoryEnv} {AE : ADEnv}.

Lemma directory_enum_ldap {R} kw f ldap (ad : st World (option ((list Domain * gmap string (list R)) * Dir))) w :
  dflags kw = Ok f -> has_flag f FLAGS_LDAP_ENABLED = true ->
  directory_enum kw ldap ad w = (r ← ldap; mret (Some (LdapEnum r.1 r.2))) w.
Proof. intros Hd Hl. unfold directory_enum, select. by rewrite Hd, Hl. Qed.

Lemma directory_one_ldap {R} kw f (ldap : st World (option R * Dir)) ad w :
  dflags kw = Ok f -> has_flag f FLAGS_LDAP_ENABLED = true ->
  directory_one kw ldap ad w = (r ← ldap; mret r.1) w.
Proof. intros Hd Hl. unfold directory_one, select. by rewrite Hd, Hl. Qed.

(** C5: Cache short-circuit through the factories.  Take the LDAP backend
    selected by [dflags], the read flag, and the [.ul] sentinel.
    [FreeNAS_Directory_Users] then iterates over the records of the
    resolved tier and leaves the world as it was: zero searches.
    [FreeNAS_Directory_Groups] does the same with [.gl]. *)
Theorem directory_short_circuit rows depth kw f o w :
  dflags kw = Ok f -> has_flag f FLAGS_LDAP_ENABLED = true -> ldap_init rows kw = Ok o ->
  (has_flag (flags o) FLAGS_CACHE_READ_USER = true ->
   sentinel (cachedir UserCache None) ".ul" ∈ w_files w ->
   FreeNAS_Directory_Users rows depth kw w =
     (Ok (Some (LdapEnum (cache_passwds w (cachedir UserCache None)) (new_dir o))), w)) /\
  (has_flag (flags o) FLAGS_CACHE_READ_GROUP = true ->
   sentinel (cachedir GroupCache None) ".gl" ∈ w_files w ->
   FreeNAS_Directory_Groups rows depth kw w =
     (Ok (Some (LdapEnum (cache_groups w (cachedir GroupCache None)) (new_dir o))), w)).
Proof.
  intros Hd Hl Hi. destruct (ldap_constructors_hit rows kw o w Hi) as [Hu Hg].
  unfold FreeNAS_Directory_Users, FreeNAS_Directory_Groups.
  split; intros Hr Hs; rewrite (directory_enum_ldap _ _ _ _ _ Hd Hl), st_bind_run.
  - by rewrite Hu.
  - by rewrite Hg.
Qed.

(** C11: A cache hit makes the factory answer [None].  Take the LDAP backend
    and the read flag, with the name in the resolved tier.
    [FreeNAS_Directory_User] returns [None] and leaves the world
    unchanged, although the tier holds the user's record: [__get_user]
    returns the record instead of setting [_pw].
    [FreeNAS_Directory_Group] does the same. *)
Theorem directory_cache_hit_none rows depth kw f o s w :
  dflags kw = Ok f -> has_flag f FLAGS_LDAP_ENABLED = true -> ldap_init rows kw = Ok o -> s <> "" ->
  (is_Some (fields o !! "usersuffix") -> has_flag (flags o) FLAGS_CACHE_READ_USER = true ->
   cache_has w (cachedir UserCache None) s = true ->
   FreeNAS_Directory_User rows depth (PStr s) kw w = (Ok None, w)) /\
  (is_Some (fields o !! "groupsuffix") -> has_flag (flags o) FLAGS_CACHE_READ_GROUP = true ->
   cache_has w (cachedir GroupCache None) s = true ->
   FreeNAS_Directory_Group rows depth (PStr s) kw w = (Ok None, w)).
Proof.
  intros Hd Hl Hi Hs. destruct (ldap_single_hit rows kw o s w Hi Hs) as [Hu Hg].
  unfold FreeNAS_Directory_User, FreeNAS_Directory_Group.
  split; intros Hf Hr Hc; rewrite (directory_one_ldap _ _ _ _ _ Hd Hl), st_bind_run.
  - by destruct (Hu Hf Hr Hc) as [d ->].
  - by destruct (Hg Hf Hr Hc) as [d ->].
Qed.

(** No backend, no object.  When [dflags] selects neither LDAP nor
    AD, all four factories return [None] without touching the world.  A
    [dflags] that is not an integer raises [TypeError] from the [&]. *)
Theorem directory_no_backend rows depth kw user w :
  (forall f, dflags kw = Ok f -> select f = NoBackend ->
   FreeNAS_Directory_Users rows depth kw w = (Ok None, w) /\
   FreeNAS_Directory_Groups rows depth kw w = (Ok None, w) /\
   FreeNAS_Directory_User rows depth user kw w = (Ok None, w) /\
   FreeNAS_Directory_Group rows depth user kw w = (Ok None, w)) /\
  (kw !! "dflags" = Some (PStr "2") -> FreeNAS_Directory_Users rows depth kw w = (Raise TypeError, w)).
Proof.
  split.
  - intros f Hd Hn. unfold FreeNAS_Directory_Users, FreeNAS_Directory_Groups, FreeNAS_Directory_User,
      FreeNAS_Directory_Group, directory_enum, directory_one. by rewrite Hd, Hn.
  - intros Hk. unfold FreeNAS_Directory_Users, directory_enum, dflags, kw_has, kw_get. by rewrite Hk.
Qed.

End Properties.

(** ** Witnesses *)

#[local] Existing Instance id_env.
#[local] Existing Instance ad_noconfig.

(** The keyword arguments of [id_kw] with the LDAP backend selected. *)
Definition ldap_kw (f : Z) : kwargs := <["dflags" := PInt FLAGS_LDAP_ENABLED]> (id_kw f).

Definition ldap_obj (f : Z) : Obj := ok_or (demo_obj "" 0 false) (ldap_init [] (ldap_kw f)).

Lemma directory_short_circuit_witness :
  FreeNAS_Directory_Users [] 2 (ldap_kw 5) sc_world = (Ok (Some (LdapEnum [pw_a] (new_dir (ldap_obj 5)))), sc_world) /\
  FreeNAS_Directory_Groups [] 2 (ldap_kw 5) sc_world = (Ok (Some (LdapEnum [gr_a] (new_dir (ldap_obj 5)))), sc_world).
Proof.
  destruct (directory_short_circuit [] 2 (ldap_kw 5) 2 (ldap_obj 5) sc_world) as [Hu Hg];
    [reflexivity|reflexivity|vm_compute; reflexivity|].
  split; [rewrite Hu|rewrite Hg]; try reflexivity; try (vm_compute; reflexivity);
    apply (bool_decide_eq_true_1 _); vm_compute; reflexivity.
Defined.

Lemma directory_cache_hit_none_witness :
  cache_passwds sc_world (cachedir UserCache None) = [pw_a] /\
  FreeNAS_Directory_User [] 2 (PStr "a") (ldap_kw 5) sc_world = (Ok None, sc_world) /\
  FreeNAS_Directory_Group [] 2 (PStr "a") (ldap_kw 5) sc_world = (Ok None, sc_world).
Proof.
  destruct (directory_cache_hit_none [] 2 (ldap_kw 5) 2 (ldap_obj 5) "a" sc_world) as [Hu Hg];
    [reflexivity|reflexivity|vm_compute; reflexivity|discriminate|].
  split_and!; [vm_compute; reflexivity|apply Hu|apply Hg]; vm_compute; try reflexivity; eauto.
Defined.

Lemma directory_no_backend_witness :
  FreeNAS_Directory_User [] 2 (PStr "a") (<["dflags" := PInt 4]> (id_kw 5)) sc_world = (Ok None, sc_world) /\
  FreeNAS_Directory_Users [] 2 (<["dflags" := PStr "2"]> (id_kw 5)) sc_world = (Raise TypeError, sc_world).
Proof.
  destruct (directory_no_backend [] 2 (<["dflags" := PInt 4]> (id_kw 5)) (PStr "a") sc_world) as [H _].
  destruct (directory_no_backend [] 2 (<["dflags" := PStr "2"]> (id_kw 5)) (PStr "a") sc_world) as [_ H'].
  split; [apply (H 4%Z); reflexivity|apply H'; reflexivity].
Defined.

End Factory.
