(* ===== verification/Cachetool.v ===== *)
(** * Cachetool: the cache maintenance tool (src/gui/tools/cachetool.py)

    [cache_expire] empties the cache directory tree: [__cache_expire]
    walks each subdirectory of the cache directory bottom-up, unlinking
    the files and removing the directories below it, and unlinks a plain
    file found directly in the cache directory.  It runs on the tree of
    [FileSystem]; the recursion limit of the walk is the argument
    [limit]. *)

From S2P Require Import Prelude Config FileSystem.

Module Cachetool.
Import Config FileSystem.
#[local] Open Scope list_scope.

(** ** [__cache_expire] (74-89) and [cache_expire] (91-93) *)

(** The body of the walk: [map(lambda f: os.unlink(os.path.join(root, f)),
    files)] then [map(lambda d: os.rmdir(os.path.join(root, d)), dirs)];
    Python 2's [map] is eager, and an [OSError] escapes. *)
Definition expire_body (root : path) (dirs files : list string) : st FS unit :=
  st_iter (fun f => unlink (join root f)) files;;
  st_iter (fun d => rmdir (join root d)) dirs.

(** [for ent in os.listdir(cachedir)]: a directory is walked bottom-up
    with [expire_body], anything else is unlinked. *)
Definition __cache_expire (limit : nat) (cachedir : path) : st FS unit :=
  fs ← get_st;
  match listdir fs cachedir with
  | Raise e => raise e
  | Ok ents =>
      st_iter (fun ent =>
        fs ← get_st;
        if isdir fs (join cachedir ent) then walk_bu limit (join cachedir ent) expire_body
        else unlink (join cachedir ent)) ents
  end.

(** The path of a string: its non-empty components between ['/']. *)
Definition path_of (s : string) : path := filter (fun c => c <> "") (py_split "/" s).

(** [if kwargs.has_key('cachedir') and kwargs['cachedir']:
    __cache_expire(kwargs['cachedir'])]; [os.listdir] of a value that is
    not a string raises [TypeError]. *)
Definition cache_expire (limit : nat) (kw : kwargs) : st FS unit :=
  if kw_has kw "cachedir" && py_truthy (kw_get kw "cachedir") then
    match kw_get kw "cachedir" with
    | PStr s => __cache_expire limit (path_of s)
    | _ => raise TypeError
    end
  else mret tt.

(** The tree [cache_expire] promises: every entry strictly below the
    cache directory is removed, except the directories directly in it. *)
Definition is_child (top k : path) : bool :=
  match child_name top k with Some _ => true | None => false end.

Definition expired (cd : path) (fs : FS) : FS :=
  removes (fun k => is_below cd k && negb (is_child cd k && isdir fs k)) fs.

(** ** The walk removes a subtree *)

Lemma removes_subseteq C fs : removes C fs ⊆ fs.
Proof. apply map_filter_subseteq. Qed.

Lemma bounded_subseteq f top fs fs' : bounded f top fs -> fs' ⊆ fs -> bounded f top fs'.
Proof. intros Hb Hs k v Hk. apply Hb with v. by eapply lookup_weaken. Qed.

Lemma existsb_elem {A} (p : A -> bool) l : existsb p l = true <-> exists x, x ∈ l /\ p x = true.
Proof.
  rewrite existsb_exists. split; intros (x & Hx & Hp); exists x; by rewrite list_elem_of_In in *.
Qed.

(** An entry strictly below [top] is an entry of [top] or lies below a
    directory entry of it. *)
Lemma below_cases fs top names k v :
  wf fs -> listdir fs top = Ok names -> fs !! k = Some v -> is_below top k = true ->
  exists n, n ∈ names /\
    (k = join top n \/ (is_below (join top n) k = true /\ fs !! join top n = Some KDir)).
Proof.
  intros Hwf Hl Hk (n & r & ->)%is_below_spec. exists n.
  destruct r as [|m r].
  - split; [apply (listdir_elem _ _ _ _ Hl); by exists v|by left].

  - assert (Hd : fs !! join top n = Some KDir).
    { apply (wf_ancestor fs (join top n) (m :: r) v Hwf); [|done].
      unfold join. by rewrite <- app_assoc. }
    split; [apply (listdir_elem _ _ _ _ Hl); by exists KDir|right]. split; [|done].
    apply is_below_spec. exists m, r. unfold join. by rewrite <- app_assoc.
Qed.

(** The body on a directory whose file entries are [files] and whose
    directory entries [dirs] are already empty removes exactly those
    entries. *)
Lemma expire_body_run top dirs files fs :
  NoDup dirs -> NoDup files ->
  (forall f, f ∈ files -> fs !! join top f = Some KFile) ->
  (forall d, d ∈ dirs -> fs !! join top d = Some KDir /\ forall n, fs !! join (join top d) n = None) ->
  expire_body top dirs files fs =
    (Ok tt, removes (fun k => existsb (fun d => bool_decide (k = join top d)) dirs)
              (removes (fun k => existsb (fun f => bool_decide (k = join top f)) files) fs)).
Proof.
  intros Hdn Hfn Hf Hd. unfold expire_body.
  erewrite st_bind_ok; [|eapply (st_iter_removes _ _ (fun fs f => fs !! join top f = Some KFile))].
  - eapply (st_iter_removes _ _ (fun fs d => fs !! join top d = Some KDir /\
                                             forall n, fs !! join (join top d) n = None)); try done.
    + intros fs' d _ [Hk Hn]. rewrite rmdir_run by done. by rewrite delete_removes.
    + intros fs' d e _ _ Hne [Hk Hn]. rewrite !removes_lookup, Hk.
      rewrite bool_decide_eq_false_2 by (intros ?%join_inj; congruence). split; [done|].
      intros n. rewrite removes_lookup, Hn. by case_bool_decide.
    + rewrite Forall_forall. intros d Hdd. destruct (Hd d Hdd) as [Hk Hn].
      rewrite !removes_lookup. split.
      * destruct (existsb _ _) eqn:He; [|done]. apply existsb_elem in He as (f & Hff & Hkf).
        apply bool_decide_eq_true in Hkf. rewrite Hkf, (Hf f Hff) in Hk. discriminate.
      * intros n. rewrite removes_lookup, Hn. by destruct (existsb _ _).
  - intros fs' f _ Hk. rewrite unlink_run by done. by rewrite delete_removes.
  - intros fs' f e _ _ Hne Hk. rewrite removes_lookup, Hk.
    by rewrite bool_decide_eq_false_2 by (intros ?%join_inj; congruence).
  - done.
  - by apply Forall_forall.
Qed.

(** The entries the walk of [top] removes, read off its listing: the
    entries of [top] and everything below its directory entries are
    exactly the entries strictly below [top]. *)
Lemma walk_cover fs top names k v :
  wf fs -> listdir fs top = Ok names -> fs !! k = Some v ->
  existsb (fun d => bool_decide (k = join top d)) (filter (fun n => isdir fs (join top n) = true) names)
  || existsb (fun f => bool_decide (k = join top f)) (filter (fun n => isdir fs (join top n) = false) names)
  || existsb (fun d => is_below (join top d) k) (filter (fun n => isdir fs (join top n) = true) names)
  = is_below top k.
Proof.
  intros Hwf Hl Hk. apply Bool.eq_iff_eq_true. rewrite !orb_true_iff, !existsb_elem. split.
  - intros [[(d & _ & ->%bool_decide_eq_true) | (f & _ & ->%bool_decide_eq_true)] | (d & _ & Hb)];
      [apply is_below_join|apply is_below_join|by eapply is_below_child].
  - intros Hb. destruct (below_cases fs top names k v Hwf Hl Hk Hb) as (n & Hn & [->|[Hbn Hd]]).
    + destruct (isdir fs (join top n)) eqn:Hdir.
      * left; left. exists n. rewrite list_elem_of_filter, bool_decide_eq_true. done.
      * left; right. exists n. rewrite list_elem_of_filter, bool_decide_eq_true. done.
    + right. exists n. rewrite list_elem_of_filter. unfold isdir. by rewrite bool_decide_eq_true_2.
Qed.

Lemma listdir_dir fs top : fs !! top = Some KDir -> exists names, listdir fs top = Ok names.
Proof. intros H. unfold listdir, isdir. rewrite bool_decide_eq_true_2 by done. by eexists. Qed.

(** An entry listed in [top] that is not a directory is a file. *)
Lemma listed_kind fs top names n :
  listdir fs top = Ok names -> n ∈ names ->
  fs !! join top n = Some (if isdir fs (join top n) then KDir else KFile).
Proof.
  intros Hl Hn. apply (listdir_elem _ _ _ _ Hl) in Hn as [[] Hv]; unfold isdir; rewrite Hv;
    [rewrite bool_decide_eq_false_2 by congruence|rewrite bool_decide_eq_true_2]; done.
Qed.

(** One level of the walk: when walking each subdirectory prunes it, the
    walk of [top] prunes [top]. *)
Lemma walk_expire_step fuel top fs :
  (forall fs' d, wf fs' -> fs' ⊆ fs -> fs' !! join top d = Some KDir ->
                 walk_bu fuel (join top d) expire_body fs' = (Ok tt, prune (join top d) fs')) ->
  wf fs -> fs !! top = Some KDir ->
  walk_bu (S fuel) top expire_body fs = (Ok tt, prune top fs).
Proof.
  intros Hw Hwf Htop. destruct (listdir_dir fs top Htop) as [names Hl].
  pose proof (listdir_NoDup _ _ _ Hl) as Hnd. cbn [walk_bu].
  rewrite (st_bind_ok _ _ fs fs fs) by done. rewrite Hl.
  erewrite st_bind_ok; [|apply (st_iter_removes _ (fun d => is_below (join top d))
                          (fun fs' d => wf fs' /\ fs' ⊆ fs /\ fs' !! join top d = Some KDir))].
  - rewrite expire_body_run.
    + f_equal. rewrite !removes_removes, prune_removes. apply removes_ext. intros k v Hk.
      by apply (walk_cover fs top names k v).
    + by apply NoDup_filter.
    + by apply NoDup_filter.
    + intros f [Hf Hn]%list_elem_of_filter. rewrite removes_lookup.
      rewrite (listed_kind _ _ _ _ Hl Hn), Hf. destruct (existsb _ _) eqn:He; [|done].
      apply existsb_elem in He as (d & _ & Hb). by rewrite is_below_sibling in Hb.
    + intros d [Hd Hn]%list_elem_of_filter. rewrite !removes_lookup. split.
      * rewrite (listed_kind _ _ _ _ Hl Hn), Hd. destruct (existsb _ _) eqn:He; [|done].
        apply existsb_elem in He as (e & _ & Hb). by rewrite is_below_sibling in Hb.
      * intros n. rewrite removes_lookup. destruct (existsb _ _) eqn:He; [done|].
        exfalso. apply not_true_iff_false in He. apply He, existsb_elem.
        exists d. split; [by apply list_elem_of_filter|apply is_below_join].
  - intros fs' d _ (Hwf' & Hsub & Hd). by apply Hw.
  - intros fs' d e _ _ Hne (Hwf' & Hsub & Hd). split; [by apply wf_removes_below|]. split.
    + etrans; [apply removes_subseteq|done].
    + by rewrite removes_lookup, is_below_sibling.
  - by apply NoDup_filter.
  - rewrite Forall_forall. intros d [Hd Hn]%list_elem_of_filter.
    split; [done|]. split; [done|]. by rewrite (listed_kind _ _ _ _ Hl Hn), Hd.
Qed.

(** The walk of a directory whose subtree is at most [f] levels deep,
    with [S f] levels of recursion allowed, removes everything strictly
    below it and raises nothing. *)
Lemma walk_expire f top fs :
  wf fs -> fs !! top = Some KDir -> bounded f top fs ->
  walk_bu (S f) top expire_body fs = (Ok tt, prune top fs).
Proof.
  revert top fs. induction f as [|f IH]; intros top fs Hwf Htop Hb;
    apply walk_expire_step; try done; intros fs' d Hwf' Hsub Hd.
  - pose proof (Hb _ _ (lookup_weaken _ _ _ _ Hd Hsub) (is_below_join top d)) as Hlen.
    unfold join in Hlen. rewrite length_app in Hlen. simpl in Hlen. lia.
  - apply IH; [done|done|]. eapply bounded_subseteq; [by apply bounded_child|done].
Qed.

Lemma is_child_join top n : is_child top (join top n) = true.
Proof. unfold is_child. by rewrite child_name_join. Qed.

(** An entry below an entry of [top] is not itself an entry of [top]. *)
Lemma is_child_below top e k : is_below (join top e) k = true -> is_child top k = false.
Proof.
  unfold is_child. destruct (child_name top k) as [n|] eqn:Hc; [|done].
  apply child_name_Some in Hc as ->. by rewrite is_below_sibling.
Qed.

(** What [__cache_expire] removes for the entry [e] of the cache
    directory: its subtree, and the entry itself when it is a file. *)
Definition expire_entry (fs0 : FS) (cd : path) (e : string) (k : path) : bool :=
  is_below (join cd e) k || (bool_decide (k = join cd e) && negb (isdir fs0 (join cd e))).

Lemma expire_entry_cover fs cd names k v :
  wf fs -> listdir fs cd = Ok names -> fs !! k = Some v ->
  existsb (fun e => expire_entry fs cd e k) names = is_below cd k && negb (is_child cd k && isdir fs k).
Proof.
  intros Hwf Hl Hk. apply Bool.eq_iff_eq_true. rewrite existsb_elem, andb_true_iff, negb_true_iff.
  unfold expire_entry. split.
  - intros (e & _ & [Hb | [->%bool_decide_eq_true Hd]%andb_true_iff]%orb_true_iff).
    + split; [by eapply is_below_child|]. by rewrite (is_child_below _ _ _ Hb).
    + apply negb_true_iff in Hd. rewrite is_below_join, Hd. by destruct (is_child _ _).
  - intros [Hb Hnd]. destruct (below_cases fs cd names k v Hwf Hl Hk Hb) as (n & Hn & [->|[Hbn _]]).
    + exists n. split; [done|]. rewrite is_child_join in Hnd. simpl in Hnd. rewrite Hnd.
      rewrite bool_decide_eq_true_2 by done. apply orb_true_r.
    + exists n. split; [done|]. by rewrite Hbn.
Qed.

(** One pass of the loop of [__cache_expire] on the entry [e]. *)
Lemma expire_entry_run limit cd fs0 fs e :
  wf fs -> fs ⊆ fs0 -> bounded limit cd fs0 -> fs0 !! join cd e = Some (if isdir fs0 (join cd e) then KDir else KFile) ->
  fs !! join cd e = fs0 !! join cd e ->
  (fs' ← get_st;
   if isdir fs' (join cd e) then walk_bu limit (join cd e) expire_body else unlink (join cd e)) fs
  = (Ok tt, removes (expire_entry fs0 cd e) fs).
Proof.
  intros Hwf Hsub Hb Hkind Heq. rewrite (st_bind_ok _ _ fs fs fs) by done.
  assert (Hdir : isdir fs (join cd e) = isdir fs0 (join cd e)) by (unfold isdir; by rewrite Heq).
  rewrite Hdir. unfold expire_entry. destruct (isdir fs0 (join cd e)) eqn:Hd.
  - destruct limit as [|f].
    + pose proof (Hb _ _ Hkind (is_below_join cd e)) as Hlen.
      unfold join in Hlen. rewrite length_app in Hlen. simpl in Hlen. lia.
    + rewrite walk_expire; [|done|by rewrite Heq|].
      * f_equal. apply removes_ext. intros k v _. rewrite andb_false_r. symmetry. apply orb_false_r.
      * eapply bounded_subseteq; [by apply bounded_child|done].
  - rewrite unlink_run by by rewrite Heq. f_equal. rewrite delete_removes. apply removes_ext.
    intros k v Hk. rewrite andb_true_r. destruct (is_below (join cd e) k) eqn:Hb'; [|done].
    apply is_below_spec in Hb' as (m & r & ->).
    pose proof (wf_ancestor fs (join cd e) (m :: r) v Hwf Hk ltac:(done)) as Hanc.
    rewrite Heq, Hkind in Hanc. discriminate.
Qed.

(** The run of [cache_expire] on a well-formed, bounded tree. *)
Lemma cache_expire_run limit kw s fs :
  kw !! "cachedir" = Some (PStr s) -> s <> "" ->
  wf fs -> fs !! path_of s = Some KDir -> bounded limit (path_of s) fs ->
  cache_expire limit kw fs = (Ok tt, expired (path_of s) fs).
Proof.
  intros Hkw Hs Hwf Hcd Hb. unfold cache_expire, kw_has, kw_get. rewrite Hkw. simpl.
  rewrite (proj2 (String.eqb_neq s "") Hs). simpl.
  destruct (listdir_dir fs _ Hcd) as [names Hl].
  unfold __cache_expire. rewrite (st_bind_ok _ _ fs fs fs) by done. rewrite Hl.
  rewrite (st_iter_removes _ (expire_entry fs (path_of s))
             (fun fs' e => wf fs' /\ fs' ⊆ fs /\ fs' !! join (path_of s) e = fs !! join (path_of s) e)).
  - f_equal. unfold expired. apply removes_ext. intros k v Hk. by apply (expire_entry_cover _ _ names _ v).
  - intros fs' e He (Hwf' & Hsub & Heq). apply expire_entry_run; try done.
    by apply (listed_kind _ _ names).
  - intros fs' e e' _ _ Hne (Hwf' & Hsub & Heq). split; [|split].
    + apply wf_removes; [done|]. intros p n v Hpn. unfold expire_entry.
      intros [Hb' | [->%bool_decide_eq_true Hnd]%andb_true_iff]%orb_true_iff.
      * by rewrite is_below_app.
      * apply Hwf' in Hpn. apply (lookup_weaken _ _ _ _ Hpn) in Hsub.
        unfold isdir in Hnd. rewrite bool_decide_eq_true_2 in Hnd by done. discriminate.
    + etrans; [apply removes_subseteq|done].
    + rewrite removes_lookup. unfold expire_entry. rewrite is_below_sibling.
      by rewrite bool_decide_eq_false_2 by (intros ?%join_inj; congruence).
  - by apply (listdir_NoDup fs (path_of s)).
  - by rewrite Forall_forall.
Qed.

(** C4: [cache_expire] on a well-formed tree whose depth below the cache
    directory is within the walk's recursion limit succeeds, raising
    neither [OSError] nor [RuntimeError], and leaves exactly the tree
    outside the cache directory, the cache directory itself and the
    directories directly in it: every file and every deeper directory
    below it is removed, as the docstring promises ("preserve the root
    directory hierarchy"). *)
Theorem cache_expire_spec limit kw s fs :
  kw !! "cachedir" = Some (PStr s) -> s <> "" ->
  wf fs -> fs !! path_of s = Some KDir -> bounded limit (path_of s) fs ->
  cache_expire limit kw fs = (Ok tt, expired (path_of s) fs).
Proof. apply cache_expire_run. Qed.

(** ** Examples *)

(** A cache directory with a user tier holding a sentinel and one domain
    subdirectory, and a stray file. *)
Definition cache_tree : FS := list_to_map [
  ([], KDir); (["var"], KDir); (["var"; "tmp"], KDir); (["var"; "tmp"; ".cache"], KDir);
  (["var"; "tmp"; ".cache"; ".users"], KDir);
  (["var"; "tmp"; ".cache"; ".users"; ".ul"], KFile);
  (["var"; "tmp"; ".cache"; ".users"; "WG"], KDir);
  (["var"; "tmp"; ".cache"; ".users"; "WG"; "alice"], KFile);
  (["var"; "tmp"; ".cache"; "stray"], KFile)].

Definition expire_kw : kwargs := {["cachedir" := PStr "/var/tmp/.cache"]}.

Lemma cache_expire_spec_witness :
  cache_expire 1000 expire_kw cache_tree =
    (Ok tt, list_to_map [([], KDir); (["var"], KDir); (["var"; "tmp"], KDir); (["var"; "tmp"; ".cache"], KDir);
                         (["var"; "tmp"; ".cache"; ".users"], KDir)]).
Proof.
  rewrite (cache_expire_spec 1000 expire_kw "/var/tmp/.cache" cache_tree).
  - vm_compute. reflexivity.
  - reflexivity.
  - discriminate.
  - apply wfb_wf. vm_compute. reflexivity.
  - vm_compute. reflexivity.
  - apply boundedb_bounded. vm_compute. reflexivity.
Defined.

End Cachetool.
