(* ===== verification/CacheCommands.v ===== *)
(** * CacheCommands: the report commands and the driver of cachetool.py

    [keys], [rawdump], [check] and [count] read the four cache tiers of
    [IdentityCache] (globally, or per NetBIOS domain when Active Directory
    or NT4 is the enabled directory service, as [SystemConfig] reads it
    from the database) and print what they find; [main] reads the command
    line.  A [print] is an output event appended to the tool's output, so
    what was printed before an exception stays printed.  The Active
    Directory variants construct [FreeNAS_ActiveDirectory(flags=
    FLAGS_DBINIT)] and call its [get_domains] ([ADIdentity.ad_object],
    [ADQueries.get_domains]).  freenasnt4.py is not in src/: the NT4
    domains and the directories of the two NT4 caches are the type class
    [NT4Env].  [fill] and [dump] enumerate through [FreeNAS_Users] and
    [FreeNAS_Groups] of freenasusers.py, which is not in src/ and which the
    spec does not describe; they are not modelled. *)

From S2P Require Import Prelude Config SystemConfig FileSystem Directory ADQueries ADInit IdentityCache ADIdentity Cachetool.

Module CacheCommands.
Import Config SystemConfig FileSystem Directory ADQueries ADInit IdentityCache ADIdentity Cachetool.

(** ** Output and state *)

(** What one [print] statement writes. *)
Inductive out :=
| OText (s : string)                            (* a literal line *)
| OWorkgroup (w : string)                       (* "w: %s" *)
| OKey (tier k : string)                        (* "u key: %s" *)
| OItem (tier k : string) (v : CacheVal)        (* "u: %s=%s" *)
| OFound (k : string) (v : CacheVal)            (* "%s: %s" *)
| OCount (tier : string) (n : Z)                (* "u:  %ld" *)
| OUsage (keys : list string).                  (* the usage line, on stderr *)

#[export] Instance out_eq_dec : EqDecision out.
Proof. solve_decision. Defined.

(** The tool's state: the world (caches, directory sessions) and what it
    printed so far. *)
Abbreviation ToolSt := (World * list out)%type.

Definition print (o : out) : st ToolSt unit := fun s => (Ok tt, (s.1, (s.2 ++ [o])%list)).
Definition world_t : st ToolSt World := fun s => (Ok s.1, s).
Definition on_w {A} (m : st World A) : st ToolSt A :=
  fun s => match m s.1 with (r, w') => (r, (w', s.2)) end.
Definition lift_t {A} (r : res A) : st ToolSt A :=
  match r with Ok a => mret a | Raise e => raise e end.

(** [FREENAS_CACHEDIR] (freenascache.py). *)
Definition FREENAS_CACHEDIR : string := "/var/tmp/.cache".

(** [if cache:]: a store is true when it holds an entry. *)
Definition cache_truthy (w : World) (cd : string) : bool := negb (bool_decide (cache_of w cd = ∅)).

(** [cache.keys()], in the store's order. *)
Definition store_keys (w : World) (cd : string) : list string := (map_to_list (cache_of w cd)).*1.

(** [bool(cache[k])]: [None] is false, a record or a row is a non-empty
    tuple. *)
Definition cv_truthy (v : CacheVal) : bool := match v with CNone => false | _ => true end.

(** The string ["\n"]. *)
Definition newline : string := String (ascii_of_nat 10) EmptyString.

(** The four tiers with the label the tool prints for each. *)
Definition tiers : list (string * cache_class) :=
  [("u", UserCache); ("g", GroupCache); ("du", DirUserCache); ("dg", DirGroupCache)].

(** The NT4 backend (freenasnt4.py): its domains and the directories of
    its user and group caches. *)
Class NT4Env := {
  nt4_get_domains : list string;
  nt4_cachedir : bool -> string -> string }.

(** ** [keys] (108-196) *)

(** [if cache: for key in cache.keys(): print "<label> key: %s" % key]. *)
Definition print_keys (label cd : string) : st ToolSt unit :=
  w ← world_t;
  if cache_truthy w cd then st_iter (fun k => print (OKey label k)) (store_keys w cd) else mret tt.

Definition keys_for (dir : option string) : st ToolSt unit :=
  st_iter (fun '(label, c) => print_keys label (cachedir c dir)) tiers.

(** ** [rawdump] (199-286); the default variant does not test the user
    tier's truth. *)
Definition print_items (guarded : bool) (label cd : string) : st ToolSt unit :=
  w ← world_t;
  if negb guarded || cache_truthy w cd
  then st_iter (fun '(k, v) => print (OItem label k v)) (map_to_list (cache_of w cd))
  else mret tt.

Definition items_for (dir : option string) : st ToolSt unit :=
  st_iter (fun '(label, c) => print_items true label (cachedir c dir)) tiers.

Definition items_default : st ToolSt unit :=
  print_items false "u" (cachedir UserCache None);;
  st_iter (fun '(label, c) => print_items true label (cachedir c None)) (tail tiers).

(** ** [count] (483-527) *)

(** [print "<label>:  %ld" % _cachelen(cache)]; [len] of a store does not
    fail, so the [except] of [_cachelen] is never taken. *)
Definition print_count (label cd : string) : st ToolSt unit :=
  w ← world_t; print (OCount label (Z.of_nat (map_size (cache_of w cd)))).

Definition counts_for (dir : option string) : st ToolSt unit :=
  st_iter (fun '(label, c) => print_count label (cachedir c dir)) tiers;; print (OText newline).

(** ** [check] (289-480) *)

(** [if not kwargs.has_key('args') and kwargs['args']: return]: [not]
    binds tighter than [and], so with [args] present the test is false,
    and without it [kwargs['args']] raises [KeyError]. *)
Definition check_guard (kw : kwargs) : st ToolSt bool :=
  if negb (kw_has kw "args") then
    match kw !! "args" with Some v => mret (py_truthy v) | None => raise (KeyError "args") end
  else mret false.

(** [for arg in kwargs['args']]. *)
Definition check_args (kw : kwargs) : st ToolSt (list string) :=
  match kw !! "args" with
  | Some (PList l) => mret l
  | Some _ => raise TypeError
  | None => raise (KeyError "args")
  end.

(** [if cache and cache.has_key(val) and cache[val]: print "%s: %s" %
    (val, cache[val])]. *)
Definition check_one (cd val : string) : st ToolSt unit :=
  w ← world_t;
  if cache_truthy w cd && cache_has w cd val then
    match cache_of w cd !! val with
    | Some v => if cv_truthy v then print (OFound val v) else mret tt
    | None => mret tt
    end
  else mret tt.

(** [parts = arg.split('='); key = parts[0]; val = join(parts[1:], '=')]. *)
Definition split_arg (arg : string) : string * string :=
  match py_split "=" arg with p :: ps => (p, py_join "=" ps) | [] => ("", "") end.

Definition check_key (dir : option string) (key val : string) : st ToolSt unit :=
  if String.eqb key "u" then check_one (cachedir UserCache dir) val
  else if String.eqb key "g" then check_one (cachedir GroupCache dir) val
  else if String.eqb key "du" then check_one (cachedir DirUserCache dir) val
  else if String.eqb key "dg" then check_one (cachedir DirGroupCache dir) val
  else mret tt.

(** [_cache_check_default] (434-467). *)
Definition _cache_check_default (kw : kwargs) : st ToolSt unit :=
  halt ← check_guard kw;
  if (halt : bool) then mret tt else
  args ← check_args kw;
  st_iter (fun arg => let '(key, val) := split_arg arg in check_key None key val) args.

(** [s] without the prefix [p], when [s.startswith(p)]. *)
Fixpoint str_strip (p s : string) : option string :=
  match p, s with
  | EmptyString, _ => Some s
  | String a p', String b s' => if Ascii.eqb a b then str_strip p' s' else None
  | _, _ => None
  end.

(** [if arg.startswith("u="): key = "u"; val = arg.partition("u=")[2]]
    and the three other prefixes; the first occurrence of the prefix is
    at the start, so [val] is the rest of [arg]. *)
Definition prefixed_arg (arg : string) : option (string * string) :=
  match str_strip "u=" arg with Some v => Some ("u", v) | None =>
  match str_strip "g=" arg with Some v => Some ("g", v) | None =>
  match str_strip "du=" arg with Some v => Some ("du", v) | None =>
  match str_strip "dg=" arg with Some v => Some ("dg", v) | None => None end end end end.

(** [if key == 'du': ... elif key == 'dg': ...] for one workgroup: in the
    Active Directory copy the [dg] test reads [dgache], a name that is not
    defined ([typo]), which raises [NameError] as soon as the workgroup's
    raw group tier is not empty. *)
Definition check_raw (typo : bool) (key val wg : string) : st ToolSt unit :=
  if String.eqb key "du" then check_one (cachedir DirUserCache (Some wg)) val
  else if String.eqb key "dg" then
    w ← world_t;
    if typo && cache_truthy w (cachedir DirGroupCache (Some wg))
    then raise (NameError "dgache")
    else check_one (cachedir DirGroupCache (Some wg)) val
  else mret tt.

#[global] Arguments check_raw : simpl never.

(** One argument of the per-domain check (AD 289-359, NT4 361-431).  A
    [u]/[g] key names its domain before the separator; a [du]/[dg] key is
    looked up in every known domain. *)
Definition check_domain_arg (typo : bool) (valid : list string) (arg : string) : st ToolSt unit :=
  match prefixed_arg arg with
  | None => mret tt
  | Some (key, val) =>
      if String.eqb key "u" || String.eqb key "g" then
        let parts := py_split ad_sep val in
        if Nat.ltb (List.length parts) 2 then mret tt else
        let wg := split_head ad_sep val in
        if bool_decide (wg ∈ valid) then check_key (Some wg) key val else mret tt
      else st_iter (check_raw typo key val) valid
  end.

(** [valid.keys()]: the distinct workgroups, in the dictionary's order. *)
Definition valid_of (wgs : list string) : list string := elements (list_to_set wgs : gset string).

(** ** The backends and the dispatch *)

Section Commands.
Context {DE : DirectoryEnv} {AE : ADEnv} {NE : NT4Env}.

(** [FreeNAS_ActiveDirectory(flags=FLAGS_DBINIT)]. *)
Definition ad_kw : kwargs := {["flags" := PInt FLAGS_DBINIT]}.

(** [ad = FreeNAS_ActiveDirectory(flags=FLAGS_DBINIT); domains =
    ad.get_domains()], with the recursion of [dc_connect] bounded by
    [depth]. *)
Definition ad_domains (depth : nat) : st ToolSt (list Domain) :=
  r ← on_w (ad_object depth ad_kw ad_kw (get_domains ∅));
  match r with
  | Some (domains, _) => mret domains
  | None => raise (AttributeError "get_domains")
  end.

(** [for d in domains: workgroup = d['nETBIOSName']; print "w: %s" %
    workgroup; ...]. *)
Definition per_ad_domain (depth : nat) (body : string -> st ToolSt unit) : st ToolSt unit :=
  domains ← ad_domains depth;
  st_iter (fun d => wg ← lift_t (dom_get d "nETBIOSName"); print (OWorkgroup wg);; body wg) domains.

Definition per_nt4_domain (body : string -> st ToolSt unit) : st ToolSt unit :=
  st_iter (fun wg => print (OWorkgroup wg);; body wg) nt4_get_domains.

(** [if activedirectory_enabled(): ... elif nt4_enabled(): ... elif
    ldap_enabled(): default else: default]. *)
Definition by_service (db : Db) (ad nt4 dflt : st ToolSt unit) : st ToolSt unit :=
  if activedirectory_enabled db then ad
  else if nt4_enabled db then nt4
  else if ldap_enabled db then dflt
  else dflt.

Definition _cache_keys_ActiveDirectory (depth : nat) := per_ad_domain depth (fun wg => keys_for (Some wg)).
Definition _cache_keys_NT4 := per_nt4_domain (fun wg => keys_for (Some wg)).
Definition _cache_keys_default := keys_for None.
Definition cache_keys (db : Db) (depth : nat) : st ToolSt unit :=
  by_service db (_cache_keys_ActiveDirectory depth) _cache_keys_NT4 _cache_keys_default.

Definition _cache_rawdump_ActiveDirectory (depth : nat) := per_ad_domain depth (fun wg => items_for (Some wg)).
Definition _cache_rawdump_NT4 := per_nt4_domain (fun wg => items_for (Some wg)).
Definition cache_rawdump (db : Db) (depth : nat) : st ToolSt unit :=
  by_service db (_cache_rawdump_ActiveDirectory depth) _cache_rawdump_NT4 items_default.

(** The NT4 count reads the NT4 caches for [du] and [dg]. *)
Definition nt4_counts (wg : string) : st ToolSt unit :=
  print_count "u" (cachedir UserCache (Some wg));;
  print_count "g" (cachedir GroupCache (Some wg));;
  print_count "du" (nt4_cachedir true wg);;
  print_count "dg" (nt4_cachedir false wg);;
  print (OText newline).

Definition _cache_count_ActiveDirectory (depth : nat) := per_ad_domain depth (fun wg => counts_for (Some wg)).
Definition _cache_count_NT4 := per_nt4_domain nt4_counts.
Definition _cache_count_default := counts_for None.
Definition cache_count (db : Db) (depth : nat) : st ToolSt unit :=
  by_service db (_cache_count_ActiveDirectory depth) _cache_count_NT4 _cache_count_default.

Definition _cache_check_ActiveDirectory (depth : nat) (kw : kwargs) : st ToolSt unit :=
  halt ← check_guard kw;
  if (halt : bool) then mret tt else
  domains ← ad_domains depth;
  wgs ← lift_t (mapM (fun d => dom_get d "nETBIOSName") domains);
  args ← check_args kw;
  st_iter (check_domain_arg true (valid_of wgs)) args.

Definition _cache_check_NT4 (kw : kwargs) : st ToolSt unit :=
  halt ← check_guard kw;
  if (halt : bool) then mret tt else
  args ← check_args kw;
  st_iter (check_domain_arg false (valid_of nt4_get_domains)) args.

Definition cache_check (db : Db) (depth : nat) (kw : kwargs) : st ToolSt unit :=
  by_service db (_cache_check_ActiveDirectory depth kw) (_cache_check_NT4 kw) (_cache_check_default kw).

End Commands.

(** ** [main] (530-550) *)

(** The keys of [cache_funcs]. *)
Definition cache_func_names : list string := ["fill"; "expire"; "dump"; "keys"; "rawdump"; "check"; "count"].

(** The command line [sys.argv]: the usage line and [sys.exit(1)] for a
    missing or unknown command; otherwise the command and its keyword
    arguments. *)
Definition main_args (argv : list string) : list out * res (string * kwargs) :=
  match argv with
  | _ :: cmd :: rest =>
      if bool_decide (cmd ∈ cache_func_names)
      then ([], Ok (cmd, <["args" := PList rest]> {["cachedir" := PStr FREENAS_CACHEDIR]}))
      else ([OUsage cache_func_names], Raise (SystemExit 1))
  | _ => ([OUsage cache_func_names], Raise (SystemExit 1))
  end.

(** What [cache_funcs[sys.argv[1]]] runs: a report on the caches, the
    expiry of the cache tree, or [fill]/[dump], which are not modelled. *)
Inductive action :=
| ActReport (m : st ToolSt unit)
| ActTree (m : st FS unit)
| ActNotModelled (cmd : string).

Section Main.
Context {DE : DirectoryEnv} {AE : ADEnv} {NE : NT4Env}.

(** [cache_funcs] (531-538) applied to [kwargs]. *)
Definition cache_funcs (db : Db) (depth limit : nat) (cmd : string) (kw : kwargs) : option action :=
  if String.eqb cmd "expire" then Some (ActTree (cache_expire limit kw))
  else if String.eqb cmd "keys" then Some (ActReport (cache_keys db depth))
  else if String.eqb cmd "rawdump" then Some (ActReport (cache_rawdump db depth))
  else if String.eqb cmd "check" then Some (ActReport (cache_check db depth kw))
  else if String.eqb cmd "count" then Some (ActReport (cache_count db depth))
  else if String.eqb cmd "fill" || String.eqb cmd "dump" then Some (ActNotModelled cmd)
  else None.

(** [main()] (530-550): the usage line or the command to run. *)
Definition main (db : Db) (depth limit : nat) (argv : list string) : list out * res action :=
  let '(err, r) := main_args argv in
  (err, '(cmd, kw) ← r;
        match cache_funcs db depth limit cmd kw with
        | Some a => Ok a
        | None => Raise (KeyError cmd)
        end).

End Main.

(** ** The report commands leave the caches alone

    [tkeeps m]: a run of [m] changes no cache store and no sentinel file;
    it may open and close directory sessions and it prints. *)
Definition tkeeps {A} (m : st ToolSt A) : Prop :=
  forall s r s', m s = (r, s') -> store s'.1 = store s.1.

Create HintDb tkeeps.

Lemma tkeeps_bind {A B} (m : st ToolSt A) (k : A -> st ToolSt B) :
  tkeeps m -> (forall a, tkeeps (k a)) -> tkeeps (m ≫= k).
Proof.
  intros Hm Hk s r s'. unfold mbind, st_bind. destruct (m s) as [[a|e] s1] eqn:E.
  - intros H. rewrite (Hk a _ _ _ H). exact (Hm _ _ _ E).
  - intros [= _ <-]. exact (Hm _ _ _ E).
Qed.

Lemma tkeeps_if {A} (b : bool) (m1 m2 : st ToolSt A) : tkeeps m1 -> tkeeps m2 -> tkeeps (if b then m1 else m2).
Proof. by destruct b. Qed.

Lemma tkeeps_ret {A} (a : A) : tkeeps (mret a : st ToolSt A).
Proof. by intros s r s' [= _ <-]. Qed.

Lemma tkeeps_raise {A} e : tkeeps (raise e : st ToolSt A).
Proof. by intros s r s' [= _ <-]. Qed.

Lemma tkeeps_print o : tkeeps (print o).
Proof. by intros s r s' [= _ <-]. Qed.

Lemma tkeeps_world : tkeeps world_t.
Proof. by intros s r s' [= _ <-]. Qed.

Lemma tkeeps_lift {A} (r : res A) : tkeeps (lift_t r).
Proof. destruct r; [apply tkeeps_ret|apply tkeeps_raise]. Qed.

Lemma tkeeps_on_w {A} (m : st World A) : gkeeps m -> tkeeps (on_w m).
Proof.
  intros Hm s r s'. unfold on_w. destruct (m s.1) as [r' w'] eqn:E. intros [= _ <-]. exact (Hm _ _ _ E).
Qed.

Lemma tkeeps_iter {A} (body : A -> st ToolSt unit) l : (forall x, tkeeps (body x)) -> tkeeps (st_iter body l).
Proof.
  intros Hb. induction l as [|x l IH]; simpl; [apply tkeeps_ret|]. by apply tkeeps_bind.
Qed.

#[export] Hint Resolve tkeeps_ret tkeeps_raise tkeeps_print tkeeps_world tkeeps_lift : tkeeps.

(** Decompose a command into the steps the hints know. *)
Ltac tkeeps_steps :=
  repeat (intros; cbv zeta; first
    [ simple apply tkeeps_bind | simple apply tkeeps_if | simple apply tkeeps_iter
    | match goal with
      | |- tkeeps (match ?x with _ => _ end) => destruct x
      end ]);
  auto with tkeeps.

Section Frames.
Context {DE : DirectoryEnv} {AE : ADEnv} {NE : NT4Env}.

(** Constructing the Active Directory object, with every [dc_connect]
    it runs, and listing its domains write no cache. *)
Lemma ad_domains_tkeeps depth : tkeeps (ad_domains depth).
Proof.
  unfold ad_domains. apply tkeeps_bind; [|intros [[]|]; auto with tkeeps].
  apply tkeeps_on_w. unfold ad_object. apply gkeeps_if; [apply gkeeps_ret|].
  apply gkeeps_bind; [|intros; apply gkeeps_ret]. apply run_on_gkeeps.
  apply wkeeps_bind; [|intros; apply get_domains_wkeeps].
  apply ad_init_wkeeps. intros. apply dc_connect_gkeeps.
Qed.

#[local] Hint Resolve ad_domains_tkeeps : tkeeps.

Lemma check_domain_arg_tkeeps typo valid arg : tkeeps (check_domain_arg typo valid arg).
Proof. unfold check_domain_arg, check_key, check_raw, check_one. tkeeps_steps. Qed.

#[local] Hint Resolve check_domain_arg_tkeeps : tkeeps.

(** The inspection commands are read-only on the caches: [keys],
    [rawdump], [check] and [count], on every backend (including the
    construction of the Active Directory object, its [get_domains] and
    every [dc_connect] it runs) and whether they return or raise, leave
    every cache store and every sentinel file as they found them. *)
Theorem report_commands_read_only db depth kw :
  tkeeps (cache_keys db depth) /\ tkeeps (cache_rawdump db depth) /\
  tkeeps (cache_check db depth kw) /\ tkeeps (cache_count db depth).
Proof.
  unfold cache_keys, cache_rawdump, cache_check, cache_count, by_service,
    _cache_keys_ActiveDirectory, _cache_keys_NT4, _cache_keys_default,
    _cache_rawdump_ActiveDirectory, _cache_rawdump_NT4, items_default,
    _cache_count_ActiveDirectory, _cache_count_NT4, _cache_count_default,
    _cache_check_ActiveDirectory, _cache_check_NT4, _cache_check_default,
    per_ad_domain, per_nt4_domain, keys_for, items_for, counts_for, nt4_counts,
    print_keys, print_items, print_count, check_guard, check_args, check_key, check_one.
  repeat split; tkeeps_steps.
Qed.

End Frames.

(** ** What [check] reports *)

(** The line [check_one] prints for [val] in the store [cd], if any. *)
Definition found (w : World) (cd val : string) : list out :=
  match cache_of w cd !! val with
  | Some v => if cv_truthy v then [OFound val v] else []
  | None => []
  end.

Lemma check_one_run cd val w o : check_one cd val (w, o) = (Ok tt, (w, (o ++ found w cd val)%list)).
Proof.
  unfold check_one, found. rewrite (st_bind_ok _ _ (w, o) w (w, o)) by reflexivity.
  unfold cache_truthy, cache_has.
  destruct (cache_of w cd !! val) as [v|] eqn:Hv.
  - rewrite bool_decide_eq_false_2 by (intros He; rewrite He in Hv; by rewrite lookup_empty in Hv).
    rewrite bool_decide_eq_true_2 by done. simpl. by destruct (cv_truthy v); rewrite ?app_nil_r.
  - rewrite (bool_decide_eq_false_2 (is_Some None)) by (intros [? ?]; discriminate).
    rewrite andb_false_r. simpl. by rewrite app_nil_r.
Qed.

(** [key=value] is split at its first ["="]: a key without ["="] comes
    back, and so does the value, whatever ["="] it holds. *)
Lemma split_arg_app k v : py_split "=" k = [k] -> split_arg (k ++ String "=" v) = (k, v).
Proof. intros Hk. unfold split_arg. rewrite (py_split_app _ _ _ Hk). by rewrite py_split_join. Qed.

(** [check <tier>=<key>] on the global caches prints the record the
    tier holds under [key], when there is one and it is not [None], and
    nothing else; the key is recovered from the argument whatever ["="]
    characters it contains (the parts after the first ["="] are joined
    back). *)
Theorem check_default_reports label c name kw w o :
  (label, c) ∈ tiers -> kw !! "args" = Some (PList [label ++ String "=" name]) ->
  _cache_check_default kw (w, o) = (Ok tt, (w, (o ++ found w (cachedir c None) name)%list)).
Proof.
  intros Hl Hkw. unfold _cache_check_default, check_guard, check_args, kw_has. rewrite Hkw.
  rewrite (st_bind_ok _ _ (w, o) false (w, o)) by reflexivity.
  rewrite (st_bind_ok _ _ (w, o) [label ++ String "=" name] (w, o)) by reflexivity.
  cbn [st_iter]. cbv beta.
  unfold tiers in Hl. repeat rewrite elem_of_cons in Hl. rewrite elem_of_nil in Hl.
  destruct_or! Hl; simplify_eq; rewrite split_arg_app by reflexivity;
    unfold check_key; simpl; rewrite (st_bind_ok _ _ _ tt (w, (o ++ _)%list)) by apply check_one_run;
    reflexivity.
Qed.

Section Guard.
Context {DE : DirectoryEnv} {AE : ADEnv} {NE : NT4Env}.

(** The guard of [check] does not do what it says: [not
    kwargs.has_key('args') and kwargs['args']] parses as [(not
    has_key) and kwargs['args']], so without [args] the command raises
    [KeyError] (on every backend, before anything else runs), and with
    [args] it never returns early. *)
Theorem check_guard_raises db depth kw s :
  kw !! "args" = None -> cache_check db depth kw s = (Raise (KeyError "args"), s).
Proof.
  intros Hkw. unfold cache_check, by_service, _cache_check_ActiveDirectory, _cache_check_NT4,
    _cache_check_default, check_guard, kw_has. rewrite Hkw.
  by repeat (case_match; try reflexivity).
Qed.

End Guard.

(** The [dg] branch over the known workgroups: with the misspelling it
    raises as soon as one raw group tier is not empty; otherwise it only
    prints. *)
Lemma check_raw_dg typo val wg w o :
  check_raw typo "dg" val wg (w, o) =
    if typo && cache_truthy w (cachedir DirGroupCache (Some wg))
    then (Raise (NameError "dgache"), (w, o))
    else (Ok tt, (w, (o ++ found w (cachedir DirGroupCache (Some wg)) val)%list)).
Proof.
  unfold check_raw. simpl. rewrite (st_bind_ok _ _ (w, o) w (w, o)) by reflexivity.
  destruct (_ && _); [done|apply check_one_run].
Qed.

Lemma check_dg_run typo valid x w o :
  exists o', check_domain_arg typo valid ("dg=" ++ x) (w, o) =
    (if typo && existsb (fun wg => cache_truthy w (cachedir DirGroupCache (Some wg))) valid
     then Raise (NameError "dgache") else Ok tt, (w, o')).
Proof.
  revert o. induction valid as [|wg valid IH]; intros o; [exists o; by destruct typo|].
  unfold check_domain_arg in *. simpl in IH |- *.
  destruct typo, (cache_truthy w (cachedir DirGroupCache (Some wg))) eqn:Ht; simpl.
  - exists o. by rewrite (st_bind_raise _ _ _ (NameError "dgache") (w, o)) by (rewrite check_raw_dg, Ht; done).
  - rewrite (st_bind_ok _ _ _ tt (w, _)) by (rewrite check_raw_dg, Ht; done). apply IH.
  - rewrite (st_bind_ok _ _ _ tt (w, _)) by (rewrite check_raw_dg, Ht; done). apply IH.
  - rewrite (st_bind_ok _ _ _ tt (w, _)) by (rewrite check_raw_dg, Ht; done). apply IH.
Qed.

(** The Active Directory copy of [check] misspells [dgcache] as
    [dgache] in its [dg] branch: [check dg=<key>] raises [NameError] as
    soon as one known domain has a non-empty raw group tier, where the
    NT4 copy, correctly spelt, looks the key up and returns. *)
Theorem check_dg_nameerror valid x w o :
  (exists wg, wg ∈ valid /\ cache_truthy w (cachedir DirGroupCache (Some wg)) = true) ->
  (exists o', check_domain_arg true valid ("dg=" ++ x) (w, o) = (Raise (NameError "dgache"), (w, o'))) /\
  (exists o', check_domain_arg false valid ("dg=" ++ x) (w, o) = (Ok tt, (w, o'))).
Proof.
  intros (wg & Hin & Ht).
  assert (He : existsb (fun wg => cache_truthy w (cachedir DirGroupCache (Some wg))) valid = true)
    by (apply existsb_exists; exists wg; split; [by apply list_elem_of_In|done]).
  split.
  - destruct (check_dg_run true valid x w o) as [o'' Hr]. rewrite He in Hr. by exists o''.
  - destruct (check_dg_run false valid x w o) as [o'' Hr]. by exists o''.
Qed.

(** [check u=<key>] on Active Directory or NT4 reports a key only if
    it contains the separator: the part before it must be a known
    domain, and the whole argument, domain included, is the key looked
    up.  A resolved tier whose keys have no separator, which is what the
    AD user enumeration writes with [use_default_domain] or [unix]
    ([user_name] is then the plain account name), can never be
    inspected: the command prints nothing and changes nothing. *)
Theorem check_u_plain_unreported typo valid val w o :
  (forall wg k, is_Some (cache_of w (cachedir UserCache (Some wg)) !! k) -> py_split ad_sep k = [k]) ->
  check_domain_arg typo valid ("u=" ++ val) (w, o) = (Ok tt, (w, o)).
Proof.
  intros Hplain. unfold check_domain_arg. simpl. change ("" ++ val) with val.
  destruct (Nat.ltb _ 2) eqn:Hlt; [done|]. case_bool_decide; [|done].
  unfold check_key. simpl. rewrite check_one_run. unfold found.
  destruct (cache_of w (cachedir UserCache (Some (split_head ad_sep val))) !! val) eqn:Hv;
    [|by rewrite app_nil_r].
  rewrite (Hplain (split_head ad_sep val) val ltac:(by eexists)) in Hlt. discriminate.
Qed.

(** ** The command line *)

Section MainProps.
Context {DE : DirectoryEnv} {AE : ADEnv} {NE : NT4Env}.

(** A missing or unknown command prints the usage line and exits with
    status 1; nothing else runs. *)
Lemma main_usage db depth limit argv :
  (List.length argv < 2 \/ exists p c r, argv = p :: c :: r /\ c ∉ cache_func_names) ->
  main db depth limit argv = ([OUsage cache_func_names], Raise (SystemExit 1)).
Proof.
  unfold main, main_args. intros [Hl | (p & c & r & -> & Hc)].
  - destruct argv as [|p [|c r]]; simpl in Hl; try reflexivity; lia.
  - by rewrite bool_decide_eq_false_2.
Qed.

(** C12: [cachetool expire] implements the spec's cache flush: the command
    line [prog expire ...] selects [cache_expire] on [FREENAS_CACHEDIR],
    and on a well-formed tree within the recursion limit that run leaves
    the cache directory with its first-level directories only. *)
Theorem main_expire_tree db depth limit prog rest fs :
  wf fs -> fs !! path_of FREENAS_CACHEDIR = Some KDir -> bounded limit (path_of FREENAS_CACHEDIR) fs ->
  exists m, main db depth limit (prog :: "expire" :: rest) = ([], Ok (ActTree m)) /\
            m fs = (Ok tt, expired (path_of FREENAS_CACHEDIR) fs).
Proof.
  intros Hwf Hcd Hb. eexists. split; [reflexivity|].
  apply cache_expire_run; [reflexivity|discriminate|done|done|done].
Qed.

End MainProps.

(** ** Examples *)

(** Global tiers holding a user whose name contains ["="] and a group;
    a domain [WG] whose raw group tier holds a row. *)
Definition tool_world : World :=
  cache_put (cachedir DirGroupCache (Some "WG")) "CN=STAFF" CNone
    (cache_put (cachedir GroupCache None) "wheel" (CGroup (mkGroup "wheel" 0 ["root"]))
      (cache_put (cachedir UserCache None) "a=b" (CPasswd (mkPasswd "a=b" 1001 1001 "" "/home/a"))
         demo_world)).

Definition no_nt4 : NT4Env := {| nt4_get_domains := []; nt4_cachedir := fun _ wg => wg |}.

Lemma check_default_reports_witness :
  _cache_check_default {["args" := PList ["u=a=b"]]} (tool_world, []) =
    (Ok tt, (tool_world, [OFound "a=b" (CPasswd (mkPasswd "a=b" 1001 1001 "" "/home/a"))])).
Proof.
  rewrite (check_default_reports "u" UserCache "a=b").
  - vm_compute. reflexivity.
  - apply (bool_decide_eq_true_1 _). vm_compute. reflexivity.
  - reflexivity.
Defined.

Lemma check_guard_raises_witness :
  @cache_check demo_env ad_noconfig no_nt4 sample_db 1 {["cachedir" := PStr FREENAS_CACHEDIR]} (tool_world, [])
  = (Raise (KeyError "args"), (tool_world, [])).
Proof. apply (@check_guard_raises demo_env ad_noconfig no_nt4). reflexivity. Defined.

Lemma main_expire_tree_witness :
  exists m, @main demo_env ad_noconfig no_nt4 sample_db 1 1000 ["cachetool"; "expire"] = ([], Ok (ActTree m)) /\
            m cache_tree = (Ok tt, expired (path_of FREENAS_CACHEDIR) cache_tree).
Proof.
  apply (@main_expire_tree demo_env ad_noconfig no_nt4).
  - apply wfb_wf. vm_compute. reflexivity.
  - vm_compute. reflexivity.
  - apply boundedb_bounded. vm_compute. reflexivity.
Defined.

Lemma check_u_plain_unreported_witness :
  check_domain_arg true ["WG"] ("u=" ++ "WG\alice")
    (cache_put (cachedir UserCache (Some "WG")) "alice" (CPasswd (mkPasswd "alice" 1001 1001 "" "/home/alice")) demo_world, [])
  = (Ok tt, (cache_put (cachedir UserCache (Some "WG")) "alice" (CPasswd (mkPasswd "alice" 1001 1001 "" "/home/alice")) demo_world, [])).
Proof.
  apply check_u_plain_unreported. intros wg k [v Hv].
  unfold cache_of, cache_put in Hv. simpl in Hv.
  destruct (decide (cachedir UserCache (Some wg) = cachedir UserCache (Some "WG"))) as [E|E].
  - rewrite E, lookup_insert_eq in Hv. simpl in Hv.
    destruct (decide (k = "alice")) as [->|Hk]; [reflexivity|].
    rewrite lookup_insert_ne in Hv by congruence. discriminate.
  - rewrite lookup_insert_ne in Hv by congruence. discriminate.
Defined.

End CacheCommands.
