(* ===== verification/JailAddress.v ===== *)
(** * JailAddress: the address helpers of the jail subsystem

    src/gui/jails/utils.py 34-560: the CDN index path, [ping_host], the
    dictionaries of addresses the warden's jails use
    ([get_ipv4_exclude_dict], [get_ipv6_exclude_dict]), the probe for a
    free address ([get_available_ipv4], [get_available_ipv6]), the jail
    network settings read from [JailsConfiguration], and [guess_*], which
    compose them.  The address objects of [sipcalc_type]
    (freenasUI/common/sipcalc.py, not in src/) are the type class
    [Sipcalc]; the warden's jail list, the exit of a [ping] process and
    the platform are the type class [JailEnv].  Every function here only
    reads, so each is a function of the database snapshot and the
    environment.  The probe loop of the source need not end; the model
    runs it with fuel, and [None] means "still looping when the fuel ran
    out". *)

From S2P Require Import Prelude Config SystemConfig.

Module JailAddress.
Import Config SystemConfig.
#[local] Open Scope list_scope.

(** ** The collaborators *)

(** [sipcalc_type]: an address with its mask, as the code uses it. *)
Class Sipcalc := {
  ip : Type;
  sipcalc_type : string -> ip;          (* sipcalc_type("addr/bits") *)
  ip_str : ip -> string;                (* str(sc) *)
  ip_truthy : ip -> bool;               (* if sc: *)
  ip_incr : ip -> ip;                   (* sc += 1 *)
  ip_int : ip -> Z;                     (* int(sc) *)
  network_mask_bits : ip -> Z;
  prefix_length : ip -> Z;
  usable_range : ip -> string * string;
  network_range : ip -> string * string;
  in_network : ip -> ip -> bool;        (* net.in_network(sc) *)
  sipcalc_iface : string -> ip;         (* sipcalc_type(iface=iface) *)
  is_ipv4 : ip -> bool;
  is_ipv6 : ip -> bool;
  network_address : ip -> string;
}.

(** One entry of [warden.Warden().list()]; [None] or [""] for an unset
    field. *)
Record WJail := mkWJail {
  w_ipv4 : option string; w_bridge_ipv4 : option string;
  w_alias_ipv4 : option string; w_alias_bridge_ipv4 : option string;
  w_ipv6 : option string; w_bridge_ipv6 : option string;
  w_alias_ipv6 : option string; w_alias_bridge_ipv6 : option string }.

(** The warden's jails, the exit of a command started with [pipeopen]
    (the second at which it exits and its status, [None] when it runs
    on), [platform.architecture()[0]], and the default interface ([""]
    when there is none). *)
Class JailEnv := {
  warden_list : list WJail;
  proc_exit : string -> option (nat * Z);
  platform_bits : string;
  default_iface : string;               (* notifier().guess_default_interface() *)
}.

(** A row of [JailsConfiguration] (jails/models.py): blank fields are [""]. *)
Record JailsConfRow := mkJC {
  jc_id : Z; jc_path : string;
  jc_ipv4_network : string; jc_ipv4_network_start : string; jc_ipv4_network_end : string;
  jc_ipv6_network : string; jc_ipv6_network_start : string; jc_ipv6_network_end : string }.

Section Jails.
Context `{SC : Sipcalc} `{JE : JailEnv}.

(** ** [get_jails_index] (34-51) *)

Definition JAILS_INDEX : string := "http://cdn.freenas.org".

Definition get_jails_index (release arch : option string) : string :=
  let arch := match arch with
              | Some a => a
              | None => if String.eqb platform_bits "64bit" then "x64" else "x86"
              end in
  let release := match release with Some r => r | None => "latest" end in
  JAILS_INDEX ++ "/" ++ release ++ "/RELEASE/" ++ arch ++ "/jails".

(** ** [ping_host] (59-81)

    [pipeopen] of the [ping] command, then a poll once a second while the
    clock is within [tseconds] of the start, stopping at a zero status;
    the host is alive when the last poll saw status 0.  The clock advances
    by one second per [time.sleep(1)]. *)
Definition tseconds : nat := 2.

Definition ping_cmd (host : string) (ping6 : bool) : string :=
  if ping6 then "/sbin/ping6 -q -o " ++ host
  else "/sbin/ping -q -t " ++ py_int_str (Z.of_nat tseconds) ++ " -o " ++ host.

(** [p.poll()] at second [t]: the status once the process has exited. *)
Definition poll (e : option (nat * Z)) (t : nat) : option Z :=
  match e with
  | Some (n, c) => if Nat.leb n t then Some c else None
  | None => None
  end.

(** [while t <= timeout: if p.poll() == 0: break ...]: the returncode
    after the loop. *)
Fixpoint ping_wait (e : option (nat * Z)) (ts : list nat) (rc : option Z) : option Z :=
  match ts with
  | [] => rc
  | t :: ts' =>
      let rc' := poll e t in
      if bool_decide (rc' = Some 0%Z) then rc' else ping_wait e ts' rc'
  end.

Definition ping_host (host : string) (ping6 : bool) : bool :=
  bool_decide (ping_wait (proc_exit (ping_cmd host ping6)) (seq 0 (S tseconds)) None = Some 0%Z).

(** ** The exclusion dictionaries (88-210)

    [get_ipv4_exclude_dict] and [get_ipv6_exclude_dict] differ only in the
    four fields they read. *)
Record Family := mkFamily {
  f_addr : WJail -> option string; f_bridge : WJail -> option string;
  f_alias : WJail -> option string; f_alias_bridge : WJail -> option string }.

Definition v4 : Family := mkFamily w_ipv4 w_bridge_ipv4 w_alias_ipv4 w_alias_bridge_ipv4.
Definition v6 : Family := mkFamily w_ipv6 w_bridge_ipv6 w_alias_ipv6 w_alias_bridge_ipv6.

(** [parts = s.split('/')]; [if len(parts) == 2: mask = int(parts[1])]. *)
Definition parse_mask (s : string) (mask : Z) : res Z :=
  match py_split "/" s with
  | [_; m] => py_long (PStr m)
  | _ => Ok mask
  end.

(** [sc = sipcalc_type("%s/%d" % (parts[0], mask))]. *)
Definition addr_sc (s : string) (mask : Z) : ip :=
  sipcalc_type (split_head "/" s ++ "/" ++ py_int_str mask).

(** One address of a jail: the mask it sets and [d[str(sc)] = sc]. *)
Definition exclude_addr (d : gmap string ip) (s : string) (mask : Z) : res (Z * gmap string ip) :=
  mask' ← parse_mask s mask;
  let sc := addr_sc s mask' in
  Ok (mask', <[ip_str sc := sc]> d).

(** [for a in aliases: ...]: the alias mask carries from one alias to
    the next. *)
Fixpoint exclude_aliases (d : gmap string ip) (amask : Z) (aliases : list string)
    : res (gmap string ip) :=
  match aliases with
  | [] => Ok d
  | a :: rest => '(amask', d') ← exclude_addr d a amask; exclude_aliases d' amask' rest
  end.

(** The body for one jail.  The bridge branch splits [j['ipv4']], not
    the bridge address, and raises [AttributeError] when that is [None]. *)
Definition exclude_jail (F : Family) (d : gmap string ip) (j : WJail) : res (gmap string ip) :=
  let mask := 24%Z in
  '(mask, d) ← (if truthy (f_addr F j) then exclude_addr d (py_str (f_addr F j)) mask
                else Ok (mask, d));
  '(mask, d) ← (if truthy (f_bridge F j) then
                  match f_addr F j with
                  | Some s => exclude_addr d s mask
                  | None => Raise (AttributeError "split")
                  end
                else Ok (mask, d));
  d ← (if truthy (f_alias F j) then exclude_aliases d mask (py_split "," (py_str (f_alias F j)))
       else Ok d);
  if truthy (f_alias_bridge F j)
  then exclude_aliases d mask (py_split "," (py_str (f_alias_bridge F j)))
  else Ok d.

Fixpoint exclude_jails (F : Family) (d : gmap string ip) (js : list WJail) : res (gmap string ip) :=
  match js with
  | [] => Ok d
  | j :: js' => d' ← exclude_jail F d j; exclude_jails F d' js'
  end.

Definition get_ipv4_exclude_dict : res (gmap string ip) := exclude_jails v4 ∅ warden_list.
Definition get_ipv6_exclude_dict : res (gmap string ip) := exclude_jails v6 ∅ warden_list.

(** ** The probe for a free address (218-306)

    [naddrs] is the number of addresses the range holds: [int(end) -
    int(start)], or [2**mask] for the mask of [start] ([24], [64] when it
    has none or it is 0).  In the loop, every path either [continue]s
    before [i += 1] or [break]s, so [i] stays 0 and the bound is only
    tested against 0; the loop ends when the address becomes false or a
    free one is found.  ([2**mask] for a negative mask is the float 0.5 in
    Python and 0 here; both pass the test [0 <= naddrs].) *)
Definition default_naddrs (addr : ip) (dflt : Z) : Z :=
  let mask := match py_split "/" (ip_str addr) with
              | _ :: m :: _ =>
                  match py_long (PStr m) with
                  | Ok n => if Z.eqb n 0 then dflt else n
                  | Raise _ => dflt
                  end
              | _ => dflt
              end in
  (2 ^ mask)%Z.

(** [ipv4_exclude_dict and str(addr) in ipv4_exclude_dict]. *)
Definition excluded (excl : option (gmap string ip)) (addr : ip) : bool :=
  match excl with
  | Some d => bool_decide (is_Some (d !! ip_str addr))
  | None => false
  end.

(** An address the probe skips: in the dictionary, or answering a ping. *)
Definition busy (ping6 : bool) (excl : option (gmap string ip)) (addr : ip) : bool :=
  excluded excl addr || ping_host (split_head "/" (ip_str addr)) ping6.

(** [while i <= naddrs: ...]; [None] when the fuel runs out. *)
Fixpoint probe (ping6 : bool) (fuel : nat) (i naddrs : Z) (addr : ip)
    (excl : option (gmap string ip)) : option (option ip) :=
  match fuel with
  | O => None
  | S fuel' =>
      if negb (Z.leb i naddrs) then Some None
      else if negb (ip_truthy addr) then Some None
      else if excluded excl addr then probe ping6 fuel' i naddrs (ip_incr addr) excl
      else if ping_host (split_head "/" (ip_str addr)) ping6
      then probe ping6 fuel' i naddrs (ip_incr addr) excl
      else Some (Some addr)
  end.

Definition get_available (ping6 : bool) (dflt : Z) (fuel : nat) (start : ip)
    (end_ : option ip) (excl : option (gmap string ip)) : option (option ip) :=
  let naddrs := match end_ with
                | Some e => if ip_truthy e then (ip_int e - ip_int start)%Z
                            else default_naddrs start dflt
                | None => default_naddrs start dflt
                end in
  probe ping6 fuel 0 naddrs start excl.

Definition get_available_ipv4 := get_available false 24.
Definition get_available_ipv6 := get_available true 64.

(** ** The jail network settings (308-398)

    [JailsConfiguration.objects.order_by("-id")[0]] inside [try]: the
    [IndexError] of an empty table, and the [AttributeError] of a [None]
    network, give [None].  The IPv4 and IPv6 readers differ in the
    fields and in the mask attribute. *)
Record NetFamily := mkNetFamily {
  nf_network : JailsConfRow -> string; nf_start : JailsConfRow -> string;
  nf_end : JailsConfRow -> string; nf_bits : ip -> Z; nf_range : ip -> string * string }.

Definition n4 : NetFamily :=
  mkNetFamily jc_ipv4_network jc_ipv4_network_start jc_ipv4_network_end network_mask_bits usable_range.
Definition n6 : NetFamily :=
  mkNetFamily jc_ipv6_network jc_ipv6_network_start jc_ipv6_network_end prefix_length network_range.

(** [JailsConfiguration.__init__] (jails/models.py 383-410), which runs on
    every row read: with an IPv4 default interface, an empty network is
    set to the interface's network, and the start and end addresses lose
    their mask (an empty one becomes the first or last usable address). *)
Definition jc_init (jc : JailsConfRow) : JailsConfRow :=
  if String.eqb default_iface "" then jc else
  let st := sipcalc_iface default_iface in
  if negb (ip_truthy st) || negb (is_ipv4 st) then jc else
  let net := if String.eqb (jc_ipv4_network jc) ""
             then (network_address st ++ "/" ++ py_int_str (network_mask_bits st))%string
             else jc_ipv4_network jc in
  let start := split_head "/" (if String.eqb (jc_ipv4_network_start jc) ""
                               then (usable_range st).1 else jc_ipv4_network_start jc) in
  let end_ := split_head "/" (if String.eqb (jc_ipv4_network_end jc) ""
                              then (usable_range st).2 else jc_ipv4_network_end jc) in
  mkJC (jc_id jc) (jc_path jc) net start end_
       (jc_ipv6_network jc) (jc_ipv6_network_start jc) (jc_ipv6_network_end jc).

(** [JailsConfiguration.objects.order_by("-id")[0]]. *)
Definition latest_jc (jcs : list JailsConfRow) : option JailsConfRow :=
  jc_init <$> head (order_by_desc jc_id jcs).

Definition get_jail_network (N : NetFamily) (jcs : list JailsConfRow) : option ip :=
  jc ← latest_jc jcs; Some (sipcalc_type (nf_network N jc)).

(** [sipcalc_type("%s/%d" % (field.split('/')[0], net.bits))]. *)
Definition sc_bits (N : NetFamily) (a : string) (net : ip) : ip :=
  sipcalc_type (split_head "/" a ++ "/" ++ py_int_str (nf_bits N net)).

Definition get_jail_network_start (N : NetFamily) (jcs : list JailsConfRow) : option ip :=
  net ← get_jail_network N jcs; jc ← latest_jc jcs; Some (sc_bits N (nf_start N jc) net).

Definition get_jail_network_end (N : NetFamily) (jcs : list JailsConfRow) : option ip :=
  net ← get_jail_network N jcs; jc ← latest_jc jcs; Some (sc_bits N (nf_end N jc) net).

Definition get_jail_ipv4_network := get_jail_network n4.
Definition get_jail_ipv4_network_start := get_jail_network_start n4.
Definition get_jail_ipv4_network_end := get_jail_network_end n4.
Definition get_jail_ipv6_network := get_jail_network n6.
Definition get_jail_ipv6_network_start := get_jail_network_start n6.
Definition get_jail_ipv6_network_end := get_jail_network_end n6.

(** ** [get_host_ipv4_network] (476-491) and [get_host_ipv6_network]
    (502-518): the network of the default interface. *)
Definition get_host_ipv4_network : option ip :=
  let st_ha := sipcalc_iface default_iface in
  if is_ipv4 st_ha
  then Some (sipcalc_type (network_address st_ha ++ "/" ++ py_int_str (network_mask_bits st_ha)))
  else None.

Definition get_host_ipv6_network : option ip :=
  let st_ha := sipcalc_iface default_iface in
  if is_ipv6 st_ha
  then Some (sipcalc_type ((network_range st_ha).1 ++ "/" ++ py_int_str (prefix_length st_ha)))
  else None.

(** ** [guess_ipv4_address] (407-432) and [guess_ipv6_address] (441-472)

    A missing or false start (end) address is the first (last) address of
    the network's range.  *)
Definition or_fill (N : NetFamily) (o : option ip) (a : string) (net : ip) : ip :=
  match o with
  | Some x => if ip_truthy x then x else sc_bits N a net
  | None => sc_bits N a net
  end.

Definition guess_range (N : NetFamily) (jcs : list JailsConfRow) (net : ip) : ip * ip :=
  (or_fill N (get_jail_network_start N jcs) (nf_range N net).1 net,
   or_fill N (get_jail_network_end N jcs) (nf_range N net).2 net).

Definition guess_ipv4_address (fuel : nat) (jcs : list JailsConfRow) : res (option (option ip)) :=
  match get_jail_ipv4_network jcs with
  | Some net =>
      if ip_truthy net then
        let '(s, e) := guess_range n4 jcs net in
        excl ← get_ipv4_exclude_dict;
        Ok (get_available_ipv4 fuel s (Some e) (Some excl))
      else Ok (Some None)
  | None => Ok (Some None)
  end.

(** The IPv6 guess computes the range, but its probe is commented out
    and it returns the variable [ipv4_addr], which is [None]. *)
Definition guess_ipv6_address (jcs : list JailsConfRow) : option ip :=
  match get_jail_ipv6_network jcs with
  | Some net => if ip_truthy net then let '(_, _) := guess_range n6 jcs net in None else None
  | None => None
  end.

(** ** [guess_addresses] (528-560)

    The highest free address of each family and, when that address lies
    outside the jail network, a bridge address: the first of the
    network's range. *)
Record Addresses := mkAddresses {
  high_ipv4 : option ip; high_ipv6 : option ip; bridge_ipv4 : option ip; bridge_ipv6 : option ip }.

(** [if addr: addresses[...] = addr]. *)
Definition keep_truthy (a : option ip) : option ip :=
  match a with Some x => if ip_truthy x then Some x else None | None => None end.

(** [if (net and addr) and (not net.in_network(addr))]. *)
Definition bridge_of (N : NetFamily) (net a : option ip) : option ip :=
  match net, a with
  | Some n, Some x =>
      if ip_truthy n && ip_truthy x && negb (in_network n x)
      then Some (sipcalc_type ((nf_range N n).1 ++ "/" ++ py_int_str (nf_bits N n)))
      else None
  | _, _ => None
  end.

Definition guess_addresses (fuel : nat) (jcs : list JailsConfRow) : res (option Addresses) :=
  r ← guess_ipv4_address fuel jcs;
  match r with
  | None => Ok None
  | Some a4 =>
      let a6 := guess_ipv6_address jcs in
      Ok (Some (mkAddresses (keep_truthy a4) (keep_truthy a6)
                            (bridge_of n4 (get_jail_ipv4_network jcs) a4)
                            (bridge_of n6 (get_jail_ipv6_network jcs) a6)))
  end.

(** ** The probe *)

(** The [k]-th address after [a]: [a] after [k] times [+= 1]. *)
Abbreviation nth_addr k a := (Nat.iter k ip_incr a).

Lemma probe_skip ping6 fuel i naddrs addr excl :
  (i <= naddrs)%Z -> ip_truthy addr = true -> busy ping6 excl addr = true ->
  probe ping6 (S fuel) i naddrs addr excl = probe ping6 fuel i naddrs (ip_incr addr) excl.
Proof.
  intros Hi Ht Hb. unfold busy in Hb. cbn [probe].
  rewrite (proj2 (Z.leb_le _ _) Hi), Ht. simpl.
  destruct (excluded excl addr); [done|]. simpl in Hb. by rewrite Hb.
Qed.

(** The bound is tested against the counter, which the loop never
    advances: any two bounds at least [i] give the same run. *)
Lemma probe_naddrs ping6 fuel i n1 n2 addr excl :
  (i <= n1)%Z -> (i <= n2)%Z ->
  probe ping6 fuel i n1 addr excl = probe ping6 fuel i n2 addr excl.
Proof.
  intros H1 H2. revert addr. induction fuel as [|fuel IH]; intros addr; [done|].
  cbn [probe]. rewrite (proj2 (Z.leb_le _ _) H1), (proj2 (Z.leb_le _ _) H2).
  simpl. by rewrite !IH.
Qed.

(** C13: Liveness of the probe.  When the addresses before the [k]-th
    after [start] are all in use (true, and in the dictionary or answering
    a ping) and the [k]-th is free, a loop with more than [k] turns of
    fuel returns the [k]-th address. *)
Theorem probe_finds ping6 excl i naddrs start k fuel :
  (i <= naddrs)%Z ->
  (forall j, j < k -> ip_truthy (nth_addr j start) = true /\ busy ping6 excl (nth_addr j start) = true) ->
  ip_truthy (nth_addr k start) = true -> busy ping6 excl (nth_addr k start) = false ->
  k < fuel ->
  probe ping6 fuel i naddrs start excl = Some (Some (nth_addr k start)).
Proof.
  intros Hi. revert start fuel. induction k as [|k IH]; intros start fuel Hbefore Ht Hb Hf.
  - destruct fuel as [|fuel]; [lia|]. cbn [probe]. simpl in Ht, Hb. unfold busy in Hb.
    apply orb_false_iff in Hb as [He Hp].
    rewrite (proj2 (Z.leb_le _ _) Hi), Ht, He, Hp. done.
  - destruct fuel as [|fuel]; [lia|].
    destruct (Hbefore 0) as [Ht0 Hb0]; [lia|]. simpl in Ht0, Hb0.
    rewrite probe_skip by done. rewrite Nat.iter_succ_r in Ht, Hb |- *.
    apply IH; [|done|done|lia].
    intros j Hj. rewrite <- Nat.iter_succ_r. apply Hbefore. lia.
Qed.

(** What the probe returns is the first free address after [start]. *)
Lemma probe_sound ping6 fuel i naddrs start excl a :
  probe ping6 fuel i naddrs start excl = Some (Some a) ->
  exists k, a = nth_addr k start /\ ip_truthy a = true /\ busy ping6 excl a = false /\
    forall j, j < k -> ip_truthy (nth_addr j start) = true /\ busy ping6 excl (nth_addr j start) = true.
Proof.
  revert start. induction fuel as [|fuel IH]; intros start; [discriminate|].
  cbn [probe]. destruct (Z.leb i naddrs); [|discriminate]. simpl.
  destruct (ip_truthy start) eqn:Ht; [|discriminate]. simpl.
  destruct (excluded excl start) eqn:He; [|destruct (ping_host _ _) eqn:Hp].
  1,2: intros Hr; destruct (IH _ Hr) as (k & -> & Hta & Hba & Hbefore);
    exists (S k); rewrite Nat.iter_succ_r; do 3 (split; [done|]);
    intros [|m] Hm; [simpl; unfold busy; rewrite Ht, ?He, ?Hp, ?orb_true_r; by split|];
    rewrite Nat.iter_succ_r; apply Hbefore; lia.
  intros [= <-]. exists 0. unfold busy. rewrite He, Hp. do 3 (split; [done|]). lia.
Qed.

Lemma default_naddrs_nonneg a dflt : (0 <= default_naddrs a dflt)%Z.
Proof. unfold default_naddrs. apply Z.pow_nonneg. lia. Qed.

(** C14: The end of the range is not a bound.  With an end address at or
    after the start, [get_available_ipv4]/[_ipv6] runs exactly as without
    one: the loop counter never advances, so the probe goes on past the
    end until it finds a free address or the address becomes false. *)
Theorem get_available_ignores_end ping6 dflt fuel start e excl :
  ip_truthy e = true -> (ip_int start <= ip_int e)%Z ->
  get_available ping6 dflt fuel start (Some e) excl = get_available ping6 dflt fuel start None excl.
Proof.
  intros Ht Hle. unfold get_available. rewrite Ht.
  apply probe_naddrs; [lia|apply default_naddrs_nonneg].
Qed.

(** ** The exclusion dictionaries *)

(** The keys of [d] are keys of [d']: the dictionaries only grow. *)
Definition keys_le (d d' : gmap string ip) : Prop := forall k, is_Some (d !! k) -> is_Some (d' !! k).

Lemma keys_le_refl d : keys_le d d.
Proof. by intros k. Qed.

Lemma keys_le_trans d1 d2 d3 : keys_le d1 d2 -> keys_le d2 d3 -> keys_le d1 d3.
Proof. intros H1 H2 k Hk. by apply H2, H1. Qed.

#[local] Hint Resolve keys_le_refl keys_le_trans : core.

Lemma exclude_addr_keys d s m m' d' :
  exclude_addr d s m = Ok (m', d') ->
  parse_mask s m = Ok m' /\ keys_le d d' /\ is_Some (d' !! ip_str (addr_sc s m')).
Proof.
  unfold exclude_addr. destruct (parse_mask s m) as [m0|]; [|discriminate]. simpl.
  intros [= <- <-]. split; [done|]. split.
  - intros k Hk. destruct (decide (k = ip_str (addr_sc s m0))) as [->|Hne].
    + by rewrite lookup_insert_eq.
    + by rewrite lookup_insert_ne by congruence.
  - by rewrite lookup_insert_eq.
Qed.

Lemma exclude_aliases_keys d m l d' : exclude_aliases d m l = Ok d' -> keys_le d d'.
Proof.
  revert d m. induction l as [|a l IH]; intros d m; simpl; [by intros [= <-]|].
  destruct (exclude_addr d a m) as [[m1 d1]|] eqn:Ha; [|discriminate]. simpl.
  intros Hr. apply exclude_addr_keys in Ha as (_ & Hk & _). eauto.
Qed.

(** A branch that does not raise keeps the keys. *)
Lemma exclude_opt_keys (b : bool) (m : Z) d (x : res (Z * gmap string ip)) m' d' :
  (forall m1 d1, x = Ok (m1, d1) -> keys_le d d1) ->
  (if b then x else Ok (m, d)) = Ok (m', d') -> keys_le d d'.
Proof. intros Hx. destruct b; [apply Hx|by intros [= _ <-]]. Qed.

Lemma exclude_jail_keys F d j d' :
  exclude_jail F d j = Ok d' ->
  keys_le d d' /\ forall s, f_addr F j = Some s -> s <> "" ->
    exists m, parse_mask s 24 = Ok m /\ is_Some (d' !! ip_str (addr_sc s m)).
Proof.
  unfold exclude_jail. intros H.
  apply res_bind_Ok in H as ([m1 d1] & H1 & H).
  apply res_bind_Ok in H as ([m2 d2] & H2 & H).
  apply res_bind_Ok in H as (d3 & H3 & H4).
  assert (K12 : keys_le d1 d2).
  { revert H2. apply exclude_opt_keys. intros m d0 Hx.
    destruct (f_addr F j); [|discriminate]. by apply exclude_addr_keys in Hx as (_ & ? & _). }
  assert (K2' : keys_le d2 d').
  { apply keys_le_trans with d3.
    - destruct (truthy (f_alias F j)); [by apply exclude_aliases_keys in H3|by injection H3 as <-].
    - destruct (truthy (f_alias_bridge F j)); [by apply exclude_aliases_keys in H4|by injection H4 as <-]. }
  destruct (truthy (f_addr F j)) eqn:Ht.
  - apply exclude_addr_keys in H1 as (Hm & K01 & Hin). split; [eauto|].
    intros s Hs _. rewrite Hs in Hm, Hin. exists m1. split; [done|]. by apply K2', K12.
  - injection H1 as <- <-. split; [eauto|].
    intros s Hs Hne. rewrite Hs, truthy_Some in Ht by done. discriminate.
Qed.

Lemma exclude_jails_keys F d js d' :
  exclude_jails F d js = Ok d' ->
  keys_le d d' /\ forall j s, j ∈ js -> f_addr F j = Some s -> s <> "" ->
    exists m, parse_mask s 24 = Ok m /\ is_Some (d' !! ip_str (addr_sc s m)).
Proof.
  revert d. induction js as [|j js IH]; intros d; simpl.
  - intros [= <-]. split; [done|]. intros j s Hin. by apply elem_of_nil in Hin.
  - intros H. apply res_bind_Ok in H as (d1 & H1 & H).
    apply exclude_jail_keys in H1 as [K1 Hj]. destruct (IH _ H) as [K Hjs].
    split; [eauto|]. intros j' s Hin Hs Hne.
    apply elem_of_cons in Hin as [->|Hin]; [|by eapply Hjs].
    destruct (Hj s Hs Hne) as (m & Hm & Hk). exists m. split; [done|]. by apply K.
Qed.

(** The addresses the body for one jail reads: the address, the
    address again in the bridge branch (which splits [j['ipv4']], not the
    bridge address), the aliases and the bridge aliases. *)
Definition jail_sources (F : Family) (j : WJail) : list string :=
  (if truthy (f_addr F j) then [py_str (f_addr F j)] else []) ++
  (if truthy (f_bridge F j) then match f_addr F j with Some s => [s] | None => [] end else []) ++
  (if truthy (f_alias F j) then py_split "," (py_str (f_alias F j)) else []) ++
  (if truthy (f_alias_bridge F j) then py_split "," (py_str (f_alias_bridge F j)) else []).

(** Every entry is [str(sc) : sc] for [sc] the [sipcalc_type] of an
    address [S] accepts, at some mask: the membership test
    [str(addr) in d] of the probe relies on the key. *)
Definition dict_from (S : string -> Prop) (d : gmap string ip) : Prop :=
  map_Forall (fun k sc => ip_str sc = k /\ exists s m, S s /\ sc = addr_sc s m) d.

(** Every address of [l] is a key, at some mask. *)
Definition covers (d : gmap string ip) (l : list string) : Prop :=
  forall s, s ∈ l -> exists m, is_Some (d !! ip_str (addr_sc s m)).

Lemma covers_mono d d' l : keys_le d d' -> covers d l -> covers d' l.
Proof. intros K H s Hs. destruct (H s Hs) as [m Hm]. exists m. by apply K. Qed.

Lemma covers_app d l1 l2 : covers d (l1 ++ l2) <-> covers d l1 /\ covers d l2.
Proof.
  unfold covers. split.
  - intros H. split; intros s Hs; apply H; set_solver.
  - intros [H1 H2] s Hs. apply elem_of_app in Hs as [Hs|Hs]; auto.
Qed.

Lemma covers_nil d : covers d [].
Proof. intros s Hs. by apply elem_of_nil in Hs. Qed.

#[local] Hint Resolve covers_nil : core.

Lemma exclude_addr_covers d s m m' d' : exclude_addr d s m = Ok (m', d') -> covers d' [s].
Proof.
  intros H s' Hs. apply list_elem_of_singleton in Hs as ->.
  apply exclude_addr_keys in H as (_ & _ & Hk). eauto.
Qed.

Lemma exclude_aliases_covers d m l d' : exclude_aliases d m l = Ok d' -> covers d' l.
Proof.
  revert d m. induction l as [|a l IH]; intros d m; simpl; [by intros [= <-]|].
  intros H. apply res_bind_Ok in H as ([m1 d1] & H1 & H).
  change (a :: l) with ([a] ++ l). apply covers_app. split; [|by eapply IH].
  eapply covers_mono; [by eapply exclude_aliases_keys|by eapply exclude_addr_covers].
Qed.

(** An optional branch covers its part of the sources. *)
Lemma exclude_opt_covers (b : bool) (m : Z) d (x : res (Z * gmap string ip)) l m' d' :
  (forall m1 d1, x = Ok (m1, d1) -> covers d1 l) ->
  (if b then x else Ok (m, d)) = Ok (m', d') -> covers d' (if b then l else []).
Proof. intros Hx. destruct b; [apply Hx|done]. Qed.

Lemma exclude_jail_covers F d j d' :
  exclude_jail F d j = Ok d' -> covers d' (jail_sources F j).
Proof.
  intros H0. unfold exclude_jail in H0.
  apply res_bind_Ok in H0 as ([m1 d1] & H1 & H).
  apply res_bind_Ok in H as ([m2 d2] & H2 & H).
  apply res_bind_Ok in H as (d3 & H3 & H4).
  assert (K12 : keys_le d1 d2).
  { revert H2. apply exclude_opt_keys. intros m d0 Hx.
    destruct (f_addr F j); [|discriminate]. by apply exclude_addr_keys in Hx as (_ & ? & _). }
  assert (K3 : keys_le d3 d').
  { destruct (truthy (f_alias_bridge F j)); [by apply exclude_aliases_keys in H4|by injection H4 as <-]. }
  assert (K23 : keys_le d2 d3).
  { destruct (truthy (f_alias F j)); [by apply exclude_aliases_keys in H3|by injection H3 as <-]. }
  unfold jail_sources. rewrite !covers_app. split_and!.
  - apply (covers_mono d1); [eauto|]. revert H1. apply exclude_opt_covers. intros ? ? Hx.
    by eapply exclude_addr_covers.
  - apply (covers_mono d2); [eauto|]. destruct (truthy (f_bridge F j)); [|done].
    destruct (f_addr F j); [by eapply exclude_addr_covers|discriminate].
  - apply (covers_mono d3); [done|].
    destruct (truthy (f_alias F j)); [by eapply exclude_aliases_covers|done].
  - destruct (truthy (f_alias_bridge F j)); [by eapply exclude_aliases_covers|done].
Qed.

Lemma exclude_jails_covers F d js d' :
  exclude_jails F d js = Ok d' -> forall j, j ∈ js -> covers d' (jail_sources F j).
Proof.
  revert d. induction js as [|j js IH]; intros d; simpl.
  - intros _ j Hj. by apply elem_of_nil in Hj.
  - intros H. apply res_bind_Ok in H as (d1 & H1 & H). intros j' Hj'.
    apply elem_of_cons in Hj' as [->|Hj']; [|by eapply IH].
    eapply covers_mono; [by apply (exclude_jails_keys F d1 js d')|by eapply exclude_jail_covers].
Qed.

Section Sources.
Variable S : string -> Prop.

Lemma exclude_addr_from d s m m' d' :
  S s -> dict_from S d -> exclude_addr d s m = Ok (m', d') -> dict_from S d'.
Proof.
  unfold exclude_addr. intros Hs Hd H. apply res_bind_Ok in H as (m0 & _ & [= _ <-]).
  apply map_Forall_insert_2; [|done]. split; [done|eauto].
Qed.

Lemma exclude_aliases_from d m l d' :
  Forall S l -> dict_from S d -> exclude_aliases d m l = Ok d' -> dict_from S d'.
Proof.
  revert d m. induction l as [|a l IH]; intros d m Hl Hd; simpl; [by intros [= <-]|].
  apply Forall_cons in Hl as [Ha Hl]. intros H. apply res_bind_Ok in H as ([m1 d1] & Hx & H).
  eauto using exclude_addr_from.
Qed.

Lemma exclude_jail_from F d j d' :
  Forall S (jail_sources F j) -> dict_from S d -> exclude_jail F d j = Ok d' -> dict_from S d'.
Proof.
  unfold jail_sources, exclude_jail. rewrite !Forall_app. intros (S1 & S2 & S3 & S4) Hd H.
  apply res_bind_Ok in H as ([m1 d1] & H1 & H).
  apply res_bind_Ok in H as ([m2 d2] & H2 & H).
  apply res_bind_Ok in H as (d3 & H3 & H4).
  assert (W1 : dict_from S d1).
  { revert S1 H1. destruct (truthy (f_addr F j)); [|by intros _ [= _ <-]].
    intros S1 H1. inversion S1. by eapply exclude_addr_from. }
  assert (W2 : dict_from S d2).
  { revert S2 H2. destruct (truthy (f_bridge F j)); [|by intros _ [= _ <-]].
    destruct (f_addr F j); [|discriminate]. intros S2 H2. inversion S2. by eapply exclude_addr_from. }
  assert (W3 : dict_from S d3).
  { revert S3 H3. destruct (truthy (f_alias F j)); [|by intros _ [= <-]].
    intros; by eapply exclude_aliases_from. }
  revert S4 H4. destruct (truthy (f_alias_bridge F j)); [|by intros _ [= <-]].
  intros; by eapply exclude_aliases_from.
Qed.

Lemma exclude_jails_from F d js d' :
  (forall j, j ∈ js -> Forall S (jail_sources F j)) -> dict_from S d ->
  exclude_jails F d js = Ok d' -> dict_from S d'.
Proof.
  revert d. induction js as [|j js IH]; intros d Hjs Hd; simpl; [by intros [= <-]|].
  intros H. apply res_bind_Ok in H as (d1 & H1 & H).
  apply (IH d1); [intros j' Hj'; apply Hjs; by right|eapply exclude_jail_from; [apply Hjs; left|done|done]|done].
Qed.

End Sources.

(** C25: the exclusion dictionaries hold exactly the addresses of the
    jails the warden lists: every entry of [get_ipv4_exclude_dict] (or
    the IPv6 one) is [str(sc) : sc] for the [sipcalc_type] of the
    address, the alias or the bridge alias of a listed jail, and every
    such address is a key at some mask.  The bridge branch contributes
    the jail's own address again, so a bridge address enters only through
    the bridge aliases. *)
Theorem exclude_dict_keys F d :
  exclude_jails F ∅ warden_list = Ok d ->
  dict_from (fun s => exists j, j ∈ warden_list /\ s ∈ jail_sources F j) d /\
  forall j, j ∈ warden_list -> covers d (jail_sources F j).
Proof.
  intros H. split; [|by eapply exclude_jails_covers].
  eapply exclude_jails_from; [|apply map_Forall_empty|exact H].
  intros j Hj. apply Forall_forall. eauto.
Qed.

(** A jail whose bridge address is set and whose address is [None]
    makes the dictionary raise. *)
Lemma exclude_bridge_without_addr F d j :
  f_addr F j = None -> truthy (f_bridge F j) = true ->
  exclude_jail F d j = Raise (AttributeError "split").
Proof. intros Ha Hb. unfold exclude_jail. by rewrite Ha, Hb. Qed.

(** C30: The bridge address of a jail is never excluded: the bridge branch
    of [get_ipv4_exclude_dict] reads [j['ipv4']], so two jails that agree
    on the address and alias fields, and on whether a bridge address is
    set, give the same dictionary whatever their bridge addresses are. *)
Theorem exclude_bridge_unused d j1 j2 :
  w_ipv4 j1 = w_ipv4 j2 -> w_alias_ipv4 j1 = w_alias_ipv4 j2 ->
  w_alias_bridge_ipv4 j1 = w_alias_bridge_ipv4 j2 ->
  truthy (w_bridge_ipv4 j1) = truthy (w_bridge_ipv4 j2) ->
  exclude_jail v4 d j1 = exclude_jail v4 d j2.
Proof. intros Ha Hal Hab Hb. unfold exclude_jail. simpl. by rewrite Ha, Hal, Hab, Hb. Qed.

(** [guess_ipv4_address] never proposes the address of a jail the
    warden knows: when it returns an address, that address differs, as a
    string, from the primary IPv4 address (with its mask, 24 by default)
    of every jail of the warden's list. *)
Theorem guess_ipv4_avoids_jails fuel jcs a j s :
  guess_ipv4_address fuel jcs = Ok (Some (Some a)) ->
  j ∈ warden_list -> w_ipv4 j = Some s -> s <> "" ->
  exists m, parse_mask s 24 = Ok m /\ ip_str a <> ip_str (addr_sc s m).
Proof.
  unfold guess_ipv4_address. intros H Hj Hs Hne.
  destruct (get_jail_ipv4_network jcs) as [net|]; [|discriminate].
  destruct (ip_truthy net); [|discriminate].
  destruct (guess_range n4 jcs net) as [st en].
  apply res_bind_Ok in H as (d & Hd & [= Hp]).
  apply probe_sound in Hp as (k & _ & _ & Hb & _).
  unfold busy, excluded in Hb. apply orb_false_iff in Hb as [Hb _].
  apply bool_decide_eq_false in Hb.
  destruct (proj2 (exclude_jails_keys v4 ∅ warden_list d Hd) j s Hj Hs Hne) as (m & Hm & Hk).
  exists m. split; [done|]. intros Heq. apply Hb. by rewrite Heq.
Qed.

(** No IPv6 address is ever proposed: whatever the jail settings,
    [guess_addresses] leaves [high_ipv6] and [bridge_ipv6] at [None],
    because [guess_ipv6_address] returns [None]. *)
Theorem guess_addresses_no_ipv6 fuel jcs A :
  guess_addresses fuel jcs = Ok (Some A) -> high_ipv6 A = None /\ bridge_ipv6 A = None.
Proof.
  unfold guess_addresses. intros H. apply res_bind_Ok in H as ([a4|] & _ & H); [|discriminate].
  injection H as <-. simpl.
  assert (H6 : guess_ipv6_address jcs = None).
  { unfold guess_ipv6_address. destruct (get_jail_ipv6_network jcs); [|done].
    destruct (ip_truthy _); [|done]. by destruct (guess_range _ _ _). }
  rewrite H6. split; [done|]. by destruct (get_jail_ipv6_network jcs).
Qed.

(** The IPv4 address [guess_addresses] proposes is the one the probe of
    [guess_ipv4_address] found. *)
Lemma guess_addresses_high fuel jcs A a :
  guess_addresses fuel jcs = Ok (Some A) -> high_ipv4 A = Some a ->
  guess_ipv4_address fuel jcs = Ok (Some (Some a)).
Proof.
  unfold guess_addresses. intros H Ha. apply res_bind_Ok in H as ([a4|] & H4 & H); [|discriminate].
  injection H as <-. simpl in Ha. rewrite H4.
  destruct a4 as [x|]; simpl in Ha; [|discriminate].
  by destruct (ip_truthy x); simplify_eq.
Qed.

(** [ping_host] answers true exactly when the ping process exits with
    status 0 within [tseconds] seconds. *)
Lemma ping_host_spec host ping6 :
  ping_host host ping6 = true <->
  exists n, proc_exit (ping_cmd host ping6) = Some (n, 0%Z) /\ n <= tseconds.
Proof.
  unfold ping_host. rewrite bool_decide_eq_true.
  destruct (proc_exit (ping_cmd host ping6)) as [[n c]|]; simpl.
  - destruct (decide (c = 0%Z)) as [->|Hc].
    + split; [|intros (n' & [= <-] & Hn); unfold tseconds in Hn;
                 destruct n as [|[|[|n]]]; [done..|lia]].
      destruct n as [|[|[|n]]]; simpl; [intros; eexists; split; [reflexivity|]; cbv; lia..|discriminate].
    + split; [|intros (n' & [= _ Hc0] & _); congruence].
      destruct n as [|[|[|n]]]; simpl; rewrite ?bool_decide_eq_false_2 by congruence; congruence.
  - split; [discriminate|]. by intros (n & ? & _).
Qed.

End Jails.
(** ** Examples

    Addresses as numbers ("10/24" is 10), a jail at 10 with the bridge
    address 12, a host at 11 that answers a ping, and a jail network whose
    range ends at 11. *)
Definition demo_sipcalc : Sipcalc := {|
  ip := Z;
  sipcalc_type s := digits_value (split_head "/" s) 0;
  ip_str n := py_int_str n;
  ip_truthy n := negb (Z.eqb n 0);
  ip_incr n := (n + 1)%Z;
  ip_int n := n;
  network_mask_bits _ := 24%Z;
  prefix_length _ := 64%Z;
  usable_range _ := ("1", "254");
  network_range _ := ("1", "254");
  in_network _ x := (Z.leb 1 x && Z.leb x 254)%bool;
  sipcalc_iface _ := 1%Z;
  is_ipv4 _ := true;
  is_ipv6 _ := false;
  network_address _ := "0" |}.

Definition demo_jail : WJail :=
  mkWJail (Some "10/24") (Some "12") None None None None None None.

Definition demo_jenv : JailEnv := {|
  warden_list := [demo_jail];
  proc_exit cmd := if String.eqb cmd (@ping_cmd "11" false) then Some (0, 0%Z) else None;
  platform_bits := "64bit";
  default_iface := "" |}.

Definition demo_jcs : list JailsConfRow :=
  [mkJC 1 "/mnt/tank/jails" "1/24" "10" "11" "" "" ""].

(** The guess is 12: beyond the end of the range (11), and the bridge
    address of the jail. *)
Lemma guess_ipv4_avoids_jails_witness :
  @guess_ipv4_address demo_sipcalc demo_jenv 10 demo_jcs = Ok (Some (Some 12%Z)) /\
  exists m, parse_mask "10/24" 24 = Ok m /\
    @ip_str demo_sipcalc 12%Z <> @ip_str demo_sipcalc (@addr_sc demo_sipcalc "10/24" m).
Proof.
  assert (H : @guess_ipv4_address demo_sipcalc demo_jenv 10 demo_jcs = Ok (Some (Some 12%Z)))
    by (vm_compute; reflexivity).
  split; [exact H|].
  apply (@guess_ipv4_avoids_jails demo_sipcalc demo_jenv 10 demo_jcs 12%Z demo_jail "10/24").
  - exact H.
  - left.
  - reflexivity.
  - discriminate.
Defined.

Lemma get_available_ignores_end_witness :
  @get_available demo_sipcalc demo_jenv false 24 10 10%Z (Some 11%Z) (Some {["10" := 10%Z]}) =
  @get_available demo_sipcalc demo_jenv false 24 10 10%Z None (Some {["10" := 10%Z]}) /\
  @get_available demo_sipcalc demo_jenv false 24 10 10%Z (Some 11%Z) (Some {["10" := 10%Z]}) =
  Some (Some 12%Z).
Proof.
  split.
  - apply (@get_available_ignores_end demo_sipcalc demo_jenv); [reflexivity|simpl; lia].
  - vm_compute. reflexivity.
Defined.

Lemma probe_finds_witness :
  @probe demo_sipcalc demo_jenv false 5 0 1 10%Z (Some {["10" := 10%Z]}) = Some (Some 12%Z).
Proof.
  apply (@probe_finds demo_sipcalc demo_jenv false (Some {["10" := 10%Z]}) 0 1 10%Z 2 5).
  - lia.
  - intros [|[|j]] Hj; [vm_compute; auto..|lia].
  - vm_compute. reflexivity.
  - vm_compute. reflexivity.
  - lia.
Defined.

Lemma exclude_dict_keys_witness :
  @exclude_jails demo_sipcalc v4 ∅ (@warden_list demo_jenv) = Ok {["10" := 10%Z]} /\
  @dict_from demo_sipcalc (fun s => exists j, j ∈ @warden_list demo_jenv /\ s ∈ jail_sources v4 j)
    {["10" := 10%Z]} /\
  forall j, j ∈ @warden_list demo_jenv -> @covers demo_sipcalc {["10" := 10%Z]} (jail_sources v4 j).
Proof.
  assert (H : @exclude_jails demo_sipcalc v4 ∅ (@warden_list demo_jenv) = Ok {["10" := 10%Z]})
    by (vm_compute; reflexivity).
  split; [exact H|]. apply (@exclude_dict_keys demo_sipcalc demo_jenv v4); exact H.
Defined.

Lemma exclude_bridge_unused_witness :
  @exclude_jail demo_sipcalc v4 ∅ demo_jail =
  @exclude_jail demo_sipcalc v4 ∅ (mkWJail (Some "10/24") (Some "99") None None None None None None).
Proof. apply (@exclude_bridge_unused demo_sipcalc); reflexivity. Defined.

Lemma guess_addresses_no_ipv6_witness :
  exists A, @guess_addresses demo_sipcalc demo_jenv 10 demo_jcs = Ok (Some A) /\
    high_ipv6 A = None /\ bridge_ipv6 A = None.
Proof.
  eexists. split; [vm_compute; reflexivity|].
  apply (@guess_addresses_no_ipv6 demo_sipcalc demo_jenv 10 demo_jcs). vm_compute. reflexivity.
Defined.

End JailAddress.
