(* ===== verification/SystemTools.v ===== *)
(** * SystemTools: the system helpers of system.py

    src/gui/common/system.py outside the directory-service settings
    ([SystemConfig]): the version strings with their module-level cache
    [_VERSION] (52-75), the shell variables of /etc/rc.freenas and
    /etc/avatar.conf (78-93, 494-510), the mount helpers (207-300), the
    system dataset of the [Advanced] settings (513-563) and [exclude_path]
    (566-603) over the tree of [FileSystem].  The files, commands and
    processes the helpers read are the type class [SysEnv]; only
    [_VERSION] is state. *)

From S2P Require Import Prelude Config FileSystem Cachetool.

Module SystemTools.
Import Config FileSystem Cachetool.
#[local] Open Scope list_scope.

(** ** The collaborators *)

(** The contents of /etc/version ([None] when it cannot be opened), the
    lines a shell command prints ([os.popen]), [os.access(path, F_OK)],
    and the exit status and output lines of a command run with
    [subprocess]. *)
Class SysEnv := {
  version_file : option string;
  shell_lines : string -> list string;
  path_access : string -> bool;
  run_cmd : list string -> Z * list string;
}.

Section System.
Context `{SE : SysEnv}.

(** ** The version strings (52-75) *)

Definition VERSION_FILE : string := "/etc/version".

(** The stripped contents of the version file, read once and kept in
    [_VERSION]; [strip_build_num] keeps the part before the first blank. *)
Definition read_version : st (option string) string :=
  fun cached =>
    match cached with
    | Some v => (Ok v, cached)
    | None =>
        match version_file with
        | Some c => (Ok (py_strip c), Some (py_strip c))
        | None => (Raise IOError, None)
        end
    end.

Definition get_sw_version (strip_build_num : bool) : st (option string) string :=
  v ← read_version;
  mret (if strip_build_num then split_head " " v else v).

(** [l[1:-2]]: the elements after the first and before the last two. *)
Definition slice_1_m2 {A} (l : list A) : list A := drop 1 (take (List.length l - 2) l).

Definition get_sw_login_version : st (option string) string :=
  v ← get_sw_version true;
  mret (py_join "-" (slice_1_m2 (py_split "-" v))).

Definition get_sw_name : st (option string) string :=
  v ← get_sw_version false;
  mret (split_head "-" v).

(** ** Shell variables (78-93, 494-510) *)

(** A double quote. *)
Definition dq : string := String "034" EmptyString.

(** [os.popen('. "%s"; echo "${%s}"' % (f, var)).readlines()[-1].rstrip()],
    after [assert f and var]. *)
Definition get_freenas_var_by_file (f var : string) : res string :=
  if String.eqb f "" || String.eqb var "" then Raise (AssertionError "") else
  match last (shell_lines (". " ++ dq ++ f ++ dq ++ "; echo " ++ dq ++ "${" ++ var ++ "}" ++ dq)%string) with
  | Some l => Ok (py_rstrip l)
  | None => Raise IndexError
  end.

Definition get_freenas_var (var : string) (default : option string) : res (option string) :=
  val ← get_freenas_var_by_file "/etc/rc.freenas" var;
  Ok (if String.eqb val "" then default else Some val).

Definition avatar_vars : list string :=
  ["AVATAR_PROJECT"; "AVATAR_PROJECT_SITE"; "AVATAR_SUPPORT_SITE"; "AVATAR_VERSION";
   "AVATAR_BUILD_NUMBER"; "AVATAR_ARCH"; "AVATAR_COMPONENT"].

Fixpoint avatar_loop (conf : gmap string string) (avs : list string) : res (gmap string string) :=
  match avs with
  | [] => Ok conf
  | av :: avs' => v ← get_freenas_var_by_file "/etc/avatar.conf" av; avatar_loop (<[av := v]> conf) avs'
  end.

Definition get_avatar_conf : res (gmap string string) := avatar_loop ∅ avatar_vars.

(** ** Commands *)

(** [subprocess.check_output(argv).splitlines()]. *)
Definition check_output (argv : list string) : res (list string) :=
  let '(rc, out) := run_cmd argv in
  if Z.eqb rc 0 then Ok out else Raise (CalledProcessError rc).

(** ** [get_fstype] (207-217) *)

Definition get_fstype (path : string) : res (option string) :=
  if String.eqb path "" then Raise (AssertionError "") else
  if negb (path_access path) then Ok None else
  lines ← check_output ["/bin/df"; "-T"; path];
  match last lines with
  | None => Raise IndexError
  | Some l =>
      match py_split_ws l with
      | _ :: t :: _ => Ok (Some (py_upper t))
      | _ => Raise IndexError
      end
  end.

(** ** [RE_MOUNT] (43-45) and [get_mounted_filesystems] (220-238)

    [RE_MOUNT.search(line)]: [^(?P<fs_spec>.+?) on (?P<fs_file>.+?)
    \((?P<fs_vfstype>\w+)] with [re.S].  Both lazy groups take the
    shortest non-empty text after which the rest of the pattern matches,
    trying longer ones on failure; [\w] is [[A-Za-z0-9_]]. *)
Record Mount := mkMount { fs_spec : string; fs_file : string; fs_vfstype : string }.

Definition is_word (c : ascii) : bool :=
  let n := Ascii.nat_of_ascii c in
  (Nat.leb 48 n && Nat.leb n 57) || (Nat.leb 65 n && Nat.leb n 90) ||
  (Nat.leb 97 n && Nat.leb n 122) || Nat.eqb n 95.

(** [\w+]: the longest run of word characters. *)
Fixpoint word_prefix (s : string) : string :=
  match s with
  | String c s' => if is_word c then String c (word_prefix s') else EmptyString
  | EmptyString => EmptyString
  end.

(** [ \((?P<fs_vfstype>\w+)] at the start of [r]: the type name. *)
Definition paren_word (r : string) : option string :=
  match r with
  | String " " (String "(" rest) =>
      let w := word_prefix rest in if String.eqb w "" then None else Some w
  | _ => None
  end.

(** [ on ] at the start of [r]: what follows. *)
Definition on_rest (r : string) : option string :=
  match r with
  | String " " (String "o" (String "n" (String " " rest))) => Some rest
  | _ => None
  end.

(** [(?P<fs_file>.+?) \((?P<fs_vfstype>\w+)] on [r]; [seen] is what the
    group has taken so far. *)
Fixpoint scan_file (seen r : string) : option (string * string) :=
  match r with
  | EmptyString => None
  | String c r' =>
      let seen' := (seen ++ String c EmptyString)%string in
      match paren_word r' with
      | Some w => Some (seen', w)
      | None => scan_file seen' r'
      end
  end.

(** [^(?P<fs_spec>.+?) on ...]. *)
Fixpoint scan_spec (seen r : string) : option Mount :=
  match r with
  | EmptyString => None
  | String c r' =>
      let seen' := (seen ++ String c EmptyString)%string in
      match on_rest r' with
      | Some rest =>
          match scan_file EmptyString rest with
          | Some (f, t) => Some (mkMount seen' f t)
          | None => scan_spec seen' r'
          end
      | None => scan_spec seen' r'
      end
  end.

Definition re_mount (line : string) : option Mount := scan_spec EmptyString line.

Definition get_mounted_filesystems : res (list Mount) :=
  lines ← check_output ["/sbin/mount"];
  Ok (omap re_mount (lines : list string)).

(** ** [is_mounted] (241-253)

    [ret] is assigned in the loop body only: with nothing mounted the
    [return ret] raises [UnboundLocalError].  The [path] test overwrites
    the [device] test. *)
Fixpoint is_mounted_loop (device path : option string) (ms : list Mount) (ret : option bool) : res bool :=
  match ms with
  | [] => match ret with Some r => Ok r | None => Raise (UnboundLocalError "ret") end
  | m :: ms' =>
      let r := match device with Some d => String.eqb (fs_spec m) d | None => false end in
      let r := match path with Some p => String.eqb (fs_file m) p | None => r end in
      if r then Ok true else is_mounted_loop device path ms' (Some r)
  end.

(** [is_mounted(device=..., path=...)]: [None] for an absent keyword. *)
Definition is_mounted (device path : option string) : res bool :=
  ms ← get_mounted_filesystems;
  is_mounted_loop device path ms None.

(** ** [mount] (256-285) and [umount] (288-300) *)

(** [['-o', opt] if opt else []]. *)
Definition opt_args (flag : string) (o : option string) : list string :=
  match o with Some v => if String.eqb v "" then [] else [flag; v] | None => [] end.

(** [['/sbin/mount'] + opts + fstype + [dev, path]]. *)
Definition mount_argv (dev path : string) (mntopts fstype : option string) : list string :=
  ["/sbin/mount"] ++ opt_args "-o" mntopts ++ opt_args "-t" fstype ++ [dev; path].

Definition mount (dev path : string) (mntopts fstype : option string) : res bool :=
  let '(rc, _) := run_cmd (mount_argv dev path mntopts fstype) in
  if Z.eqb rc 0 then Ok true else Raise ValueError.

Definition umount (path : string) : bool :=
  let '(rc, _) := run_cmd ["/sbin/umount"; path] in Z.eqb rc 0.

(** ** [get_system_dataset] (513-537) and [get_samba4_path] (540-563)

    The first row of the [Advanced] settings and the [Volume] rows
    (system/models.py and storage/models.py, not in src/), in storage
    order. *)
Record VolumeRow := mkVolume { vol_name : string; vol_fstype : string }.

(** The volume of the system pool: [None] for a missing settings row, an
    empty pool name or no volume of that name. *)
Definition system_volume (adv_system_pool : list string) (volumes : list VolumeRow) : option VolumeRow :=
  match adv_system_pool with
  | [] => None
  | pool :: _ =>
      if String.eqb pool "" then None
      else head (filter (fun v => vol_name v = pool) volumes)
  end.

Definition get_system_dataset (adv_system_pool : list string) (volumes : list VolumeRow)
    : option (VolumeRow * string) :=
  v ← system_volume adv_system_pool volumes; Some (v, (vol_name v ++ "/.system")%string).

(** The same checks, each failure printing to stderr and exiting with
    status 1. *)
Definition get_samba4_path (adv_system_pool : list string) (volumes : list VolumeRow)
    : list string * res (VolumeRow * string) :=
  match adv_system_pool with
  | [] => (["No advanced settings!"], Raise (SystemExit 1))
  | pool :: _ =>
      if String.eqb pool "" then (["No system pool configured!"], Raise (SystemExit 1)) else
      match head (filter (fun v => vol_name v = pool) volumes) with
      | None => (["You need to create a volume to proceed!"], Raise (SystemExit 1))
      | Some v => ([], Ok (v, (vol_name v ++ "/.system/samba4")%string))
      end
  end.

(** ** [exclude_path] (566-603)

    The paths to apply an operation to so that it covers [path] except the
    [exclude] entries: the directories on the way to an exclusion are
    opened and their other entries listed.  Paths are strings; [os.listdir]
    and [os.path.isdir] resolve them in the tree of [FileSystem] through
    [path_of] (absolute paths, no [.] or [..]).  The [while check_paths]
    loop runs with fuel; [None] is "still looping". *)

Definition py_endswith (s p : string) : bool := String.prefix (str_rev p) (str_rev s).

(** [os.path.join(a, b)] (posixpath). *)
Definition os_path_join (a b : string) : string :=
  if py_startswith b "/" then b
  else if String.eqb a "" || py_endswith a "/" then (a ++ b)%string
  else (a ++ "/" ++ b)%string.

(** [[os.path.join(p, f) for f in os.listdir(p)]]. *)
Definition list_joined (fs : FS) (p : string) : res (list string) :=
  match listdir fs (path_of p) with
  | Ok names => Ok (map (os_path_join p) names)
  | Raise e => Raise e
  end.

(** [for fg in fine_grained:] for a directory [fpath]: open it towards an
    exclusion below it, skip it when it is the exclusion, and append it
    for every exclusion not below it. *)
Fixpoint ep_fine (fs : FS) (fpath : string) (fine check apply : list string)
    : res (list string * list string) :=
  match fine with
  | [] => Ok (check, apply)
  | fg :: fine' =>
      if py_startswith fg fpath then
        if String.eqb fg fpath then ep_fine fs fpath fine' check apply
        else (xs ← list_joined fs fpath; ep_fine fs fpath fine' (check ++ xs) apply)
      else ep_fine fs fpath fine' check (apply ++ [fpath])
  end.

(** [while check_paths: fpath = check_paths.pop() ...]. *)
Fixpoint ep_loop (fuel : nat) (fs : FS) (fine check apply : list string) : option (res (list string)) :=
  match fuel with
  | O => None
  | S fuel' =>
      match last check with
      | None => Some (Ok apply)
      | Some fpath =>
          let check := removelast check in
          if negb (isdir fs (path_of fpath)) then ep_loop fuel' fs fine check (apply ++ [fpath])
          else match ep_fine fs fpath fine check apply with
               | Ok (check', apply') => ep_loop fuel' fs fine check' apply'
               | Raise e => Some (Raise e)
               end
      end
  end.

Definition fine_grained (path : string) (exclude : list string) : list string :=
  filter (fun e => py_startswith e path = true) exclude.

Definition exclude_path (fuel : nat) (fs : FS) (path : string) (exclude : list string)
    : option (res (list string)) :=
  let fine := fine_grained path exclude in
  if bool_decide (fine = []) then Some (Ok [path]) else
  match list_joined fs path with
  | Raise e => Some (Raise e)
  | Ok check => ep_loop fuel fs fine check []
  end.

(** ** [exclude_path] returns what it should leave out *)

(** [check_paths.pop()]: an element of the list is the one popped or
    stays. *)
Lemma pop_elem {A} (l : list A) y x :
  last l = Some y -> x ∈ l -> x = y \/ x ∈ removelast l.
Proof.
  intros [l' ->]%last_Some Hx. rewrite removelast_last.
  apply elem_of_app in Hx as [Hx|Hx%list_elem_of_singleton]; auto.
Qed.

(** [for fg in fine_grained] only appends to both lists, and appends the
    directory once for every exclusion that does not start with it. *)
Lemma ep_fine_spec fs fpath fine check apply check' apply' :
  ep_fine fs fpath fine check apply = Ok (check', apply') ->
  (forall x, x ∈ check -> x ∈ check') /\ (forall x, x ∈ apply -> x ∈ apply') /\
  ((exists fg, fg ∈ fine /\ py_startswith fg fpath = false) -> fpath ∈ apply').
Proof.
  revert check apply. induction fine as [|fg fine IH]; intros check apply; simpl.
  - intros [= <- <-]. do 2 (split; [done|]). by intros (fg & ?%elem_of_nil & _).
  - destruct (py_startswith fg fpath) eqn:Hs; [destruct (String.eqb fg fpath)|].
    + intros H. destruct (IH _ _ H) as (Hc & Ha & Hf). do 2 (split; [done|]).
      intros (fg' & [->|Hin]%elem_of_cons & Hfg'); [congruence|eauto].
    + intros H. apply res_bind_Ok in H as (xs & _ & H).
      destruct (IH _ _ H) as (Hc & Ha & Hf).
      split; [intros x Hx; apply Hc; set_solver|]. split; [done|].
      intros (fg' & [->|Hin]%elem_of_cons & Hfg'); [congruence|eauto].
    + intros H. destruct (IH _ _ H) as (Hc & Ha & Hf).
      split; [done|]. split; [intros x Hx; apply Ha; set_solver|].
      intros _. apply Ha. set_solver.
Qed.

(** The loop returns everything it appended, and every path still to
    check that is a file, or a directory some exclusion does not start
    with. *)
Lemma ep_loop_returns fuel fs fine check apply R :
  ep_loop fuel fs fine check apply = Some (Ok R) ->
  (forall x, x ∈ apply -> x ∈ R) /\
  (forall x, x ∈ check ->
     isdir fs (path_of x) = false \/ (exists fg, fg ∈ fine /\ py_startswith fg x = false) ->
     x ∈ R).
Proof.
  revert check apply. induction fuel as [|fuel IH]; intros check apply; simpl; [discriminate|].
  destruct (last check) as [y|] eqn:Hl.
  - destruct (isdir fs (path_of y)) eqn:Hd; simpl.
    + destruct (ep_fine fs y fine (removelast check) apply) as [[c' a']|] eqn:Hf; [|discriminate].
      intros H. destruct (IH _ _ H) as [Ha Hc].
      destruct (ep_fine_spec _ _ _ _ _ _ _ Hf) as (Hfc & Hfa & Hfy). split; [eauto|].
      intros x Hx Hcond. destruct (pop_elem _ _ _ Hl Hx) as [->|Hr]; [|eauto].
      destruct Hcond as [Hcond|Hcond]; [congruence|eauto].
    + intros H. destruct (IH _ _ H) as [Ha Hc].
      split; [intros x Hx; apply Ha; set_solver|].
      intros x Hx Hcond. destruct (pop_elem _ _ _ Hl Hx) as [->|Hr]; [|eauto].
      apply Ha. set_solver.
  - intros [= <-]. apply last_None in Hl as ->. split; [done|]. by intros x ?%elem_of_nil.
Qed.

(** C31: [exclude_path] returns excluded entries.  Let [x] be an exclusion
    that starts with [path] and is an entry listed directly in [path].
    When [x] is a file, or when another exclusion does not start with
    [x] (two exclusions in different places), a run that ends returns
    [x] among the paths to apply to: the exclusion is lost. *)
Theorem exclude_path_keeps_excluded fuel fs path exclude R names n x :
  exclude_path fuel fs path exclude = Some (Ok R) ->
  listdir fs (path_of path) = Ok names -> n ∈ names -> x = os_path_join path n ->
  x ∈ fine_grained path exclude ->
  isdir fs (path_of x) = false \/
    (exists fg, fg ∈ fine_grained path exclude /\ py_startswith fg x = false) ->
  x ∈ R.
Proof.
  intros H Hl Hn -> Hx Hcond. unfold exclude_path, list_joined in H. rewrite Hl in H.
  rewrite bool_decide_eq_false_2 in H by (intros He; rewrite He in Hx; by apply elem_of_nil in Hx).
  apply (proj2 (ep_loop_returns _ _ _ _ _ _ H)); [|done].
  by apply list_elem_of_fmap_2.
Qed.

(** ** [RE_MOUNT] reads back the fields of a mount(8) line *)

(** Whether a string contains a character. *)
Fixpoint has_char (c : ascii) (s : string) : bool :=
  match s with
  | EmptyString => false
  | String c' s' => Ascii.eqb c c' || has_char c s'
  end.

Lemma str_app_assoc (a b c : string) : ((a ++ b) ++ c)%string = (a ++ b ++ c)%string.
Proof.
  induction a as [|x a IH]; [reflexivity|].
  change (String x ((a ++ b) ++ c) = String x (a ++ b ++ c))%string. by rewrite IH.
Qed.

Lemma str_app_cons c (a b : string) : (String c a ++ b)%string = String c (a ++ b).
Proof. reflexivity. Qed.

Lemma str_nil_app (b : string) : ("" ++ b)%string = b.
Proof. reflexivity. Qed.

Lemma str_app_nil (a : string) : (a ++ "")%string = a.
Proof.
  induction a as [|x a IH]; [reflexivity|].
  change (String x (a ++ "") = String x a)%string. by rewrite IH.
Qed.

(** [c] followed by a string that does not start with [(] does not
    start with [ (]. *)
Lemma paren_word_none c s : (forall s', s <> String "(" s') -> paren_word (String c s) = None.
Proof.
  intros Hs. destruct (Ascii.eqb_spec c " ") as [->|Hc].
  - destruct s as [|c' s']; [reflexivity|].
    destruct (Ascii.eqb_spec c' "(") as [->|]; [by destruct (Hs s')|].
    destruct c' as [[] [] [] [] [] [] [] []]; try reflexivity; congruence.
  - destruct c as [[] [] [] [] [] [] [] []]; try reflexivity; congruence.
Qed.

Lemma on_rest_app x : on_rest (" on " ++ x) = Some x.
Proof. reflexivity. Qed.

Lemma on_rest_none c s : c <> " "%char -> on_rest (String c s) = None.
Proof. intros Hc. destruct c as [[] [] [] [] [] [] [] []]; try reflexivity; congruence. Qed.

Lemma scan_file_app seen file t rest :
  file <> "" -> has_char "(" file = false ->
  word_prefix (t ++ rest) = t -> t <> "" ->
  scan_file seen (file ++ " (" ++ t ++ rest) = Some ((seen ++ file)%string, t).
Proof.
  revert seen. induction file as [|c f IH]; intros seen Hne Hp Hw Ht; [done|].
  simpl in Hp. apply orb_false_iff in Hp as [_ Hp].
  rewrite str_app_cons. cbn [scan_file]. destruct f as [|c2 f'].
  - rewrite !str_app_cons, !str_nil_app. cbn [paren_word]. rewrite Hw.
    apply String.eqb_neq in Ht. by rewrite Ht.
  - rewrite str_app_cons, paren_word_none.
    + rewrite <- str_app_cons, IH by (done || discriminate). by rewrite str_app_assoc.
    + intros s' Hs'. destruct f' as [|c3 f'']; [discriminate|].
      rewrite str_app_cons in Hs'. injection Hs' as -> _.
      cbn [has_char] in Hp. rewrite !orb_false_iff in Hp. destruct Hp as (_ & Hp & _).
      vm_compute in Hp. discriminate.
Qed.

Lemma scan_spec_app seen spec file t rest :
  spec <> "" -> has_char " " spec = false ->
  file <> "" -> has_char "(" file = false ->
  word_prefix (t ++ rest) = t -> t <> "" ->
  scan_spec seen (spec ++ " on " ++ file ++ " (" ++ t ++ rest) =
  Some (mkMount (seen ++ spec) file t).
Proof.
  revert seen. induction spec as [|c sp IH]; intros seen Hne Hs Hf Hpf Hw Ht; [done|].
  cbn [has_char] in Hs. apply orb_false_iff in Hs as [_ Hs].
  rewrite str_app_cons. cbn [scan_spec]. destruct sp as [|c2 sp'].
  - rewrite str_nil_app, on_rest_app, (scan_file_app "" file t rest) by done.
    by rewrite str_nil_app.
  - cbn [has_char] in Hs. apply orb_false_iff in Hs as [Hc2 Hs'].
    rewrite str_app_cons, on_rest_none by (intros ->; vm_compute in Hc2; discriminate).
    rewrite <- str_app_cons, IH by (done || discriminate || (cbn [has_char]; by rewrite Hc2)).
    by rewrite str_app_assoc.
Qed.

Fixpoint all_word (s : string) : bool :=
  match s with EmptyString => true | String c s' => is_word c && all_word s' end.

Lemma word_prefix_app t rest :
  all_word t = true -> (forall c r, rest = String c r -> is_word c = false) ->
  word_prefix (t ++ rest) = t.
Proof.
  intros Ht Hr. induction t as [|c t IH].
  - destruct rest as [|c r]; [reflexivity|]. simpl. by rewrite (Hr c r).
  - cbn [all_word] in Ht. apply andb_true_iff in Ht as [Hc Ht].
    rewrite str_app_cons. cbn [word_prefix]. rewrite Hc. by rewrite IH.
Qed.

(** A line of mount(8) output: [spec on file (type, options)]. *)
Definition mount_line (m : Mount) (opts : string) : string :=
  (fs_spec m ++ " on " ++ fs_file m ++ " (" ++ fs_vfstype m ++ opts ++ ")")%string.

(** The fields of a line are readable back when the device has no blank,
    the mount point no [(], and the type is a word. *)
Definition readable (m : Mount) : Prop :=
  fs_spec m <> "" /\ has_char " " (fs_spec m) = false /\
  fs_file m <> "" /\ has_char "(" (fs_file m) = false /\
  fs_vfstype m <> "" /\ all_word (fs_vfstype m) = true.

(** A mount(8) line of a readable file system parses back. *)
Lemma re_mount_line m opts :
  readable m -> (opts = "" \/ exists o, opts = String "," o) ->
  re_mount (mount_line m opts) = Some m.
Proof.
  intros (Hs & Hsb & Hf & Hfp & Ht & Htw) Ho. unfold re_mount, mount_line.
  rewrite scan_spec_app; [by destruct m|done|done|done|done| |done].
  apply word_prefix_app; [done|]. intros c r Hr.
  destruct Ho as [->|[o ->]]; injection Hr as <- _; reflexivity.
Qed.

(** C32: [RE_MOUNT] reads a mount(8) line back: for a device without
    blanks, a mount point without [(] and a type made of word characters,
    followed by no options or by [, options], [re_mount] returns the
    device, the mount point and the type that were printed. *)
Theorem re_mount_roundtrip m opts :
  readable m -> (opts = "" \/ exists o, opts = String "," o) ->
  re_mount (mount_line m opts) = Some m.
Proof. apply re_mount_line. Qed.

(** What [is_mounted] tests of one file system. *)
Definition mount_test (device path : option string) (m : Mount) : bool :=
  match path with
  | Some p => String.eqb (fs_file m) p
  | None => match device with Some d => String.eqb (fs_spec m) d | None => false end
  end.

Lemma is_mounted_loop_spec device path ms ret :
  ms <> [] \/ ret = Some false ->
  is_mounted_loop device path ms ret = Ok (existsb (mount_test device path) ms).
Proof.
  revert ret. induction ms as [|m ms IH]; intros ret Hne; simpl.
  - destruct Hne as [Hne | ->]; [by destruct Hne|done].
  - assert (Hr : (match path with Some p => String.eqb (fs_file m) p
                  | None => match device with Some d => String.eqb (fs_spec m) d | None => false end
                  end) = mount_test device path m) by (by destruct path, device).
    rewrite Hr. destruct (mount_test device path m); [done|]. apply IH. by right.
Qed.

(** [is_mounted] over the parsed lines of [mount]. *)
Lemma is_mounted_run device path lines :
  check_output ["/sbin/mount"] = Ok lines ->
  is_mounted device path =
    match omap re_mount lines with
    | [] => Raise (UnboundLocalError "ret")
    | ms => Ok (existsb (mount_test device path) ms)
    end.
Proof.
  intros Hl. unfold is_mounted, get_mounted_filesystems. rewrite Hl. simpl.
  destruct (omap re_mount lines) as [|m ms] eqn:Hm; [done|].
  apply is_mounted_loop_spec. by left.
Qed.

(** C33: [is_mounted] on the listed file systems: with at least one line
    of [mount] output read, it answers whether one of them has the given
    mount point or, without a path, the given device; with both keywords
    the device is not looked at.  With no line read it raises
    [UnboundLocalError]. *)
Theorem is_mounted_spec device path lines :
  check_output ["/sbin/mount"] = Ok lines ->
  is_mounted device path =
    match omap re_mount lines with
    | [] => Raise (UnboundLocalError "ret")
    | ms => Ok (existsb (mount_test device path) ms)
    end.
Proof. apply is_mounted_run. Qed.

(** A file system that mount(8) lists is mounted by its mount point. *)
Lemma is_mounted_listed m opts lines :
  check_output ["/sbin/mount"] = Ok lines -> mount_line m opts ∈ lines -> readable m ->
  (opts = "" \/ exists o, opts = String "," o) ->
  is_mounted None (Some (fs_file m)) = Ok true.
Proof.
  intros Hl Hin Hr Ho. rewrite (is_mounted_run _ _ _ Hl).
  assert (Hm : m ∈ omap re_mount lines).
  { apply list_elem_of_omap. exists (mount_line m opts). split; [done|].
    by apply re_mount_line. }
  destruct (omap re_mount lines) as [|m' ms]; [by apply elem_of_nil in Hm|].
  f_equal. apply existsb_exists. exists m. split; [by apply list_elem_of_In|].
  simpl. apply String.eqb_refl.
Qed.

End System.
(** ** Examples *)

(** A pool with two directories and a file. *)
Definition demo_tree : FS :=
  list_to_map [([], KDir); (["mnt"], KDir); (["mnt"; "tank"], KDir);
    (["mnt"; "tank"; "a"], KDir); (["mnt"; "tank"; "a"; "x"], KFile);
    (["mnt"; "tank"; "b"], KDir); (["mnt"; "tank"; "b"; "y"], KFile);
    (["mnt"; "tank"; "c"], KFile)].

(** Excluding both directories returns both. *)
Lemma exclude_path_keeps_excluded_witness :
  exclude_path 100 demo_tree "/mnt/tank" ["/mnt/tank/a"; "/mnt/tank/b"] =
    Some (Ok ["/mnt/tank/a"; "/mnt/tank/b"; "/mnt/tank/c"]) /\
  "/mnt/tank/a" ∈ ["/mnt/tank/a"; "/mnt/tank/b"; "/mnt/tank/c"].
  (* the listing of /mnt/tank is [c; b; a] *)
Proof.
  assert (H : exclude_path 100 demo_tree "/mnt/tank" ["/mnt/tank/a"; "/mnt/tank/b"] =
    Some (Ok ["/mnt/tank/a"; "/mnt/tank/b"; "/mnt/tank/c"])) by (vm_compute; reflexivity).
  split; [exact H|].
  apply (exclude_path_keeps_excluded 100 demo_tree "/mnt/tank" ["/mnt/tank/a"; "/mnt/tank/b"]
           _ ["c"; "b"; "a"] "a").
  - exact H.
  - vm_compute. reflexivity.
  - rewrite list_elem_of_In. simpl. tauto.
  - reflexivity.
  - unfold fine_grained. apply list_elem_of_filter. split; [reflexivity|by left].
  - right. exists "/mnt/tank/b". split; [|reflexivity].
    unfold fine_grained. apply list_elem_of_filter. split; [reflexivity|by right; left].
Defined.

(** A system with the root file system and a ZFS pool mounted. *)
Definition demo_mount_line : string := mount_line (mkMount "tank" "/mnt/tank" "zfs") ", local, nfsv4acls".

Definition demo_sys : SysEnv := {|
  version_file := Some "FreeNAS-9.2.1-RELEASE-x64 (r12345)";
  shell_lines _ := [];
  path_access _ := true;
  run_cmd argv := if bool_decide (argv = ["/sbin/mount"])
                  then (0%Z, ["/dev/ada0p2 on / (ufs, local)"; demo_mount_line])
                  else (1%Z, []) |}.

Lemma re_mount_roundtrip_witness :
  re_mount demo_mount_line = Some (mkMount "tank" "/mnt/tank" "zfs").
Proof.
  apply re_mount_roundtrip.
  - repeat split; try discriminate; reflexivity.
  - right. eexists. reflexivity.
Defined.

Lemma is_mounted_spec_witness :
  @is_mounted demo_sys (Some "tank") (Some "/mnt/other") = Ok false.
Proof.
  rewrite (@is_mounted_spec demo_sys _ _ ["/dev/ada0p2 on / (ufs, local)"; demo_mount_line]);
    vm_compute; reflexivity.
Defined.

End SystemTools.
