(* ===== verification/Mail.v ===== *)
(** * Mail: [send_mail]

    src/gui/common/system.py, [send_mail] (98-205): the channel and its
    once-per-interval guard on the file [/tmp/.msg.<channel>], the latest
    [Email] settings row, the recipient (root's address by default), the
    MIME message with its headers, and the SMTP session, whose failures
    are logged to syslog and returned as [(True, str(e))].  The SMTP
    server is the type class [MailEnv]: [formatdate()] and the exception
    each step raises given the steps before; the state holds the channel
    files' modification times, the SMTP steps taken, the syslog lines,
    the [_VERSION] cache of [get_sw_version] and the clock, which the
    environment moves forward between calls ([at_time]). *)

From S2P Require Import Prelude Config SystemConfig FileSystem Cachetool SystemTools.

Module Mail.
Import Config SystemConfig SystemTools.
#[local] Open Scope list_scope.

(** The rows [send_mail] reads (system/models.py, account/models.py and
    network/models.py; only the fields it uses). *)
Record EmailRow := mkEmail {
  em_id : Z; em_fromemail : string; em_outgoingserver : string; em_port : Z;
  em_security : string; em_smtp : bool; em_user : string; em_pass : string }.
Record UserRow := mkUser { bsdusr_username : string; bsdusr_email : string }.
Record GlobalConfRow := mkGC { gc_id : Z; gc_hostname : string; gc_domain : string }.

(** [MIMEText(text, _charset='utf-8')] or a [MIMEMultipart] with the text
    as preamble and the attachments. *)
Inductive Body := MText (text : string) | MMultipart (preamble : string) (attachments : list string).

Record Msg := mkMsg { msg_body : Body; msg_headers : list (string * string) }.

(** The steps of an SMTP session. *)
Inductive SmtpCall :=
| SConnect (ssl : bool) (host : string) (port : Z) (local_hostname : option string)
| SStartTLS
| SLogin (user pass : string)
| SSendMail (from : string) (to : list string) (msg : Msg)
| SQuit.

(** [ms_now] is the clock [datetime.now()] reads, in seconds; the
    environment advances it between calls.  The two reads of one call
    (113 and 118) are taken at the same instant: on a monotone clock a
    later second read only matters when the file is missing, where the
    difference is [interval] or more either way. *)
Record MailSt := mkMail {
  ms_mtimes : gmap string Z; ms_smtp : list SmtpCall;
  ms_syslog : list (string * string); ms_version : option string; ms_now : Z }.

Class MailEnv := {
  formatdate : string;                                (* email.Utils.formatdate() *)
  smtp_fails : list SmtpCall -> SmtpCall -> option string;
}.

(** [s.lower()] on ASCII. *)
Definition py_lower (s : string) : string :=
  string_of_list_ascii (map (fun c => let n := Ascii.nat_of_ascii c in
                                      if Nat.leb 65 n && Nat.leb n 90
                                      then Ascii.ascii_of_nat (n + 32) else c)
                            (list_ascii_of_string s)).

Definition touch (f : string) (t : Z) (s : MailSt) : MailSt :=
  mkMail (<[f := t]> (ms_mtimes s)) (ms_smtp s) (ms_syslog s) (ms_version s) (ms_now s).

(** The clock at [t]: the time of a later call. *)
Definition at_time (t : Z) (s : MailSt) : MailSt :=
  mkMail (ms_mtimes s) (ms_smtp s) (ms_syslog s) (ms_version s) t.

Section Send.
Context `{SE : SysEnv} `{ME : MailEnv}.

(** [if not channel: channel = get_sw_name().lower()] (108-109), with
    the [_VERSION] cache of [get_sw_version]. *)
Definition mail_channel (channel : option string) : st MailSt string :=
  if truthy channel then mret (py_str channel) else
  fun s => match get_sw_name (ms_version s) with
           | (r, v) => (match r with Ok n => Ok (py_lower n) | Raise e => Raise e end,
                        mkMail (ms_mtimes s) (ms_smtp s) (ms_syslog s) v (ms_now s))
           end.

(** [if interval > timedelta(): ...] (110-120): [false] when the message
    was sent less than [interval] ago; a file dated in the future does
    not hold the message back. *)
Definition channelfile (channel : string) : string := ("/tmp/.msg." ++ channel)%string.

Definition throttle (channel : string) (interval : Z) : st MailSt bool :=
  if Z.leb interval 0 then mret true else
  fun s =>
    let f := channelfile channel in
    let last := default (ms_now s - interval)%Z (ms_mtimes s !! f) in
    let diff := (ms_now s - last)%Z in
    if Z.leb interval diff || Z.ltb diff 0 then (Ok true, touch f (ms_now s) s) else (Ok false, s).

(** [Email.objects.all().order_by('-id')[0]] (124). *)
Definition latest_email (emails : list EmailRow) : res EmailRow :=
  match order_by_desc em_id emails with e :: _ => Ok e | [] => Raise IndexError end.

(** [if not to: to = [bsdUsers.objects.get(bsdusr_username='root').bsdusr_email]]
    (125-126). *)
Definition recipients (users : list UserRow) (to : option (list string)) : res (list string) :=
  match to with
  | Some (t :: ts) => Ok (t :: ts)
  | _ =>
      match List.filter (fun u => String.eqb (bsdusr_username u) "root") users with
      | [u] => Ok [bsdusr_email u]
      | [] => Raise DoesNotExist
      | _ => Raise MultipleObjectsReturned
      end
  end.

(** The headers the MIME constructors set. *)
Definition mime_headers (b : Body) : list (string * string) :=
  match b with
  | MText _ => [("Content-Type", "text/plain; charset=" ++ dq ++ "utf-8" ++ dq);
                ("MIME-Version", "1.0"); ("Content-Transfer-Encoding", "base64")]
  | MMultipart _ _ => [("Content-Type", "multipart/mixed"); ("MIME-Version", "1.0")]
  end%string.

Definition same_key (k : string) (h : string * string) : bool := String.eqb (py_lower h.1) (py_lower k).

(** [msg.replace_header(key, val)]: the first header of that name,
    compared without case, gets the value and keeps its name. *)
Fixpoint replace_header (k v : string) (hs : list (string * string)) : list (string * string) :=
  match hs with
  | [] => []
  | h :: hs' => if same_key k h then (h.1, v) :: hs' else h :: replace_header k v hs'
  end.

(** [if key in msg: msg.replace_header(key, val) else: msg[key] = val]. *)
Definition set_header (hs : list (string * string)) (kv : string * string) : list (string * string) :=
  if existsb (same_key kv.1) hs then replace_header kv.1 kv.2 hs else hs ++ [kv].

(** The message (127-147). *)
Definition build_msg (subject : option string) (text : string) (attachments : list string)
    (from : string) (to : list string) (extra_headers : list (string * string)) : Msg :=
  let body := if bool_decide (attachments = []) then MText text else MMultipart text attachments in
  let hs := mime_headers body ++ (if truthy subject then [("Subject", py_str subject)] else []) ++
            [("From", from); ("To", py_join ", " to); ("Date", formatdate)] in
  mkMsg body (fold_left set_header extra_headers hs).

(** [local_hostname] (150-154): [None] when there is no row. *)
Definition local_hostname (gcs : list GlobalConfRow) : option string :=
  match order_by_desc gc_id gcs with
  | gc :: _ => Some (gc_hostname gc ++ "." ++ gc_domain gc)%string
  | [] => None
  end.

(** One step of the session: recorded, and raising what the server
    answers.  The server's failures are SMTP exceptions, which the
    generic [except Exception] handles; a [ValueError] out of [smtplib]
    itself is not modelled. *)
Definition smtp_call (c : SmtpCall) : st MailSt unit :=
  fun s =>
    let s' := mkMail (ms_mtimes s) (ms_smtp s ++ [c]) (ms_syslog s) (ms_version s) (ms_now s) in
    match smtp_fails (ms_smtp s) c with
    | Some e => (Raise (SMTPException e), s')
    | None => (Ok tt, s')
    end.

(** The session (162-186). *)
Definition smtp_session (em : EmailRow) (lh : option string) (to : list string) (msg : Msg) : st MailSt unit :=
  let ssl := String.eqb (em_security em) "ssl" in
  smtp_call (SConnect ssl (em_outgoingserver em) (em_port em) lh);;
  (if negb ssl && String.eqb (em_security em) "tls" then smtp_call SStartTLS else mret tt);;
  (if em_smtp em then smtp_call (SLogin (em_user em) (em_pass em)) else mret tt);;
  smtp_call (SSendMail (em_fromemail em) to msg);;
  smtp_call SQuit.

Definition syslog_add (channel e : string) (s : MailSt) : MailSt :=
  mkMail (ms_mtimes s) (ms_smtp s) (ms_syslog s ++ [(channel, e)]) (ms_version s) (ms_now s).

Definition NO_SERVER : string :=
  "you must provide an outgoing mailserver and mail server port when sending mail".

(** The [try] (156-204): the [ValueError] of a missing server or port,
    or an exception of the session, logged to syslog. *)
Definition smtp_send (channel : string) (em : EmailRow) (lh : option string) (to : list string) (msg : Msg)
    : st MailSt (bool * string) :=
  if String.eqb (em_outgoingserver em) "" || Z.eqb (em_port em) 0 then mret (true, NO_SERVER) else
  fun s => match smtp_session em lh to msg s with
           | (Ok _, s') => (Ok (false, ""), s')
           | (Raise (SMTPException e), s') => (Ok (true, e), syslog_add channel e s')
           | (Raise e, s') => (Raise e, s')
           end.

Definition THROTTLED : string := "This message was already sent in the given interval".

(** [send_mail] (98-205): [(error, errmsg)]. *)
Definition send_mail (emails : list EmailRow) (users : list UserRow) (gcs : list GlobalConfRow)
    (subject : option string) (text : string) (interval : Z) (channel : option string)
    (to : option (list string)) (extra_headers : list (string * string)) (attachments : list string)
    : st MailSt (bool * string) :=
  ch ← mail_channel channel;
  go ← throttle ch interval;
  if negb go then mret (true, THROTTLED) else
  em ← lift_st (latest_email emails);
  to' ← lift_st (recipients users to);
  let msg := build_msg subject text attachments (em_fromemail em) to' extra_headers in
  smtp_send ch em (local_hostname gcs) to' msg.

End Send.

(** ** Properties *)

(** A step that keeps the channel files, the version cache and the clock. *)
Definition keeps {A} (m : st MailSt A) : Prop :=
  forall s r s', m s = (r, s') ->
    ms_mtimes s' = ms_mtimes s /\ ms_version s' = ms_version s /\ ms_now s' = ms_now s.

Lemma mkeeps_ret {A} (a : A) : keeps (mret a).
Proof. by intros s r s' [= _ <-]. Qed.

Lemma mkeeps_lift {A} (r : res A) : keeps (lift_st r).
Proof. by intros s r' s' [= _ <-]. Qed.

Lemma mkeeps_bind {A B} (m : st MailSt A) (f : A -> st MailSt B) :
  keeps m -> (forall a, keeps (f a)) -> keeps (m ≫= f).
Proof.
  intros Hm Hf s r s'. rewrite st_bind_run.
  destruct (m s) as [[a|e] s1] eqn:E; apply Hm in E as (E1 & E2 & E3).
  - intros H. apply Hf in H as (-> & -> & ->). done.
  - intros [= _ <-]. done.
Qed.

Lemma mkeeps_smtp_call `{MailEnv} c : keeps (smtp_call c).
Proof. intros s r s'. unfold smtp_call. by destruct (smtp_fails _ _); intros [= _ <-]. Qed.

Create HintDb keeps.
#[local] Hint Resolve mkeeps_ret mkeeps_lift mkeeps_bind mkeeps_smtp_call : keeps.

Lemma mkeeps_session `{MailEnv} em lh to msg : keeps (smtp_session em lh to msg).
Proof.
  unfold smtp_session. apply mkeeps_bind; [auto with keeps|intros _].
  repeat (apply mkeeps_bind; [repeat case_match; auto with keeps|intros _]). auto with keeps.
Qed.

Lemma mkeeps_send `{MailEnv} ch em lh to msg : keeps (smtp_send ch em lh to msg).
Proof.
  unfold smtp_send. destruct (_ || _); [apply mkeeps_ret|].
  intros s r s'. destruct (smtp_session em lh to msg s) as [r0 s0] eqn:E.
  apply mkeeps_session in E as (E1 & E2 & E3). destruct r0 as [|[]]; intros [= _ <-]; done.
Qed.

Lemma get_sw_name_stable `{SysEnv} c n c' : get_sw_name c = (Ok n, c') -> get_sw_name c' = (Ok n, c').
Proof.
  unfold get_sw_name, get_sw_version, read_version.
  destruct c as [v|]; [|destruct version_file]; simpl; by intros [= <- <-].
Qed.

(** The channel, once computed, is computed again the same way. *)
Lemma mail_channel_stable `{SysEnv} ch s c s1 s2 :
  mail_channel ch s = (Ok c, s1) -> ms_version s2 = ms_version s1 -> mail_channel ch s2 = (Ok c, s2).
Proof.
  unfold mail_channel. destruct (truthy ch); [by intros [= <- <-]|].
  destruct (get_sw_name (ms_version s)) as [[n|e] v] eqn:E; intros [= <- <-]; simpl.
  intros Hv. rewrite Hv, (get_sw_name_stable _ _ _ E). by destruct s2; simpl in *; subst.
Qed.

Lemma keeps_mtimes {A} (m : st MailSt A) s : keeps m -> ms_mtimes (m s).2 = ms_mtimes s.
Proof. intros K. destruct (m s) as [r s'] eqn:E. cbn [snd]. by apply K in E as (-> & _ & _). Qed.

(** What [send_mail] does once the guard has answered. *)
Lemma mkeeps_rest `{MailEnv} c (b : bool) emails users gcs subject text to xh att :
  keeps (if negb b then mret (true, THROTTLED) else
           em ← lift_st (latest_email emails); to'0 ← lift_st (recipients users to);
           smtp_send c em (local_hostname gcs) to'0 (build_msg subject text att (em_fromemail em) to'0 xh)).
Proof.
  destruct b; simpl; [|apply mkeeps_ret]. apply mkeeps_bind; [apply mkeeps_lift|intros em].
  apply mkeeps_bind; [apply mkeeps_lift|intros]. apply mkeeps_send.
Qed.

Lemma mail_channel_now `{SysEnv} ch s r s' : mail_channel ch s = (r, s') -> ms_now s' = ms_now s.
Proof.
  unfold mail_channel. destruct (truthy ch); [by intros [= _ <-]|].
  by destruct (get_sw_name _); intros [= _ <-].
Qed.

Lemma throttle_version c interval s r s' :
  throttle c interval s = (r, s') -> ms_version s' = ms_version s /\ ms_now s' = ms_now s.
Proof.
  unfold throttle. destruct (Z.leb interval 0); [by intros [= _ <-]|]. cbv beta.
  by destruct (_ || _); intros [= _ <-].
Qed.

(** After the guard, the channel file is dated within the last
    [interval]: touched now, or found that recent. *)
Lemma throttle_after c interval s b s' :
  (0 < interval)%Z -> throttle c interval s = (Ok b, s') ->
  exists m, ms_mtimes s' !! channelfile c = Some m /\ (ms_now s - interval < m <= ms_now s)%Z.
Proof.
  intros Hi. unfold throttle. rewrite (proj2 (Z.leb_gt _ _) Hi). cbv zeta.
  destruct (ms_mtimes s !! channelfile c) as [m0|] eqn:Hf; cbn [default id].
  - destruct (Z.leb interval _ || Z.ltb _ 0) eqn:Hd; intros [= <- <-].
    + exists (ms_now s). unfold touch. cbn [ms_mtimes]. rewrite lookup_insert_eq. split; [done|lia].
    + exists m0. apply orb_false_iff in Hd as [H1 H2].
      apply Z.leb_gt in H1. apply Z.ltb_ge in H2. split; [done|lia].
  - replace (ms_now s - (ms_now s - interval))%Z with interval by lia. rewrite Z.leb_refl.
    intros [= <- <-]. exists (ms_now s). unfold touch. cbn [ms_mtimes]. rewrite lookup_insert_eq.
    split; [done|lia].
Qed.

(** A file dated less than [interval] ago holds the message back. *)
Lemma throttle_recent c interval s m :
  (0 < interval)%Z -> ms_mtimes s !! channelfile c = Some m -> (m <= ms_now s < m + interval)%Z ->
  throttle c interval s = (Ok false, s).
Proof.
  intros Hi Hf Ht. unfold throttle. rewrite (proj2 (Z.leb_gt _ _) Hi). cbv zeta. rewrite Hf. cbn [default id].
  replace (Z.leb interval (ms_now s - m)) with false by (symmetry; apply Z.leb_gt; lia).
  replace (Z.ltb (ms_now s - m) 0) with false by (symmetry; apply Z.ltb_ge; lia). reflexivity.
Qed.

(** A file dated [interval] ago or earlier lets it through and is touched. *)
Lemma throttle_expired c interval s m :
  (0 < interval)%Z -> ms_mtimes s !! channelfile c = Some m -> (m + interval <= ms_now s)%Z ->
  throttle c interval s = (Ok true, touch (channelfile c) (ms_now s) s).
Proof.
  intros Hi Hf Ht. unfold throttle. rewrite (proj2 (Z.leb_gt _ _) Hi). cbv zeta. rewrite Hf. cbn [default id].
  replace (Z.leb interval (ms_now s - m)) with true by (symmetry; apply Z.leb_le; lia). reflexivity.
Qed.

(** C26: [send_mail] sends at most one message per channel and
    interval: after a call at time [now] that returns, the channel file
    [/tmp/.msg.<channel>] is dated [m], with [now - interval < m <= now];
    a later call on the same channel with the same positive interval,
    whatever its other arguments, returns [(True, 'This message was
    already sent in the given interval')] and changes nothing while the
    clock is before [m + interval], and from [m + interval] on it is let
    through and dates the file at its own time. *)
Theorem send_mail_once_per_interval `{SysEnv} `{MailEnv} emails users gcs subject text interval ch to xh att
    emails' users' gcs' subject' text' to' xh' att' s r s1 :
  (0 < interval)%Z ->
  send_mail emails users gcs subject text interval ch to xh att s = (Ok r, s1) ->
  exists f m, ms_mtimes s1 !! f = Some m /\ (ms_now s - interval < m <= ms_now s)%Z /\
  forall t, (ms_now s <= t)%Z ->
    ((t < m + interval)%Z ->
       send_mail emails' users' gcs' subject' text' interval ch to' xh' att' (at_time t s1) =
         (Ok (true, THROTTLED), at_time t s1)) /\
    ((m + interval <= t)%Z ->
       ms_mtimes (send_mail emails' users' gcs' subject' text' interval ch to' xh' att' (at_time t s1)).2 !! f
         = Some t).
Proof.
  intros Hi. unfold send_mail. rewrite st_bind_run.
  destruct (mail_channel ch s) as [[c|e] s0] eqn:Hc; [|done].
  rewrite st_bind_run. destruct (throttle c interval s0) as [[b|e] s2] eqn:Ht; [|done].
  intros Hr. apply mkeeps_rest in Hr as (Hm & Hv & Hn).
  pose proof (mail_channel_now _ _ _ _ Hc) as Hn0.
  destruct (throttle_version _ _ _ _ _ Ht) as [Hv2 Hn2].
  destruct (throttle_after c interval s0 b s2 Hi Ht) as (m & Hf & Hm0).
  exists (channelfile c), m. rewrite Hm. split; [done|]. split; [lia|]. intros t Ht0.
  assert (Hc' : mail_channel ch (at_time t s1) = (Ok c, at_time t s1))
    by (apply (mail_channel_stable ch s c s0); [done|simpl; congruence]).
  split; intros Hlt.
  - rewrite (st_bind_ok _ _ _ c (at_time t s1) Hc').
    rewrite (st_bind_ok _ _ _ false (at_time t s1)); [reflexivity|].
    apply (throttle_recent _ _ _ m Hi); simpl; [by rewrite Hm|lia].
  - rewrite (st_bind_ok _ _ _ c (at_time t s1) Hc').
    rewrite (st_bind_ok _ _ _ true (touch (channelfile c) t (at_time t s1))).
    + rewrite keeps_mtimes by apply mkeeps_rest. unfold touch. cbn [ms_mtimes].
      by rewrite lookup_insert_eq.
    + apply (throttle_expired _ _ (at_time t s1) m Hi); simpl; [by rewrite Hm|lia].
Qed.

(** [msg[key]]: the first header of that name, compared without case. *)
Definition get_header (k : string) (hs : list (string * string)) : option string :=
  snd <$> find (same_key k) hs.

Lemma same_key_other k k' h :
  py_lower k' <> py_lower k -> same_key k h = true -> same_key k' h = false.
Proof.
  unfold same_key. intros Hne H%String.eqb_eq. apply String.eqb_neq. congruence.
Qed.

Lemma get_replace_same k v hs :
  existsb (same_key k) hs = true -> get_header k (replace_header k v hs) = Some v.
Proof.
  unfold get_header. induction hs as [|h hs IH]; [done|]. simpl.
  destruct (same_key k h) eqn:Hk; simpl.
  - intros _. assert (same_key k (h.1, v) = true) as -> by exact Hk. done.
  - rewrite Hk. apply IH.
Qed.

Lemma get_replace_other k k' v hs :
  py_lower k' <> py_lower k -> get_header k' (replace_header k v hs) = get_header k' hs.
Proof.
  unfold get_header. intros Hne. induction hs as [|h hs IH]; [done|]. simpl.
  destruct (same_key k h) eqn:Hk; simpl.
  - assert (same_key k' h = false) as -> by (by apply (same_key_other k)).
    assert (same_key k' (h.1, v) = false) as -> by (by apply (same_key_other k)). done.
  - by destruct (same_key k' h).
Qed.

Lemma find_app_none {A} (f : A -> bool) l1 l2 :
  existsb f l1 = false -> find f (l1 ++ l2) = find f l2.
Proof. induction l1 as [|x l1 IH]; [done|]. simpl. intros [-> ?]%orb_false_iff. by apply IH. Qed.

Lemma find_app_split {A} (f : A -> bool) l1 l2 :
  find f (l1 ++ l2) = match find f l1 with Some x => Some x | None => find f l2 end.
Proof. induction l1 as [|x l1 IH]; [done|]. simpl. by destruct (f x). Qed.

Lemma get_set_same hs k v : get_header k (set_header hs (k, v)) = Some v.
Proof.
  unfold set_header. simpl. destruct (existsb (same_key k) hs) eqn:He; [by apply get_replace_same|].
  unfold get_header. rewrite find_app_none by done. simpl. unfold same_key. simpl.
  by rewrite String.eqb_refl.
Qed.

Lemma get_set_other hs k k' v :
  py_lower k' <> py_lower k -> get_header k' (set_header hs (k, v)) = get_header k' hs.
Proof.
  intros Hne. unfold set_header. simpl. destruct (existsb (same_key k) hs); [by apply get_replace_other|].
  unfold get_header. rewrite find_app_split. destruct (find (same_key k') hs); [done|]. simpl.
  unfold same_key. simpl. apply String.eqb_neq in Hne. by rewrite String.eqb_sym, Hne.
Qed.

Lemma get_fold_other xh hs k :
  py_lower k ∉ map (fun kv => py_lower kv.1) xh ->
  get_header k (fold_left set_header xh hs) = get_header k hs.
Proof.
  revert hs. induction xh as [|[k0 v0] xh IH]; intros hs Hk; [done|]. simpl in *.
  apply not_elem_of_cons in Hk as [Hk0 Hk]. rewrite IH by done. by apply get_set_other.
Qed.

Lemma get_fold_in xh hs k v :
  NoDup (map (fun kv => py_lower kv.1) xh) -> (k, v) ∈ xh ->
  get_header k (fold_left set_header xh hs) = Some v.
Proof.
  revert hs. induction xh as [|[k0 v0] xh IH]; intros hs Hnd Hin; [by apply elem_of_nil in Hin|].
  simpl in Hnd. apply NoDup_cons in Hnd as [Hk0 Hnd]. simpl.
  apply elem_of_cons in Hin as [[= -> ->]|Hin].
  - rewrite get_fold_other by done. apply get_set_same.
  - by apply IH.
Qed.

(** C27: every extra header [send_mail] is given ends up in the message with
    its value: replacing the header the message had under that name
    ([To], [Subject], ...), without case, or added, when the names given
    differ without case. *)
Theorem build_msg_extra_headers `{MailEnv} subject text att from to xh k v :
  NoDup (map (fun kv => py_lower kv.1) xh) -> (k, v) ∈ xh ->
  get_header k (msg_headers (build_msg subject text att from to xh)) = Some v.
Proof. intros Hnd Hin. by apply get_fold_in. Qed.

(** ** Examples *)

Definition demo_mail : MailEnv := {|
  formatdate := "Thu, 01 Jan 1970 00:16:40 -0000"; smtp_fails := fun _ _ => None |}.
Definition demo_emails : list EmailRow :=
  [mkEmail 1 "nas@example.com" "smtp.example.com" 587 "tls" true "nas" "secret"].
Definition demo_users : list UserRow := [mkUser "root" "root@example.com"].
Definition demo_mail_st : MailSt := mkMail ∅ [] [] None 1000.

(** An alert on the channel [alert], throttled to one an hour. *)
Definition first_alert : res (bool * string) * MailSt :=
  @send_mail demo_sys demo_mail demo_emails demo_users [] (Some "Alert") "disk" 3600 (Some "alert") None [] []
    demo_mail_st.

(** The alert sent at 1000 holds back the next one until 4600. *)
Lemma send_mail_once_per_interval_witness :
  first_alert = (Ok (false, ""), snd first_alert) /\
  exists f m, ms_mtimes (snd first_alert) !! f = Some m /\ (ms_now demo_mail_st - 3600 < m <= ms_now demo_mail_st)%Z /\
  forall t, (ms_now demo_mail_st <= t)%Z ->
    ((t < m + 3600)%Z ->
       @send_mail demo_sys demo_mail demo_emails demo_users [] (Some "Again") "disk" 3600 (Some "alert") None [] []
         (at_time t (snd first_alert)) = (Ok (true, THROTTLED), at_time t (snd first_alert))) /\
    ((m + 3600 <= t)%Z ->
       ms_mtimes (@send_mail demo_sys demo_mail demo_emails demo_users [] (Some "Again") "disk" 3600 (Some "alert")
                    None [] [] (at_time t (snd first_alert))).2 !! f = Some t).
Proof.
  assert (H : first_alert = (Ok (false, ""), snd first_alert)) by (vm_compute; reflexivity).
  split; [exact H|].
  exact (@send_mail_once_per_interval demo_sys demo_mail demo_emails demo_users [] (Some "Alert") "disk" 3600
           (Some "alert") None [] [] demo_emails demo_users [] (Some "Again") "disk" None [] [] demo_mail_st
           (false, "") (snd first_alert) ltac:(lia) H).
Defined.

Lemma build_msg_extra_headers_witness :
  get_header "To" (msg_headers (@build_msg demo_mail (Some "Alert") "disk" [] "nas@example.com" ["root@example.com"]
                                  [("To", "ops@example.com"); ("X-Priority", "1")])) = Some "ops@example.com".
Proof.
  apply (@build_msg_extra_headers demo_mail (Some "Alert") "disk" [] "nas@example.com" ["root@example.com"]
           [("To", "ops@example.com"); ("X-Priority", "1")] "To" "ops@example.com").
  - apply (bool_decide_unpack _). vm_compute. reflexivity.
  - apply (bool_decide_unpack _). vm_compute. reflexivity.
Defined.

End Mail.
