(* ===== verification/JailSetup.v ===== *)
(** * JailSetup: creating the plugin jail and configuring the jail root

    src/gui/jails/utils.py 476-750: [get_host_ipv4_network] and
    [get_host_ipv6_network], [new_default_plugin_jail], which picks a
    free jail name, makes sure the plugin template exists and asks the
    warden to create, configure and start the jail on the address
    [guess_addresses] proposes, [jail_path_configured], and
    [jail_auto_configure], which picks a dataset or directory name for
    the jail root.  The warden (freenasUI/common/warden.py, not in src/)
    is seen through its calls: the state records them in order, and the
    type class [WardenEnv] answers each from the calls made before it. *)

From S2P Require Import Prelude Config SystemConfig FileSystem Cachetool SystemTools JailAddress.

Module JailSetup.
Import Config SystemConfig FileSystem Cachetool SystemTools JailAddress.
#[local] Open Scope list_scope.

(** ** The warden *)

(** A call to the warden, with the arguments the code passes. *)
Inductive WCall :=
| WTemplateList
| WTemplateCreate (nick tar : string)
| WCreate (jail : option string) (ipv4 : string) (template logfile : string)
| WAuto (jail : option string)
| WSetVnet (jail : option string)
| WStart (jail : option string)
| WDelete (jail : string)
| WTemplateDelete (template : string).

#[export] Instance WCall_eq_dec : EqDecision WCall.
Proof. solve_decision. Defined.

(** The warden's answers given the calls before: the template nicks it
    lists, the jails it knows (the [Jails] queryset reads them), whether a
    call fails (with the message), and whether a directory exists. *)
Class WardenEnv := {
  warden_templates : list WCall -> list string;
  warden_jails : list WCall -> list string;
  warden_fails : list WCall -> WCall -> option string;
  dir_exists : list WCall -> string -> bool;
  WARDEN_EXTRACT_STATUS_FILE : string;
}.

(** The calls made, the files created, and [os.environ]. *)
Record PJ := mkPJ { pj_calls : list WCall; pj_files : list string; pj_environ : gmap string string }.

(** A row of [JailTemplate]. *)
Record JailTemplateRow := mkJT { jt_name : string; jt_os : string; jt_arch : string; jt_url : string }.

Section Plugin.
Context `{SC : Sipcalc} `{JE : JailEnv} `{WE : WardenEnv}.

(** [w.<call>(...)]: the call is made; a failure raises. *)
Definition warden_call (c : WCall) : st PJ unit :=
  fun s =>
    let s' := mkPJ (pj_calls s ++ [c]) (pj_files s) (pj_environ s) in
    match warden_fails (pj_calls s) c with
    | Some msg => (Raise (WardenError msg), s')
    | None => (Ok tt, s')
    end.

(** [w.template(flags=WARDEN_TEMPLATE_FLAGS_LIST)]: the nicks listed. *)
Definition warden_template_list : st PJ (list string) :=
  s ← get_st;
  warden_call WTemplateList;;
  mret (warden_templates (pj_calls s)).

(** [try: ... except Exception as e: raise MiddlewareError(f(e))]. *)
Definition reraise {A} (f : string -> string) (m : st PJ A) : st PJ A :=
  fun s => match m s with
           | (Raise (WardenError msg), s') => (Raise (MiddlewareError (f msg)), s')
           | r => r
           end.

(** [open(f, 'w')] or [open(f, 'a+')]: the file exists afterwards. *)
Definition add_file (f : string) : st PJ unit :=
  modify_st (fun s => mkPJ (pj_calls s)
                           (if bool_decide (f ∈ pj_files s) then pj_files s else f :: pj_files s)
                           (pj_environ s)).

Definition remove_file (f : string) : st PJ unit :=
  modify_st (fun s => mkPJ (pj_calls s) (filter (fun g => g <> f) (pj_files s)) (pj_environ s)).

(** The first of [basename_1] ... [basename_999] no jail has. *)
Definition pick_jailname (jails : list string) (basename : string) : option string :=
  first_such (fun n => negb (bool_decide (n ∈ jails)))
    (map (fun i => basename ++ "_" ++ pretty (Z.of_nat i))%string (seq 1 999)).

Definition createfile : string := "/var/tmp/.templatecreate".

(** [JailTemplate.objects.get(jt_name='pluginjail')]. *)
Definition get_template (templates : list JailTemplateRow) : res JailTemplateRow :=
  match filter (fun t => jt_name t = "pluginjail") templates with
  | [t] => Ok t
  | [] => Raise DoesNotExist
  | _ => Raise MultipleObjectsReturned
  end.

(** [cf = open(createfile, "a+"); cf.close(); w.template(create)]; on a
    failure the file is removed and [MiddlewareError(e.message)] raised. *)
Definition create_template (nick tar : string) : st PJ unit :=
  fun s =>
    match (add_file createfile;; warden_call (WTemplateCreate nick tar)) s with
    | (Raise (WardenError msg), s') => (Raise (MiddlewareError msg), snd (remove_file createfile s'))
    | r => r
    end.

(** [new_default_plugin_jail] (564-653) once [guess_addresses] has
    returned [addrs]. *)
Definition plugin_jail_body (addrs : Addresses) (jcs : list JailsConfRow)
    (templates : list JailTemplateRow) (basename : string) : st PJ string :=
  match high_ipv4 addrs with
  | None => raise (MiddlewareError "Unable to determine IPv4 for plugin")
  | Some a =>
      s0 ← get_st;
      let jailname := pick_jailname (warden_jails (pj_calls s0)) basename in
      match latest_jc jcs with
      | None => raise IndexError
      | Some jc =>
          let logfile := (jc_path jc ++ "/warden.log")%string in
          match get_template templates with
          | Raise e => raise e
          | Ok t =>
              nicks ← warden_template_list;
              modify_st (fun s => mkPJ (pj_calls s) (pj_files s)
                   (<["EXTRACT_TARBALL_STATUSFILE" := WARDEN_EXTRACT_STATUS_FILE]> (pj_environ s)));;
              found ← (if bool_decide (jt_name t ∈ nicks) then mret true
                       else create_template (jt_name t) (jt_url t);;
                            nicks' ← warden_template_list;
                            mret (bool_decide (jt_name t ∈ nicks')));
              if negb found then raise (MiddlewareError "Unable to find template!") else
              reraise (fun m => "Failed to install plugin: " ++ m)%string
                (warden_call (WCreate jailname (ip_str a) "pluginjail" logfile));;
              let jaildir := (jc_path jc ++ "/" ++ py_str jailname)%string in
              s1 ← get_st;
              (if dir_exists (pj_calls s1) (jaildir ++ "/.plugins")%string
               then add_file (jaildir ++ "/.plugins/PLUGIN")%string else raise IOError);;
              warden_call (WAuto jailname);;
              warden_call (WSetVnet jailname);;
              warden_call (WStart jailname);;
              s2 ← get_st;
              match jailname with
              | Some n => if bool_decide (n ∈ warden_jails (pj_calls s2)) then mret n else raise DoesNotExist
              | None => raise DoesNotExist
              end
          end
      end
  end.

(** The whole function: [None] while the address probe of
    [guess_addresses] has not ended. *)
Definition new_default_plugin_jail (fuel : nat) (jcs : list JailsConfRow)
    (templates : list JailTemplateRow) (basename : string) (s : PJ) : option (res string * PJ) :=
  match guess_addresses fuel jcs with
  | Raise e => Some (Raise e, s)
  | Ok None => None
  | Ok (Some addrs) => Some (plugin_jail_body addrs jcs templates basename s)
  end.

(** ** The calls a run makes *)

(** [m] only appends calls that satisfy [P]. *)
Definition only_calls (P : WCall -> Prop) {A} (m : st PJ A) : Prop :=
  forall s r s', m s = (r, s') -> exists new, pj_calls s' = pj_calls s ++ new /\ Forall P new.

Section OnlyCalls.
Context (P : WCall -> Prop).

Lemma only_calls_ret {A} (a : A) : only_calls P (mret a).
Proof. intros s r s' [= _ <-]. exists []. by rewrite app_nil_r. Qed.

Lemma only_calls_raise {A} e : only_calls P (raise (A:=A) e).
Proof. intros s r s' [= _ <-]. exists []. by rewrite app_nil_r. Qed.

Lemma only_calls_get : only_calls P get_st.
Proof. intros s r s' [= _ <-]. exists []. by rewrite app_nil_r. Qed.

Lemma only_calls_bind {A B} (m : st PJ A) (f : A -> st PJ B) :
  only_calls P m -> (forall a, only_calls P (f a)) -> only_calls P (m ≫= f).
Proof.
  intros Hm Hf s r s'. unfold mbind, st_bind at 1.
  destruct (m s) as [[a|e] s1] eqn:E.
  - intros H. destruct (Hm _ _ _ E) as (n1 & H1 & F1). destruct (Hf a _ _ _ H) as (n2 & H2 & F2).
    exists (n1 ++ n2). rewrite H2, H1, app_assoc. split; [done|]. by apply Forall_app.
  - intros [= _ <-]. by apply (Hm _ _ _ E).
Qed.

Lemma only_calls_call c : P c -> only_calls P (warden_call c).
Proof.
  intros Hc s r s'. unfold warden_call.
  destruct (warden_fails _ _); intros [= _ <-]; exists [c]; simpl; split; auto.
Qed.

(** A step that keeps the call list. *)
Lemma only_calls_modify f : (forall s, pj_calls (f s) = pj_calls s) -> only_calls P (modify_st f).
Proof. intros Hf s r s' [= _ <-]. exists []. by rewrite Hf, app_nil_r. Qed.

Lemma only_calls_add_file f : only_calls P (add_file f).
Proof. by apply only_calls_modify. Qed.

Lemma only_calls_reraise {A} g (m : st PJ A) : only_calls P m -> only_calls P (reraise g m).
Proof.
  intros Hm s r s'. unfold reraise. destruct (m s) as [r0 s0] eqn:E.
  destruct r0 as [a|[] ]; intros [= _ <-]; by apply (Hm _ _ _ E).
Qed.

Lemma only_calls_list : P WTemplateList -> only_calls P warden_template_list.
Proof.
  intros HP. unfold warden_template_list.
  apply only_calls_bind; [apply only_calls_get|]. intros s0.
  apply only_calls_bind; [by apply only_calls_call|]. intros _. apply only_calls_ret.
Qed.

Lemma only_calls_create nick tar : P (WTemplateCreate nick tar) -> only_calls P (create_template nick tar).
Proof.
  intros HP s r s'. unfold create_template.
  assert (H : only_calls P (add_file createfile;; warden_call (WTemplateCreate nick tar))).
  { apply only_calls_bind; [apply only_calls_add_file|]. intros _. by apply only_calls_call. }
  destruct ((add_file createfile;; warden_call (WTemplateCreate nick tar)) s) as [r0 s0] eqn:E.
  destruct r0 as [a|[] ]; intros [= _ <-]; by apply (H _ _ _ E).
Qed.

End OnlyCalls.

Create HintDb calls.
#[local] Hint Resolve only_calls_ret only_calls_raise only_calls_get only_calls_add_file
  only_calls_call only_calls_list only_calls_create only_calls_reraise : calls.

(** Split a run into its steps, leaving the calls' side conditions. *)
Ltac calls_steps :=
  repeat (apply only_calls_bind; [try (eauto with calls)|intros ?]);
  try (eauto with calls).

(** The calls of the plugin body: a [create] gets the guessed address and
    the picked name; every call names the picked jail. *)
Definition plugin_call (jailname : option string) (a : string) (c : WCall) : Prop :=
  match c with
  | WCreate j i _ _ => j = jailname /\ i = a
  | WAuto j | WSetVnet j | WStart j => j = jailname
  | _ => True
  end.

#[local] Hint Extern 1 (plugin_call _ _ _) => (simpl; auto) : calls.
#[local] Hint Extern 1 (only_calls _ (modify_st _)) => (apply only_calls_modify; reflexivity) : calls.

Lemma plugin_jail_body_calls addrs jcs templates basename a s r s' :
  high_ipv4 addrs = Some a ->
  plugin_jail_body addrs jcs templates basename s = (r, s') ->
  exists new, pj_calls s' = pj_calls s ++ new /\
    Forall (plugin_call (pick_jailname (warden_jails (pj_calls s)) basename) (ip_str a)) new.
Proof.
  intros Ha H. unfold plugin_jail_body in H. rewrite Ha in H.
  rewrite (st_bind_ok get_st _ s s s) in H by reflexivity.
  match type of H with ?m s = _ =>
    assert (Hc : only_calls (plugin_call (pick_jailname (warden_jails (pj_calls s)) basename) (ip_str a)) m)
  end; [|exact (Hc _ _ _ H)].
  destruct (latest_jc jcs) as [jc|]; [|apply only_calls_raise].
  destruct (get_template templates) as [t|e]; [|apply only_calls_raise].
  calls_steps.
  all: try (case_bool_decide; calls_steps).
  all: try (destruct (negb _); calls_steps).
  all: try (destruct (dir_exists _ _); calls_steps).
  all: try (destruct (pick_jailname _ _); [case_bool_decide|]; calls_steps).
Qed.

(** [basename_1] ... [basename_999] all taken: no name is picked. *)
Lemma pick_jailname_none jails basename :
  (forall i, 1 <= i <= 999 -> (basename ++ "_" ++ pretty (Z.of_nat i))%string ∈ jails) ->
  pick_jailname jails basename = None.
Proof.
  intros Hall. unfold pick_jailname.
  destruct (first_such _ _) as [n|] eqn:Hf; [|done].
  apply first_such_spec in Hf as [Hin Hn].
  apply list_elem_of_fmap in Hin as (i & -> & Hi). apply elem_of_seq in Hi.
  rewrite bool_decide_eq_true_2 in Hn; [discriminate|]. apply Hall. lia.
Qed.

(** C15: The plugin jail gets a fresh address.  Every [create] call a run
    of [new_default_plugin_jail] makes asks for the IPv4 address
    [guess_addresses] found, which differs, as a string, from the primary
    IPv4 address of every jail in the warden's list. *)
Theorem plugin_jail_fresh_ipv4 fuel jcs templates basename s r s' j ipv4 tpl lf :
  new_default_plugin_jail fuel jcs templates basename s = Some (r, s') ->
  WCreate j ipv4 tpl lf ∈ pj_calls s' -> WCreate j ipv4 tpl lf ∉ pj_calls s ->
  exists a, ipv4 = ip_str a /\
    forall wj x, wj ∈ warden_list -> w_ipv4 wj = Some x -> x <> "" ->
      exists m, parse_mask x 24 = Ok m /\ ip_str a <> ip_str (addr_sc x m).
Proof.
  unfold new_default_plugin_jail. intros H Hin Hout.
  destruct (guess_addresses fuel jcs) as [[addrs|]|e] eqn:Hg; try discriminate;
    [|injection H as _ <-; contradiction].
  injection H as H.
  destruct (high_ipv4 addrs) as [a|] eqn:Ha;
    [|unfold plugin_jail_body in H; rewrite Ha in H; injection H as _ <-; contradiction].
  destruct (plugin_jail_body_calls _ _ _ _ _ _ _ _ Ha H) as (new & Hn & F).
  rewrite Hn in Hin. apply elem_of_app in Hin as [?|Hin]; [contradiction|].
  rewrite Forall_forall in F. destruct (F _ Hin) as [_ ->].
  exists a. split; [done|]. intros wj x Hwj Hx Hne.
  exact (guess_ipv4_avoids_jails _ _ _ _ _ (guess_addresses_high _ _ _ _ Hg Ha) Hwj Hx Hne).
Qed.

(** A run that never returns a value. *)
Definition never_ok {A} (m : st PJ A) : Prop := forall s r s', m s = (r, s') -> exists e, r = Raise e.

Lemma never_ok_bind {A B} (m : st PJ A) (f : A -> st PJ B) :
  (forall a, never_ok (f a)) -> never_ok (m ≫= f).
Proof.
  intros Hf s r s'. unfold mbind, st_bind at 1.
  destruct (m s) as [[a|e] s1]; [apply Hf|intros [= <- _]; by eexists].
Qed.

Lemma never_ok_raise {A} e : never_ok (raise (A:=A) e).
Proof. intros s r s' [= <- _]. by eexists. Qed.

(** C16: With [basename_1] to [basename_999] all taken, no name is
    picked: a run never returns a jail, and every [create], [auto],
    [set] and [start] it sends the warden names the jail [None]. *)
Theorem plugin_jail_names_exhausted addrs jcs templates basename s r s' :
  (forall i, 1 <= i <= 999 ->
     (basename ++ "_" ++ pretty (Z.of_nat i))%string ∈ warden_jails (pj_calls s)) ->
  plugin_jail_body addrs jcs templates basename s = (r, s') ->
  (exists e, r = Raise e) /\
  forall c, c ∈ pj_calls s' -> c ∉ pj_calls s ->
    match c with WCreate j _ _ _ | WAuto j | WSetVnet j | WStart j => j = None | _ => True end.
Proof.
  intros Hall H. pose proof (pick_jailname_none _ _ Hall) as Hp.
  destruct (high_ipv4 addrs) as [a|] eqn:Ha;
    [|unfold plugin_jail_body in H; rewrite Ha in H; injection H as <- <-;
      split; [by eexists|by intros c ? ?]].
  split.
  - unfold plugin_jail_body in H. rewrite Ha in H.
    rewrite (st_bind_ok get_st _ s s s) in H by reflexivity. rewrite Hp in H.
    match type of H with ?m s = _ => assert (Hn : never_ok m) end; [|exact (Hn _ _ _ H)].
    destruct (latest_jc jcs); [|apply never_ok_raise].
    destruct (get_template templates); [|apply never_ok_raise].
    repeat (apply never_ok_bind; intros ?). destruct (negb _); [apply never_ok_raise|].
    repeat (apply never_ok_bind; intros ?). apply never_ok_raise.
  - intros c Hin Hout. destruct (plugin_jail_body_calls _ _ _ _ _ _ _ _ Ha H) as (new & Hn & F).
    rewrite Hn in Hin. apply elem_of_app in Hin as [?|Hin]; [contradiction|].
    rewrite Forall_forall, Hp in F. specialize (F _ Hin).
    by destruct c; simpl in F; try destruct F.
Qed.

End Plugin.
(** ** Examples

    The address setting of [JailAddress]'s examples, a warden that knows
    [plugin_1] and the jails it created, and creates the plugin template
    on demand. *)
Definition created_jails (calls : list WCall) : list string :=
  omap (fun c => match c with WCreate (Some n) _ _ _ => Some n | _ => None end) calls.

Definition demo_warden : WardenEnv := {|
  warden_templates calls :=
    if existsb (fun c => bool_decide (c = WTemplateCreate "pluginjail" "http://cdn/pluginjail.txz")) calls
    then ["pluginjail"] else [];
  warden_jails calls := "plugin_1" :: created_jails calls;
  warden_fails _ _ := None;
  dir_exists _ _ := true;
  WARDEN_EXTRACT_STATUS_FILE := "/var/tmp/status" |}.

Definition demo_templates : list JailTemplateRow := [mkJT "pluginjail" "FreeBSD" "x64" "http://cdn/pluginjail.txz"].

Definition demo_pj : PJ := mkPJ [] [] ∅.

(** The state after the run that creates [plugin_2] on 12. *)
Definition demo_after : PJ :=
  snd (@plugin_jail_body demo_sipcalc demo_jenv demo_warden
         (@mkAddresses demo_sipcalc (Some 12%Z) None None None) demo_jcs demo_templates "plugin" demo_pj).

Lemma plugin_jail_fresh_ipv4_witness :
  @new_default_plugin_jail demo_sipcalc demo_jenv demo_warden 10 demo_jcs demo_templates
    "plugin" demo_pj = Some (Ok "plugin_2", demo_after) /\
  WCreate (Some "plugin_2") "12" "pluginjail" "/mnt/tank/jails/warden.log" ∈ pj_calls demo_after /\
  exists a, "12" = @ip_str demo_sipcalc a /\
    forall wj x, wj ∈ @warden_list demo_jenv -> w_ipv4 wj = Some x -> x <> "" ->
      exists m, parse_mask x 24 = Ok m /\ @ip_str demo_sipcalc a <> @ip_str demo_sipcalc (@addr_sc demo_sipcalc x m).
Proof.
  assert (Hrun : @new_default_plugin_jail demo_sipcalc demo_jenv demo_warden 10 demo_jcs demo_templates
    "plugin" demo_pj = Some (Ok "plugin_2", demo_after)) by (vm_compute; reflexivity).
  assert (Hin : WCreate (Some "plugin_2") "12" "pluginjail" "/mnt/tank/jails/warden.log" ∈
                pj_calls demo_after) by (vm_compute; do 3 right; left).
  split; [exact Hrun|]. split; [exact Hin|].
  apply (@plugin_jail_fresh_ipv4 demo_sipcalc demo_jenv demo_warden 10 demo_jcs demo_templates
           "plugin" demo_pj (Ok "plugin_2") demo_after (Some "plugin_2") "12" "pluginjail"
           "/mnt/tank/jails/warden.log" Hrun Hin).
  apply not_elem_of_nil.
Defined.

(** A warden with [plugin_1] ... [plugin_999]. *)
Definition full_warden : WardenEnv := {|
  warden_templates _ := ["pluginjail"];
  warden_jails _ := map (fun i => "plugin_" ++ pretty (Z.of_nat i))%string (seq 1 999);
  warden_fails _ _ := None;
  dir_exists _ _ := true;
  WARDEN_EXTRACT_STATUS_FILE := "/var/tmp/status" |}.

(** The run with every name taken, left unevaluated. *)
Definition full_run : res string * PJ :=
  @plugin_jail_body demo_sipcalc demo_jenv full_warden
    (@mkAddresses demo_sipcalc (Some 12%Z) None None None) demo_jcs demo_templates "plugin" demo_pj.

Lemma plugin_jail_names_exhausted_witness :
  (exists e, fst full_run = Raise e) /\
  forall c, c ∈ pj_calls (snd full_run) -> c ∉ pj_calls demo_pj ->
    match c with WCreate j _ _ _ | WAuto j | WSetVnet j | WStart j => j = None | _ => True end.
Proof.
  apply (@plugin_jail_names_exhausted demo_sipcalc demo_jenv full_warden
           (@mkAddresses demo_sipcalc (Some 12%Z) None None None) demo_jcs demo_templates "plugin"
           demo_pj (fst full_run) (snd full_run)).
  - intros i Hi. apply list_elem_of_fmap. exists i. split; [reflexivity|].
    apply elem_of_seq. lia.
  - unfold full_run. apply surjective_pairing.
Defined.

End JailSetup.
