(* ===== verification/JailProgress.v ===== *)
(** * JailProgress: the progress views of jail creation

    src/gui/jails/views.py: [jail_progress] (228-301) reads the warden's
    log and [jail_linuxprogress] (314-387) the tarball extraction status
    file; each keeps three module globals (the estimated duration, the
    start time and the last percentage) between requests and answers the
    size, text, state, ETA and percentage.  The globals are the state of
    a state monad; the files, the clock and the marker files are the
    arguments of a request.  Python floats are rationals ([Q]): the
    views only divide, subtract and truncate positive values for
    ["%02d"], where rounding does not change the fields.  Python 2
    semantics are kept where they matter: [percent] is the string cut
    out of the log line, and a string compares greater than any
    integer. *)

From Stdlib Require Import QArith Qround.
From S2P Require Import Prelude Config.

Module JailProgress.
Import Config.
#[local] Open Scope list_scope.

(** The globals [*_estimated_time], [*_start_time], [*_percent]. *)
Record Progress := mkProgress { pg_estimated : Q; pg_start : Z; pg_percent : pyval }.

Definition progress0 : Progress := mkProgress (inject_Z 600) 0 (PInt 0).

(** The answer: [size], [data], [state], [eta], [percent]. *)
Record ProgressData := mkData {
  pd_size : Z; pd_data : pyval; pd_state : string; pd_eta : pyval; pd_percent : pyval }.

Definition data0 : ProgressData := mkData 0 (PStr "") "running" (PInt 0) (PInt 0).

(** [v > 0] in Python 2: numbers by value, [None] below and strings and
    lists above every number. *)
Definition py2_gt0 (v : pyval) : bool :=
  match v with
  | PInt n => Z.ltb 0 n
  | PBool b => b
  | PNone => false
  | PStr _ | PList _ => true
  end.

(** The digits of [float(s)]: a decimal numeral [d+], [d+.d*] or [.d+]. *)
Fixpoint digits_q (s : string) (acc : Z) (scale : positive) (frac : bool) : res Q :=
  match s with
  | EmptyString => Ok (Qmake acc scale)
  | String c s' =>
      if is_digit c
      then digits_q s' (10 * acc + Z.of_nat (Ascii.nat_of_ascii c - 48))%Z
                    (if frac then (10 * scale)%positive else scale) frac
      else if Ascii.eqb c "." && negb frac then digits_q s' acc scale true
      else Raise ValueError
  end.

Definition float_body (s : string) : res Q :=
  if isdigit (String.substring 0 1 s) || (String.prefix "." s && isdigit (String.substring 1 1 s))
  then digits_q s 0 1 false else Raise ValueError.

(** [float(v)]: surrounding whitespace stripped and an optional sign;
    other strings raise [ValueError] (the exponent, [inf] and [nan]
    forms do not come out of the warden's log or the status file). *)
Definition py_float (v : pyval) : res Q :=
  match v with
  | PInt n => Ok (inject_Z n)
  | PStr s =>
      match py_strip s with
      | String c r =>
          if Ascii.eqb c "-" then match float_body r with Ok q => Ok (- q)%Q | Raise e => Raise e end
          else if Ascii.eqb c "+" then float_body r
          else float_body (String c r)
      | EmptyString => Raise ValueError
      end
  | _ => Raise TypeError
  end.

(** ["%02d" % n] for an integer. *)
Definition pad2 (n : Z) : string :=
  if Z.leb 0 n && Z.ltb n 10 then ("0" ++ py_int_str n)%string else py_int_str n.

(** The [eta] field (282-287 and 368-373): [%d] truncates, and the three values are
    [eta / 3600], [eta / 60] and [eta % 60]. *)
Definition fmt_eta (eta : Q) : string :=
  let m := Qfloor (eta / inject_Z 60) in
  let sec := Qfloor (eta - inject_Z (60 * m)) in
  if negb (Qle_bool eta (inject_Z 3600))
  then (pad2 (Qfloor (eta / inject_Z 3600)) ++ ":" ++ pad2 m ++ ":" ++ pad2 sec)%string
  else if negb (Qle_bool eta 0) then (pad2 m ++ ":" ++ pad2 sec)%string
  else "00:00".

(** [percent = parts[1][:-1]] of the last log line starting with
    [=====] that has a second word (249-254). *)
Definition log_percent (lines : list string) : pyval :=
  fold_left (fun pc line =>
               if py_startswith line "====="
               then match py_split_ws line with
                    | _ :: p1 :: _ => PStr (String.substring 0 (String.length p1 - 1) p1)
                    | _ => pc
                    end
               else pc) lines (PInt 0).

(** The common tail of both views (259-299 and 345-385): the start time,
    the new estimate when the percentage moved, the ETA and the reset when
    the marker file is gone.  The start time is stored before the
    estimate can raise. *)
Definition progress_tail (pc : pyval) (size : Z) (buf : pyval) (curtime : Z) (marker : bool)
    : st Progress ProgressData :=
  fun g =>
    let '(elapsed, eta0, g1) :=
      if Z.eqb (pg_start g) 0
      then (1%Z, pg_estimated g, mkProgress (pg_estimated g) curtime (pg_percent g))
      else ((curtime - pg_start g)%Z, (pg_estimated g - inject_Z (curtime - pg_start g))%Q, g) in
    let upd :=
      if py2_gt0 pc && negb (bool_decide (pg_percent g1 = pc)) then
        match py_float pc with
        | Ok f => let p := (f / inject_Z 100)%Q in
                  if Qeq_bool p 0 then Raise ZeroDivisionError
                  else let est := (inject_Z elapsed / p)%Q in Ok (Some est)
        | Raise e => Raise e
        end
      else Ok None in
    match upd with
    | Raise e => (Raise e, g1)
    | Ok oest =>
        let eta := match oest with Some est => (est - inject_Z elapsed)%Q | None => eta0 end in
        let g2 := mkProgress (default (pg_estimated g1) oest) (pg_start g1) pc in
        let d := mkData size buf "running" (PStr (fmt_eta eta)) pc in
        if marker then (Ok d, g2)
        else (Ok (mkData size buf "done" (PStr (fmt_eta eta)) pc), progress0)
    end.

(** [jail_progress] (228-301): [logfile] is [None] when
    [/var/tmp/warden.log] does not exist, [marker] whether
    [/var/tmp/.jailcreate] does.  [string.join(buf)] joins the lines
    with a blank; an empty log leaves [buf] the empty list. *)
Definition jail_progress (logfile : option (list string)) (curtime : Z) (marker : bool)
    : st Progress ProgressData :=
  match logfile with
  | None => mret data0
  | Some lines =>
      let pc0 := log_percent lines in
      let pc := if py_truthy pc0 then pc0 else PInt 0 in
      let '(size, buf) :=
        if bool_decide (lines = []) then (0%Z, PList [])
        else let j := py_join " " lines in (Z.of_nat (String.length j), PStr j) in
      progress_tail pc size buf curtime marker
  end.

(** [int(x)]: truncation toward zero. *)
Definition q_trunc (q : Q) : Z := if Qle_bool 0 q then Qfloor q else (- Qfloor (- q))%Z.

(** The [try] of [jail_linuxprogress] (331-343) on the status file:
    [buf], [size] and the percentage, or [None] when [readlines()[-1]]
    raises before [size] and [buf] are assigned.  A failed [float] or a
    zero total leaves the percentage at 0. *)
Definition linux_status (lines : list string) : option (Z * string * Z) :=
  match last lines with
  | None => None
  | Some l =>
      let buf := py_strip l in
      let parts := py_split_ws buf in
      let size := Z.of_nat (List.length parts) in
      let percent :=
        match parts with
        | _ :: n :: t :: _ =>
            match py_float (PStr n), py_float (PStr t) with
            | Ok nb, Ok tot => if Qeq_bool tot 0 then 0%Z else q_trunc (nb / tot * inject_Z 100)
            | _, _ => 0%Z
            end
        | _ => 0%Z
        end in
      Some (size, buf, percent)
  end.

(** [jail_linuxprogress] (314-387): [statusfile] is
    [os.environ['EXTRACT_TARBALL_STATUSFILE']], [status] the file's
    lines when it exists, [marker_start] and [marker_end] the two tests
    of [/var/tmp/.templatecreate] (328 and 381).  Without a line,
    [data['size'] = size] raises [UnboundLocalError]. *)
Definition jail_linuxprogress (statusfile : option string) (status : option (list string)) (curtime : Z)
    (marker_start marker_end : bool) : st Progress ProgressData :=
  match statusfile with
  | None => raise (KeyError "EXTRACT_TARBALL_STATUSFILE")
  | Some _ =>
      match status with
      | Some lines =>
          if negb marker_start then mret data0 else
          match linux_status lines with
          | None => raise (UnboundLocalError "size")
          | Some (size, buf, p) => progress_tail (PInt p) size (PStr buf) curtime marker_end
          end
      | None => mret data0
      end
  end.

(** ** Properties *)

(** C29: for an ETA over an hour the view prints [eta / 60], the total
    number of minutes, as the middle field of [hh:mm:ss]: it is 60 or
    more, so the clock shown is never a valid one. *)
Theorem fmt_eta_minutes_overflow eta :
  (inject_Z 3600 < eta)%Q ->
  exists h m sec, fmt_eta eta = (pad2 h ++ ":" ++ pad2 m ++ ":" ++ pad2 sec)%string /\ (60 <= m)%Z.
Proof.
  intros Hlt. unfold fmt_eta.
  replace (Qle_bool eta (inject_Z 3600)) with false.
  2:{ symmetry. apply not_true_iff_false. rewrite Qle_bool_iff. intros Hle. by apply (Qlt_not_le _ _ Hlt). }
  eexists _, _, _. split; [reflexivity|].
  rewrite <- (Qfloor_Z 60). apply Qfloor_resp_le.
  apply (Qmult_le_r _ _ (inject_Z 60)); [reflexivity|].
  rewrite <- inject_Z_mult. unfold Qdiv. rewrite <- Qmult_assoc, (Qmult_comm (/ _)), Qmult_inv_r by discriminate.
  rewrite Qmult_1_r. apply Qlt_le_weak. exact Hlt.
Qed.

Lemma fmt_eta_minutes_overflow_witness :
  fmt_eta (inject_Z 3700) = "01:61:40" /\
  exists h m sec, fmt_eta (inject_Z 3700) = (pad2 h ++ ":" ++ pad2 m ++ ":" ++ pad2 sec)%string /\ (60 <= m)%Z.
Proof. split; [vm_compute; reflexivity|]. apply fmt_eta_minutes_overflow. reflexivity. Defined.

(** C28: a warden log whose last [=====] line reports [0%] makes
    [jail_progress] raise [ZeroDivisionError] (the string ["0"] is
    greater than 0 in Python 2, and [float("0") / 100] divides the
    elapsed time), unless ["0"] is the percentage it saw last; the state
    it leaves is the old one with the start time stored, [curtime] when
    none was stored yet. *)
Theorem jail_progress_zero_percent lines curtime marker g :
  log_percent lines = PStr "0" -> pg_percent g <> PStr "0" ->
  jail_progress (Some lines) curtime marker g =
    (Raise ZeroDivisionError,
     mkProgress (pg_estimated g) (if Z.eqb (pg_start g) 0 then curtime else pg_start g) (pg_percent g)).
Proof.
  intros Hl Hp. unfold jail_progress. rewrite Hl. cbn [py_truthy].
  destruct (if bool_decide (lines = []) then _ else _) as [size buf].
  destruct g as [est start pc]. cbn [pg_percent] in Hp.
  unfold progress_tail. cbn [pg_start pg_estimated pg_percent].
  destruct (Z.eqb start 0); simpl; (rewrite bool_decide_false; [reflexivity|done]).
Qed.

Lemma jail_progress_zero_percent_witness :
  jail_progress (Some ["===== 0% fetching template" ++ String "010" ""; "extracting"])%string 100 true progress0
    = (Raise ZeroDivisionError, mkProgress (inject_Z 600) 100 (PInt 0)).
Proof. apply (jail_progress_zero_percent _ 100 true progress0); [reflexivity|discriminate]. Defined.

(** Once [/var/tmp/.templatecreate] is gone before a request, the Linux
    view answers the initial data, state ['running'], and keeps the
    globals: it reports ['done'] and resets them only when the marker
    disappears between its two tests. *)
Lemma linuxprogress_marker_gone f status curtime m g :
  jail_linuxprogress (Some f) status curtime false m g = (Ok data0, g).
Proof. by destruct status. Qed.

End JailProgress.
