(* ===== verification/JailModels.v ===== *)
(** * JailModels: the methods of the jail models

    src/gui/jails/models.py: [Jails] (69-325: the row normalisation of
    [__init__], the cached [jail_path] and [jail_meta_path], [delete],
    [is_linux_jail]), [JailTemplate] (412-510: [jt_instances], [delete])
    and [NullMountPoint] (517-578: [mounted], [destination_jail],
    [mount], [umount], [delete]) over the mount helpers of [SystemTools].
    The warden's flag constants (warden.py, not in src/) are the type
    class [WardenConsts]; the output of a command started with
    [pipeopen] is [PipeEnv]; the mount table that [/sbin/mount] prints and
    changes is the state of the null mounts, with mount(8) and umount(8)
    modelled from their documentation. *)

From S2P Require Import Prelude Config SystemConfig FileSystem Cachetool SystemTools JailAddress JailSetup.

Module JailModels.
Import Config SystemConfig FileSystem Cachetool SystemTools JailAddress JailSetup.
#[local] Open Scope list_scope.

(** The values the warden stores for the three jail switches. *)
Class WardenConsts := {
  WARDEN_AUTOSTART_ENABLED : string; WARDEN_AUTOSTART_DISABLED : string;
  WARDEN_VNET_ENABLED : string; WARDEN_VNET_DISABLED : string;
  WARDEN_NAT_ENABLED : string; WARDEN_NAT_DISABLED : string;
}.

(** [pipeopen(cmd).communicate()]: the exit status and the output. *)
Class PipeEnv := { pipe_run : string -> Z * string }.

(** ** [Jails] (69-325) *)

(** The fields (72-197); the warden fills them as strings, the
    addresses [null=True], the masks [default='']. *)
Record JailRow := mkJail {
  jail_host : string; jail_type : string;
  jail_ipv4 : option string; jail_ipv4_netmask : string; jail_alias_ipv4 : option string;
  jail_bridge_ipv4 : option string; jail_bridge_ipv4_netmask : string;
  jail_alias_bridge_ipv4 : option string; jail_defaultrouter_ipv4 : option string;
  jail_ipv6 : option string; jail_ipv6_prefix : string; jail_alias_ipv6 : option string;
  jail_bridge_ipv6 : option string; jail_bridge_ipv6_prefix : string;
  jail_alias_bridge_ipv6 : option string; jail_defaultrouter_ipv6 : option string;
  jail_mac : option string; jail_flags : string;
  jail_autostart : pyval; jail_status : string; jail_vnet : pyval; jail_nat : pyval }.

(** The object: its row and the private caches [__jail_path] and
    [__jail_meta_path]. *)
Record JailObj := mkJailObj { jo_row : JailRow; jo_path : option string; jo_meta_path : option string }.

(** [re.match('(.+)?linux(.+)?', w, flags=re.I)]: [linux] occurs in [w],
    in any case (the optional groups take any prefix and suffix). *)
Fixpoint str_contains (p s : string) : bool :=
  String.prefix p s || match s with EmptyString => false | String _ s' => str_contains p s' end.

Section Jails.
Context `{WC : WardenConsts} `{SC : Sipcalc} `{JE : JailEnv} `{WE : WardenEnv} `{PE : PipeEnv}.

(** [if v == ENABLED: v = True elif v == DISABLED: v = False]. *)
Definition warden_bool (en dis : string) (v : pyval) : pyval :=
  if bool_decide (v = PStr en) then PBool true
  else if bool_decide (v = PStr dis) then PBool false else v.

(** [if a: parts = a.split('/'); a = parts[0]; if len(parts) > 1: m =
    parts[1]]: the address without its mask, and the mask. *)
Definition strip_mask (a : option string) (m : string) : option string * string :=
  if truthy a then
    match py_split "/" (py_str a) with
    | p0 :: p1 :: _ => (Some p0, p1)
    | p0 :: [] => (Some p0, m)
    | [] => (a, m)
    end
  else (a, m).

(** [Jails.__init__] (231-287): the caches start empty. *)
Definition jail_init (j : JailRow) : JailObj :=
  let '(a4, m4) := strip_mask (jail_ipv4 j) (jail_ipv4_netmask j) in
  let '(b4, bm4) := strip_mask (jail_bridge_ipv4 j) (jail_bridge_ipv4_netmask j) in
  let '(a6, p6) := strip_mask (jail_ipv6 j) (jail_ipv6_prefix j) in
  let '(b6, bp6) := strip_mask (jail_bridge_ipv6 j) (jail_bridge_ipv6_prefix j) in
  mkJailObj
    (mkJail (jail_host j) (jail_type j) a4 m4 (jail_alias_ipv4 j) b4 bm4 (jail_alias_bridge_ipv4 j)
       (jail_defaultrouter_ipv4 j) a6 p6 (jail_alias_ipv6 j) b6 bp6 (jail_alias_bridge_ipv6 j)
       (jail_defaultrouter_ipv6 j) (jail_mac j) (jail_flags j)
       (warden_bool WARDEN_AUTOSTART_ENABLED WARDEN_AUTOSTART_DISABLED (jail_autostart j))
       (jail_status j)
       (warden_bool WARDEN_VNET_ENABLED WARDEN_VNET_DISABLED (jail_vnet j))
       (warden_bool WARDEN_NAT_ENABLED WARDEN_NAT_DISABLED (jail_nat j)))
    None None.

(** [jail_path] and [jail_meta_path] (199-223): the cached value when it
    is true, otherwise computed from the latest [JailsConfiguration] row
    and cached; without a row the [except: pass] keeps the cache. *)
Definition cached_path (f : JailsConfRow -> string) (cache : option string)
    (jcs : list JailsConfRow) : option string :=
  if truthy cache then cache
  else match latest_jc jcs with Some jc => Some (f jc) | None => cache end.

Definition jail_path (jcs : list JailsConfRow) (o : JailObj) : option string * JailObj :=
  let p := cached_path (fun jc => jc_path jc ++ "/" ++ jail_host (jo_row o))%string (jo_path o) jcs in
  (p, mkJailObj (jo_row o) p (jo_meta_path o)).

Definition jail_meta_path (jcs : list JailsConfRow) (o : JailObj) : option string * JailObj :=
  let p := cached_path (fun jc => jc_path jc ++ "/." ++ jail_host (jo_row o) ++ ".meta")%string
             (jo_meta_path o) jcs in
  (p, mkJailObj (jo_row o) (jo_path o) p).

(** [__str__] (225-226). *)
Definition jail_str (o : JailObj) : string := jail_host (jo_row o).

(** [delete] (289-298): refused while a plugin uses the jail, unless
    [force]; [plugin_jails] is the [plugin_jail] column of [Plugins]. *)
Definition jail_delete (plugin_jails : list string) (force : bool) (o : JailObj) : st PJ unit :=
  let n := List.length (List.filter (fun p => String.eqb p (jail_host (jo_row o))) plugin_jails) in
  if negb force && negb (Nat.eqb n 0)
  then raise (MiddlewareError ("This jail is required by " ++ py_int_str (Z.of_nat n) ++ " plugin(s)"))
  else warden_call (WDelete (jail_host (jo_row o))).

(** [is_linux_jail] (300-321): [file] on the jail's sysctl; the second
    word of the fifth comma field names the ABI.  A missing field is the
    [IndexError] the [except] turns into [False]. *)
Definition linux_abi (out : string) : bool :=
  match nth_error (py_split "," out) 4 with
  | Some line =>
      match nth_error (py_split_ws line) 1 with
      | Some w => str_contains "LINUX" (py_upper w)
      | None => false
      end
  | None => false
  end.

Definition is_linux_jail (jcs : list JailsConfRow) (o : JailObj) : bool * JailObj :=
  let '(jp, o') := jail_path jcs o in
  let '(rc, out) := pipe_run ("file " ++ py_str jp ++ "/sbin/sysctl")%string in
  (if Z.eqb rc 0 then linux_abi out else false, o').

End Jails.

(** ** [JailTemplate] (412-510) *)

(** The file system [jt_instances] reads: [os.path.realpath],
    [os.path.exists] and [glob.iglob] of a pattern. *)
Class FsEnv := {
  realpath : string -> string;
  path_exists : string -> bool;
  glob : string -> list string;
}.

(** [re.sub('\.meta|\.', '', s)]: left to right, a [.] followed by
    [meta] goes with it, any other [.] alone; [k] characters of a match
    are still to drop. *)
Fixpoint re_sub_meta (k : nat) (s : string) : string :=
  match s with
  | EmptyString => EmptyString
  | String c s' =>
      match k with
      | S k' => re_sub_meta k' s'
      | O => if Ascii.eqb c "." then re_sub_meta (if String.prefix "meta" s' then 4 else 0) s'
             else String c (re_sub_meta 0 s')
      end
  end.

(** [s.replace(pat, '')], by the same scan. *)
Fixpoint py_remove (pat : string) (k : nat) (s : string) : string :=
  match s with
  | EmptyString => EmptyString
  | String c s' =>
      match k with
      | S k' => py_remove pat k' s'
      | O => if negb (String.eqb pat "") && String.prefix pat s
             then py_remove pat (String.length pat - 1) s'
             else String c (py_remove pat 0 s')
      end
  end.

(** The jail a meta directory found by the glob names:
    [re.sub('\.meta|\.', '', metadir.split('/')[-1])]. *)
Definition meta_jail (metadir : string) : string :=
  re_sub_meta 0 (default "" (last (py_split "/" metadir))).

Definition TAB : ascii := "009".

Section Templates.
Context `{SC : Sipcalc} `{JE : JailEnv} `{WE : WardenEnv} `{PE : PipeEnv} `{FE : FsEnv}.

(** The body of the loop (459-478): whether the dataset of the jail is a
    clone of the template's [@clean] snapshot. *)
Definition clone_of (template_dataset rp : string) : bool :=
  let '(rc, out) := pipe_run ("/sbin/zfs get -H origin " ++ rp)%string in
  if negb (Z.eqb rc 0) then false else
  match py_split TAB out with
  | _ :: _ :: p2 :: _ => String.eqb template_dataset (py_remove "@clean" 0 (py_strip p2))
  | _ => false
  end.

Definition jt_instance (jcp template_dataset metadir : string) : bool :=
  clone_of template_dataset (realpath (jcp ++ "/" ++ meta_jail metadir)%string).

Definition template_dir (jc : JailsConfRow) (jt : JailTemplateRow) : string :=
  realpath (jc_path jc ++ "/.warden-template-" ++ jt_name jt)%string.

(** [jt_instances] (437-480): [JailsConfiguration.objects.all()[0]]
    raises [IndexError] without a row; the [if not jc] and [if not
    zfsout] tests never hold (a model instance and a pair are true). *)
Definition jt_instances (jcs : list JailsConfRow) (jt : JailTemplateRow) : res nat :=
  match head jcs with
  | None => Raise IndexError
  | Some jc0 =>
      let jc := jc_init jc0 in
      let tdir := template_dir jc jt in
      if negb (path_exists tdir) then Ok 0%nat else
      let '(rc, out) := pipe_run ("/sbin/zfs list -H -o name " ++ tdir)%string in
      if negb (Z.eqb rc 0) then Ok 0%nat else
      let td := py_strip out in
      Ok (List.length (List.filter (jt_instance (jc_path jc) td) (glob (jc_path jc ++ "/.*.meta")%string)))
  end.

(** The warden's calls and the [JailTemplate] rows. *)
Record TS := mkTS { ts_pj : PJ; ts_templates : list JailTemplateRow }.

Definition on_pj {A} (m : st PJ A) : st TS A :=
  fun s => let '(r, p) := m (ts_pj s) in (r, mkTS p (ts_templates s)).

(** [super(JailTemplate, self).delete()]: [jt_name] is unique. *)
Definition drop_template (jt : JailTemplateRow) : st TS unit :=
  modify_st (fun s => mkTS (ts_pj s) (List.filter (fun t => negb (String.eqb (jt_name t) (jt_name jt))) (ts_templates s))).

(** [delete] (482-510). *)
Definition jt_delete (jcs : list JailsConfRow) (jt : JailTemplateRow) : st TS unit :=
  n ← lift_st (jt_instances jcs jt);
  if negb (Nat.eqb n 0) then raise (MiddlewareError "Template must have 0 instances!") else
  match head jcs with
  | None => raise IndexError
  | Some jc0 =>
      if negb (path_exists (template_dir (jc_init jc0) jt)) then drop_template jt
      else on_pj (reraise (fun e => e) (warden_call (WTemplateDelete (jt_name jt))));; drop_template jt
  end.

End Templates.

(** ** The mount table of the system

    The null mounts of [NullMountPoint] change the system's mount table
    through mount(8) and umount(8) and read it back through mount(8)
    without arguments.  The table is a state: the directories that exist
    and the mounted file systems, the last mounted first.  mount(8)
    prints them in mount order; [mount [-o opts] [-t type] special node]
    mounts on an existing directory (the type defaults to [ufs]);
    [umount node] unmounts the file system mounted last on [node]. *)
Record OS := mkOS { os_dirs : list string; os_mounts : list Mount }.

Fixpoint mount_args (args : list string) (ty : string) : option (string * string * string) :=
  match args with
  | [dev; node] => Some (dev, node, ty)
  | f :: v :: r =>
      if String.eqb f "-o" then mount_args r ty
      else if String.eqb f "-t" then mount_args r v else None
  | _ => None
  end.

Fixpoint unmount_first (node : string) (ms : list Mount) : option (list Mount) :=
  match ms with
  | [] => None
  | m :: ms' => if String.eqb (fs_file m) node then Some ms'
                else (fun r => m :: r) <$> unmount_first node ms'
  end.

Definition os_exec (argv : list string) (o : OS) : Z * list string * OS :=
  match argv with
  | ["/sbin/mount"] => (0%Z, map (fun m => mount_line m "") (rev (os_mounts o)), o)
  | "/sbin/mount" :: args =>
      match mount_args args "ufs" with
      | Some (dev, node, ty) =>
          if bool_decide (node ∈ os_dirs o)
          then (0%Z, [], mkOS (os_dirs o) (mkMount dev node ty :: os_mounts o))
          else (1%Z, [], o)
      | None => (64%Z, [], o)
      end
  | ["/sbin/umount"; node] =>
      match unmount_first node (os_mounts o) with
      | Some ms => (0%Z, [], mkOS (os_dirs o) ms)
      | None => (1%Z, [], o)
      end
  | _ => (127%Z, [], o)
  end.

(** The system a helper of [SystemTools] runs in, at a state of the table. *)
#[export] Instance os_env (o : OS) : SysEnv := {|
  version_file := None; shell_lines := fun _ => [];
  path_access := fun p => bool_decide (p ∈ os_dirs o);
  run_cmd := fun argv => let '(rc, out, _) := os_exec argv o in (rc, out) |}.

(** A helper of [SystemTools] that runs the one command [argv]: its
    result in the system before, and the table after the command. *)
Definition sys {S A} (get : S -> OS) (put : OS -> S -> S) (argv : list string)
    (k : SysEnv -> res A) : st S A :=
  fun s => (k (os_env (get s)), put (os_exec argv (get s)).2 s).

(** ** [NullMountPoint] (517-578) *)

Record NullMountPoint := mkNMP {
  nmp_jail : string; nmp_source : string; nmp_destination : string;
  nmp_readonly : bool; nmp_fstype : string }.

#[export] Instance NullMountPoint_eq_dec : EqDecision NullMountPoint.
Proof. solve_decision. Defined.

(** The system and the [NullMountPoint] rows. *)
Record NS := mkNS { ns_os : OS; ns_rows : list NullMountPoint }.

Definition on_os {A} (argv : list string) (k : SysEnv -> res A) : st NS A :=
  sys ns_os (fun o s => mkNS o (ns_rows s)) argv k.

Section NullMounts.
Context `{SC : Sipcalc} `{JE : JailEnv}.
Variable jcs : list JailsConfRow.

(** [destination_jail] (558-561): [order_by("-id")[0]] raises
    [IndexError] without a configuration row. *)
Definition destination_jail (n : NullMountPoint) : res string :=
  match latest_jc jcs with
  | Some jc => Ok (jc_path jc ++ "/" ++ nmp_jail n ++ nmp_destination n)%string
  | None => Raise IndexError
  end.

(** [mounted] (554-556): the [path] keyword decides [is_mounted]. *)
Definition mounted (n : NullMountPoint) : st NS bool :=
  d ← lift_st (destination_jail n);
  on_os ["/sbin/mount"] (fun E => @is_mounted E (Some (nmp_source n)) (Some d)).

(** [mount] (563-573): read-only as [-o ro]; the result is [mounted]. *)
Definition nmp_mntopts (n : NullMountPoint) : option string :=
  if nmp_readonly n then Some "ro" else None.

Definition nmp_mount (n : NullMountPoint) : st NS bool :=
  d ← lift_st (destination_jail n);
  on_os (mount_argv (nmp_source n) d (nmp_mntopts n) (Some (nmp_fstype n)))
    (fun E => @mount E (nmp_source n) d (nmp_mntopts n) (Some (nmp_fstype n)));;
  mounted n.

(** [umount] (575-577): the helper's result is dropped. *)
Definition nmp_umount (n : NullMountPoint) : st NS bool :=
  d ← lift_st (destination_jail n);
  on_os ["/sbin/umount"; d] (fun E => Ok (@umount E d));;
  b ← mounted n;
  mret (negb b).

(** [delete] (549-552): unmount when mounted, then drop the row. *)
Definition nmp_delete (n : NullMountPoint) : st NS unit :=
  b ← mounted n;
  (if (b : bool) then (_ ← nmp_umount n; mret tt) else mret tt);;
  modify_st (fun s => mkNS (ns_os s) (List.filter (fun r => negb (bool_decide (r = n))) (ns_rows s))).

End NullMounts.

(** ** Lemmas on [Jails] *)

(** A part of [split('/')] has no [/]. *)
Lemma py_split_parts c s : Forall (fun p => has_char c p = false) (py_split c s).
Proof.
  induction s as [|x s IH]; simpl; [by constructor|].
  destruct (py_split c s) as [|p ps] eqn:Hs; [by repeat constructor|].
  inversion IH as [|? ? Hp Hps]; subst.
  destruct (Ascii.eqb x c) eqn:Hx; repeat constructor; try done.
  simpl. rewrite Hp, orb_false_r. apply Ascii.eqb_neq. intros ->. by rewrite Ascii.eqb_refl in Hx.
Qed.

(** A string without the separator splits into itself. *)
Lemma py_split_none c s : has_char c s = false -> py_split c s = [s].
Proof.
  induction s as [|x s IH]; simpl; [done|].
  intros [Hx Hs]%orb_false_iff. rewrite IH by done.
  replace (Ascii.eqb x c) with false; [done|].
  symmetry. apply Ascii.eqb_neq. intros ->. by rewrite Ascii.eqb_refl in Hx.
Qed.

(** [a + '/' + m] splits at the [/] when neither side has one. *)
Lemma py_split_sep2 c a b :
  has_char c a = false -> has_char c b = false -> py_split c (a ++ String c b) = [a; b].
Proof.
  intros Ha Hb. induction a as [|x a IH]; simpl.
  - by rewrite py_split_none, Ascii.eqb_refl.
  - simpl in Ha. apply orb_false_iff in Ha as [Hx Ha]. rewrite IH by done.
    replace (Ascii.eqb x c) with false; [done|].
    symmetry. apply Ascii.eqb_neq. intros ->. by rewrite Ascii.eqb_refl in Hx.
Qed.

Lemma py_split_ne c s : py_split c s <> [].
Proof. destruct s as [|x s]; simpl; [done|]. destruct (py_split c s), (Ascii.eqb x c); done. Qed.

(** What [__init__] does to one address field and its mask: a false
    address keeps both; an address without [/] keeps its mask; otherwise
    the address is cut at its first [/] and the mask is the text up to
    the next [/] (or the end). *)
Definition mask_split (x : option string) (m : string) (x' : option string) (m' : string) : Prop :=
  (truthy x = false /\ x' = x /\ m' = m) \/
  (exists a, x = Some a /\ a <> "" /\ has_char "/" a = false /\ x' = Some a /\ m' = m) \/
  (exists a mk r, x = Some (a ++ String "/" (mk ++ r))%string /\ has_char "/" a = false /\
     has_char "/" mk = false /\ (r = "" \/ exists r', r = String "/" r') /\ x' = Some a /\ m' = mk).

(** What [__init__] does to one switch. *)
Definition flag_set (en dis : string) (v v' : pyval) : Prop :=
  (v = PStr en /\ v' = PBool true) \/
  (v <> PStr en /\ v = PStr dis /\ v' = PBool false) \/
  (v <> PStr en /\ v <> PStr dis /\ v' = v).

Lemma py_join_tail p ps :
  py_join (String "/" "") (p :: ps) = p \/
  exists r', py_join (String "/" "") (p :: ps) = (p ++ String "/" r')%string.
Proof. destruct ps as [|q qs]; [by left|right]. by eexists. Qed.

Lemma strip_mask_spec x m x' m' : strip_mask x m = (x', m') -> mask_split x m x' m'.
Proof.
  unfold strip_mask, mask_split. destruct (truthy x) eqn:Ht; [|intros [= <- <-]; by left].
  destruct x as [s|]; [|discriminate]. cbn [py_str].
  pose proof (py_split_join "/" s) as J. pose proof (py_split_parts "/" s) as P.
  destruct (py_split "/" s) as [|p0 [|p1 ps]] eqn:Hs; [by apply py_split_ne in Hs| |];
    intros [= <- <-]; right; apply Forall_cons in P as [H0 P1].
  - left. exists p0. cbn in J. subst s. split_and!; try done. intros ->. discriminate.
  - right. apply Forall_cons in P1 as [H1 _].
    change (py_join (String "/" "") (p0 :: p1 :: ps)) with
      (p0 ++ String "/" (py_join (String "/" "") (p1 :: ps)))%string in J.
    destruct (py_join_tail p1 ps) as [E|[r' E]]; rewrite E in J; subst s.
    + exists p0, p1, "". rewrite str_app_nil. by split_and!; [|done|done|left|done|done].
    + exists p0, p1, (String "/" r'). by split_and!; [|done|done|right; eexists|done|done].
Qed.

Lemma warden_bool_spec en dis v : flag_set en dis v (warden_bool en dis v).
Proof. unfold flag_set, warden_bool. repeat case_bool_decide; naive_solver. Qed.

(** C24: [Jails.__init__] on the warden's row: each of the four address
    fields is cut at its first [/] and its mask or prefix field takes the
    part after it, each switch becomes [True] or [False] when it holds
    the warden's enabled or disabled value, every other field is kept,
    and both path caches start empty. *)
Theorem jail_init_spec `{WardenConsts} j :
  let o := jail_init j in let r := jo_row o in
  mask_split (jail_ipv4 j) (jail_ipv4_netmask j) (jail_ipv4 r) (jail_ipv4_netmask r) /\
  mask_split (jail_bridge_ipv4 j) (jail_bridge_ipv4_netmask j)
    (jail_bridge_ipv4 r) (jail_bridge_ipv4_netmask r) /\
  mask_split (jail_ipv6 j) (jail_ipv6_prefix j) (jail_ipv6 r) (jail_ipv6_prefix r) /\
  mask_split (jail_bridge_ipv6 j) (jail_bridge_ipv6_prefix j)
    (jail_bridge_ipv6 r) (jail_bridge_ipv6_prefix r) /\
  flag_set WARDEN_AUTOSTART_ENABLED WARDEN_AUTOSTART_DISABLED (jail_autostart j) (jail_autostart r) /\
  flag_set WARDEN_VNET_ENABLED WARDEN_VNET_DISABLED (jail_vnet j) (jail_vnet r) /\
  flag_set WARDEN_NAT_ENABLED WARDEN_NAT_DISABLED (jail_nat j) (jail_nat r) /\
  jail_host r = jail_host j /\ jail_type r = jail_type j /\ jail_status r = jail_status j /\
  jail_alias_ipv4 r = jail_alias_ipv4 j /\ jail_alias_bridge_ipv4 r = jail_alias_bridge_ipv4 j /\
  jail_defaultrouter_ipv4 r = jail_defaultrouter_ipv4 j /\
  jail_alias_ipv6 r = jail_alias_ipv6 j /\ jail_alias_bridge_ipv6 r = jail_alias_bridge_ipv6 j /\
  jail_defaultrouter_ipv6 r = jail_defaultrouter_ipv6 j /\
  jail_mac r = jail_mac j /\ jail_flags r = jail_flags j /\
  jo_path o = None /\ jo_meta_path o = None.
Proof.
  unfold jail_init.
  destruct (strip_mask (jail_ipv4 j) _) as [a4 m4] eqn:E1.
  destruct (strip_mask (jail_bridge_ipv4 j) _) as [b4 bm4] eqn:E2.
  destruct (strip_mask (jail_ipv6 j) _) as [a6 p6] eqn:E3.
  destruct (strip_mask (jail_bridge_ipv6 j) _) as [b6 bp6] eqn:E4. simpl.
  split_and!; try reflexivity; (apply warden_bool_spec || by eapply strip_mask_spec).
Qed.

(** the mask [__init__] splits off is the one the form's [save()]
    appends back as ["%s/%s" % (address, mask)]: for an address and a mask
    without [/], the address and that mask come back. *)
Theorem strip_mask_roundtrip a mk m :
  has_char "/" a = false -> has_char "/" mk = false ->
  strip_mask (Some (a ++ "/" ++ mk)%string) m = (Some a, mk).
Proof.
  intros Ha Hm. unfold strip_mask.
  rewrite truthy_Some by (by destruct a). simpl.
  rewrite str_app_cons, str_nil_app. by rewrite py_split_sep2.
Qed.

Lemma strip_mask_roundtrip_witness :
  strip_mask (Some "10.0.0.5/24") "" = (Some "10.0.0.5", "24").
Proof. apply (strip_mask_roundtrip "10.0.0.5" "24" ""); reflexivity. Defined.

Lemma count_host_zero (h : string) l :
  List.length (List.filter (fun p => String.eqb p h) l) = 0%nat <-> h ∉ l.
Proof.
  induction l as [|x l IH]; simpl; [split; [intros _; apply not_elem_of_nil|done]|].
  rewrite not_elem_of_cons. destruct (String.eqb_spec x h) as [->|Hx]; simpl.
  - split; [done|]. by intros [? _].
  - rewrite IH. naive_solver.
Qed.

(** C20: [Jails.delete(force=False)] never removes a jail a plugin runs
    in: when it returns, no [Plugins] row names the jail, and the one
    warden call it made is the deletion of that jail. *)
Theorem jail_delete_safe `{WardenEnv} (plugin_jails : list string) o s s' :
  jail_delete plugin_jails false o s = (Ok tt, s') ->
  (jail_host (jo_row o) ∉ plugin_jails) /\
  pj_calls s' = pj_calls s ++ [WDelete (jail_host (jo_row o))].
Proof.
  unfold jail_delete. simpl.
  destruct (Nat.eqb_spec (List.length (List.filter (fun p => String.eqb p (jail_host (jo_row o))) plugin_jails)) 0)
    as [Hn|Hn]; simpl; [|discriminate].
  unfold warden_call. destruct (warden_fails _ _); intros [= <-]; [].
  split; [by apply count_host_zero|done].
Qed.

(** ** Lemmas on the mount table and [NullMountPoint] *)

(** A table of readable file systems prints lines that read back into it. *)
Lemma omap_re_mount_lines ms :
  Forall readable ms -> omap re_mount (map (fun m => mount_line m "") ms) = ms.
Proof.
  induction 1 as [|m ms Hm _ IH]; [done|]. simpl.
  rewrite re_mount_line by auto. f_equal. exact IH.
Qed.

Lemma existsb_rev {A} (f : A -> bool) l : existsb f (rev l) = existsb f l.
Proof.
  induction l as [|x l IH]; [done|]. simpl.
  rewrite existsb_app, IH. simpl. by rewrite orb_false_r, orb_comm.
Qed.

(** [is_mounted(path=d)] over the table: whether a file system is
    mounted on [d], when the table is readable and not empty. *)
Lemma is_mounted_os o dev d :
  Forall readable (os_mounts o) -> os_mounts o <> [] ->
  @is_mounted (os_env o) dev (Some d) = Ok (existsb (fun m => String.eqb (fs_file m) d) (os_mounts o)).
Proof.
  intros Hr Hne. rewrite (@is_mounted_run (os_env o) _ _ (map (fun m => mount_line m "") (rev (os_mounts o))))
    by reflexivity.
  rewrite omap_re_mount_lines by (by apply Forall_rev).
  destruct (rev (os_mounts o)) as [|m ms] eqn:Hrev; [exfalso; apply Hne; apply (f_equal (@rev _)) in Hrev; by rewrite rev_involutive in Hrev|].
  rewrite <- Hrev, existsb_rev. done.
Qed.

(** With nothing mounted, [is_mounted] raises: its [ret] is never bound. *)
Lemma is_mounted_os_empty o dev path :
  os_mounts o = [] -> @is_mounted (os_env o) dev path = Raise (UnboundLocalError "ret").
Proof. intros He. unfold is_mounted, get_mounted_filesystems, check_output. simpl. by rewrite He. Qed.

(** mount(8) on the arguments [mount] passes pushes the file system. *)
Lemma os_exec_mount dev d mntopts ty o :
  ty <> "" -> (mntopts = None \/ mntopts = Some "ro") -> d ∈ os_dirs o ->
  os_exec (mount_argv dev d mntopts (Some ty)) o = (0%Z, [], mkOS (os_dirs o) (mkMount dev d ty :: os_mounts o)).
Proof.
  intros Hty Ho Hd. unfold mount_argv, opt_args. apply String.eqb_neq in Hty. rewrite Hty.
  destruct Ho as [-> | ->]; simpl; by rewrite bool_decide_true.
Qed.

Section NullMountLemmas.
Context `{SC : Sipcalc} `{JE : JailEnv}.
Variable jcs : list JailsConfRow.

Lemma mounted_run n d o rows :
  destination_jail jcs n = Ok d ->
  mounted jcs n (mkNS o rows) = (@is_mounted (os_env o) (Some (nmp_source n)) (Some d), mkNS o rows).
Proof. intros Hd. unfold mounted. rewrite st_bind_run. unfold lift_st. by rewrite Hd. Qed.

(** [mount] on an existing directory pushes the null mount on the table. *)
Lemma nmp_mount_run n d o rows :
  destination_jail jcs n = Ok d -> d ∈ os_dirs o -> nmp_fstype n <> "" ->
  nmp_mount jcs n (mkNS o rows) =
    mounted jcs n (mkNS (mkOS (os_dirs o) (mkMount (nmp_source n) d (nmp_fstype n) :: os_mounts o)) rows).
Proof.
  intros Hd Hdir Hty. unfold nmp_mount. rewrite st_bind_run. unfold lift_st. rewrite Hd.
  assert (Ho : nmp_mntopts n = None \/ nmp_mntopts n = Some "ro")
    by (unfold nmp_mntopts; destruct (nmp_readonly n); auto).
  rewrite st_bind_run. unfold on_os, sys, mount, run_cmd, os_env; simpl ns_os.
  by rewrite (os_exec_mount _ _ _ _ _ Hty Ho Hdir).
Qed.

(** [umount] of the destination pops the file system mounted last on it. *)
Lemma nmp_umount_run n d o m rows :
  destination_jail jcs n = Ok d -> fs_file m = d ->
  nmp_umount jcs n (mkNS (mkOS (os_dirs o) (m :: os_mounts o)) rows) =
    (b ← mounted jcs n; mret (negb b)) (mkNS o rows).
Proof.
  intros Hd Hm. unfold nmp_umount. rewrite st_bind_run. unfold lift_st. rewrite Hd.
  rewrite st_bind_run. unfold on_os, sys. simpl. rewrite Hm, String.eqb_refl. by destruct o.
Qed.

(** C17: [NullMountPoint.mount] composed with [SystemTools.mount] and
    [is_mounted]: on a readable table, mounting the storage on an
    existing directory of the jail pushes the null mount on the table and
    returns [True], the [mounted] it reads back. *)
Theorem nmp_mount_mounted n d o rows :
  destination_jail jcs n = Ok d -> d ∈ os_dirs o ->
  Forall readable (os_mounts o) -> readable (mkMount (nmp_source n) d (nmp_fstype n)) ->
  nmp_mount jcs n (mkNS o rows) =
    (Ok true, mkNS (mkOS (os_dirs o) (mkMount (nmp_source n) d (nmp_fstype n) :: os_mounts o)) rows).
Proof.
  intros Hd Hdir Hr Hm. pose proof Hm as (_ & _ & _ & _ & Hty & _).
  rewrite (nmp_mount_run n d) by done. rewrite (mounted_run _ d) by done.
  rewrite is_mounted_os by (by constructor || done). simpl. by rewrite String.eqb_refl.
Qed.

(** C18: [mount] then [umount] of a storage on a directory nothing is
    mounted on gives the table back: both return [True], the second
    after [is_mounted] no longer finds the mount point. *)
Theorem nmp_mount_umount n d o rows :
  destination_jail jcs n = Ok d -> d ∈ os_dirs o ->
  Forall readable (os_mounts o) -> os_mounts o <> [] ->
  Forall (fun m => fs_file m <> d) (os_mounts o) ->
  readable (mkMount (nmp_source n) d (nmp_fstype n)) ->
  (b1 ← nmp_mount jcs n; b2 ← nmp_umount jcs n; mret (b1, b2)) (mkNS o rows) = (Ok (true, true), mkNS o rows).
Proof.
  intros Hd Hdir Hr Hne Hfree Hm.
  rewrite st_bind_run, (nmp_mount_mounted n d) by done. rewrite st_bind_run.
  change (mkOS (os_dirs o) _) with (mkOS (os_dirs o) (mkMount (nmp_source n) d (nmp_fstype n) :: os_mounts o)).
  rewrite (nmp_umount_run n d) by done. rewrite st_bind_run, (mounted_run _ d) by done.
  rewrite is_mounted_os by done.
  replace (existsb _ (os_mounts o)) with false; [done|].
  symmetry. apply not_true_iff_false. rewrite existsb_exists. intros (m & Hin & Heq).
  apply String.eqb_eq in Heq. rewrite Forall_forall in Hfree. apply (Hfree m); [by apply list_elem_of_In|done].
Qed.

(** [NullMountPoint.delete] with nothing mounted raises the
    [UnboundLocalError] of [is_mounted] and keeps the row. *)
Theorem nmp_delete_unmounted n d o rows :
  destination_jail jcs n = Ok d -> os_mounts o = [] ->
  nmp_delete jcs n (mkNS o rows) = (Raise (UnboundLocalError "ret"), mkNS o rows).
Proof.
  intros Hd He. unfold nmp_delete. rewrite st_bind_run, (mounted_run _ d) by done.
  by rewrite is_mounted_os_empty.
Qed.

End NullMountLemmas.

(** ** Lemmas on [JailTemplate] *)

Lemma ascii_neq_eqb (a b : ascii) : a <> b -> Ascii.eqb a b = false.
Proof. apply Ascii.eqb_neq. Qed.

Lemma has_char_app c a b : has_char c (a ++ b) = has_char c a || has_char c b.
Proof. induction a as [|x a IH]; [done|]. simpl. by rewrite IH, orb_assoc. Qed.

(** [split(c)] of [a + c + b] is the parts of [a] then those of [b]. *)
Lemma py_split_app_sep c a b : py_split c (a ++ String c b) = py_split c a ++ py_split c b.
Proof.
  induction a as [|x a IH]; simpl.
  - rewrite Ascii.eqb_refl. destruct (py_split c b) eqn:Hb; [by apply py_split_ne in Hb|done].
  - rewrite IH. pose proof (py_split_ne c a) as Hne.
    destruct (py_split c a) as [|p ps]; [done|]. simpl. by destruct (Ascii.eqb x c).
Qed.

(** A prefix without [.] is read the same before a [.]. *)
Lemma prefix_before_dot p a r :
  has_char "." p = false -> has_char "." a = false ->
  String.prefix p (a ++ String "." r) = String.prefix p a.
Proof.
  revert p. induction a as [|x a IH]; intros [|y p] Hp Ha; cbn [has_char] in Hp, Ha; simpl; try done.
  - apply orb_false_iff in Hp as [Hy _].
    destruct (ascii_dec y ".") as [->|]; [by rewrite Ascii.eqb_refl in Hy|done].
  - apply orb_false_iff in Hp as [_ Hp]. apply orb_false_iff in Ha as [_ Ha].
    destruct (ascii_dec y x); [by apply IH|done].
Qed.

(** [re.sub] leaves a text without [.] as it is. *)
Lemma re_sub_meta_app a r :
  has_char "." a = false -> re_sub_meta 0 (a ++ r) = (a ++ re_sub_meta 0 r)%string.
Proof.
  induction a as [|x a IH]; [done|]. intros [Hx Ha]%orb_false_iff. simpl.
  rewrite ascii_neq_eqb by (intros ->; by rewrite Ascii.eqb_refl in Hx). by rewrite IH.
Qed.

Lemma re_sub_meta_name name :
  has_char "." name = false -> re_sub_meta 0 (name ++ ".meta") = name.
Proof. intros H. rewrite re_sub_meta_app by done. apply str_app_nil. Qed.

(** [jt_instances] finds the jail of the meta directory
    [jail_meta_path] names, ["%s/.%s.meta" % (jc_path, host)], when the
    jail's name has no [.] or [/] and does not start with [meta]. *)
Theorem meta_jail_roundtrip jcp host :
  has_char "." host = false -> has_char "/" host = false -> String.prefix "meta" host = false ->
  meta_jail (jcp ++ "/." ++ host ++ ".meta")%string = host.
Proof.
  intros Hd Hs Hm. unfold meta_jail.
  rewrite str_app_cons, py_split_app_sep. rewrite str_app_cons, str_nil_app, (py_split_none "/" (String _ _)).
  2:{ simpl. by rewrite has_char_app, Hs. }
  rewrite last_app. simpl.
  rewrite prefix_before_dot by done. rewrite Hm. by apply re_sub_meta_name.
Qed.

(** C21: the instance count of [JailTemplate] looks up the wrong
    dataset for a jail whose name has a dot: for the meta directory
    [.a.b.meta] of a jail [a.b], [re.sub] drops every dot, and
    [jt_instances] asks [zfs get origin] about the jail [ab]; a jail
    [a.b] cloned from the template is not counted, and [delete] goes on
    to remove the template. *)
Theorem jt_instance_dotted `{PipeEnv} `{FsEnv} jcp td a b :
  has_char "." a = false -> has_char "." b = false ->
  has_char "/" a = false -> has_char "/" b = false ->
  String.prefix "meta" a = false -> String.prefix "meta" b = false ->
  jt_instance jcp td (jcp ++ "/." ++ a ++ "." ++ b ++ ".meta")%string =
    clone_of td (realpath (jcp ++ "/" ++ a ++ b))%string.
Proof.
  intros Ha Hb Hsa Hsb Hma Hmb.
  enough (E : meta_jail (jcp ++ "/." ++ a ++ "." ++ b ++ ".meta")%string = (a ++ b)%string)
    by (unfold jt_instance; by rewrite E).
  unfold meta_jail.
  rewrite str_app_cons, py_split_app_sep, (py_split_none "/" ("." ++ _)%string).
  2:{ cbn [has_char]. by rewrite !has_char_app, Hsa, Hsb. }
  rewrite last_app. cbn [last default id]. rewrite !str_app_cons, !str_nil_app.
  cbn [re_sub_meta]. rewrite Ascii.eqb_refl.
  rewrite prefix_before_dot, Hma by done. rewrite re_sub_meta_app by done. f_equal.
  cbn [re_sub_meta]. rewrite Ascii.eqb_refl. change ".meta" with (String "." "meta").
  rewrite prefix_before_dot, Hmb by done. by apply re_sub_meta_name.
Qed.

(** ** Examples *)

(** A jail root with the [pluginjail] template, and a jail [my.jail]
    cloned from its [@clean] snapshot. *)
Definition demo_fs : FsEnv := {|
  realpath := fun p => p;
  path_exists := fun p => String.eqb p "/mnt/tank/jails/.warden-template-pluginjail";
  glob := fun pat => if String.eqb pat "/mnt/tank/jails/.*.meta" then ["/mnt/tank/jails/.my.jail.meta"] else [] |}.

Definition demo_pipe : PipeEnv := {|
  pipe_run := fun cmd =>
    if String.eqb cmd "/sbin/zfs list -H -o name /mnt/tank/jails/.warden-template-pluginjail"
    then (0%Z, "tank/jails/.warden-template-pluginjail" ++ String "010" "")
    else if String.eqb cmd "/sbin/zfs get -H origin /mnt/tank/jails/my.jail"
    then (0%Z, "tank/jails/my.jail" ++ String TAB "origin" ++ String TAB "tank/jails/.warden-template-pluginjail@clean"
               ++ String TAB "-" ++ String "010" "")
    else (1%Z, "") |}%string.

(** The jail [my.jail] is a clone of the template, but the count looks
    up [myjail]: the template is deleted. *)
Lemma jt_instance_dotted_witness :
  @clone_of demo_pipe "tank/jails/.warden-template-pluginjail" "/mnt/tank/jails/my.jail" = true /\
  @jt_instance demo_pipe demo_fs "/mnt/tank/jails" "tank/jails/.warden-template-pluginjail"
    "/mnt/tank/jails/.my.jail.meta" = false /\
  @jt_delete demo_sipcalc demo_jenv demo_warden demo_pipe demo_fs demo_jcs (mkJT "pluginjail" "FreeBSD" "x64" "")
    (mkTS demo_pj [mkJT "pluginjail" "FreeBSD" "x64" ""]) =
    (Ok tt, mkTS (mkPJ [WTemplateDelete "pluginjail"] [] ∅) []) /\
  @jt_instance demo_pipe demo_fs "/mnt/tank/jails" "tank/jails/.warden-template-pluginjail"
    "/mnt/tank/jails/.my.jail.meta" =
  @clone_of demo_pipe "tank/jails/.warden-template-pluginjail" (@realpath demo_fs "/mnt/tank/jails/myjail").
Proof.
  split_and!; [vm_compute; reflexivity..|].
  apply (@jt_instance_dotted demo_pipe demo_fs "/mnt/tank/jails" _ "my" "jail"); reflexivity.
Defined.

Definition demo_nmp : NullMountPoint := mkNMP "j1" "/mnt/tank/media" "/media" false "nullfs".
Definition demo_os : OS := mkOS ["/mnt/tank/jails/j1/media"] [mkMount "tank" "/mnt/tank" "zfs"].

Lemma jail_delete_safe_witness :
  let o := mkJailObj (mkJail "j1" "standard" None "" None None "" None None None "" None None "" None None None ""
                                (PBool true) "Running" (PBool true) (PBool false)) None None in
  @jail_delete demo_warden ["other"] false o demo_pj = (Ok tt, mkPJ [WDelete "j1"] [] ∅) /\
  ("j1" ∉ ["other"]) /\ pj_calls (mkPJ [WDelete "j1"] [] ∅) = pj_calls demo_pj ++ [WDelete "j1"].
Proof.
  intros o. assert (H : @jail_delete demo_warden ["other"] false o demo_pj = (Ok tt, mkPJ [WDelete "j1"] [] ∅))
    by (vm_compute; reflexivity).
  split; [exact H|]. exact (@jail_delete_safe demo_warden ["other"] o demo_pj _ H).
Defined.

Ltac solve_readable := repeat (split || constructor); try discriminate; reflexivity.

Lemma nmp_mount_mounted_witness :
  @nmp_mount demo_sipcalc demo_jenv demo_jcs demo_nmp (mkNS demo_os []) =
    (Ok true, mkNS (mkOS (os_dirs demo_os) (mkMount "/mnt/tank/media" "/mnt/tank/jails/j1/media" "nullfs"
                                            :: os_mounts demo_os)) []).
Proof.
  apply (@nmp_mount_mounted demo_sipcalc demo_jenv demo_jcs demo_nmp "/mnt/tank/jails/j1/media" demo_os []).
  - vm_compute. reflexivity.
  - apply (bool_decide_unpack _). vm_compute. reflexivity.
  - solve_readable.
  - solve_readable.
Defined.

Lemma nmp_mount_umount_witness :
  (b1 ← @nmp_mount demo_sipcalc demo_jenv demo_jcs demo_nmp; b2 ← @nmp_umount demo_sipcalc demo_jenv demo_jcs demo_nmp;
   mret (b1, b2)) (mkNS demo_os []) = (Ok (true, true), mkNS demo_os []).
Proof.
  apply (@nmp_mount_umount demo_sipcalc demo_jenv demo_jcs demo_nmp "/mnt/tank/jails/j1/media" demo_os []).
  - vm_compute. reflexivity.
  - apply (bool_decide_unpack _). vm_compute. reflexivity.
  - solve_readable.
  - discriminate.
  - constructor; [discriminate|constructor].
  - solve_readable.
Defined.

Lemma nmp_delete_unmounted_witness :
  @nmp_delete demo_sipcalc demo_jenv demo_jcs demo_nmp (mkNS (mkOS [] []) [demo_nmp]) =
    (Raise (UnboundLocalError "ret"), mkNS (mkOS [] []) [demo_nmp]).
Proof.
  apply (@nmp_delete_unmounted demo_sipcalc demo_jenv demo_jcs demo_nmp "/mnt/tank/jails/j1/media").
  - vm_compute. reflexivity.
  - reflexivity.
Defined.

Lemma meta_jail_roundtrip_witness : meta_jail "/mnt/tank/jails/.plugin_1.meta" = "plugin_1".
Proof. apply (meta_jail_roundtrip "/mnt/tank/jails" "plugin_1"); reflexivity. Defined.

End JailModels.
