(* ===== verification/JailConfigure.v ===== *)
(** * JailConfigure: configuring the jail root

    src/gui/jails/utils.py: [jail_path_configured] (656-671) and
    [jail_auto_configure] (674-750).  The state is the part of the system
    they read and change: the ZFS datasets and the directories under
    [/mnt], the [JailsConfiguration] rows, the services started, the
    warden's saved settings and the log.  [list_datasets] and
    [notifier().create_zfs_dataset] (middleware, not in src/) and
    [os.makedirs] are modelled from their documented behaviour on that
    state. *)

From S2P Require Import Prelude Config SystemConfig FileSystem Cachetool SystemTools JailAddress JailSetup JailModels.

Module JailConfigure.
Import Config SystemConfig SystemTools JailAddress JailModels.
#[local] Open Scope list_scope.

(** The datasets (by name, mounted on ["/mnt/" + name]), the directories,
    the [JailsConfiguration] rows, the services started, the warden's
    [wtmp], [jdir] and [release] once saved, and the warnings logged. *)
Record CS := mkCS {
  cs_datasets : list string; cs_dirs : list string; cs_jcs : list JailsConfRow;
  cs_started : list string; cs_warden : option (string * string * string); cs_log : list string }.

Definition set_datasets_dirs (ds dirs : list string) (s : CS) : CS :=
  mkCS ds dirs (cs_jcs s) (cs_started s) (cs_warden s) (cs_log s).

(** [list_datasets(path="/mnt/%s" % name, recursive=False)] is not empty:
    the dataset exists. *)
Definition list_datasets (name : string) (s : CS) : bool := bool_decide (name ∈ cs_datasets s).

(** [notifier().create_zfs_dataset(name)]: [(0, '')] and the dataset
    mounted, or an error when it exists. *)
Definition create_zfs_dataset (name : string) : st CS (Z * string) :=
  fun s => if list_datasets name s then (Ok (1%Z, "dataset already exists"), s)
           else (Ok (0%Z, ""), set_datasets_dirs (name :: cs_datasets s) (("/mnt/" ++ name)%string :: cs_dirs s) s).

(** [os.makedirs(path)]: [OSError] when the directory exists. *)
Definition os_makedirs (path : string) : st CS unit :=
  fun s => if bool_decide (path ∈ cs_dirs s) then (Raise OSError, s)
           else (Ok tt, set_datasets_dirs (cs_datasets s) (path :: cs_dirs s) s).

(** [log.warn(msg)]. *)
Definition log_warn (msg : string) : st CS unit :=
  modify_st (fun s => mkCS (cs_datasets s) (cs_dirs s) (cs_jcs s) (cs_started s) (cs_warden s) (cs_log s ++ [msg])).

(** The rest of a string after a prefix. *)
Fixpoint strip_prefix (p s : string) : option string :=
  match p, s with
  | EmptyString, _ => Some s
  | String c p', String c' s' => if Ascii.eqb c c' then strip_prefix p' s' else None
  | _, _ => None
  end.

(** [glob.glob("%s_*" % name)]: the directories next to [name] whose
    name continues it with [_]. *)
Definition glob_suffixed (name : string) (dirs : list string) : list string :=
  List.filter (fun d => match strip_prefix (name ++ "_") d with
                        | Some r => negb (has_char "/" r)
                        | None => false
                        end) dirs.

(** [parts = d.split('_'); if len(parts) > 1 and re.match('^[0-9]+$',
    parts[1]): num = int(parts[1])]: the split is of the whole path. *)
Definition ufs_suffix (d : string) : option Z :=
  match py_split "_" d with
  | _ :: p1 :: _ => if isdigit p1 then Some (digits_value p1 0) else None
  | _ => None
  end.

(** [max = 1; for d in dirs: ... if num > max: max = num]. *)
Definition ufs_max (dirs : list string) : Z :=
  fold_left (fun m d => match ufs_suffix d with Some n => if Z.gtb n m then n else m | None => m end) dirs 1%Z.

(** [name = basename; for i in xrange(2, 100): if not list_datasets(name):
    break; else: name = "%s_%d" % (basename, i)]: the last candidate is
    not tested. *)
Fixpoint zfs_pick (basename name : string) (idx : list nat) (s : CS) : string :=
  match idx with
  | [] => name
  | i :: idx' => if negb (list_datasets name s) then name
                else zfs_pick basename (basename ++ "_" ++ py_int_str (Z.of_nat i))%string idx' s
  end.

(** The id the database gives a new row. *)
Definition next_id (jcs : list JailsConfRow) : Z := (1 + fold_right Z.max 0 (jc_id <$> jcs))%Z.

Definition with_path (p : string) (jc : JailsConfRow) : JailsConfRow :=
  mkJC (jc_id jc) p (jc_ipv4_network jc) (jc_ipv4_network_start jc) (jc_ipv4_network_end jc)
       (jc_ipv6_network jc) (jc_ipv6_network_start jc) (jc_ipv6_network_end jc).

(** [JailsConfiguration.save()] (372-374): the row replaces the one of
    its id, then [notifier().start("ix-warden")]. *)
Definition jc_save (jc : JailsConfRow) : st CS unit :=
  modify_st (fun s => mkCS (cs_datasets s) (cs_dirs s)
                           (jc :: List.filter (fun r => negb (Z.eqb (jc_id r) (jc_id jc))) (cs_jcs s))
                           (cs_started s ++ ["ix-warden"]) (cs_warden s) (cs_log s)).

Section Configure.
Context `{SC : Sipcalc} `{JE : JailEnv}.
(** [platform.release()]. *)
Variable release : string.

(** [jail_path_configured] (656-671): [latest('id')], a true [jc_path]
    and an existing directory. *)
Definition jail_path_configured (s : CS) : bool :=
  match latest_jc (cs_jcs s) with
  | Some jc => negb (String.eqb (jc_path jc) "") && bool_decide (jc_path jc ∈ cs_dirs s)
  | None => false
  end.

(** The ZFS branch (695-711). *)
Definition configure_zfs (basename : string) : st CS string :=
  s ← get_st;
  let name := zfs_pick basename basename (seq 2 98) s in
  '(rv, err) ← create_zfs_dataset name;
  if negb (Z.eqb rv 0)
  then raise (MiddlewareError ("Failed to create dataset " ++ name ++ ": " ++ err))
  else mret name.

(** [try: os.makedirs("/mnt/%s" % name) except Exception as e: raise
    MiddlewareError(...)] (731-736). *)
Definition makedirs_jails (name : string) : st CS unit :=
  fun s => match os_makedirs ("/mnt/" ++ name)%string s with
           | (Raise _, s') => (Raise (MiddlewareError ("Failed to create directory " ++ name ++
                                                       ": [Errno 17] File exists")), s')
           | r => r
           end.

(** The UFS branch (713-736). *)
Definition configure_ufs (basename : string) : st CS string :=
  s ← get_st;
  let name0 := ("/mnt/" ++ basename)%string in
  let name1 := if bool_decide (name0 ∈ cs_dirs s)
               then (name0 ++ "_" ++ py_int_str (ufs_max (glob_suffixed name0 (cs_dirs s)) + 1))%string
               else name0 in
  let name := py_remove "/mnt/" 0 name1 in
  makedirs_jails name;;
  mret name.

(** The volumes to choose from (684-692), and whether they are ZFS. *)
Definition pick_volumes (volumes : list VolumeRow) : st CS (list VolumeRow * bool) :=
  let zfs := List.filter (fun v => String.eqb (vol_fstype v) "ZFS") volumes in
  if negb (bool_decide (zfs = [])) then mret (zfs, true) else
  log_warn "ZFS is recommended for plugins!";;
  let ufs := List.filter (fun v => String.eqb (vol_fstype v) "UFS") volumes in
  if bool_decide (ufs = []) then raise (MiddlewareError "You need to create a volume to proceed!")
  else mret (ufs, false).

(** [jail_auto_configure] (674-750): the first ZFS volume, else the first
    UFS one after a warning; the jail root on it; the configuration row
    (the latest one, or a new one) and the warden's settings saved. *)
Definition jail_auto_configure (volumes : list VolumeRow) : st CS unit :=
  '(vols, is_zfs) ← pick_volumes volumes;
  match (vols : list VolumeRow) with
  | [] => raise IndexError
  | v :: _ =>
      let basename := (vol_name v ++ "/jails")%string in
      name ← (if (is_zfs : bool) then configure_zfs basename else configure_ufs basename);
      s ← get_st;
      let jc := match latest_jc (cs_jcs s) with
                | Some jc => jc
                | None => jc_init (mkJC (next_id (cs_jcs s)) "" "" "" "" "" "" "")
                end in
      let path := ("/mnt/" ++ name)%string in
      jc_save (with_path path jc);;
      modify_st (fun s => mkCS (cs_datasets s) (cs_dirs s) (cs_jcs s) (cs_started s)
                               (Some (path, path, py_strip release)) (cs_log s))
  end.

End Configure.

(** ** Properties *)

(** The names the ZFS loop may choose, in order. *)
Definition zfs_cand (basename : string) (i : nat) : string := (basename ++ "_" ++ py_int_str (Z.of_nat i))%string.

Definition free (s : CS) (name : string) : bool := negb (list_datasets name s).

Lemma zfs_pick_find basename name idx j s :
  zfs_pick basename name (idx ++ [j]) s =
    default (zfs_cand basename j) (find (free s) (name :: map (zfs_cand basename) idx)).
Proof.
  revert name. induction idx as [|i idx IH]; intros name; simpl; unfold free.
  - by destruct (negb (list_datasets name s)).
  - destruct (negb (list_datasets name s)); [done|]. apply IH.
Qed.

(** C22: the ZFS branch of [jail_auto_configure] chooses the first of
    [jails], [jails_2], ..., [jails_98] that is not a dataset, and
    [jails_99] when all are, without testing it. *)
Theorem zfs_pick_first_free basename s :
  zfs_pick basename basename (seq 2 98) s =
    default (zfs_cand basename 99) (find (free s) (basename :: map (zfs_cand basename) (seq 2 97))).
Proof. rewrite (seq_S 97 2). apply zfs_pick_find. Qed.

Lemma jc_init_id `{Sipcalc} `{JailEnv} jc : jc_id (jc_init jc) = jc_id jc.
Proof. unfold jc_init. by repeat case_match. Qed.

Lemma jc_init_path `{Sipcalc} `{JailEnv} jc : jc_path (jc_init jc) = jc_path jc.
Proof. unfold jc_init. by repeat case_match. Qed.

(** The latest row has the largest id. *)
Lemma latest_jc_max `{Sipcalc} `{JailEnv} jcs jc :
  latest_jc jcs = Some jc -> forall r, r ∈ jcs -> (jc_id r <= jc_id jc)%Z.
Proof.
  unfold latest_jc. destruct (order_by_desc jc_id jcs) as [|r0 rs] eqn:Ho; [done|].
  intros [= <-] r Hr. rewrite jc_init_id. by apply (order_by_desc_head jc_id jcs r0 rs Ho).
Qed.

Lemma next_id_gt jcs r : r ∈ jcs -> (jc_id r < next_id jcs)%Z.
Proof.
  unfold next_id. induction jcs as [|x jcs IH]; [by intros ?%elem_of_nil|].
  rewrite elem_of_cons, fmap_cons. cbn [fold_right].
  pose proof (Z.le_max_l (jc_id x) (fold_right Z.max 0%Z (jc_id <$> jcs))).
  pose proof (Z.le_max_r (jc_id x) (fold_right Z.max 0%Z (jc_id <$> jcs))).
  intros [->|Hr]; [lia|]. specialize (IH Hr). lia.
Qed.

(** A row saved with an id no row exceeds is the latest afterwards. *)
Lemma latest_after_save `{Sipcalc} `{JailEnv} jcs row :
  (forall r, r ∈ jcs -> (jc_id r <= jc_id row)%Z) ->
  latest_jc (row :: List.filter (fun r => negb (Z.eqb (jc_id r) (jc_id row))) jcs) = Some (jc_init row).
Proof.
  intros Hle. unfold latest_jc.
  set (l := row :: _).
  destruct (order_by_desc jc_id l) as [|r rs] eqn:Ho; [by apply order_by_desc_nil in Ho|].
  destruct (order_by_desc_head jc_id l r rs Ho) as [Hr Hmax]. simpl. f_equal. f_equal.
  apply elem_of_cons in Hr as [->|Hr]; [done|].
  apply list_elem_of_In, filter_In in Hr as [Hr Hne]. apply list_elem_of_In in Hr.
  specialize (Hmax row (list_elem_of_here _ _)). specialize (Hle r Hr).
  apply negb_true_iff, Z.eqb_neq in Hne. lia.
Qed.

Lemma pick_volumes_zfs volumes v vs s :
  List.filter (fun v => String.eqb (vol_fstype v) "ZFS") volumes = v :: vs ->
  pick_volumes volumes s = (Ok (v :: vs, true), s).
Proof. intros Hz. unfold pick_volumes. by rewrite Hz. Qed.

Lemma configure_zfs_run b s :
  let name := zfs_pick b b (seq 2 98) s in
  free s name = true ->
  configure_zfs b s = (Ok name, set_datasets_dirs (name :: cs_datasets s) (("/mnt/" ++ name)%string :: cs_dirs s) s).
Proof.
  intros name Hf. unfold configure_zfs. rewrite st_bind_run. change (get_st s) with (Ok s, s).
  cbv beta iota zeta. fold name. rewrite st_bind_run. unfold create_zfs_dataset at 1.
  unfold free in Hf. by destruct (list_datasets name s).
Qed.

(** Saving a row whose id no row exceeds, on a path that exists, leaves
    the jail root configured. *)
Lemma jc_save_configured `{Sipcalc} `{JailEnv} row s :
  (forall r, r ∈ cs_jcs s -> (jc_id r <= jc_id row)%Z) ->
  jc_path row <> "" -> jc_path row ∈ cs_dirs s ->
  jail_path_configured (snd (jc_save row s)) = true.
Proof.
  intros Hle Hne Hin. unfold jail_path_configured. simpl.
  rewrite latest_after_save by done. rewrite jc_init_path.
  apply String.eqb_neq in Hne. rewrite Hne. simpl. by apply bool_decide_eq_true.
Qed.

(** The row [jail_auto_configure] saves has the largest id. *)
Lemma auto_row_latest `{Sipcalc} `{JailEnv} jcs p :
  let jc := match latest_jc jcs with Some jc => jc | None => jc_init (mkJC (next_id jcs) "" "" "" "" "" "" "") end in
  forall r, r ∈ jcs -> (jc_id r <= jc_id (with_path p jc))%Z.
Proof.
  intros jc r Hr. subst jc. simpl. destruct (latest_jc jcs) as [jc|] eqn:Hl.
  - by apply (latest_jc_max jcs).
  - rewrite jc_init_id. simpl. pose proof (next_id_gt jcs r Hr). lia.
Qed.

(** C19: [jail_auto_configure] on a system with a ZFS volume and a free
    name among [jails], [jails_2], ..., [jails_98] creates the dataset,
    saves it as the jail root of the latest configuration row and the
    warden's settings, and leaves [jail_path_configured] true. *)
Theorem auto_configure_zfs `{Sipcalc} `{JailEnv} release volumes v vs s :
  List.filter (fun v => String.eqb (vol_fstype v) "ZFS") volumes = v :: vs ->
  find (free s) (let b := (vol_name v ++ "/jails")%string in b :: map (zfs_cand b) (seq 2 97)) <> None ->
  exists name s', jail_auto_configure release volumes s = (Ok tt, s') /\
    (name ∉ cs_datasets s) /\ name ∈ cs_datasets s' /\ jail_path_configured s' = true /\
    cs_warden s' = Some ("/mnt/" ++ name, "/mnt/" ++ name, py_strip release)%string.
Proof.
  intros Hz Hfind. set (b := (vol_name v ++ "/jails")%string) in *.
  set (name := zfs_pick b b (seq 2 98) s).
  assert (Hf : free s name = true).
  { subst name. rewrite zfs_pick_first_free.
    destruct (find (free s) _) as [c|] eqn:Hc; [|done]. by apply find_some in Hc as [_ ?]. }
  exists name.
  unfold jail_auto_configure. rewrite st_bind_run, (pick_volumes_zfs _ v vs) by done.
  cbn iota beta. rewrite st_bind_run, configure_zfs_run by done.
  rewrite st_bind_run. cbn [get_st]. rewrite st_bind_run.
  set (s1 := set_datasets_dirs _ _ s).
  match goal with |- context [jc_save ?x s1] => set (row := x) end.
  change (jc_save row s1) with (Ok tt, snd (jc_save row s1)). cbv iota beta.
  eexists. split; [reflexivity|].
  unfold free, list_datasets in Hf. apply negb_true_iff, bool_decide_eq_false in Hf.
  split; [done|]. split; [by left|]. split; [|reflexivity].
  apply (jc_save_configured row s1).
  - exact (auto_row_latest (cs_jcs s1) _).
  - discriminate.
  - simpl. left.
Qed.

(** ** The UFS suffix scan *)

Lemma glob_strip_prefix_Some p d r : strip_prefix p d = Some r -> d = (p ++ r)%string.
Proof.
  revert d. induction p as [|c p IH]; intros [|c' d] H; cbn in H;
    try (injection H as <-; reflexivity); try discriminate.
  destruct (Ascii.eqb_spec c c') as [->|]; [|discriminate]. by rewrite (IH d H).
Qed.

Lemma all_digits_app a b : all_digits (a ++ b) = all_digits a && all_digits b.
Proof. induction a as [|c a IH]; [done|]. simpl. by rewrite IH, andb_assoc. Qed.

(** A directory [/mnt/p_q/jails_r] of a volume [p_q]: the second part of
    the split at [_] is [q/jails], which is not a number. *)
Lemma ufs_suffix_underscore p q r :
  has_char "_" p = false -> has_char "_" q = false ->
  ufs_suffix ("/mnt/" ++ p ++ "_" ++ q ++ "/jails_" ++ r)%string = None.
Proof.
  intros Hp Hq. unfold ufs_suffix.
  replace ("/mnt/" ++ p ++ "_" ++ q ++ "/jails_" ++ r)%string
    with (("/mnt/" ++ p) ++ String "_" ((q ++ "/jails") ++ String "_" r))%string
    by (rewrite !str_app_assoc; reflexivity).
  rewrite !py_split_app_sep, (py_split_none "_" ("/mnt/" ++ p)%string), (py_split_none "_" (q ++ "/jails")%string).
  2, 3: by rewrite has_char_app, ?Hp, ?Hq.
  destruct (py_split_cons "_" r) as (x & xs & ->). simpl.
  unfold isdigit. by rewrite all_digits_app, andb_false_r, andb_false_r.
Qed.

Lemma ufs_max_none dirs : Forall (fun d => ufs_suffix d = None) dirs -> ufs_max dirs = 1%Z.
Proof.
  unfold ufs_max. generalize 1%Z. induction dirs as [|d dirs IH]; intros m Hd; [done|].
  apply Forall_cons in Hd as [Hd Hds]. simpl. rewrite Hd. by apply IH.
Qed.

Lemma py_remove_mnt_prefix x : py_remove "/mnt/" 0 ("/mnt/" ++ x)%string = py_remove "/mnt/" 0 x.
Proof. by destruct x. Qed.

(** [s.replace('/mnt/', '')] keeps a text with no [/] in front. *)
Lemma py_remove_mnt_app a b :
  has_char "/" a = false -> py_remove "/mnt/" 0 (a ++ b) = (a ++ py_remove "/mnt/" 0 b)%string.
Proof.
  induction a as [|c a IH]; [done|]. intros [Hc Ha]%orb_false_iff.
  change (String c a ++ b)%string with (String c (a ++ b)). cbn [py_remove].
  assert (Hne : "/"%char <> c) by (intros <-; by rewrite Ascii.eqb_refl in Hc).
  replace (String.prefix "/mnt/" (String c (a ++ b))) with false
    by (cbn [String.prefix]; by destruct (ascii_dec "/" c)).
  simpl. by rewrite IH.
Qed.

(** ** Examples *)

Definition demo_cs : CS := mkCS ["tank/jails"] ["/mnt/tank/jails"] [] [] None [].

Lemma auto_configure_zfs_witness :
  exists name s', @jail_auto_configure demo_sipcalc demo_jenv "9.2-RELEASE" [mkVolume "tank" "ZFS"] demo_cs = (Ok tt, s') /\
    (name ∉ cs_datasets demo_cs) /\ name ∈ cs_datasets s' /\ @jail_path_configured demo_sipcalc demo_jenv s' = true /\
    cs_warden s' = Some ("/mnt/" ++ name, "/mnt/" ++ name, py_strip "9.2-RELEASE")%string.
Proof.
  apply (@auto_configure_zfs demo_sipcalc demo_jenv "9.2-RELEASE" [mkVolume "tank" "ZFS"] (mkVolume "tank" "ZFS") [] demo_cs).
  - reflexivity.
  - vm_compute. discriminate.
Defined.

(** C23: on a UFS volume whose name [p_q] has one [_], the suffix scan
    of [jail_auto_configure] splits the whole path at [_] and reads no
    number from any [jails_N] directory, so it always proposes
    [p_q/jails_2]; when that directory exists too, the configuration
    fails with [File exists], however many [jails_N] there are. *)
Theorem ufs_underscore_volume p q s :
  has_char "_" p = false -> has_char "_" q = false ->
  has_char "/" p = false -> has_char "/" q = false ->
  ufs_max (glob_suffixed ("/mnt/" ++ p ++ "_" ++ q ++ "/jails")%string (cs_dirs s)) = 1%Z /\
  (("/mnt/" ++ p ++ "_" ++ q ++ "/jails")%string ∈ cs_dirs s ->
   ("/mnt/" ++ p ++ "_" ++ q ++ "/jails_2")%string ∈ cs_dirs s ->
   configure_ufs (p ++ "_" ++ q ++ "/jails")%string s =
     (Raise (MiddlewareError ("Failed to create directory " ++ p ++ "_" ++ q ++ "/jails_2" ++
                              ": [Errno 17] File exists")), s)).
Proof.
  intros Hp Hq Hsp Hsq.
  assert (M : ufs_max (glob_suffixed ("/mnt/" ++ p ++ "_" ++ q ++ "/jails")%string (cs_dirs s)) = 1%Z).
  { apply ufs_max_none, Forall_forall. intros d Hd.
    unfold glob_suffixed in Hd. apply list_elem_of_In, filter_In in Hd as [_ Hd].
    destruct (strip_prefix _ d) as [r|] eqn:E; [|discriminate].
    apply glob_strip_prefix_Some in E as ->. rewrite !str_app_assoc. by apply ufs_suffix_underscore. }
  split; [exact M|]. intros H0 H2.
  unfold configure_ufs. rewrite st_bind_run. cbn [get_st].
  rewrite bool_decide_true by (rewrite <- str_app_assoc; exact H0). rewrite M.
  rewrite !str_app_assoc. cbn [py_int_str].
  change (py_int_str (1 + 1)) with "2"%string. rewrite py_remove_mnt_prefix.
  rewrite py_remove_mnt_app by done.
  rewrite (py_remove_mnt_app "_"%string) by done. rewrite py_remove_mnt_app by done.
  change (py_remove "/mnt/" 0 ("/jails" ++ "_" ++ "2")) with "/jails_2"%string. rewrite st_bind_run.
  unfold makedirs_jails, os_makedirs.
  rewrite bool_decide_true by (rewrite <- !str_app_assoc in H2 |- *; exact H2). rewrite <- !str_app_assoc. reflexivity.
Qed.

(** A volume [my_vol] with [jails], [jails_2] and [jails_5]: the scan
    reads no suffix and the configuration fails on [jails_2]. *)
Lemma ufs_underscore_volume_witness :
  let s := mkCS [] ["/mnt/my_vol/jails"; "/mnt/my_vol/jails_2"; "/mnt/my_vol/jails_5"] [] [] None [] in
  ufs_max (glob_suffixed ("/mnt/" ++ "my" ++ "_" ++ "vol" ++ "/jails")%string (cs_dirs s)) = 1%Z /\
  (("/mnt/" ++ "my" ++ "_" ++ "vol" ++ "/jails")%string ∈ cs_dirs s ->
   ("/mnt/" ++ "my" ++ "_" ++ "vol" ++ "/jails_2")%string ∈ cs_dirs s ->
   configure_ufs ("my" ++ "_" ++ "vol" ++ "/jails")%string s =
     (Raise (MiddlewareError ("Failed to create directory " ++ "my" ++ "_" ++ "vol" ++ "/jails_2" ++
                              ": [Errno 17] File exists")), s)).
Proof. intros s. apply (ufs_underscore_volume "my" "vol" s); reflexivity. Defined.

End JailConfigure.
